(** * GemKit hooks: session bookkeeping, config cascade, notifications

    A shallow embedding of the Node.js hook scripts under [.gemini/hooks]:
    - [lib/gk-config-utils.cjs]   (deepMerge, sanitizeConfig, loadConfig)
    - [lib/gk-session-manager.cjs] (ids, paths, session/project/env files)
    - [gk-session-init.cjs], [gk-session-end.cjs] and the development-rules
      reminder hook
    - [notifications/gk-discord-notify.cjs], [notifications/send-discord.cjs]

    Part I holds the definitions, following the source function by function.
    Part II holds the lemmas and the theorems about them. *)

From Stdlib Require Import String Ascii List ZArith NArith Bool Lia Arith.
From Stdlib Require Import DecimalString DecimalN DecimalPos.
Import ListNotations.
Set Warnings "-register-all".
Local Open Scope list_scope.
Local Open Scope string_scope.

(* ===================================================================== *)
(** * Part I. The embedding                                               *)
(* ===================================================================== *)

(** ** JavaScript values as the scripts see them

    Every value the scripts store or merge comes out of [JSON.parse] or is
    built from literals, so a value is a JSON value.  [undefined] is the
    [None] of an [option json].  Numbers are kept as integers: the scripts
    meet whole numbers only, and where they print one or add to one,
    [Number_toString] and [round_double] give what a double does.

    An object is the list of its own properties in insertion order, because
    the code depends on that order ([reorderSessionFields] moves [agents] to
    the end, [Object.keys] drives [deepMerge]).  A key written twice in a
    literal or in JSON text keeps its last value, so [lookup] returns the
    last binding.  The prototype of an object is not part of its value:
    where the code can reach an inherited property ([toString],
    [__proto__], the [length] of an array) the definitions say so, and the
    statements name the keys and values they are made for.

    A string is the sequence of its bytes in UTF-8.  The functions that look
    at single characters ([trim], [toLowerCase], the classes of the regular
    expressions) are those of JavaScript on ASCII text, where a byte is a
    character; statements that depend on them are made for ASCII text
    ([ascii_only]). *)

Inductive json : Type :=
| JNull
| JBool (b : bool)
| JNum (n : Z)
| JStr (s : string)
| JArr (items : list json)
| JObj (props : list (string * json)).

Definition obj : Type := list (string * json).

(** [!!v] *)
Definition truthy (v : json) : bool :=
  match v with
  | JNull => false
  | JBool b => b
  | JNum n => negb (n =? 0)%Z
  | JStr s => negb (s =? "")
  | JArr _ => true
  | JObj _ => true
  end.

(** [!!v] where [v] may be [undefined] *)
Definition truthy_opt (v : option json) : bool :=
  match v with
  | Some x => truthy x
  | None => false
  end.

(** [a || b] where [a] may be [undefined] *)
Definition js_or (a : option json) (b : json) : json :=
  match a with
  | Some x => if truthy x then x else b
  | None => b
  end.

(** [a || b] where both may be [undefined] *)
Definition js_or_opt (a b : option json) : option json :=
  if truthy_opt a then a else b.

(** [typeof v === 'object'] for a non-null [v]: objects and arrays *)
Definition is_object (v : json) : bool :=
  match v with
  | JArr _ => true
  | JObj _ => true
  | _ => false
  end.

(** [o[k]] on the property list of an object: the last binding of [k] *)
Fixpoint lookup (k : string) (o : obj) : option json :=
  match o with
  | [] => None
  | (k', v) :: rest =>
      match lookup k rest with
      | Some r => Some r
      | None => if k' =? k then Some v else None
      end
  end.

Definition has_key (k : string) (o : obj) : bool :=
  existsb (fun p => fst p =? k) o.

(** an own data property [k] is given the value [v]: overwritten in place
    when [k] is there, else appended.  This is what a spread and an object
    literal do for every name, and what [o.k = v] does for the fixed names
    of the scripts. *)
Definition set (k : string) (v : json) (o : obj) : obj :=
  if has_key k o
  then map (fun p => if fst p =? k then (fst p, v) else p) o
  else (o ++ [(k, v)])%list.

(** [o[k] = v] for a name [k] computed at run time, on an object that has
    the prototype of [{}].  An assignment looks the name up before it
    writes: [__proto__], when it is not an own property, is the accessor of
    [Object.prototype], whose setter replaces the prototype of [o] (for an
    object or [null]) or does nothing (for any other value).  Either way no
    own property is added. *)
Definition put (k : string) (v : json) (o : obj) : obj :=
  if (k =? "__proto__") && negb (has_key k o) then o else set k v o.

(** the names every object inherits from [Object.prototype]; [o[k]] is
    never [undefined] for them *)
Definition Object_prototype_names : list string :=
  [ "constructor"; "__defineGetter__"; "__defineSetter__"; "hasOwnProperty";
    "__lookupGetter__"; "__lookupSetter__"; "isPrototypeOf"; "propertyIsEnumerable";
    "toString"; "valueOf"; "__proto__"; "toLocaleString" ].

Definition inherited (k : string) : bool :=
  existsb (fun name => name =? k) Object_prototype_names.

(** the properties left by [const { k, ...rest } = o] *)
Definition remove (k : string) (o : obj) : obj :=
  filter (fun p => negb (fst p =? k)) o.

Definition string_of_nat (n : nat) : string :=
  NilEmpty.string_of_uint (Nat.to_uint n).

(** index keys ["i"], ["i+1"], ... of an array's elements *)
Fixpoint index_props (i : nat) (items : list json) : obj :=
  match items with
  | [] => []
  | x :: rest => (string_of_nat i, x) :: index_props (S i) rest
  end.

Fixpoint chars (s : string) : list json :=
  match s with
  | EmptyString => []
  | String c rest => JStr (String c EmptyString) :: chars rest
  end.

(** the own enumerable properties that [{...v}] and [Object.keys(v)] see *)
Definition own_props (v : json) : obj :=
  match v with
  | JObj o => o
  | JArr items => index_props 0 items
  | JStr s => index_props 0 (chars s)
  | _ => []
  end.

Definition own_props_opt (v : option json) : obj :=
  match v with
  | Some x => own_props x
  | None => []
  end.

(** [for (k of Object.keys(es)) acc[k] = f(k, es[k])] where every [k]
    becomes an own property: the loop behind object spread *)
Fixpoint assign_all (f : string -> json -> json) (es acc : obj) : obj :=
  match es with
  | [] => acc
  | (key, sourceVal) :: es' => assign_all f es' (set key (f key sourceVal) acc)
  end.

(** [{...a, ...b}] on property lists *)
Definition spread (a b : obj) : obj := assign_all (fun _ v => v) b a.

(** [v[k]] for a value of type object (own properties only) *)
Definition field (k : string) (v : json) : option json :=
  if is_object v then lookup k (own_props v) else None.

(** [v[k1][k2]...], [undefined] as soon as a step leaves the objects *)
Fixpoint get_path (p : list string) (v : json) : option json :=
  match p with
  | [] => Some v
  | k :: rest =>
      match field k v with
      | Some x => get_path rest x
      | None => None
      end
  end.

(** [a === b] between a value read from parsed JSON and another value:
    primitives compare by value; two objects or arrays are never the same
    reference there *)
Definition strict_eq (a b : json) : bool :=
  match a, b with
  | JNull, JNull => true
  | JBool x, JBool y => Bool.eqb x y
  | JNum x, JNum y => (x =? y)%Z
  | JStr x, JStr y => (x =? y)
  | _, _ => false
  end.

(** [a === b] where [a] may be [undefined] and [b] is a value *)
Definition strict_eq_opt (a : option json) (b : json) : bool :=
  match a with
  | Some x => strict_eq x b
  | None => false
  end.

(* --------------------------------------------------------------------- *)
(** ** gk-config-utils.cjs: the config cascade                            *)
(* --------------------------------------------------------------------- *)

Definition DEFAULT_resolution : obj :=
  [ ("order", JArr [JStr "session"; JStr "branch"]);
    ("branchPattern", JStr "(?:feat|fix|chore|refactor|docs)/(?:[^/]+/)?(.+)") ].

Definition DEFAULT_plan : obj :=
  [ ("namingFormat", JStr "{date}-{issue}-{slug}");
    ("dateFormat", JStr "YYMMDD-HHmm");
    ("issuePrefix", JNull);
    ("reportsDir", JStr "reports");
    ("resolution", JObj DEFAULT_resolution) ].

Definition DEFAULT_paths : obj :=
  [ ("docs", JStr "docs"); ("plans", JStr "plans") ].

Definition DEFAULT_locale : obj := [ ("responseLanguage", JNull) ].

Definition DEFAULT_trust : obj :=
  [ ("passphrase", JNull); ("enabled", JBool false) ].

Definition DEFAULT_project : obj :=
  [ ("type", JStr "auto"); ("packageManager", JStr "auto"); ("framework", JStr "auto") ].

Definition DEFAULT_CONFIG : json :=
  JObj [ ("plan", JObj DEFAULT_plan);
         ("paths", JObj DEFAULT_paths);
         ("locale", JObj DEFAULT_locale);
         ("trust", JObj DEFAULT_trust);
         ("project", JObj DEFAULT_project);
         ("assertions", JArr []) ].

(** [deepMerge(target, source)], gk-config-utils.cjs lines 67-90.
    [merge_props] and [merge_items] are the [for (const key of
    Object.keys(source))] loop over an object's and an array's keys;
    [tprops] are the properties of the original [target], read by
    [target[key]]; [acc] is [result], and [result[key] = ...] is [put].

    The value is the list of the own properties of the result.  A source
    that has the key [__proto__] (an own property of what [JSON.parse]
    returns) makes line 78, 82 or 86 an assignment to the prototype of
    [result]; what is read from a merge is therefore stated for sources
    without that key ([proto_free]). *)
Fixpoint deepMerge (target source : json) {struct source} : json :=
  let merge_props (tprops : obj) :=
    fix go (es : obj) (acc : obj) {struct es} : obj :=
      match es with
      | [] => acc
      | (key, sourceVal) :: es' =>
          go es' (put key (match sourceVal with
                           | JArr items => JArr items
                           | JObj _ => deepMerge (js_or (lookup key tprops) (JObj [])) sourceVal
                           | _ => sourceVal
                           end) acc)
      end in
  let merge_items (tprops : obj) :=
    fix go (i : nat) (es : list json) (acc : obj) {struct es} : obj :=
      match es with
      | [] => acc
      | sourceVal :: es' =>
          go (S i) es' (put (string_of_nat i)
                          (match sourceVal with
                           | JArr items => JArr items
                           | JObj _ => deepMerge (js_or (lookup (string_of_nat i) tprops) (JObj [])) sourceVal
                           | _ => sourceVal
                           end) acc)
      end in
  match source with
  | JObj sprops =>
      if is_object target
      then JObj (merge_props (own_props target) sprops (own_props target))
      else source
  | JArr sitems =>
      if is_object target
      then JObj (merge_items (own_props target) 0%nat sitems (own_props target))
      else source
  | _ => target
  end.

(** The value [deepMerge] stores under [key] (lines 76-87); with it the loop
    of lines 72-88 is [put_all (merged_value tprops)]. *)
Definition merged_value (tprops : obj) (key : string) (sourceVal : json) : json :=
  match sourceVal with
  | JArr items => JArr items
  | JObj _ => deepMerge (js_or (lookup key tprops) (JObj [])) sourceVal
  | _ => sourceVal
  end.

(** [for (k of Object.keys(es)) acc[k] = f(k, es[k])] by assignment *)
Fixpoint put_all (f : string -> json -> json) (es acc : obj) : obj :=
  match es with
  | [] => acc
  | (key, sourceVal) :: es' => put_all f es' (put key (f key sourceVal) acc)
  end.

(** no object inside [v] has the key [__proto__] *)
Fixpoint proto_free (v : json) : bool :=
  match v with
  | JObj props =>
      (fix all (ps : obj) : bool :=
         match ps with
         | [] => true
         | (k, x) :: rest => negb (k =? "__proto__") && proto_free x && all rest
         end) props
  | JArr items =>
      (fix all (xs : list json) : bool :=
         match xs with
         | [] => true
         | x :: rest => proto_free x && all rest
         end) items
  | _ => true
  end.

(** *** Path sanitisation

    [path.resolve(projectRoot, pathValue)] as Node computes it on POSIX for an
    absolute [projectRoot]: an absolute [pathValue] replaces the root, the
    segments are normalised ([.] and empty segments dropped, [..] pops, never
    above the root) and joined after a leading slash. *)
Fixpoint split_on (sep : ascii) (s : string) : list string :=
  match s with
  | EmptyString => [EmptyString]
  | String c rest =>
      if Ascii.eqb c sep then EmptyString :: split_on sep rest
      else match split_on sep rest with
           | [] => [String c EmptyString]
           | h :: t => String c h :: t
           end
  end.

Definition norm_step (stack : list string) (seg : string) : list string :=
  if seg =? "" then stack
  else if seg =? "." then stack
  else if seg =? ".." then tl stack
  else seg :: stack.

Definition normalize_segments (segs : list string) : list string :=
  rev (fold_left norm_step segs []).

Definition path_resolve (projectRoot pathValue : string) : string :=
  let full := if String.prefix "/" pathValue then pathValue
              else projectRoot ++ "/" ++ pathValue in
  "/" ++ String.concat "/" (normalize_segments (split_on "/"%char full)).

(** [sanitizePath(pathValue, projectRoot)], lines 283-290 *)
Definition sanitizePath (pathValue : option json) (projectRoot : string) : option json :=
  match pathValue with
  | Some (JStr s) =>
      if s =? "" then pathValue
      else
        let resolved := path_resolve projectRoot s in
        if negb (String.prefix (projectRoot ++ "/") resolved) && negb (resolved =? projectRoot)
        then Some JNull
        else pathValue
  | _ => pathValue
  end.

(** [sanitizeConfig(config, projectRoot)], lines 295-325.  The three [if]
    blocks are [sanitize_plan] (lines 299-307), [sanitize_paths] (lines
    311-317) and the copy of [locale] (line 321). *)
Definition sanitize_plan (planValue : json) (projectRoot : string) : obj :=
  let plan := spread [] (own_props planValue) in
  let plan :=
    if negb (truthy_opt (sanitizePath (lookup "reportsDir" plan) projectRoot))
    then set "reportsDir" (JStr "reports") plan
    else plan in
  set "resolution"
      (JObj (spread (spread [] DEFAULT_resolution)
                    (own_props_opt (lookup "resolution" plan)))) plan.

Definition sanitize_paths (pathsValue : json) (projectRoot : string) : obj :=
  let paths := spread [] (own_props pathsValue) in
  let paths :=
    if negb (truthy_opt (sanitizePath (lookup "docs" paths) projectRoot))
    then set "docs" (JStr "docs") paths
    else paths in
  if negb (truthy_opt (sanitizePath (lookup "plans" paths) projectRoot))
  then set "plans" (JStr "plans") paths
  else paths.

(** [if (result[k]) result[k] = f(result[k])] *)
Definition update_if_truthy (k : string) (f : json -> json) (result : obj) : obj :=
  match lookup k result with
  | Some v => if truthy v then set k (f v) result else result
  | None => result
  end.

Definition sanitizeConfig (config : obj) (projectRoot : string) : obj :=
  let result := spread [] config in
  let result := update_if_truthy "plan" (fun v => JObj (sanitize_plan v projectRoot)) result in
  let result := update_if_truthy "paths" (fun v => JObj (sanitize_paths v projectRoot)) result in
  let result := update_if_truthy "locale" (fun v => JObj (spread [] (own_props v))) result in
  result.

Record load_options : Type := {
  includeProject : bool;
  includeAssertions : bool;
  includeLocale : bool
}.

(** [getDefaultConfig(includeProject, includeAssertions, includeLocale)],
    lines 394-409 *)
Definition getDefaultConfig (options : load_options) : obj :=
  let result := [ ("plan", JObj (spread [] DEFAULT_plan));
                  ("paths", JObj (spread [] DEFAULT_paths)) ] in
  let result := if includeLocale options
                then set "locale" (JObj (spread [] DEFAULT_locale)) result else result in
  let result := if includeProject options
                then set "project" (JObj (spread [] DEFAULT_project)) result else result in
  let result := if includeAssertions options
                then set "assertions" (JArr []) result else result in
  result.

(** The three merges of [loadConfig], lines 355-357 *)
Definition merge_layers (globalConfig localConfig : json) : json :=
  let merged := deepMerge (JObj []) DEFAULT_CONFIG in
  let merged := if truthy globalConfig then deepMerge merged globalConfig else merged in
  let merged := if truthy localConfig then deepMerge merged localConfig else merged in
  merged.

(** The sections [loadConfig] copies out of [merged], lines 360-383 *)
Definition select_sections (options : load_options) (merged : json) : obj :=
  let result := [ ("plan", js_or (field "plan" merged) (JObj DEFAULT_plan));
                  ("paths", js_or (field "paths" merged) (JObj DEFAULT_paths)) ] in
  let result := if includeLocale options
                then set "locale" (js_or (field "locale" merged) (JObj DEFAULT_locale)) result
                else result in
  let result := set "trust" (js_or (field "trust" merged) (JObj DEFAULT_trust)) result in
  let result := if includeProject options
                then set "project" (js_or (field "project" merged) (JObj DEFAULT_project)) result
                else result in
  let result := if includeAssertions options
                then set "assertions" (js_or (field "assertions" merged) (JArr [])) result
                else result in
  let result := match field "spawn" merged with
                | Some v => if truthy v then set "spawn" v result else result
                | None => result
                end in
  let result := match field "notifications" merged with
                | Some v => if truthy v then set "notifications" v result else result
                | None => result
                end in
  result.

(** [loadConfig(options)], lines 340-389.  [globalConfig] and [localConfig]
    are what [loadConfigFromPath] returned for the two files ([JNull] when
    the file is missing or unreadable); [projectRoot] is [process.cwd()].
    Nothing inside the [try] throws on JSON values, so the [catch] is never
    taken. *)
Definition loadConfig (options : load_options) (projectRoot : string)
    (globalConfig localConfig : json) : json :=
  if negb (truthy globalConfig) && negb (truthy localConfig)
  then JObj (getDefaultConfig options)
  else JObj (sanitizeConfig (select_sections options (merge_layers globalConfig localConfig))
                            projectRoot).

(** A value is a leaf of a merge when it is not an object: [deepMerge] copies
    it as it is (lines 77-79 and 85-87). *)
Definition leaf (v : json) : bool :=
  match v with
  | JObj _ => false
  | _ => true
  end.

(** A source is silent on the key path [p] when, walking [p] through its
    nested objects, a key of [p] is missing. *)
Fixpoint silentb (p : list string) (source : json) : bool :=
  match p with
  | [] => false
  | k :: rest =>
      match source with
      | JObj sprops =>
          match lookup k sprops with
          | None => true
          | Some sourceVal => silentb rest sourceVal
          end
      | _ => false
      end
  end.

(** A config layer says nothing about [p] when it is not an object at all
    (file missing, unreadable, or not holding an object) or is silent on [p]. *)
Definition layer_silent (p : list string) (layer : json) : bool :=
  negb (is_object layer) || silentb p layer.

(** The sections [loadConfig] hands over exactly as the merge left them:
    [sanitizeConfig] rewrites only [plan], [paths] and [locale]. *)
Definition pass_through (options : load_options) (section : string) : bool :=
  (section =? "trust")
  || (includeProject options && (section =? "project"))
  || (includeAssertions options && (section =? "assertions"))
  || (section =? "spawn")
  || (section =? "notifications").

Definition all_sections : load_options :=
  {| includeProject := true; includeAssertions := true; includeLocale := true |}.

(* --------------------------------------------------------------------- *)
(** ** Regular expressions of the scripts

    The patterns the session manager matches with are sequences of literal
    characters, character classes, greedy [+] over a class, [{n}] over a
    class, and capture groups.  [rmatch] is a backtracking matcher in
    continuation style: [k] receives the rest of the input and the captures
    made so far, and a greedy [+] tries the longest run first. *)
(* --------------------------------------------------------------------- *)

Inductive regex : Type :=
| Lit (c : ascii)
| Class (f : ascii -> bool)
| Plus (f : ascii -> bool)
| Rep (n : nat) (f : ascii -> bool)
| Group (r : regex)
| Seq (r1 r2 : regex).

Fixpoint plus_from {R : Type} (f : ascii -> bool) (s : string) (k : string -> option R) : option R :=
  match s with
  | EmptyString => None
  | String c rest =>
      if f c then
        match plus_from f rest k with
        | Some r => Some r
        | None => k rest
        end
      else None
  end.

Fixpoint rep_from {R : Type} (n : nat) (f : ascii -> bool) (s : string) (k : string -> option R) : option R :=
  match n with
  | O => k s
  | S n' =>
      match s with
      | EmptyString => None
      | String c rest => if f c then rep_from n' f rest k else None
      end
  end.

Fixpoint rmatch (r : regex) (s : string) (caps : list string)
    (k : string -> list string -> option (list string)) : option (list string) :=
  match r with
  | Lit c =>
      match s with
      | String c' rest => if Ascii.eqb c c' then k rest caps else None
      | EmptyString => None
      end
  | Class f =>
      match s with
      | String c' rest => if f c' then k rest caps else None
      | EmptyString => None
      end
  | Plus f => plus_from f s (fun rest => k rest caps)
  | Rep n f => rep_from n f s (fun rest => k rest caps)
  | Group r1 =>
      rmatch r1 s caps
        (fun rest caps' =>
           k rest (caps' ++ [substring 0 (String.length s - String.length rest) s])%list)
  | Seq r1 r2 => rmatch r1 s caps (fun rest caps' => rmatch r2 rest caps' k)
  end.

(** [s.match(/^r$/)]: the captures of a match of the whole string *)
Definition match_whole (r : regex) (s : string) : option (list string) :=
  rmatch r s [] (fun rest caps => if rest =? "" then Some caps else None).

Definition code (c : ascii) : N := N_of_ascii c.

Definition between (lo hi : N) (c : ascii) : bool :=
  ((lo <=? code c) && (code c <=? hi))%N.

(** [\d] *)
Definition is_digit (c : ascii) : bool := between 48 57 c.
(** [[a-z0-9]] *)
Definition is_lower_alnum (c : ascii) : bool := between 97 122 c || is_digit c.
(** [[a-zA-Z0-9-]] *)
Definition is_alnum_or_hyphen (c : ascii) : bool :=
  between 97 122 c || between 65 90 c || is_digit c || Ascii.eqb c "-".
(** [[A-Za-z]] *)
Definition is_letter (c : ascii) : bool := between 97 122 c || between 65 90 c.
(** [.]: anything but a line terminator.  A text is the sequence of its
    bytes in UTF-8; of the line terminators and blanks of JavaScript the
    classes below know those of ASCII, so what is stated of patterns, [trim]
    and [toLowerCase] is stated of ASCII texts ([ascii_only]). *)
Definition is_dot (c : ascii) : bool := negb (Ascii.eqb c "010" || Ascii.eqb c "013").

Fixpoint all_chars (f : ascii -> bool) (s : string) : bool :=
  match s with
  | EmptyString => true
  | String c rest => f c && all_chars f rest
  end.

(** a text of ASCII characters *)
Definition is_ascii (c : ascii) : bool := (code c <? 128)%N.
Definition ascii_only (s : string) : bool := all_chars is_ascii s.

(* --------------------------------------------------------------------- *)
(** ** gk-session-manager.cjs: identifiers                                *)
(* --------------------------------------------------------------------- *)

(** the decimal digits of a non-negative integer *)
Definition decimal (n : N) : string := NilEmpty.string_of_uint (N.to_uint n).

(** *** Numbers

    A number of JavaScript is a double.  The scripts meet whole numbers
    only (process ids, counters, clock readings), held here as integers;
    an integer up to 2^53 is a double, above that only those with 53
    significant bits are.  [round_double x] is the double nearest to [x],
    ties going to the even mantissa, for [x] below 2^1024. *)
Definition round_double (x : N) : N :=
  if (x <? 9007199254740992)%N then x
  else
    let e := (N.log2 x - 52)%N in
    let q := N.shiftr x e in
    let r := (x - N.shiftl q e)%N in
    let half := N.shiftl 1 (e - 1) in
    let q' := if (half <? r)%N || ((r =? half)%N && N.odd q) then (q + 1)%N else q in
    N.shiftl q' e.

(** [Number.isSafeInteger(n)] for a non-negative integer *)
Definition is_safe (n : N) : bool := (n <? 9007199254740992)%N.

Definition round_double_Z (n : Z) : Z :=
  match n with
  | Z0 => 0%Z
  | Zpos p => Z.of_N (round_double (Npos p))
  | Zneg p => (- Z.of_N (round_double (Npos p)))%Z
  end.

(** The digits [Number::toString] prints for the double [x]: of the
    multiples of [p] (a power of ten) next to [x], one that the double [x]
    is the nearest to; the closer one when both are, the one with the even
    quotient when they are as close. *)
Definition pick_shortest (x p : N) : option N :=
  let lo := (x / p * p)%N in
  let hi := (lo + p)%N in
  let lo_ok := (round_double lo =? x)%N in
  let hi_ok := (round_double hi =? x)%N in
  if lo_ok && hi_ok then
    Some (if (x - lo <? hi - x)%N then lo
          else if (hi - x <? x - lo)%N then hi
          else if N.even (x / p) then lo else hi)
  else if lo_ok then Some lo
  else if hi_ok then Some hi
  else None.

(** with as few significant digits as possible: [k] digits are tried
    before [k + 1]; 17 digits tell any two doubles apart *)
Fixpoint shortest_from (x : N) (nd k fuel : nat) : N :=
  match fuel with
  | O => x
  | S fuel' =>
      match pick_shortest x (10 ^ N.of_nat (nd - k)) with
      | Some v => v
      | None => shortest_from x nd (S k) fuel'
      end
  end.

(** the integer whose digits are printed for the double [x]: [x] itself
    when it is a safe integer *)
Definition shortest (x : N) : N :=
  if (x <? 9007199254740992)%N then x
  else shortest_from x (String.length (decimal x)) 1 17.

Fixpoint drop_trailing (c : ascii) (s : string) : string :=
  match s with
  | EmptyString => EmptyString
  | String a rest =>
      match drop_trailing c rest with
      | EmptyString => if Ascii.eqb a c then EmptyString else String a EmptyString
      | t => String a t
      end
  end.

(** [d.ddde+n], the form of a number from 10^21 on *)
Definition exponent_form (v : N) : string :=
  let digits := decimal v in
  match drop_trailing "0" digits with
  | String d rest =>
      String d (if rest =? "" then "" else "." ++ rest)
      ++ "e+" ++ decimal (N.of_nat (String.length digits - 1))
  | EmptyString => "0"
  end.

(** [String(x)] for a number that holds the non-negative integer [x], as a
    template literal prints it *)
Definition Number_toString (x : N) : string :=
  let v := shortest x in
  if (v <? 1000000000000000000000)%N then decimal v else exponent_form v.

(** [parseInt(s, 10)] on a string of decimal digits: the double nearest to
    the integer they spell *)
Definition parseInt (s : string) : N :=
  match NilEmpty.uint_of_string s with
  | Some d => round_double (N.of_uint d)
  | None => 0%N
  end.

Definition digit36 (d : N) : ascii :=
  if (d <? 10)%N then ascii_of_N (48 + d) else ascii_of_N (87 + d).

Fixpoint base36_digits (fuel : nat) (n : N) (acc : string) : string :=
  match fuel with
  | O => acc
  | S fuel' =>
      let acc' := String (digit36 (n mod 36)) acc in
      if (n / 36 =? 0)%N then acc' else base36_digits fuel' (n / 36) acc'
  end.

(** [n.toString(36)] for a non-negative integer *)
Definition toString36 (n : N) : string :=
  base36_digits (S (N.to_nat (N.log2 n))) n "".

(** [generateGkSessionId(appName, pid)], lines 195-199.  [now] is
    [Date.now()]; [random] is [Math.random().toString(36).substring(2, 6)],
    up to four characters of [[a-z0-9]]. *)
Definition generateGkSessionId (appName : string) (pid : N) (now : N) (random : string) : string :=
  appName ++ "-" ++ Number_toString pid ++ "-" ++ toString36 now ++ "-" ++ random.

Record parsed_id : Type := {
  id_appName : string;
  id_pid : N;
  id_timestamp : string;
  id_random : string
}.

(** [/^(.+)-(\d+)-([a-z0-9]+)-([a-z0-9]{4})$/] *)
Definition gk_session_id_regex : regex :=
  Seq (Group (Plus is_dot))
 (Seq (Lit "-")
 (Seq (Group (Plus is_digit))
 (Seq (Lit "-")
 (Seq (Group (Plus is_lower_alnum))
 (Seq (Lit "-")
      (Group (Rep 4 is_lower_alnum))))))).

(** [parseGkSessionId(gkSessionId)], lines 206-220 *)
Definition parseGkSessionId (gkSessionId : string) : option parsed_id :=
  if gkSessionId =? "" then None
  else
    match match_whole gk_session_id_regex gkSessionId with
    | Some [m1; m2; m3; m4] =>
        Some {| id_appName := m1; id_pid := parseInt m2; id_timestamp := m3; id_random := m4 |}
    | _ => None
    end.

(** [getPidFromSessionId(gkSessionId)], lines 227-230 *)
Definition getPidFromSessionId (gkSessionId : string) : option N :=
  match parseGkSessionId gkSessionId with
  | Some parsed => Some (id_pid parsed)
  | None => None
  end.

(* --------------------------------------------------------------------- *)
(** ** SHA-256 (FIPS 180-4), as [crypto.createHash('sha256')] computes it

    Words are 32-bit, held in [N] with the wrap-around written out. *)
(* --------------------------------------------------------------------- *)

Local Open Scope N_scope.

Definition w32 (x : N) : N := x mod 4294967296.
Definition add32 (a b : N) : N := w32 (a + b).
Definition rotr (n x : N) : N := N.lor (N.shiftr x n) (w32 (N.shiftl x (32 - n))).
Definition not32 (x : N) : N := N.lxor x 4294967295.
Definition Ch (x y z : N) : N := N.lxor (N.land x y) (N.land (not32 x) z).
Definition Maj (x y z : N) : N := N.lxor (N.lxor (N.land x y) (N.land x z)) (N.land y z).
Definition bsig0 (x : N) : N := N.lxor (N.lxor (rotr 2 x) (rotr 13 x)) (rotr 22 x).
Definition bsig1 (x : N) : N := N.lxor (N.lxor (rotr 6 x) (rotr 11 x)) (rotr 25 x).
Definition ssig0 (x : N) : N := N.lxor (N.lxor (rotr 7 x) (rotr 18 x)) (N.shiftr x 3).
Definition ssig1 (x : N) : N := N.lxor (N.lxor (rotr 17 x) (rotr 19 x)) (N.shiftr x 10).

Definition sha256_K : list N :=
  [ 1116352408; 1899447441; 3049323471; 3921009573; 961987163; 1508970993;
    2453635748; 2870763221; 3624381080; 310598401; 607225278; 1426881987;
    1925078388; 2162078206; 2614888103; 3248222580; 3835390401; 4022224774;
    264347078; 604807628; 770255983; 1249150122; 1555081692; 1996064986;
    2554220882; 2821834349; 2952996808; 3210313671; 3336571891; 3584528711;
    113926993; 338241895; 666307205; 773529912; 1294757372; 1396182291;
    1695183700; 1986661051; 2177026350; 2456956037; 2730485921; 2820302411;
    3259730800; 3345764771; 3516065817; 3600352804; 4094571909; 275423344;
    430227734; 506948616; 659060556; 883997877; 958139571; 1322822218;
    1537002063; 1747873779; 1955562222; 2024104815; 2227730452; 2361852424;
    2428436474; 2756734187; 3204031479; 3329325298 ].

Definition sha256_H0 : list N :=
  [ 1779033703; 3144134277; 1013904242; 2773480762;
    1359893119; 2600822924; 528734635; 1541459225 ].

(** the message schedule, newest word first: [rev_w] holds W(t-1), W(t-2), ... *)
Fixpoint extend_schedule (n : nat) (rev_w : list N) : list N :=
  match n with
  | O => rev_w
  | S n' =>
      let w := add32 (add32 (ssig1 (nth 1 rev_w 0)) (nth 6 rev_w 0))
                     (add32 (ssig0 (nth 14 rev_w 0)) (nth 15 rev_w 0)) in
      extend_schedule n' (w :: rev_w)
  end.

Definition schedule (block : list N) : list N :=
  rev (extend_schedule 48 (rev block)).

Definition sha256_round (st : list N) (kw : N * N) : list N :=
  match st with
  | [a; b; c; d; e; f; g; h] =>
      let t1 := add32 (add32 (add32 h (bsig1 e)) (add32 (Ch e f g) (fst kw))) (snd kw) in
      let t2 := add32 (bsig0 a) (Maj a b c) in
      [add32 t1 t2; a; b; c; add32 d t1; e; f; g]
  | _ => st
  end.

Definition compress (hash block : list N) : list N :=
  map (fun p => add32 (fst p) (snd p))
      (combine hash (fold_left sha256_round (combine sha256_K (schedule block)) hash)).

Definition bytes_of_string (s : string) : list N :=
  map N_of_ascii (list_ascii_of_string s).

(** big-endian bytes of [x], [n] of them *)
Fixpoint be_bytes (n : nat) (x : N) : list N :=
  match n with
  | O => []
  | S n' => (N.shiftr x (8 * N.of_nat n') mod 256) :: be_bytes n' x
  end.

Definition sha256_pad (msg : list N) : list N :=
  let len := N.of_nat (List.length msg) in
  let zeros := N.to_nat ((64 - (len + 9) mod 64) mod 64) in
  (msg ++ [128] ++ repeat 0 zeros ++ be_bytes 8 (8 * len))%list.

Fixpoint words_of_bytes (bs : list N) : list N :=
  match bs with
  | b0 :: b1 :: b2 :: b3 :: rest =>
      (b0 * 16777216 + b1 * 65536 + b2 * 256 + b3) :: words_of_bytes rest
  | _ => []
  end.

Fixpoint sha256_blocks (n : nat) (ws hash : list N) : list N :=
  match n with
  | O => hash
  | S n' => sha256_blocks n' (skipn 16 ws) (compress hash (firstn 16 ws))
  end.

Definition hex_digit (d : N) : ascii :=
  if d <? 10 then ascii_of_N (48 + d) else ascii_of_N (87 + d).

Fixpoint hex_of_word (n : nat) (w : N) : string :=
  match n with
  | O => EmptyString
  | S n' => String (hex_digit (N.shiftr w (4 * N.of_nat n') mod 16)) (hex_of_word n' w)
  end.

(** [crypto.createHash('sha256').update(s).digest('hex')] *)
Definition sha256_hex (s : string) : string :=
  let ws := words_of_bytes (sha256_pad (bytes_of_string s)) in
  String.concat "" (map (hex_of_word 8) (sha256_blocks (List.length ws / 16) ws sha256_H0)).

Local Close Scope N_scope.

(* --------------------------------------------------------------------- *)
(** ** gk-session-manager.cjs: project identification and paths           *)
(* --------------------------------------------------------------------- *)

(** [s.replace(/^[A-Za-z]:/, m => m.replace(':', ''))] *)
Definition strip_drive_colon (s : string) : string :=
  match s with
  | String c (String ":" rest) => if is_letter c then String c rest else s
  | _ => s
  end.

(** [s.replace(/[f]+/g, r)]: every maximal run of [f] characters becomes [r] *)
Fixpoint replace_runs (f : ascii -> bool) (r : ascii) (in_run : bool) (s : string) : string :=
  match s with
  | EmptyString => EmptyString
  | String c rest =>
      if f c then
        if in_run then replace_runs f r true rest
        else String r (replace_runs f r true rest)
      else String c (replace_runs f r false rest)
  end.

(** [s.replace(/[f]/g, r)] *)
Fixpoint replace_each (f : ascii -> bool) (r : ascii) (s : string) : string :=
  match s with
  | EmptyString => EmptyString
  | String c rest => String (if f c then r else c) (replace_each f r rest)
  end.

Fixpoint drop_last_if (f : ascii -> bool) (s : string) : string :=
  match s with
  | EmptyString => EmptyString
  | String c EmptyString => if f c then EmptyString else s
  | String c rest => String c (drop_last_if f rest)
  end.

Definition is_separator (c : ascii) : bool := Ascii.eqb c "\" || Ascii.eqb c "/".
Definition is_hyphen (c : ascii) : bool := Ascii.eqb c "-".

(** [s.replace(/^-|-$/g, '')]: one hyphen off the front, then one off the end *)
Definition trim_edge_hyphens (s : string) : string :=
  drop_last_if is_hyphen
    (match s with
     | String c rest => if is_hyphen c then rest else s
     | EmptyString => s
     end).

(** [sanitizeProjectPath(projectPath)], lines 271-279 *)
Definition sanitizeProjectPath (projectPath : string) : string :=
  if projectPath =? "" then ""
  else
    trim_edge_hyphens
      (replace_runs is_hyphen "-" false
         (replace_each (fun c => negb (is_alnum_or_hyphen c)) "-"
            (replace_runs is_separator "-" false
               (strip_drive_colon projectPath)))).

(** [s.toLowerCase()] on ASCII *)
Definition lower_char (c : ascii) : ascii :=
  if between 65 90 c then ascii_of_N (code c + 32) else c.

Fixpoint toLowerCase (s : string) : string :=
  match s with
  | EmptyString => EmptyString
  | String c rest => String (lower_char c) (toLowerCase rest)
  end.

(** [generateGkProjectHash(projectPath)], lines 286-292 *)
Definition generateGkProjectHash (projectPath : string) : string :=
  let normalizedPath :=
    toLowerCase (replace_each (fun c => Ascii.eqb c "\") "/" projectPath) in
  substring 0 16 (sha256_hex normalizedPath).

Record project_identifiers : Type := {
  ids_projectDir : string;
  ids_gkProjectHash : string;
  ids_projectPath : string
}.

(** [generateProjectIdentifiers(projectPath)], lines 299-306; [process_cwd]
    is [process.cwd()], used when [projectPath] is missing or empty *)
Definition generateProjectIdentifiers (process_cwd : string) (projectPath : option string)
    : project_identifiers :=
  let cwd := match projectPath with
             | Some p => if p =? "" then process_cwd else p
             | None => process_cwd
             end in
  {| ids_projectDir := sanitizeProjectPath cwd;
     ids_gkProjectHash := generateGkProjectHash cwd;
     ids_projectPath := cwd |}.

(** [path.join(a, b)] on POSIX for an absolute [a]: the segments of both are
    normalised as in [path_resolve], but [b] never replaces [a]. *)
Definition path_join (a b : string) : string :=
  "/" ++ String.concat "/" (normalize_segments (split_on "/"%char (a ++ "/" ++ b))).

(** [GEMKIT_HOME] and [PROJECTS_DIR], lines 180-181; [home] is [os.homedir()] *)
Definition GEMKIT_HOME (home : string) : string := path_join home ".gemkit".
Definition PROJECTS_DIR (home : string) : string := path_join (GEMKIT_HOME home) "projects".

(** [getProjectDataDir(projectDir)], lines 337-339 *)
Definition getProjectDataDir (home projectDir : string) : string :=
  path_join (PROJECTS_DIR home) projectDir.

(** [getSessionPath(projectDir, gkSessionId)], lines 347-349 *)
Definition getSessionPath (home projectDir gkSessionId : string) : string :=
  path_join (getProjectDataDir home projectDir) ("gk-session-" ++ gkSessionId ++ ".json").

(** [getProjectPath(projectDir, gkProjectHash)], lines 357-359 *)
Definition getProjectPath (home projectDir gkProjectHash : string) : string :=
  path_join (getProjectDataDir home projectDir) ("gk-project-" ++ gkProjectHash ++ ".json").

(* --------------------------------------------------------------------- *)
(** ** The files the hooks keep

    The session manager keeps JSON files under [~/.gemkit/projects] and one
    text file, [.gemini/.env].  [files] maps a path to the content stored
    there; [env_file] is the text of [.gemini/.env], which lives in the
    project and is never listed or written through a session or project
    path.  Directories are implicit: a directory exists as soon as a file
    lies below it, and creating one records nothing.

    A file written by [JSON.stringify(v)] is [CJson v] and [JSON.parse] gives
    [v] back; any other text is [CText]; [CPartial c n] is what a write of
    [c] leaves when it fails after [n] bytes, and does not parse.

    Writes, renames, removals and the creation of a directory can fail.
    [faults] scripts the outcome of the coming operations, one entry per
    operation, [NoFault] when the list has run out. *)
(* --------------------------------------------------------------------- *)

Inductive content : Type :=
| CJson (v : json)
| CText (s : string)
| CPartial (c : content) (written : nat).

(** [JSON.parse(text)], [None] when it throws *)
Definition JSON_parse (c : content) : option json :=
  match c with
  | CJson v => Some v
  | _ => None
  end.

Inductive fault : Type :=
| NoFault
| Fail
| FailPartway (written : nat).

Record world : Type := {
  files : list (string * content);
  env_file : option string;
  faults : list fault
}.

Inductive outcome (A : Type) : Type :=
| Ok (a : A)
| Throw (e : string).
Arguments Ok {A} a.
Arguments Throw {A} e.

(** Computations that read and write the files and may throw *)
Definition M (A : Type) : Type := world -> outcome A * world.

Definition ret {A : Type} (a : A) : M A := fun w => (Ok a, w).

Definition throw {A : Type} (e : string) : M A := fun w => (Throw e, w).

Definition bind {A B : Type} (m : M A) (f : A -> M B) : M B :=
  fun w =>
    match m w with
    | (Ok a, w') => f a w'
    | (Throw e, w') => (Throw e, w')
    end.

(** [try { m } catch (e) { handler(e) }] *)
Definition try_catch {A : Type} (m : M A) (handler : string -> M A) : M A :=
  fun w =>
    match m w with
    | (Ok a, w') => (Ok a, w')
    | (Throw e, w') => handler e w'
    end.

Definition lift {A : Type} (o : outcome A) : M A := fun w => (o, w).

Declare Scope monad_scope.
Delimit Scope monad_scope with monad.
Notation "x <- m ;; k" := (bind m (fun x => k))
  (at level 61, m at next level, right associativity) : monad_scope.
Notation "m ;; k" := (bind m (fun _ => k))
  (at level 61, right associativity) : monad_scope.
Local Open Scope monad_scope.

Fixpoint file_at (path : string) (fs : list (string * content)) : option content :=
  match fs with
  | [] => None
  | (p, c) :: rest => if p =? path then Some c else file_at path rest
  end.

Definition file_exists (path : string) (fs : list (string * content)) : bool :=
  match file_at path fs with
  | Some _ => true
  | None => false
  end.

(** a file keeps its place in the listing when it is overwritten *)
Definition file_put (path : string) (c : content) (fs : list (string * content))
    : list (string * content) :=
  if file_exists path fs
  then map (fun e => if fst e =? path then (fst e, c) else e) fs
  else (fs ++ [(path, c)])%list.

Definition file_remove (path : string) (fs : list (string * content))
    : list (string * content) :=
  filter (fun e => negb (fst e =? path)) fs.

Definition set_files (fs : list (string * content)) (w : world) : world :=
  {| files := fs; env_file := env_file w; faults := faults w |}.

Definition set_env_file (text : option string) (w : world) : world :=
  {| files := files w; env_file := text; faults := faults w |}.

(** the outcome scripted for the coming operation *)
Definition next_fault : M fault :=
  fun w =>
    match faults w with
    | [] => (Ok NoFault, w)
    | f :: rest => (Ok f, {| files := files w; env_file := env_file w; faults := rest |})
    end.

(** [fs.writeFileSync(path, text)]: the file is truncated when it is opened,
    so a write that fails partway leaves the bytes written so far *)
Definition fs_writeFileSync (path : string) (c : content) : M unit :=
  f <- next_fault ;;
  match f with
  | NoFault => fun w => (Ok tt, set_files (file_put path c (files w)) w)
  | Fail => throw "EACCES"
  | FailPartway n => fun w => (Throw "ENOSPC", set_files (file_put path (CPartial c n) (files w)) w)
  end.

(** [fs.writeFileSync(ENV_PATH, text)] *)
Definition fs_writeEnvFile (text : string) : M unit :=
  f <- next_fault ;;
  match f with
  | NoFault => fun w => (Ok tt, set_env_file (Some text) w)
  | Fail => throw "EACCES"
  | FailPartway n => fun w => (Throw "ENOSPC", set_env_file (Some (substring 0 n text)) w)
  end.

(** [fs.renameSync(from, to)]: all or nothing *)
Definition fs_renameSync (from to : string) : M unit :=
  f <- next_fault ;;
  match f with
  | NoFault =>
      fun w =>
        match file_at from (files w) with
        | Some c => (Ok tt, set_files (file_put to c (file_remove from (files w))) w)
        | None => (Throw "ENOENT", w)
        end
  | _ => throw "EPERM"
  end.

(** [fs.unlinkSync(path)] *)
Definition fs_unlinkSync (path : string) : M unit :=
  f <- next_fault ;;
  match f with
  | NoFault =>
      fun w =>
        if file_exists path (files w)
        then (Ok tt, set_files (file_remove path (files w)) w)
        else (Throw "ENOENT", w)
  | _ => throw "EPERM"
  end.

(** the rest of [s] after the prefix [p], when [s] starts with [p] *)
Fixpoint strip_prefix (p s : string) : option string :=
  match p, s with
  | EmptyString, _ => Some s
  | String a p', String b s' => if Ascii.eqb a b then strip_prefix p' s' else None
  | String _ _, EmptyString => None
  end.

Fixpoint ends_with (suffix s : string) : bool :=
  (s =? suffix)
  || match s with
     | EmptyString => false
     | String _ rest => ends_with suffix rest
     end.

(** the entry of [dir] that the path [p] is or lies below: the first
    segment of [p] after [dir/] *)
Definition entry_of (dir p : string) : option string :=
  match strip_prefix (dir ++ "/") p with
  | Some below => Some (hd "" (split_on "/"%char below))
  | None => None
  end.

(** a name is put in its place among sorted names, once *)
Fixpoint insert_name (name : string) (names : list string) : list string :=
  match names with
  | [] => [name]
  | n :: rest =>
      match String.compare name n with
      | Eq => names
      | Lt => name :: names
      | Gt => n :: insert_name name rest
      end
  end.

(** [fs.readdirSync(dir)]: the names of the files and of the directories
    directly in [dir], each once, in the order of their bytes, which is the
    order in which node returns them ([scandir] with a comparison of the
    names) *)
Fixpoint fs_readdirSync (dir : string) (fs : list (string * content)) : list string :=
  match fs with
  | [] => []
  | (p, _) :: rest =>
      match entry_of dir p with
      | Some name =>
          if name =? "" then fs_readdirSync dir rest
          else insert_name name (fs_readdirSync dir rest)
      | None => fs_readdirSync dir rest
      end
  end.

(** [fs.existsSync(dir)] for a directory: some file lies below it *)
Definition dir_exists (dir : string) (fs : list (string * content)) : bool :=
  existsb (fun e => String.prefix (dir ++ "/") (fst e)) fs.

(** [ensureDir(dirPath)], lines 326-330.  [fs.mkdirSync] records nothing,
    directories being implicit, but it can fail. *)
Definition ensureDir (dirPath : string) : M unit :=
  fun w =>
    if dir_exists dirPath (files w) then (Ok tt, w)
    else
      (f <- next_fault ;;
       match f with
       | NoFault => ret tt
       | _ => throw "EACCES"
       end) w.

(* --------------------------------------------------------------------- *)
(** ** gk-session-manager.cjs: the [.gemini/.env] file                    *)
(* --------------------------------------------------------------------- *)

(** [String(v)], as a template literal prints a value *)
Fixpoint String_of (v : json) : string :=
  match v with
  | JNull => "null"
  | JBool true => "true"
  | JBool false => "false"
  | JNum n => match n with
              | Z0 => "0"
              | Zpos p => Number_toString (Npos p)
              | Zneg p => "-" ++ Number_toString (Npos p)
              end
  | JStr s => s
  | JArr items =>
      String.concat "," (map (fun x => match x with
                                       | JNull => ""
                                       | _ => String_of x
                                       end) items)
  | JObj _ => "[object Object]"
  end.

(** [`${v || ''}`] *)
Definition or_empty (v : option json) : string :=
  match v with
  | Some x => if truthy x then String_of x else ""
  | None => ""
  end.

(** the line terminators of ASCII *)
Definition is_line_end (c : ascii) : bool := Ascii.eqb c "010" || Ascii.eqb c "013".

(** the blanks of ASCII: space, tab, line feed, vertical tab, form feed,
    carriage return *)
Definition is_space (c : ascii) : bool :=
  Ascii.eqb c " " || between 9 13 c.

Fixpoint split_lines (s : string) : list string :=
  match s with
  | EmptyString => [EmptyString]
  | String c rest =>
      if is_line_end c then EmptyString :: split_lines rest
      else match split_lines rest with
           | [] => [String c EmptyString]
           | h :: t => String c h :: t
           end
  end.

Fixpoint trim_start (s : string) : string :=
  match s with
  | String c rest => if is_space c then trim_start rest else s
  | EmptyString => s
  end.

Fixpoint trim_end (s : string) : string :=
  match s with
  | EmptyString => EmptyString
  | String c rest =>
      match trim_end rest with
      | EmptyString => if is_space c then EmptyString else String c EmptyString
      | t => String c t
      end
  end.

(** [s.trim()] on an ASCII text *)
Definition trim (s : string) : string := trim_end (trim_start s).

(** the multi-line match of [KEY=] followed by the rest of the line, then
    [match[1].trim()]: the first line that starts with [KEY=]; [None] when
    no line does *)
Fixpoint env_match (key : string) (lines : list string) : option string :=
  match lines with
  | [] => None
  | line :: rest =>
      match strip_prefix (key ++ "=") line with
      | Some value => Some (trim value)
      | None => env_match key rest
      end
  end.

Record env_vars : Type := {
  ACTIVE_GK_SESSION_ID : string;
  GK_PROJECT_HASH : string;
  PROJECT_DIR : string;
  ACTIVE_GEMINI_SESSION_ID : string;
  GEMINI_PROJECT_HASH : string;
  GEMINI_PARENT_ID : string;
  ACTIVE_PLAN : string;
  SUGGESTED_PLAN : string;
  PLAN_DATE_FORMAT : string
}.

Definition env_get (key : string) (lines : list string) : string :=
  match env_match key lines with
  | Some v => v
  | None => ""
  end.

(** [readEnv()], lines 369-434 *)
Definition readEnv (w : world) : env_vars :=
  match env_file w with
  | None =>
      {| ACTIVE_GK_SESSION_ID := ""; GK_PROJECT_HASH := ""; PROJECT_DIR := "";
         ACTIVE_GEMINI_SESSION_ID := ""; GEMINI_PROJECT_HASH := ""; GEMINI_PARENT_ID := "";
         ACTIVE_PLAN := ""; SUGGESTED_PLAN := ""; PLAN_DATE_FORMAT := "" |}
  | Some text =>
      let lines := split_lines text in
      let gk := env_get "ACTIVE_GK_SESSION_ID" lines in
      {| ACTIVE_GK_SESSION_ID :=
           (* legacy support, lines 425-428 *)
           if gk =? "" then env_get "ACTIVE_GEMINI_SESSION_ID" lines else gk;
         GK_PROJECT_HASH := env_get "GK_PROJECT_HASH" lines;
         PROJECT_DIR := env_get "PROJECT_DIR" lines;
         ACTIVE_GEMINI_SESSION_ID := env_get "ACTIVE_GEMINI_SESSION_ID" lines;
         GEMINI_PROJECT_HASH := env_get "GEMINI_PROJECT_HASH" lines;
         GEMINI_PARENT_ID := env_get "GEMINI_PARENT_ID" lines;
         ACTIVE_PLAN := env_get "ACTIVE_PLAN" lines;
         SUGGESTED_PLAN := env_get "SUGGESTED_PLAN" lines;
         PLAN_DATE_FORMAT := env_get "PLAN_DATE_FORMAT" lines |}
  end.

(** the argument of [updateEnv]; a missing property is [None] *)
Record env_data : Type := {
  ed_gkSessionId : option json;
  ed_gkProjectHash : option json;
  ed_projectDir : option json;
  ed_geminiSessionId : option json;
  ed_geminiProjectHash : option json;
  ed_activePlan : option json;
  ed_suggestedPlan : option json;
  ed_planDateFormat : option json
}.

Definition env_text (envData : env_data) (now : string) : string :=
  String.concat (String "010" "")
    [ "# Auto-generated by gk-session-manager";
      "# Updated at: " ++ now;
      "";
      "# GEMKIT IDs";
      "ACTIVE_GK_SESSION_ID=" ++ or_empty (ed_gkSessionId envData);
      "GK_PROJECT_HASH=" ++ or_empty (ed_gkProjectHash envData);
      "PROJECT_DIR=" ++ or_empty (ed_projectDir envData);
      "";
      "# GEMINI IDs (mapped)";
      "ACTIVE_GEMINI_SESSION_ID=" ++ or_empty (ed_geminiSessionId envData);
      "GEMINI_PROJECT_HASH=" ++ or_empty (ed_geminiProjectHash envData);
      "";
      "# PLAN INFO";
      "ACTIVE_PLAN=" ++ or_empty (ed_activePlan envData);
      "SUGGESTED_PLAN=" ++ or_empty (ed_suggestedPlan envData);
      "PLAN_DATE_FORMAT=" ++ or_empty (ed_planDateFormat envData);
      "" ].

(** [updateEnv(envData)], lines 441-468; [now] is [new Date().toISOString()] *)
Definition updateEnv (envData : env_data) (now : string) : M bool :=
  try_catch
    (fs_writeEnvFile (env_text envData now) ;; ret true)
    (fun _ => ret false).

(* --------------------------------------------------------------------- *)
(** ** gk-session-manager.cjs: session and project files                  *)
(* --------------------------------------------------------------------- *)

Section SessionManager.

(** [os.homedir()] *)
Variable home : string.

(** Identifiers reach the session manager from the environment, from the
    hook payload and from stored sessions, so they are JSON values: [!id]
    is their falsiness and a path prints them as a template literal does. *)
Definition session_file (projectDir : string) (gkSessionId : json) : string :=
  getSessionPath home projectDir (String_of gkSessionId).

Definition project_file (projectDir : string) (gkProjectHash : json) : string :=
  getProjectPath home projectDir (String_of gkProjectHash).

(** [getSession(projectDir, gkSessionId)], lines 543-556 *)
Definition getSession (projectDir : string) (gkSessionId : json) (w : world) : json :=
  if (projectDir =? "") || negb (truthy gkSessionId) then JNull
  else
    match file_at (session_file projectDir gkSessionId) (files w) with
    | None => JNull
    | Some c =>
        match JSON_parse c with
        | Some v => v
        | None => JNull
        end
    end.

(** [reorderSessionFields(session)], lines 563-569: destructuring [null]
    throws; any other value gives up its own properties *)
Definition reorderSessionFields (session : json) : outcome obj :=
  match session with
  | JNull => Throw "TypeError"
  | _ =>
      let props := own_props session in
      Ok (set "agents" (js_or (lookup "agents" props) (JArr []))
              (spread [] (remove "agents" props)))
  end.

(** the [try] of [saveSession], lines 587-595 *)
Definition write_then_rename (sessionPath : string) (data : json) : M bool :=
  let tempPath := sessionPath ++ ".tmp" in
  try_catch
    (orderedData <- lift (reorderSessionFields data) ;;
     fs_writeFileSync tempPath (CJson (JObj orderedData)) ;;
     fs_renameSync tempPath sessionPath ;;
     ret true)
    (fun _ =>
       try_catch (fs_unlinkSync tempPath) (fun _ => ret tt) ;;
       ret false).

(** [saveSession(projectDir, gkSessionId, data)], lines 578-596 *)
Definition saveSession (projectDir : string) (gkSessionId : json) (data : json) : M bool :=
  if (projectDir =? "") || negb (truthy gkSessionId) then ret false
  else
    let projectDataDir := getProjectDataDir home projectDir in
    ensureDir projectDataDir ;;
    write_then_rename (session_file projectDir gkSessionId) data.

(** [getProject(projectDir, gkProjectHash)], lines 837-850 *)
Definition getProject (projectDir : string) (gkProjectHash : json) (w : world) : json :=
  if (projectDir =? "") || negb (truthy gkProjectHash) then JNull
  else
    match file_at (project_file projectDir gkProjectHash) (files w) with
    | None => JNull
    | Some c =>
        match JSON_parse c with
        | Some v => v
        | None => JNull
        end
    end.

(** [saveProject(projectDir, gkProjectHash, data)], lines 859-873 *)
Definition saveProject (projectDir : string) (gkProjectHash : json) (data : json) : M bool :=
  if (projectDir =? "") || negb (truthy gkProjectHash) then ret false
  else
    let projectDataDir := getProjectDataDir home projectDir in
    let projectPath := project_file projectDir gkProjectHash in
    ensureDir projectDataDir ;;
    try_catch
      (fs_writeFileSync projectPath (CJson data) ;; ret true)
      (fun _ => ret false).

(** *** Agents inside a session, lines 638-767 *)

(** [v[k]] for a value that is not [null]: an own property or [undefined] *)
Definition prop (k : string) (v : json) : option json := lookup k (own_props v).

(** [a === b] where both may be [undefined] *)
Definition strict_eq_opts (a b : option json) : bool :=
  match a, b with
  | Some x, Some y => strict_eq x y
  | None, None => true
  | _, _ => false
  end.

(** [a => a.gkSessionId === id] on an element of an array read from a
    file; reading a property of [null] throws.  The id may be [undefined],
    as the [gkSessionId] of an agent entry can be. *)
Definition agent_id_is (id : option json) (a : json) : outcome bool :=
  match a with
  | JNull => Throw "TypeError"
  | _ => Ok (strict_eq_opts (prop "gkSessionId" a) id)
  end.

(** [items.findIndex(test)], counting from [i]; [None] is [-1] *)
Fixpoint findIndex (test : json -> outcome bool) (i : nat) (items : list json)
    : outcome (option nat) :=
  match items with
  | [] => Ok None
  | a :: rest =>
      match test a with
      | Throw e => Throw e
      | Ok true => Ok (Some i)
      | Ok false => findIndex test (S i) rest
      end
  end.

(** [findIndex], [find], [some] and [push] exist on arrays only *)
Definition as_array (v : option json) : outcome (list json) :=
  match v with
  | Some (JArr items) => Ok items
  | _ => Throw "TypeError"
  end.

Fixpoint replace_nth (i : nat) (x : json) (items : list json) : list json :=
  match items, i with
  | [], _ => []
  | _ :: rest, O => x :: rest
  | a :: rest, S i' => a :: replace_nth i' x rest
  end.

(** [getPidFromSessionId(id)], lines 227-230, on a JSON value: a falsy one
    gives [null], a string is parsed, anything else has no [match] method *)
Definition getPid (id : json) : outcome json :=
  match id with
  | JStr s =>
      Ok (match getPidFromSessionId s with
          | Some n => JNum (Z.of_N n)
          | None => JNull
          end)
  | _ => if truthy id then Throw "TypeError" else Ok JNull
  end.

(** the agent record of lines 655-675 *)
Definition new_agent (agentGkSessionId pid : json) (agentData : obj) (now : string) : json :=
  JObj [ ("gkSessionId", agentGkSessionId);
         ("pid", pid);
         ("geminiSessionId", js_or (lookup "geminiSessionId" agentData) JNull);
         ("geminiProjectHash", js_or (lookup "geminiProjectHash" agentData) JNull);
         ("parentGkSessionId", js_or (lookup "parentGkSessionId" agentData) JNull);
         ("agentType", if truthy_opt (lookup "parentGkSessionId" agentData)
                       then JStr "Sub Agent" else JStr "Main Agent");
         ("agentRole", js_or (lookup "agentRole" agentData) (JStr "main"));
         ("prompt", js_or (lookup "prompt" agentData) JNull);
         ("model", js_or (lookup "model" agentData) JNull);
         ("tokenUsage", js_or (lookup "tokenUsage" agentData) JNull);
         ("retryCount", js_or (lookup "retryCount" agentData) (JNum 0));
         ("resumeCount", js_or (lookup "resumeCount" agentData) (JNum 0));
         ("generation", js_or (lookup "generation" agentData) (JNum 0));
         ("injected", js_or (lookup "injected" agentData) JNull);
         ("startTime", JStr now);
         ("endTime", JNull);
         ("status", JStr "active");
         ("exitCode", JNull);
         ("error", JNull) ].

(** the update of an agent that is already there, lines 648-653 *)
Definition refreshed_agent (existing : json) (agentData : obj) : json :=
  let eprops := own_props existing in
  JObj (set "prompt" (js_or (lookup "prompt" eprops) (js_or (lookup "prompt" agentData) JNull))
          (set "model" (js_or (lookup "model" eprops) (js_or (lookup "model" agentData) JNull))
             (spread [] eprops))).

(** lines 642-677 of [addAgent]: the session with the agent added or
    refreshed.  On a session that is not an object the assignment to
    [session.agents] is lost and [session.agents.findIndex] throws. *)
Definition add_agent_to (session gkSessionId : json) (agentData : obj) (now : string)
    : outcome json :=
  if is_object session then
    let agentGkSessionId := js_or (lookup "gkSessionId" agentData) gkSessionId in
    let props := set "agents" (js_or (prop "agents" session) (JArr [])) (own_props session) in
    match as_array (lookup "agents" props) with
    | Throw e => Throw e
    | Ok agents =>
        match findIndex (agent_id_is (Some agentGkSessionId)) 0 agents with
        | Throw e => Throw e
        | Ok (Some existingIndex) =>
            let existing := nth existingIndex agents JNull in
            Ok (JObj (set "agents"
                          (JArr (replace_nth existingIndex
                                   (refreshed_agent existing agentData) agents))
                          props))
        | Ok None =>
            match (if truthy_opt (lookup "pid" agentData)
                   then Ok (js_or (lookup "pid" agentData) JNull)
                   else getPid agentGkSessionId) with
            | Throw e => Throw e
            | Ok pid =>
                Ok (JObj (set "agents"
                              (JArr (agents ++ [new_agent agentGkSessionId pid agentData now]))
                              props))
            end
        end
    end
  else Throw "TypeError".

(** [addAgent(projectDir, gkSessionId, agentData)], lines 638-680 *)
Definition addAgent (projectDir : string) (gkSessionId : json) (agentData : obj)
    (now : string) : M bool :=
  fun w =>
    let session := getSession projectDir gkSessionId w in
    if negb (truthy session) then (Ok false, w)
    else
      match add_agent_to session gkSessionId agentData now with
      | Throw e => (Throw e, w)
      | Ok session' => saveSession projectDir gkSessionId session' w
      end.

(** lines 694-700 of [updateAgent]: [None] when the agent is not there *)
Definition update_agent_in (session : json) (agentGkSessionId : option json) (updates : obj)
    : outcome (option json) :=
  match as_array (prop "agents" session) with
  | Throw e => Throw e
  | Ok agents =>
      match findIndex (agent_id_is agentGkSessionId) 0 agents with
      | Throw e => Throw e
      | Ok None => Ok None
      | Ok (Some agentIndex) =>
          let agent := nth agentIndex agents JNull in
          Ok (Some (JObj (set "agents"
                            (JArr (replace_nth agentIndex
                                     (JObj (spread (spread [] (own_props agent)) updates))
                                     agents))
                            (own_props session))))
      end
  end.

(** [updateAgent(projectDir, gkSessionId, agentGkSessionId, updates)],
    lines 690-703 *)
Definition updateAgent (projectDir : string) (gkSessionId : json)
    (agentGkSessionId : option json) (updates : obj) : M bool :=
  fun w =>
    let session := getSession projectDir gkSessionId w in
    if negb (truthy session) || negb (truthy_opt (prop "agents" session)) then (Ok false, w)
    else
      match update_agent_in session agentGkSessionId updates with
      | Throw e => (Throw e, w)
      | Ok None => (Ok false, w)
      | Ok (Some session') => saveSession projectDir gkSessionId session' w
      end.

(** [a ?? b] *)
Definition nullish_or (a : option json) (b : json) : json :=
  match a with
  | Some JNull => b
  | Some x => x
  | None => b
  end.

(** the [updates] of [endAgent], lines 736-746 *)
Definition end_updates (result : obj) (now : string) : obj :=
  let updates := [ ("endTime", JStr now);
                   ("status", js_or (lookup "status" result) (JStr "completed"));
                   ("exitCode", nullish_or (lookup "exitCode" result) (JNum 0));
                   ("error", js_or (lookup "error" result) JNull) ] in
  match lookup "tokenUsage" result with
  | Some t => if truthy t then set "tokenUsage" t updates else updates
  | None => updates
  end.

(** [endAgent(projectDir, gkSessionId, agentGkSessionId, result)], lines 735-749 *)
Definition endAgent (projectDir : string) (gkSessionId : json)
    (agentGkSessionId : option json) (result : obj) (now : string) : M bool :=
  updateAgent projectDir gkSessionId agentGkSessionId (end_updates result now).

(** [updateAgentGeminiSession(projectDir, gkSessionId, agentGkSessionId,
    geminiSessionId)], lines 714-725 *)
Definition updateAgentGeminiSession (projectDir : string)
    (gkSessionId agentGkSessionId geminiSessionId : json) : M bool :=
  fun w =>
    let session := getSession projectDir gkSessionId w in
    if negb (truthy session) || negb (truthy_opt (prop "agents" session)) then (Ok false, w)
    else
      match as_array (prop "agents" session) with
      | Throw e => (Throw e, w)
      | Ok agents =>
          match findIndex (agent_id_is (Some agentGkSessionId)) 0 agents with
          | Throw e => (Throw e, w)
          | Ok None => (Ok false, w)
          | Ok (Some i) =>
              let agent := nth i agents JNull in
              saveSession projectDir gkSessionId
                (JObj (set "agents"
                         (JArr (replace_nth i
                                  (JObj (set "geminiSessionId" geminiSessionId (own_props agent)))
                                  agents))
                         (own_props session))) w
          end
      end.

(** [updateAgentPrompt(projectDir, gkSessionId, agentGkSessionId, prompt)],
    lines 759-767 *)
Definition updateAgentPrompt (projectDir : string)
    (gkSessionId agentGkSessionId prompt : json) : M bool :=
  fun w =>
    let session := getSession projectDir gkSessionId w in
    if negb (truthy session) || negb (truthy_opt (prop "agents" session)) then (Ok false, w)
    else
      match as_array (prop "agents" session) with
      | Throw e => (Throw e, w)
      | Ok agents =>
          match findIndex (agent_id_is (Some agentGkSessionId)) 0 agents with
          | Throw e => (Throw e, w)
          | Ok None => (Ok false, w)
          | Ok (Some i) =>
              if truthy_opt (prop "prompt" (nth i agents JNull)) then (Ok false, w)
              else updateAgent projectDir gkSessionId (Some agentGkSessionId)
                     [("prompt", prompt)] w
          end
      end.

(** [updateSession(projectDir, gkSessionId, updates)], lines 605-614;
    [JNull] is the [null] it returns on failure *)
Definition updateSession (projectDir : string) (gkSessionId : json) (updates : obj) : M json :=
  fun w =>
    let session := getSession projectDir gkSessionId w in
    if negb (truthy session) then (Ok JNull, w)
    else
      let updated := JObj (spread (spread [] (own_props session)) updates) in
      (saved <- saveSession projectDir gkSessionId updated ;;
       ret (if saved then updated else JNull)) w.

(** *** Projects, lines 882-963 *)

(** [Array.prototype.sort] with the comparator of lines 945-949: sessions
    by start time, newest first, the times read by [Date] *)
Variable sort_sessions : list json -> list json.

(** an object literal whose values may be [undefined]: [JSON.stringify]
    leaves those properties out *)
Fixpoint literal (fields : list (string * option json)) : obj :=
  match fields with
  | [] => []
  | (k, Some v) :: rest => (k, v) :: literal rest
  | (_, None) :: rest => literal rest
  end.

(** [o[k] = v] where [v] may be [undefined] *)
Definition assign (k : string) (v : option json) (o : obj) : obj :=
  match v with
  | Some x => set k x o
  | None => remove k o
  end.

(** [ensureProject(projectDir, gkProjectHash, projectPath)], lines 882-903;
    [projectPath] is already [projectPath || process.cwd()] *)
Definition ensureProject (projectDir : string) (gkProjectHash : json) (projectPath : json)
    (now : string) : M json :=
  fun w =>
    let project := getProject projectDir gkProjectHash w in
    if truthy project then (Ok project, w)
    else
      let project := JObj [ ("gkProjectHash", gkProjectHash);
                            ("projectDir", JStr projectDir);
                            ("projectPath", projectPath);
                            ("geminiProjectHash", JNull);
                            ("initialized", JBool true);
                            ("initTimestamp", JStr now);
                            ("lastActiveTimestamp", JStr now);
                            ("activeGkSessionId", JNull);
                            ("sessions", JArr []) ] in
      (saveProject projectDir gkProjectHash project ;; ret project) w.

(** the entry of lines 921-930, for a session already listed *)
Definition merged_summary (sessionSummary : obj) (existing : json) : json :=
  let e := own_props existing in
  JObj (literal
    [ ("gkSessionId", lookup "gkSessionId" sessionSummary);
      ("pid", js_or_opt (lookup "pid" sessionSummary) (lookup "pid" e));
      ("sessionType", js_or_opt (lookup "sessionType" sessionSummary) (lookup "sessionType" e));
      ("appName", js_or_opt (lookup "appName" sessionSummary) (lookup "appName" e));
      ("prompt", Some (js_or (js_or_opt (lookup "prompt" sessionSummary) (lookup "prompt" e)) JNull));
      ("activePlan", Some (js_or (js_or_opt (lookup "activePlan" sessionSummary)
                                            (lookup "activePlan" e)) JNull));
      ("startTime", js_or_opt (lookup "startTime" sessionSummary) (lookup "startTime" e));
      ("endTime", Some (js_or (js_or_opt (lookup "endTime" sessionSummary)
                                         (lookup "endTime" e)) JNull)) ]).

(** the entry of lines 932-941, for a session not listed yet *)
Definition fresh_summary (sessionSummary : obj) (now : string) : json :=
  JObj (literal
    [ ("gkSessionId", lookup "gkSessionId" sessionSummary);
      ("pid", Some (js_or (lookup "pid" sessionSummary) JNull));
      ("sessionType", Some (js_or (lookup "sessionType" sessionSummary) (JStr "gemini")));
      ("appName", Some (js_or (lookup "appName" sessionSummary) (JStr "gemini-main")));
      ("prompt", Some (js_or (lookup "prompt" sessionSummary) JNull));
      ("activePlan", Some (js_or (lookup "activePlan" sessionSummary) JNull));
      ("startTime", Some (js_or (lookup "startTime" sessionSummary) (JStr now)));
      ("endTime", Some (js_or (lookup "endTime" sessionSummary) JNull)) ]).

Definition summary_id_is (id : option json) (s : json) : outcome bool :=
  match s with
  | JNull => Throw "TypeError"
  | _ => Ok (strict_eq_opts (prop "gkSessionId" s) id)
  end.

(** lines 915-949 of [addSessionToProject]: the project with the summary
    listed.  A project that is not an object grows no properties, so
    reading [project.sessions.findIndex] throws. *)
Definition add_session_to (project : json) (sessionSummary : obj) (now : string)
    : outcome json :=
  match project with
  | JObj props =>
      let props := assign "activeGkSessionId" (lookup "gkSessionId" sessionSummary) props in
      let props := set "lastActiveTimestamp" (JStr now) props in
      match as_array (lookup "sessions" props) with
      | Throw e => Throw e
      | Ok sessions =>
          match findIndex (summary_id_is (lookup "gkSessionId" sessionSummary)) 0 sessions with
          | Throw e => Throw e
          | Ok (Some i) =>
              Ok (JObj (set "sessions"
                            (JArr (sort_sessions
                                     (replace_nth i
                                        (merged_summary sessionSummary (nth i sessions JNull))
                                        sessions)))
                            props))
          | Ok None =>
              Ok (JObj (set "sessions"
                            (JArr (sort_sessions
                                     (sessions ++ [fresh_summary sessionSummary now])))
                            props))
          end
      end
  | _ => Throw "TypeError"
  end.

(** [addSessionToProject(projectDir, gkProjectHash, sessionSummary)],
    lines 912-952; [process_cwd] is [process.cwd()] *)
Definition addSessionToProject (projectDir : string) (gkProjectHash : json)
    (sessionSummary : obj) (process_cwd now : string) : M bool :=
  project <- ensureProject projectDir gkProjectHash (JStr process_cwd) now ;;
  project' <- lift (add_session_to project sessionSummary now) ;;
  saveProject projectDir gkProjectHash project'.

(** *** Finding and initialising sessions, lines 978-1235 *)

(** [generateProjectIdentifiers(projectPath)] on a value of the payload:
    anything but a string has no [replace] method *)
Definition project_identifiers_of (process_cwd : string) (projectPath : json)
    : outcome project_identifiers :=
  if truthy projectPath then
    match projectPath with
    | JStr p => Ok (generateProjectIdentifiers process_cwd (Some p))
    | _ => Throw "TypeError"
    end
  else Ok (generateProjectIdentifiers process_cwd None).

(** the loop of [findSessionByGeminiId], lines 1219-1229; any exception ends
    the search with [null] (lines 1230-1232) *)
Fixpoint scan_sessions (projectDataDir : string) (geminiSessionId : json)
    (fs : list (string * content)) (names : list string) : option string :=
  match names with
  | [] => None
  | file :: rest =>
      if negb (String.prefix "gk-session-" file) || negb (ends_with ".json" file)
      then scan_sessions projectDataDir geminiSessionId fs rest
      else
        let filePath := path_join projectDataDir file in
        match file_at filePath fs with
        | None => None
        | Some c =>
            match JSON_parse c with
            | None => None
            | Some JNull => None
            | Some session =>
                if strict_eq_opt (prop "geminiSessionId" session) geminiSessionId
                then Some filePath
                else scan_sessions projectDataDir geminiSessionId fs rest
            end
        end
  end.

(** [findSessionByGeminiId(projectDir, geminiSessionId)], lines 1211-1235 *)
Definition findSessionByGeminiId (projectDir : string) (geminiSessionId : json) (w : world)
    : option string :=
  if (projectDir =? "") || negb (truthy geminiSessionId) then None
  else
    let projectDataDir := getProjectDataDir home projectDir in
    scan_sessions projectDataDir geminiSessionId (files w)
      (fs_readdirSync projectDataDir (files w)).

(** [JSON.parse(fs.readFileSync(path, 'utf8'))] *)
Definition read_json (path : string) : M json :=
  fun w =>
    match file_at path (files w) with
    | None => (Throw "ENOENT", w)
    | Some c =>
        match JSON_parse c with
        | Some v => (Ok v, w)
        | None => (Throw "SyntaxError", w)
        end
    end.

(** [v.k] where reading a property of [null] throws *)
Definition get_prop (k : string) (v : json) : outcome (option json) :=
  match v with
  | JNull => Throw "TypeError"
  | _ => Ok (prop k v)
  end.

Record init_options : Type := {
  opt_cwd : json;
  opt_activePlan : json;
  opt_suggestedPlan : json;
  opt_planDateFormat : json;
  opt_initialState : list (string * option json)
}.

(** [{ ...o, ...fields }] where a value of [fields] may be [undefined]: the
    property is then there with no value, which reads and prints as a
    missing one *)
Fixpoint assign_each (fields : list (string * option json)) (o : obj) : obj :=
  match fields with
  | [] => o
  | (k, v) :: rest => assign_each rest (assign k v o)
  end.

Record init_result : Type := {
  ir_session : json;
  ir_gkSessionId : option json;
  ir_pid : option json;
  ir_projectDir : string;
  ir_gkProjectHash : json;
  ir_isResume : bool
}.

(** what the process and the clock give one run of a hook; every reading
    of the clock in a run gives the same time *)
Record process_info : Type := {
  process_cwd : string;
  process_pid : N;
  now_iso : string;
  now_ms : N;
  random4 : string
}.

Definition opt_str (s : string) : option json := Some (JStr s).

(** the resume branch of [initializeGeminiSession], lines 989-1013 (and
    again lines 1021-1044) *)
Definition resume_session (proc : process_info) (ids : project_identifiers)
    (geminiSessionId : json) (existingSessionPath : string) : M init_result :=
  existingSession <- read_json existingSessionPath ;;
  existingGkSessionId <- lift (get_prop "gkSessionId" existingSession) ;;
  fun w =>
    let currentEnv := readEnv w in
    (updateEnv
       {| ed_gkSessionId := existingGkSessionId;
          ed_gkProjectHash := Some (js_or (prop "gkProjectHash" existingSession)
                                          (JStr (ids_gkProjectHash ids)));
          ed_projectDir := opt_str (ids_projectDir ids);
          ed_geminiSessionId := Some geminiSessionId;
          ed_geminiProjectHash := Some (js_or (prop "geminiProjectHash" existingSession)
                                              (js_or (opt_str (GEMINI_PROJECT_HASH currentEnv))
                                                     (JStr "")));
          ed_activePlan := Some (js_or (prop "activePlan" existingSession) (JStr ""));
          ed_suggestedPlan := Some (js_or (prop "suggestedPlan" existingSession) (JStr ""));
          ed_planDateFormat := Some (js_or (prop "planDateFormat" existingSession) (JStr "")) |}
       (now_iso proc) ;;
     ret {| ir_session := existingSession;
            ir_gkSessionId := existingGkSessionId;
            ir_pid := prop "pid" existingSession;
            ir_projectDir := ids_projectDir ids;
            ir_gkProjectHash := js_or (prop "gkProjectHash" existingSession)
                                      (JStr (ids_gkProjectHash ids));
            ir_isResume := true |}) w.

(** the new session of lines 1048-1076 *)
Definition new_session (proc : process_info) (ids : project_identifiers)
    (gkSessionId appName : string) (geminiSessionId geminiParentId : json)
    (options : init_options) : obj :=
  set "agents" (JArr [])
    (assign_each (opt_initialState options)
       [ ("gkSessionId", JStr gkSessionId);
         ("gkProjectHash", JStr (ids_gkProjectHash ids));
         ("projectDir", JStr (ids_projectDir ids));
         ("geminiSessionId", geminiSessionId);
         ("geminiParentId", geminiParentId);
         ("geminiProjectHash", JNull);
         ("initialized", JBool true);
         ("initTimestamp", JStr (now_iso proc));
         ("sessionType", JStr "gemini");
         ("appName", JStr appName);
         ("pid", JNum (Z.of_N (process_pid proc)));
         ("activePlan", if truthy (opt_activePlan options) then opt_activePlan options else JNull);
         ("suggestedPlan", if truthy (opt_suggestedPlan options)
                           then opt_suggestedPlan options else JNull);
         ("planDateFormat", if truthy (opt_planDateFormat options)
                            then opt_planDateFormat options else JStr "") ]).

(** [initializeGeminiSession(geminiSessionId, geminiParentId, options)],
    lines 978-1115 *)
Definition initializeGeminiSession (proc : process_info)
    (geminiSessionId geminiParentId : json) (options : init_options) : M init_result :=
  ids <- lift (project_identifiers_of (process_cwd proc) (opt_cwd options)) ;;
  let projectDir := ids_projectDir ids in
  let gkProjectHash := JStr (ids_gkProjectHash ids) in
  let appName := if truthy geminiParentId then "gemini-sub" else "gemini-main" in
  let gkSessionId :=
    generateGkSessionId appName (process_pid proc) (now_ms proc) (random4 proc) in
  fun w =>
    match findSessionByGeminiId projectDir geminiSessionId w with
    | Some existingSessionPath =>
        resume_session proc ids geminiSessionId existingSessionPath w
    | None =>
        match findSessionByGeminiId projectDir geminiSessionId w with
        | Some doubleCheck => resume_session proc ids geminiSessionId doubleCheck w
        | None =>
            let session :=
              new_session proc ids gkSessionId appName geminiSessionId geminiParentId options in
            (ensureDir (getProjectDataDir home projectDir) ;;
             saveSession projectDir (JStr gkSessionId) (JObj session) ;;
             ensureProject projectDir gkProjectHash (JStr (ids_projectPath ids)) (now_iso proc) ;;
             addSessionToProject projectDir gkProjectHash
               (literal
                  [ ("gkSessionId", opt_str gkSessionId);
                    ("pid", Some (JNum (Z.of_N (process_pid proc))));
                    ("sessionType", opt_str "gemini");
                    ("appName", opt_str appName);
                    ("startTime", lookup "initTimestamp" session);
                    ("activePlan", lookup "activePlan" session) ])
               (process_cwd proc) (now_iso proc) ;;
             fun w1 =>
               let existingEnv := readEnv w1 in
               (updateEnv
                  {| ed_gkSessionId := opt_str gkSessionId;
                     ed_gkProjectHash := Some gkProjectHash;
                     ed_projectDir := opt_str projectDir;
                     ed_geminiSessionId := Some geminiSessionId;
                     ed_geminiProjectHash := opt_str (GEMINI_PROJECT_HASH existingEnv);
                     ed_activePlan := lookup "activePlan" session;
                     ed_suggestedPlan := lookup "suggestedPlan" session;
                     ed_planDateFormat := lookup "planDateFormat" session |}
                  (now_iso proc) ;;
                ret {| ir_session := JObj session;
                       ir_gkSessionId := opt_str gkSessionId;
                       ir_pid := Some (JNum (Z.of_N (process_pid proc)));
                       ir_projectDir := projectDir;
                       ir_gkProjectHash := gkProjectHash;
                       ir_isResume := false |}) w1) w
        end
    end.

(** *** Capturing Gemini's project hash, lines 1249-1377 *)

(** [project.geminiProjectHash = hash] on what [getProject] returned, as
    [JSON.stringify] then sees it: only an object keeps the property *)
Definition with_gemini_hash (project geminiProjectHash : json) : json :=
  match project with
  | JObj props => JObj (set "geminiProjectHash" geminiProjectHash props)
  | _ => project
  end.

Definition capture_updates (session geminiProjectHash geminiTempDir : json) (now : string) : obj :=
  let updates := [] in
  let updates := if negb (truthy_opt (prop "geminiProjectHash" session)) && truthy geminiProjectHash
                 then set "geminiProjectHash" geminiProjectHash updates else updates in
  let updates := if negb (truthy_opt (prop "geminiTempDir" session)) && truthy geminiTempDir
                 then set "geminiTempDir" geminiTempDir updates else updates in
  let updates := if negb (truthy_opt (prop "geminiProjectHashCapturedAt" session))
                 then set "geminiProjectHashCapturedAt" (JStr now) updates else updates in
  updates.

(** [captureGeminiProjectHash(projectDir, gkSessionId, geminiProjectHash,
    geminiTempDir)], lines 1249-1297 *)
Definition captureGeminiProjectHash (projectDir : string)
    (gkSessionId geminiProjectHash geminiTempDir : json) (now : string) : M bool :=
  fun w =>
    let session := getSession projectDir gkSessionId w in
    if negb (truthy session) then (Ok false, w)
    else if truthy_opt (prop "geminiProjectHash" session)
            && truthy_opt (prop "geminiTempDir" session) then (Ok true, w)
    else
      let updates := capture_updates session geminiProjectHash geminiTempDir now in
      match updates with
      | [] => (Ok true, w)
      | _ =>
          (updated <- updateSession projectDir gkSessionId updates ;;
           if negb (truthy updated) then ret false
           else
             let sessionHash := js_or (prop "gkProjectHash" session) JNull in
             (fun w1 =>
                let project := getProject projectDir sessionHash w1 in
                if truthy project && negb (truthy_opt (prop "geminiProjectHash" project))
                then saveProject projectDir sessionHash
                       (with_gemini_hash project geminiProjectHash) w1
                else (Ok false, w1)) ;;
             fun w2 =>
               let env := readEnv w2 in
               (updateEnv
                  {| ed_gkSessionId :=
                       Some (js_or (prop "gkSessionId" session)
                                   (js_or (opt_str (ACTIVE_GK_SESSION_ID env)) gkSessionId));
                     ed_gkProjectHash :=
                       Some (js_or (prop "gkProjectHash" session) (JStr (GK_PROJECT_HASH env)));
                     ed_projectDir :=
                       Some (js_or (prop "projectDir" session) (JStr (PROJECT_DIR env)));
                     ed_geminiSessionId :=
                       Some (js_or (prop "geminiSessionId" session)
                                   (JStr (ACTIVE_GEMINI_SESSION_ID env)));
                     ed_geminiProjectHash :=
                       Some (js_or (Some geminiProjectHash)
                                   (js_or (prop "geminiProjectHash" session)
                                          (JStr (GEMINI_PROJECT_HASH env))));
                     ed_activePlan :=
                       Some (js_or (prop "activePlan" session) (JStr (ACTIVE_PLAN env)));
                     ed_suggestedPlan :=
                       Some (js_or (prop "suggestedPlan" session) (JStr (SUGGESTED_PLAN env)));
                     ed_planDateFormat :=
                       Some (js_or (prop "planDateFormat" session)
                                   (JStr (PLAN_DATE_FORMAT env))) |}
                  now ;;
                ret true) w2) w
      end.

(** [a => a.geminiSessionId === id] *)
Definition agent_gemini_id_is (id : json) (a : json) : outcome bool :=
  match a with
  | JNull => Throw "TypeError"
  | _ => Ok (strict_eq_opt (prop "geminiSessionId" a) id)
  end.

(** lines 1339-1354 of [captureAgentProjectHash]: the session to save, or
    [None] when nothing is to be updated *)
Definition capture_agent_hash_in (session geminiSessionId geminiProjectHash : json)
    : outcome (option json) :=
  match as_array (prop "agents" session) with
  | Throw e => Throw e
  | Ok agents =>
      match findIndex (agent_gemini_id_is geminiSessionId) 0 agents with
      | Throw e => Throw e
      | Ok found =>
          let agents' :=
            match found with
            | Some i =>
                let agent := nth i agents JNull in
                if negb (truthy_opt (prop "geminiProjectHash" agent))
                then Some (replace_nth i
                             (JObj (set "geminiProjectHash" geminiProjectHash (own_props agent)))
                             agents)
                else None
            | None => None
            end in
          let props := match agents' with
                       | Some l => set "agents" (JArr l) (own_props session)
                       | None => own_props session
                       end in
          if negb (truthy_opt (prop "geminiProjectHash" session))
          then Ok (Some (JObj (set "geminiProjectHash" geminiProjectHash props)))
          else match agents' with
               | Some _ => Ok (Some (JObj props))
               | None => Ok None
               end
      end
  end.

(** [captureAgentProjectHash(projectDir, parentGkSessionId, geminiSessionId,
    geminiProjectHash)], lines 1331-1377 *)
Definition captureAgentProjectHash (projectDir : string)
    (parentGkSessionId geminiSessionId geminiProjectHash : json) (now : string) : M bool :=
  if (projectDir =? "") || negb (truthy parentGkSessionId)
     || negb (truthy geminiSessionId) || negb (truthy geminiProjectHash)
  then ret false
  else
    fun w =>
      let session := getSession projectDir parentGkSessionId w in
      if negb (truthy session) || negb (truthy_opt (prop "agents" session)) then (Ok false, w)
      else
        match capture_agent_hash_in session geminiSessionId geminiProjectHash with
        | Throw e => (Throw e, w)
        | Ok None => (Ok true, w)
        | Ok (Some session') =>
            (saved <- saveSession projectDir parentGkSessionId session' ;;
             (if saved then
                fun w1 =>
                  let env := readEnv w1 in
                  if GEMINI_PROJECT_HASH env =? ""
                  then updateEnv
                         {| ed_gkSessionId := opt_str (ACTIVE_GK_SESSION_ID env);
                            ed_gkProjectHash := opt_str (GK_PROJECT_HASH env);
                            ed_projectDir := opt_str (PROJECT_DIR env);
                            ed_geminiSessionId := opt_str (ACTIVE_GEMINI_SESSION_ID env);
                            ed_geminiProjectHash := Some geminiProjectHash;
                            ed_activePlan := opt_str (ACTIVE_PLAN env);
                            ed_suggestedPlan := opt_str (SUGGESTED_PLAN env);
                            ed_planDateFormat := opt_str (PLAN_DATE_FORMAT env) |}
                         now w1
                  else (Ok false, w1)
              else ret false) ;;
             ret saved) w
        end.

(** *** Ending a session, lines 1464-1491 *)

(** [a => a.agentType === 'Main Agent' && a.gkSessionId === gkSessionId] *)
Definition is_main_agent_of (gkSessionId : json) (a : json) : outcome bool :=
  match a with
  | JNull => Throw "TypeError"
  | _ => Ok (strict_eq_opt (prop "agentType" a) (JStr "Main Agent")
             && strict_eq_opt (prop "gkSessionId" a) gkSessionId)
  end.

(** [session?.agents?.find(test)]: [undefined] when the session or its
    [agents] is [null] or [undefined]; any other [agents] must be an array *)
Definition find_in_agents (test : json -> outcome bool) (session : json)
    : outcome (option json) :=
  match session with
  | JNull => Ok None
  | _ =>
      match prop "agents" session with
      | None => Ok None
      | Some JNull => Ok None
      | Some (JArr agents) =>
          match findIndex test 0 agents with
          | Throw e => Throw e
          | Ok (Some i) => Ok (Some (nth i agents JNull))
          | Ok None => Ok None
          end
      | Some _ => Throw "TypeError"
      end
  end.

(** [v?.k] *)
Definition opt_prop (k : string) (v : json) : option json :=
  match v with
  | JNull => None
  | _ => prop k v
  end.

Definition opt_prop_of (k : string) (v : option json) : option json :=
  match v with
  | Some x => opt_prop k x
  | None => None
  end.

(** [endSession(projectDir, gkSessionId, result)], lines 1464-1491 *)
Definition endSession (projectDir : string) (gkSessionId : json) (result : obj)
    (process_cwd now : string) : M bool :=
  fun w =>
    let session := getSession projectDir gkSessionId w in
    if negb (truthy session) then (Ok false, w)
    else
      (mainAgent <- lift (find_in_agents (is_main_agent_of gkSessionId) session) ;;
       (if truthy_opt mainAgent
        then endAgent projectDir gkSessionId (Some gkSessionId) result now
        else ret false) ;;
       fun w1 =>
         let updatedSession := getSession projectDir gkSessionId w1 in
         (updatedMainAgent <- lift (find_in_agents (is_main_agent_of gkSessionId) updatedSession) ;;
          let gkProjectHash :=
            js_or_opt (opt_prop "gkProjectHash" updatedSession) (prop "gkProjectHash" session) in
          (if truthy_opt gkProjectHash
           then addSessionToProject projectDir (js_or gkProjectHash JNull)
                  (literal
                     [ ("gkSessionId", Some gkSessionId);
                       ("prompt", Some (js_or (js_or_opt (opt_prop_of "prompt" updatedMainAgent)
                                                         (opt_prop_of "prompt" mainAgent)) JNull));
                       ("activePlan", js_or_opt (opt_prop "activePlan" updatedSession)
                                                (prop "activePlan" session));
                       ("startTime", js_or_opt (opt_prop "initTimestamp" updatedSession)
                                               (prop "initTimestamp" session));
                       ("endTime", opt_str now) ])
                  process_cwd now
           else ret false) ;;
          ret true) w1) w.

(** *** Session state of the other hooks, gk-config-utils.cjs lines 128-157 *)

(** [getProjectDirFromEnv()], lines 312-316 *)
Definition getProjectDirFromEnv (process_cwd : string) (w : world) : string :=
  let env := readEnv w in
  if PROJECT_DIR env =? "" then sanitizeProjectPath process_cwd else PROJECT_DIR env.

(** [readSessionState(gkSessionId)] *)
Definition readSessionState (process_cwd : string) (gkSessionId : json) (w : world) : json :=
  if negb (truthy gkSessionId) then JNull
  else getSession (getProjectDirFromEnv process_cwd w) gkSessionId w.

(** [writeSessionState(gkSessionId, state)]; [state] is given by its own
    properties *)
Definition writeSessionState (process_cwd : string) (gkSessionId : json) (state : obj)
    : M bool :=
  if negb (truthy gkSessionId) then ret false
  else
    fun w =>
      let projectDir := getProjectDirFromEnv process_cwd w in
      let existing := getSession projectDir gkSessionId w in
      if truthy existing
      then saveSession projectDir gkSessionId
             (JObj (spread (spread [] (own_props existing)) state)) w
      else saveSession projectDir gkSessionId (JObj state) w.

(** [markReminderInjected(sessionId)] of the development-rules reminder
    hook; [isSubAgent] is [process.env.GEMINI_TYPE === 'sub-agent'] *)
Definition markReminderInjected (process_cwd now : string) (isSubAgent : bool)
    (sessionId : json) : M unit :=
  if negb (truthy sessionId) then ret tt
  else if isSubAgent then ret tt
  else
    fun w =>
      let state := readSessionState process_cwd sessionId w in
      let props := if truthy state then own_props state else [] in
      let props := if truthy state && negb (is_object state) then props
                   else set "lastReminderTimestamp" (JStr now) props in
      (writeSessionState process_cwd sessionId props ;; ret tt) w.

End SessionManager.

(** A store with one project file and an [.env], where the coming write
    fails after ten bytes *)
Definition failing_world : world :=
  {| files := [ ("/home/u/.gemkit/projects/proj/gk-project-abcd.json",
                 CJson (JObj [("gkProjectHash", JStr "abcd"); ("sessions", JArr [])]));
                ("/home/u/.gemkit/projects/proj/gk-session-s1.json",
                 CJson (JObj [("gkSessionId", JStr "s1"); ("agents", JArr [])])) ];
     env_file := Some "ACTIVE_PLAN=plans/a";
     faults := [FailPartway 10] |}.

Definition empty_env_data : env_data :=
  {| ed_gkSessionId := None; ed_gkProjectHash := None; ed_projectDir := None;
     ed_geminiSessionId := None; ed_geminiProjectHash := None; ed_activePlan := None;
     ed_suggestedPlan := None; ed_planDateFormat := None |}.

(** ** The session files of a data directory *)

(** the test of line 1220 of gk-session-manager.cjs *)
Definition is_session_name (file : string) : bool :=
  String.prefix "gk-session-" file && ends_with ".json" file.

(** what lines 1222-1224 read from a listed file; [None] when the read or
    [JSON.parse] throws *)
Definition stored_session (projectDataDir : string) (fs : list (string * content))
    (file : string) : option json :=
  match file_at (path_join projectDataDir file) fs with
  | Some c => JSON_parse c
  | None => None
  end.

(** the session files of the directory that hold [geminiSessionId], in
    the order in which [fs.readdirSync] lists them *)
Definition sessions_holding (projectDataDir : string) (geminiSessionId : json)
    (fs : list (string * content)) : list string :=
  filter (fun file =>
            is_session_name file
            && match stored_session projectDataDir fs file with
               | Some JNull => false
               | Some session => strict_eq_opt (prop "geminiSessionId" session) geminiSessionId
               | None => false
               end)
         (fs_readdirSync projectDataDir fs).

(** every session file of the directory parses, to a value other than
    [null] *)
Definition sessions_readable (projectDataDir : string) (fs : list (string * content)) : bool :=
  forallb (fun file =>
             negb (is_session_name file)
             || match stored_session projectDataDir fs file with
                | Some JNull => false
                | Some _ => true
                | None => false
                end)
          (fs_readdirSync projectDataDir fs).

(** no file yet, and no fault to come *)
Definition empty_world : world := {| files := []; env_file := None; faults := [] |}.

Definition demo_process : process_info :=
  {| process_cwd := "/home/user/proj";
     process_pid := 4242;
     now_iso := "2026-01-01T00:00:00.000Z";
     now_ms := 1767225600000;
     random4 := "k3x9" |}.

Definition demo_options : init_options :=
  {| opt_cwd := JStr "/home/user/proj";
     opt_activePlan := JNull;
     opt_suggestedPlan := JNull;
     opt_planDateFormat := JStr "YYMMDD-HHmm";
     opt_initialState := [("projectRoot", Some (JStr "/home/user/proj"))] |}.

Definition demo_data_dir : string := "/home/u/.gemkit/projects/home-user-proj".

(** A data directory with the session of Gemini session [g1] *)
Definition resumable_world : world :=
  {| files := [ (demo_data_dir ++ "/gk-session-b.json",
                 CJson (JObj [ ("gkSessionId", JStr "b");
                               ("geminiSessionId", JStr "g1");
                               ("initialized", JBool true);
                               ("agents", JArr []) ])) ];
     env_file := None;
     faults := [] |}.

(** The same directory where a session file that does not parse is listed
    first *)
Definition unreadable_first_world : world :=
  {| files := (demo_data_dir ++ "/gk-session-a.json", CText "{") :: files resumable_world;
     env_file := None;
     faults := [] |}.

(** the same process a minute later *)
Definition demo_process_later : process_info :=
  {| process_cwd := "/home/user/proj";
     process_pid := 4243;
     now_iso := "2026-01-01T00:01:00.000Z";
     now_ms := 1767225660000;
     random4 := "p0q7" |}.

(** the store after a session was initialised with no Gemini session id,
    as the hook does for a payload without [session_id] *)
Definition anonymous_session_world : world :=
  snd (initializeGeminiSession "/home/u" (fun l => l) demo_process JNull JNull demo_options
         empty_world).

(** [isResume] of a result *)
Definition isResume_of (r : outcome init_result) : option bool :=
  match r with
  | Ok x => Some (ir_isResume x)
  | Throw _ => None
  end.

(** What a sanitised directory name looks like *)
Definition starts_with_hyphen (s : string) : bool :=
  match s with
  | String c _ => is_hyphen c
  | EmptyString => false
  end.

Fixpoint ends_with_hyphen (s : string) : bool :=
  match s with
  | EmptyString => false
  | String c EmptyString => is_hyphen c
  | String _ rest => ends_with_hyphen rest
  end.

Fixpoint has_double_hyphen (s : string) : bool :=
  match s with
  | EmptyString => false
  | String c rest => (is_hyphen c && starts_with_hyphen rest) || has_double_hyphen rest
  end.

(** [path.normalize(a)] on POSIX for an absolute [a] *)
Definition normalize_path (a : string) : string :=
  "/" ++ String.concat "/" (normalize_segments (split_on "/"%char a)).

(** a path segment that normalisation keeps as it is *)
Definition clean_segment (seg : string) : bool :=
  negb (seg =? "") && negb (seg =? ".") && negb (seg =? "..")
  && all_chars (fun c => negb (Ascii.eqb c "/")) seg.

Fixpoint count_char (c : ascii) (s : string) : nat :=
  match s with
  | EmptyString => 0
  | String c' rest => (if Ascii.eqb c c' then 1 else 0) + count_char c rest
  end.

(* --------------------------------------------------------------------- *)
(** ** Scripts: [process.exit], exceptions and the exit status            *)
(*                                                                       *)
(** A script runs on the files like the session manager does, and a run
    ends in one of four ways: it goes on with a value, it throws, it calls
    [process.exit(code)], which ends the process at once and which no
    [catch] sees, or it waits at an [await] for a promise that is never
    settled, and the process does not end. *)
(* --------------------------------------------------------------------- *)

Inductive step (A : Type) : Type :=
| Next (a : A)
| Raise (e : string)
| Exit (code : Z)
| Waits.
Arguments Next {A} a.
Arguments Raise {A} e.
Arguments Exit {A} code.
Arguments Waits {A}.

Definition script (A : Type) : Type := world -> step A * world.

Definition next {A : Type} (a : A) : script A := fun w => (Next a, w).

(** [process.exit(code)] *)
Definition process_exit {A : Type} (code : Z) : script A := fun w => (Exit code, w).

Definition and_then {A B : Type} (s : script A) (k : A -> script B) : script B :=
  fun w =>
    match s w with
    | (Next a, w') => k a w'
    | (Raise e, w') => (Raise e, w')
    | (Exit code, w') => (Exit code, w')
    | (Waits, w') => (Waits, w')
    end.

(** a call into the session manager *)
Definition run {A : Type} (m : M A) : script A :=
  fun w =>
    match m w with
    | (Ok a, w') => (Next a, w')
    | (Throw e, w') => (Raise e, w')
    end.

(** a computation that reads nothing from the files *)
Definition of_outcome {A : Type} (o : outcome A) : script A := run (lift o).

(** a step that reads the files as they are now *)
Definition with_world {A : Type} (f : world -> script A) : script A := fun w => f w w.

(** [try { body } catch (error) { handler(error) }] *)
Definition try_script {A : Type} (body : script A) (handler : string -> script A) : script A :=
  fun w =>
    match body w with
    | (Raise e, w') => handler e w'
    | other => other
    end.

Declare Scope script_scope.
Delimit Scope script_scope with script.
Notation "x <- s ;; k" := (and_then s (fun x => k))
  (at level 61, s at next level, right associativity) : script_scope.
Notation "s ;; k" := (and_then s (fun _ => k))
  (at level 61, right associativity) : script_scope.

(** The status the process ends with, [None] when it does not end.  Every
    [main] is an [async] function called without a handler: when it
    returns, node ends the process with status 0 once nothing is left to
    do, and an exception that leaves it is an unhandled rejection, status
    1. *)
Definition exit_status {A : Type} (r : step A) : option Z :=
  match r with
  | Exit code => Some code
  | Next _ => Some 0%Z
  | Raise _ => Some 1%Z
  | Waits => None
  end.

(** What a hook reads from descriptor 0, trimmed: nothing, the text of a
    JSON value, or text that is not JSON *)
Inductive input_text : Type :=
| Blank
| JsonText (v : json)
| OtherText.

(** [JSON.parse(stdin)] for a text that is not blank *)
Definition parse_input (t : input_text) : outcome json :=
  match t with
  | JsonText v => Ok v
  | _ => Throw "SyntaxError"
  end.

(** [process.env] and the object [loadEnv()] returns: names and texts *)
Definition environment : Type := list (string * string).

Fixpoint getenv (name : string) (env : environment) : option json :=
  match env with
  | [] => None
  | (k, v) :: rest => if k =? name then Some (JStr v) else getenv name rest
  end.

(** [s.split(',').filter(x => x)] *)
Definition split_nonempty (s : string) : json :=
  JArr (map JStr (filter (fun x => negb (x =? "")) (split_on ","%char s))).

(** [v.substring(..)] exists on strings only *)
Definition as_string (v : option json) : outcome string :=
  match v with
  | Some (JStr s) => Ok s
  | _ => Throw "TypeError"
  end.

(** [path.basename(p)] on POSIX *)
Definition basename (p : string) : string :=
  last (filter (fun x => negb (x =? "")) (split_on "/"%char p)) "".

(** [items.some(test)] and [items.find(test)] on the elements of an array *)
Definition some (test : json -> outcome bool) (items : list json) : outcome bool :=
  match findIndex test 0 items with
  | Throw e => Throw e
  | Ok (Some _) => Ok true
  | Ok None => Ok false
  end.

(* --------------------------------------------------------------------- *)
(** ** notifications: the Discord webhook                                 *)
(* --------------------------------------------------------------------- *)

(** the properties of [new URL(text)] that the request uses *)
Record url : Type := {
  protocol : string;
  hostname : string;
  port : string;
  pathname : string;
  search : string
}.

Inductive transport : Type := Http | Https.

(** a request as [req.end()] sends it: the module, the [options] of lines
    97-106 and the body *)
Record request : Type := {
  req_module : transport;
  req_hostname : string;
  req_port : json;
  req_path : string;
  req_method : string;
  req_headers : list (string * json);
  req_body : string
}.

(** what the request reports afterwards: the response callback with a
    status code, or an ['error'] event *)
Inductive event : Type :=
| Response (statusCode : Z)
| RequestError (message : string).

Inductive promise : Type :=
| Pending
| Resolved
| Rejected (error : string).

(** settling a promise: only the first call counts *)
Definition resolve (p : promise) : promise :=
  match p with
  | Pending => Resolved
  | _ => p
  end.

Definition reject (error : string) (p : promise) : promise :=
  match p with
  | Pending => Rejected error
  | _ => p
  end.

(** the functions of node the notifiers call: [new URL(text)], [None] when
    it throws; [JSON.stringify]; [Buffer.byteLength] *)
Record node_lib : Type := {
  parse_url : string -> option url;
  JSON_stringify : json -> string;
  byteLength : string -> Z
}.

(** [await promise].  The promise of [sendDiscordEmbed] is pending as long
    as its request has reported nothing; the request is open, no timeout
    is set, and the process stays alive, waiting. *)
Definition await (p : promise) : script unit :=
  match p with
  | Resolved => next tt
  | Rejected error => fun w => (Raise error, w)
  | Pending => fun w => (Waits, w)
  end.

(** the [options] of lines 97-106 and the body of line 118 *)
Definition webhook_request (lib : node_lib) (u : url) (payload : string) : request :=
  {| req_module := if protocol u =? "https:" then Https else Http;
     req_hostname := hostname u;
     req_port := if port u =? ""
                 then (if protocol u =? "https:" then JNum 443 else JNum 80)
                 else JStr (port u);
     req_path := pathname u ++ search u;
     req_method := "POST";
     req_headers := [ ("Content-Type", JStr "application/json");
                      ("Content-Length", JNum (byteLength lib payload)) ];
     req_body := payload |}.

(** the response callback of lines 109-115 and [req.on('error', reject)] *)
Definition on_event (ev : event) (p : promise) : promise :=
  match ev with
  | Response statusCode =>
      if (200 <=? statusCode)%Z && (statusCode <? 300)%Z then resolve p
      else reject ("Discord API error: " ++ String_of (JNum statusCode)) p
  | RequestError message => reject message p
  end.

Definition settle (events : list event) : promise :=
  fold_left (fun p ev => on_event ev p) events Pending.

(** [container.includes(x)]: membership in an array, a substring test on a
    string; nothing else has the method *)
Definition includes (container x : json) : outcome bool :=
  match container with
  | JArr items => Ok (existsb (strict_eq x) items)
  | JStr s => Ok (match index 0 (String_of x) s with
                  | Some _ => true
                  | None => false
                  end)
  | _ => Throw "TypeError"
  end.

(** *** notifications/send-discord.cjs *)

Module send_discord.

(** the embed of lines 77-97; [time] is [new Date().toLocaleTimeString()] *)
Definition session_embed (message projectName now time : string) : json :=
  JObj [ ("title", JStr "🤖 Gemini CLI Session Complete");
         ("description", JStr message);
         ("color", JNum 5763719);
         ("timestamp", JStr now);
         ("footer", JObj [("text", JStr ("Project Name • " ++ projectName))]);
         ("fields",
          JArr [ JObj [ ("name", JStr "⏰ Session Time");
                        ("value", JStr time);
                        ("inline", JBool true) ];
                 JObj [ ("name", JStr "📂 Project");
                        ("value", JStr projectName);
                        ("inline", JBool true) ] ]) ].

(** [sendDiscordEmbed(webhookUrl, message)], lines 73-125: the requests
    sent and the promise once [events] have been reported.  An exception in
    the executor, which only [new URL] can throw, rejects the promise. *)
Definition sendDiscordEmbed (lib : node_lib) (cwd now time : string)
    (webhookUrl message : string) (events : list event) : list request * promise :=
  let projectName := basename cwd in
  let embed := session_embed message projectName now time in
  let payload := JSON_stringify lib (JObj [("embeds", JArr [embed])]) in
  match parse_url lib webhookUrl with
  | None => ([], Rejected "Invalid URL")
  | Some u => ([webhook_request lib u payload], settle events)
  end.

(** [main()], lines 131-155.  [argv2] is [process.argv[2]]; [loadEnv] is
    what [loadEnv()] returns or throws. *)
Definition main (lib : node_lib) (cwd now time : string) (argv2 : option string)
    (loadEnv : outcome environment) (events : list event) : script unit :=
  (match argv2 with
   | None => process_exit 1
   | Some message =>
       if message =? "" then process_exit 1
       else
         env <- of_outcome loadEnv ;;
         match getenv "DISCORD_WEBHOOK_URL" env with
         | Some (JStr webhookUrl) =>
             if webhookUrl =? "" then process_exit 1
             else
               try_script
                 (await (snd (sendDiscordEmbed lib cwd now time webhookUrl message events)) ;;
                  process_exit 0)
                 (fun _ => process_exit 1)
         | _ => process_exit 1
         end
   end)%script.

End send_discord.

(** *** notifications/gk-discord-notify.cjs *)

Module gk_discord_notify.

(** [sendDiscordEmbed(webhookUrl, embed)], lines 93-121 *)
Definition sendDiscordEmbed (lib : node_lib) (webhookUrl : string) (embed : json)
    (events : list event) : list request * promise :=
  let payload := JSON_stringify lib (JObj [("embeds", JArr [embed])]) in
  match parse_url lib webhookUrl with
  | None => ([], Rejected "Invalid URL")
  | Some u => ([webhook_request lib u payload], settle events)
  end.

(** [wasAlreadyNotified(sessionId)], lines 246-266; [recent] says whether
    the marker file is there and less than 60 seconds old *)
Definition wasAlreadyNotified (recent : bool) (sessionId : json) : outcome bool :=
  if negb (truthy sessionId) then Ok false
  else match sessionId with
       | JStr _ => Ok recent
       | _ => Throw "TypeError"
       end.

(** [markAsNotified(sessionId)], lines 272-283; [tmpdir] is [os.tmpdir()]
    and [now] the ISO time written to the marker, which is not JSON *)
Definition markAsNotified (tmpdir now : string) (sessionId : json) : M unit :=
  if negb (truthy sessionId) then ret tt
  else match sessionId with
       | JStr s =>
           try_catch
             (fs_writeFileSync (path_join tmpdir ("gk-discord-notified-" ++ substring 0 16 s))
                               (CText now))
             (fun _ => ret tt)
       | _ => throw "TypeError"
       end.

(** what one run of the hook is given.  [nr_config] is what [loadConfig()]
    returns or throws and [nr_embed] what [buildEmbed] does; both only
    read. *)
Record notify_run : Type := {
  nr_loadEnv : outcome environment;
  nr_stdin : outcome input_text;
  nr_process_env : environment;
  nr_cwd : string;
  nr_now : string;
  nr_recent : bool;
  nr_config : outcome json;
  nr_embed : outcome json;
  nr_events : list event
}.

(** lines 357-369: is this the end of a sub-agent, and in which role *)
Definition detect_sub_agent (process_env : environment) (session sessionId : json)
    : outcome (bool * json) :=
  let isSubAgent := strict_eq_opt (getenv "GEMINI_TYPE" process_env) (JStr "sub-agent") in
  let agentRole := js_or (getenv "GEMINI_AGENT_ROLE" process_env) (JStr "") in
  if negb isSubAgent && truthy session && truthy sessionId then
    match find_in_agents (agent_gemini_id_is sessionId) session with
    | Throw e => Throw e
    | Ok matchingAgent =>
        if truthy_opt matchingAgent
           && strict_eq_opt (opt_prop_of "agentType" matchingAgent) (JStr "Sub Agent")
        then Ok (true, js_or (opt_prop_of "agentRole" matchingAgent) agentRole)
        else Ok (isSubAgent, agentRole)
    end
  else Ok (isSubAgent, agentRole).

(** [main()], lines 289-399 *)
Definition main (home tmpdir : string) (lib : node_lib) (r : notify_run) : script unit :=
  try_script
    (env <- of_outcome (nr_loadEnv r) ;;
     match getenv "DISCORD_WEBHOOK_URL" env with
     | Some (JStr webhookUrl) =>
         if webhookUrl =? "" then process_exit 0
         else
           stdin <- of_outcome (nr_stdin r) ;;
           match stdin with
           | Blank => process_exit 0
           | _ =>
               data <- of_outcome (parse_input stdin) ;;
               hook <- of_outcome (get_prop "hook_event_name" data) ;;
               let hookEventName := js_or hook (JStr "unknown") in
               let sessionId := js_or (prop "session_id" data) JNull in
               let gkSessionId :=
                 js_or (prop "gk_session_id" data)
                       (js_or (getenv "ACTIVE_GK_SESSION_ID" env) JNull) in
               if negb (strict_eq hookEventName (JStr "SessionEnd")) then process_exit 0
               else
                 let dedupeId := if truthy sessionId then sessionId else gkSessionId in
                 notified <- of_outcome (wasAlreadyNotified (nr_recent r) dedupeId) ;;
                 if notified : bool then process_exit 0
                 else
                   config <- of_outcome (nr_config r) ;;
                   notifications <- of_outcome (get_prop "notifications" config) ;;
                   let notifyConfig :=
                     js_or (opt_prop_of "discord" notifications) (JObj []) in
                   let notifyEnabled :=
                     negb (strict_eq_opt (prop "enabled" notifyConfig) (JBool false)) in
                   let notifyMainAgent :=
                     negb (strict_eq_opt (prop "notifyMainAgent" notifyConfig) (JBool false)) in
                   let notifySubAgentRoles :=
                     js_or (prop "notifySubAgentRoles" notifyConfig) (JArr []) in
                   if negb notifyEnabled then process_exit 0
                   else
                     let projectDir := js_or (prop "cwd" data) (JStr (nr_cwd r)) in
                     of_outcome (as_string (Some projectDir)) ;;
                     ids <- of_outcome (project_identifiers_of (nr_cwd r) projectDir) ;;
                     let projDir := ids_projectDir ids in
                     session <-
                       with_world (fun w =>
                         let session :=
                           if truthy gkSessionId then getSession home projDir gkSessionId w
                           else JNull in
                         if negb (truthy session) && truthy sessionId then
                           match findSessionByGeminiId home projDir sessionId w with
                           | Some sessionPath => run (read_json sessionPath)
                           | None => next session
                           end
                         else next session) ;;
                     sub <- of_outcome (detect_sub_agent (nr_process_env r) session sessionId) ;;
                     let '(isSubAgent, agentRole) := sub in
                     (if isSubAgent : bool then
                        listed <- of_outcome (includes notifySubAgentRoles agentRole) ;;
                        if listed : bool then next tt else process_exit 0
                      else if negb notifyMainAgent then process_exit 0 else next tt) ;;
                     run (markAsNotified tmpdir (nr_now r) dedupeId) ;;
                     embed <- of_outcome (nr_embed r) ;;
                     await (snd (sendDiscordEmbed lib webhookUrl embed (nr_events r))) ;;
                     process_exit 0
           end
     | _ => process_exit 0
     end)%script
    (fun _ => process_exit 0).

End gk_discord_notify.

(** lines 212-228 of gk-session-init.cjs and 121-136 of gk-session-end.cjs:
    the parent session and its id, by [gkParentSessionId] or else by
    [geminiParentSessionId] *)
Definition find_parent (home projectDir : string) (gkParentSessionId geminiParentSessionId : json)
    : script (json * option json) :=
  with_world (fun w =>
    let parentSession :=
      if truthy gkParentSessionId then getSession home projectDir gkParentSessionId w
      else JNull in
    if negb (truthy parentSession) && truthy geminiParentSessionId then
      match findSessionByGeminiId home projectDir geminiParentSessionId w with
      | Some parentSessionPath =>
          (parentSession <- run (read_json parentSessionPath) ;;
           parentGkSessionId <- of_outcome (get_prop "gkSessionId" parentSession) ;;
           next (parentSession, parentGkSessionId))%script
      | None => next (parentSession, Some gkParentSessionId)
      end
    else next (parentSession, Some gkParentSessionId)).

(** *** gk-session-init.cjs *)

Module gk_session_init.

(** What lines 395-456 work out from the configuration and the machine,
    reading only: the plan of the options and the values of [initialState],
    by name. *)
Record first_run : Type := {
  fr_activePlan : json;
  fr_suggestedPlan : json;
  fr_planDateFormat : json;
  fr_value : string -> option json
}.

(** What one run of the hook is given.  The three extractors of lines
    38-72, the work of lines 395-456 and the printing of lines 482-490 only
    read; each is given by what it returns or throws. *)
Record init_run : Type := {
  in_stdin : outcome input_text;
  in_process_env : environment;
  in_proc : process_info;
  in_firstUserPrompt : outcome json;
  in_geminiProjectHash : outcome json;
  in_geminiTempDir : outcome json;
  in_first_run : outcome first_run;
  in_output : outcome unit
}.

(** the [initialState] of lines 420-456 *)
Definition initial_state (cwd : json) (value : string -> option json)
    : list (string * option json) :=
  [ ("planNamingFormat", value "planNamingFormat");
    ("planDateFormat", value "planDateFormat");
    ("planIssuePrefix", value "planIssuePrefix");
    ("planReportsDir", value "planReportsDir");
    ("reportsPath", value "reportsPath");
    ("docsPath", value "docsPath");
    ("plansPath", value "plansPath");
    ("projectRoot", Some cwd);
    ("projectType", value "projectType");
    ("packageManager", value "packageManager");
    ("framework", value "framework");
    ("nodeVersion", value "nodeVersion");
    ("pythonVersion", value "pythonVersion");
    ("osPlatform", value "osPlatform");
    ("gitUrl", value "gitUrl");
    ("gitBranch", value "gitBranch");
    ("user", value "user");
    ("locale", value "locale");
    ("timezone", value "timezone");
    ("geminiSettingsDir", value "geminiSettingsDir");
    ("responseLanguage", value "responseLanguage");
    ("assertions", value "assertions") ].

(** [generateGkSessionId('gemini-sub', parentPid)], line 258, with the pid
    read from the parent session *)
Definition sub_session_id (parentPid : option json) (proc : process_info) : string :=
  "gemini-sub" ++ "-"
  ++ match parentPid with
     | Some v => String_of v
     | None => "undefined"
     end
  ++ "-" ++ toString36 (now_ms proc) ++ "-" ++ random4 proc.

(** [agent => agent.geminiSessionId === geminiSessionId && agent.agentRole
    !== 'main'], line 234 *)
Definition is_registered (geminiSessionId : json) (agent : json) : outcome bool :=
  match agent with
  | JNull => Throw "TypeError"
  | _ => Ok (strict_eq_opt (prop "geminiSessionId" agent) geminiSessionId
             && negb (strict_eq_opt (prop "agentRole" agent) (JStr "main")))
  end.

(** lines 337-349: [.env] gets the hash when it has none *)
Definition fill_env_hash (geminiProjectHash : json) (now : string) : M unit :=
  fun w =>
    let currentEnv := readEnv w in
    if GEMINI_PROJECT_HASH currentEnv =? "" then
      (updateEnv
         {| ed_gkSessionId := opt_str (ACTIVE_GK_SESSION_ID currentEnv);
            ed_gkProjectHash := opt_str (GK_PROJECT_HASH currentEnv);
            ed_projectDir := opt_str (PROJECT_DIR currentEnv);
            ed_geminiSessionId := opt_str (ACTIVE_GEMINI_SESSION_ID currentEnv);
            ed_geminiProjectHash := Some geminiProjectHash;
            ed_activePlan := opt_str (ACTIVE_PLAN currentEnv);
            ed_suggestedPlan := opt_str (SUGGESTED_PLAN currentEnv);
            ed_planDateFormat := opt_str (PLAN_DATE_FORMAT currentEnv) |}
         now ;;
       ret tt) w
    else (Ok tt, w).

Section Hook.

Variable home : string.
Variable sort_sessions : list json -> list json.

(** lines 211-290: a sub-agent is added to the session of its parent *)
Definition register_sub_agent (r : init_run) (projectDir : string)
    (geminiSessionId hookEventName : json) : script unit :=
  let env := in_process_env r in
  let proc := in_proc r in
  let geminiParentSessionId := js_or (getenv "GEMINI_PARENT_SESSION_ID" env) JNull in
  let gkParentSessionId := js_or (getenv "GK_PARENT_SESSION_ID" env) JNull in
  let agentRole := js_or (getenv "GEMINI_AGENT_ROLE" env) (JStr "main") in
  let agentPrompt := js_or (getenv "GEMINI_AGENT_PROMPT" env) JNull in
  let agentModel := js_or (getenv "GEMINI_AGENT_MODEL" env) JNull in
  let agentSkillsEnv := js_or (getenv "GEMINI_AGENT_SKILLS" env) (JStr "") in
  let agentContextEnv := js_or (getenv "GEMINI_AGENT_CONTEXT" env) (JStr "") in
  let agentInjected :=
    if truthy agentSkillsEnv || truthy agentContextEnv
    then JObj [ ("skills", if truthy agentSkillsEnv
                           then split_nonempty (String_of agentSkillsEnv) else JArr []);
                ("context", if truthy agentContextEnv
                            then split_nonempty (String_of agentContextEnv) else JArr []) ]
    else JNull in
  let preGeneratedSubSessionId := js_or (getenv "GK_SUB_SESSION_ID" env) JNull in
  (parent <- find_parent home projectDir gkParentSessionId geminiParentSessionId ;;
   let parentSession := fst parent in
   let parentGkSessionId := js_or (snd parent) JNull in
   if truthy parentSession && truthy parentGkSessionId then
     existingAgents <- of_outcome (as_array (Some (js_or (prop "agents" parentSession)
                                                         (JArr [])))) ;;
     alreadyExists <- of_outcome (some (is_registered geminiSessionId) existingAgents) ;;
     preGenExists <-
       (if truthy preGeneratedSubSessionId
        then of_outcome (some (agent_id_is (Some preGeneratedSubSessionId)) existingAgents)
        else next false) ;;
     if (alreadyExists : bool) || (preGenExists : bool) then
       (if preGenExists && negb alreadyExists
        then run (updateAgentGeminiSession home projectDir parentGkSessionId
                    preGeneratedSubSessionId geminiSessionId) ;;
             next tt
        else next tt) ;;
       if negb (strict_eq hookEventName (JStr "BeforeModel")) then process_exit 0
       else next tt
     else
       let parentPid := prop "pid" parentSession in
       let subAgentGkSessionId :=
         if truthy preGeneratedSubSessionId then preGeneratedSubSessionId
         else JStr (sub_session_id parentPid proc) in
       with_world (fun w =>
         let currentEnv := readEnv w in
         let envGeminiProjectHash := js_or (opt_str (GEMINI_PROJECT_HASH currentEnv)) JNull in
         let parentGeminiProjectHash := js_or (prop "geminiProjectHash" parentSession) JNull in
         let resolvedGeminiProjectHash :=
           js_or (Some envGeminiProjectHash) (js_or (Some parentGeminiProjectHash) JNull) in
         run (addAgent home projectDir parentGkSessionId
                (literal
                   [ ("gkSessionId", Some subAgentGkSessionId);
                     ("pid", parentPid);
                     ("geminiSessionId", Some geminiSessionId);
                     ("geminiProjectHash", Some resolvedGeminiProjectHash);
                     ("parentGkSessionId", Some parentGkSessionId);
                     ("agentRole", Some agentRole);
                     ("prompt", Some agentPrompt);
                     ("model", Some agentModel);
                     ("injected", Some agentInjected) ])
                (now_iso proc))) ;;
       process_exit 0
   else process_exit 0)%script.

(** lines 296-304: the session that holds [geminiSessionId], and its id *)
Definition find_existing (projectDir : string) (geminiSessionId : json)
    : script (json * json) :=
  with_world (fun w =>
    match findSessionByGeminiId home projectDir geminiSessionId w with
    | Some existingSessionPath =>
        (existingSession <- run (read_json existingSessionPath) ;;
         existingGkSessionId <- of_outcome (get_prop "gkSessionId" existingSession) ;;
         next (existingSession, js_or existingGkSessionId JNull))%script
    | None => next (JNull, JNull)
    end).

(** lines 307-319 *)
Definition before_agent (r : init_run) (projectDir : string)
    (existingSession existingGkSessionId : json) : script unit :=
  ((if truthy existingSession && truthy existingGkSessionId then
      firstUserPrompt <- of_outcome (in_firstUserPrompt r) ;;
      if truthy firstUserPrompt
      then run (updateAgentPrompt home projectDir existingGkSessionId existingGkSessionId
                  firstUserPrompt) ;;
           next tt
      else next tt
    else next tt) ;;
   if truthy existingSession && truthy_opt (prop "initialized" existingSession)
   then process_exit 0
   else next tt)%script.

(** lines 322-370 *)
Definition before_model (r : init_run) (projectDir : string)
    (geminiSessionId existingSession existingGkSessionId : json) : script unit :=
  let env := in_process_env r in
  let now := now_iso (in_proc r) in
  let isSubAgent := strict_eq_opt (getenv "GEMINI_TYPE" env) (JStr "sub-agent") in
  let gkParentSessionId := js_or (getenv "GK_PARENT_SESSION_ID" env) JNull in
  (geminiProjectHash <- of_outcome (in_geminiProjectHash r) ;;
   geminiTempDir <- of_outcome (in_geminiTempDir r) ;;
   if isSubAgent && truthy gkParentSessionId && truthy geminiProjectHash then
     run (captureAgentProjectHash home projectDir gkParentSessionId geminiSessionId
            geminiProjectHash now) ;;
     run (fill_env_hash geminiProjectHash now) ;;
     process_exit 0
   else if negb (truthy existingSession)
           || negb (truthy_opt (prop "initialized" existingSession)) then process_exit 0
   else if truthy_opt (prop "geminiProjectHash" existingSession)
           && truthy_opt (prop "geminiTempDir" existingSession)
           && truthy_opt (prop "geminiProjectHashCapturedAt" existingSession)
   then process_exit 0
   else
     (if truthy geminiProjectHash || truthy geminiTempDir
      then run (captureGeminiProjectHash home projectDir existingGkSessionId
                  geminiProjectHash geminiTempDir now) ;;
           next tt
      else next tt) ;;
     process_exit 0)%script.

(** lines 373-391 *)
Definition resume (r : init_run) (geminiSessionId hookEventName : json)
    (existingSession existingGkSessionId : json) : script unit :=
  let now := now_iso (in_proc r) in
  ((if strict_eq hookEventName (JStr "SessionStart") then
      with_world (fun w =>
        let currentEnv := readEnv w in
        run (updateEnv
               {| ed_gkSessionId := Some existingGkSessionId;
                  ed_gkProjectHash := prop "gkProjectHash" existingSession;
                  ed_projectDir := prop "projectDir" existingSession;
                  ed_geminiSessionId := Some geminiSessionId;
                  ed_geminiProjectHash :=
                    Some (js_or (prop "geminiProjectHash" existingSession)
                                (js_or (opt_str (GEMINI_PROJECT_HASH currentEnv)) (JStr "")));
                  ed_activePlan := Some (js_or (prop "activePlan" existingSession) (JStr ""));
                  ed_suggestedPlan :=
                    Some (js_or (prop "suggestedPlan" existingSession) (JStr ""));
                  ed_planDateFormat :=
                    Some (js_or (prop "planDateFormat" existingSession) (JStr "")) |}
               now)) ;;
      of_outcome (as_string (Some existingGkSessionId)) ;;
      next tt
    else next tt) ;;
   process_exit 0)%script.

(** lines 395-492: the session of a main agent is created *)
Definition initialize (r : init_run) (projectDir : string) (cwd geminiSessionId : json)
    : script unit :=
  let env := in_process_env r in
  let proc := in_proc r in
  let geminiParentSessionId := js_or (getenv "GEMINI_PARENT_SESSION_ID" env) JNull in
  (fr <- of_outcome (in_first_run r) ;;
   result <- run (initializeGeminiSession home sort_sessions proc geminiSessionId
                    geminiParentSessionId
                    {| opt_cwd := cwd;
                       opt_activePlan := fr_activePlan fr;
                       opt_suggestedPlan := fr_suggestedPlan fr;
                       opt_planDateFormat := fr_planDateFormat fr;
                       opt_initialState := initial_state cwd (fr_value fr) |}) ;;
   let gkSessionId := js_or (ir_gkSessionId result) JNull in
   run (addAgent home projectDir gkSessionId
          [ ("gkSessionId", gkSessionId);
            ("geminiSessionId", geminiSessionId);
            ("parentGkSessionId", JNull);
            ("agentRole", JStr "main");
            ("prompt", JNull);
            ("model", JNull) ]
          (now_iso proc)) ;;
   of_outcome (in_output r) ;;
   process_exit 0)%script.

(** lines 296-492: what a main agent does, and a sub-agent that is already
    registered when the model is about to be called *)
Definition main_agent (r : init_run) (projectDir : string)
    (cwd geminiSessionId hookEventName : json) : script unit :=
  (existing <- find_existing projectDir geminiSessionId ;;
   let existingSession := fst existing in
   let existingGkSessionId := snd existing in
   (if strict_eq hookEventName (JStr "BeforeAgent")
    then before_agent r projectDir existingSession existingGkSessionId
    else next tt) ;;
   (if strict_eq hookEventName (JStr "BeforeModel")
    then before_model r projectDir geminiSessionId existingSession existingGkSessionId
    else next tt) ;;
   (if truthy existingSession && truthy_opt (prop "initialized" existingSession)
    then resume r geminiSessionId hookEventName existingSession existingGkSessionId
    else next tt) ;;
   initialize r projectDir cwd geminiSessionId)%script.

(** the body of the [try] of [main], lines 180-492 *)
Definition main_body (r : init_run) : script unit :=
  let env := in_process_env r in
  let proc := in_proc r in
  (stdin <- of_outcome (in_stdin r) ;;
   data <- of_outcome (match stdin with
                       | Blank => Ok (JObj [])
                       | _ => parse_input stdin
                       end) ;;
   session_id <- of_outcome (get_prop "session_id" data) ;;
   let geminiSessionId := js_or session_id JNull in
   let cwd := js_or (prop "cwd" data) (JStr (process_cwd proc)) in
   let hookEventName := js_or (prop "hook_event_name" data) (JStr "BeforeAgent") in
   let isSubAgent := strict_eq_opt (getenv "GEMINI_TYPE" env) (JStr "sub-agent") in
   let geminiParentSessionId := js_or (getenv "GEMINI_PARENT_SESSION_ID" env) JNull in
   let gkParentSessionId := js_or (getenv "GK_PARENT_SESSION_ID" env) JNull in
   ids <- of_outcome (project_identifiers_of (process_cwd proc) cwd) ;;
   let projectDir := ids_projectDir ids in
   (if isSubAgent && (truthy gkParentSessionId || truthy geminiParentSessionId)
    then register_sub_agent r projectDir geminiSessionId hookEventName
    else next tt) ;;
   main_agent r projectDir cwd geminiSessionId hookEventName)%script.

(** [main()], lines 178-497 *)
Definition main (r : init_run) : script unit :=
  try_script (main_body r) (fun _ => process_exit 0).

End Hook.

End gk_session_init.

(** *** gk-session-end.cjs *)

Module gk_session_end.

(** [data.exit_reason.toLowerCase()], for a truthy [exit_reason] *)
Definition exit_reason_lower (data : json) : outcome string :=
  match prop "exit_reason" data with
  | Some (JStr s) => Ok (toLowerCase s)
  | _ => Throw "TypeError"
  end.

(** [determineSuccess(data)], lines 51-62 *)
Definition determineSuccess (data : json) : outcome bool :=
  match prop "exit_code" data with
  | Some (JNum n) => Ok (n =? 0)%Z
  | _ =>
      if truthy_opt (prop "exit_reason" data) then
        match exit_reason_lower data with
        | Throw e => Throw e
        | Ok reason =>
            Ok (negb (existsb (String.eqb reason) ["error"; "crash"; "timeout"; "killed"]))
        end
      else Ok true
  end.

(** [extractError(data)], lines 69-82 *)
Definition extractError (data : json) : outcome json :=
  if truthy_opt (prop "error" data) then Ok (js_or (prop "error" data) JNull)
  else if truthy_opt (prop "error_message" data)
  then Ok (js_or (prop "error_message" data) JNull)
  else
    match (if truthy_opt (prop "exit_reason" data)
           then match exit_reason_lower data with
                | Throw e => Throw e
                | Ok reason => Ok (reason =? "error")
                end
           else Ok false) with
    | Throw e => Throw e
    | Ok true =>
        Ok (JStr ("Session ended with error (exit_reason: "
                  ++ String_of (js_or (prop "exit_reason" data) JNull) ++ ")"))
    | Ok false =>
        match prop "exit_code" data with
        | Some (JNum n) =>
            if (n =? 0)%Z then Ok JNull
            else Ok (JStr ("Session ended with exit code " ++ String_of (JNum n)))
        | _ => Ok JNull
        end
    end.

(** What one run of the hook is given.  [en_getAgentTokenUsage] is [None]
    when the extension that reads token usage is not installed, and
    otherwise what its function returns or throws. *)
Record end_run : Type := {
  en_stdin : outcome input_text;
  en_process_env : environment;
  en_proc : process_info;
  en_getAgentTokenUsage : option (outcome json)
}.

(** [a => a.agentRole === 'main' || a.agentType === 'Main Agent'], line 214 *)
Definition is_main_agent (a : json) : outcome bool :=
  match a with
  | JNull => Throw "TypeError"
  | _ => Ok (strict_eq_opt (prop "agentRole" a) (JStr "main")
             || strict_eq_opt (prop "agentType" a) (JStr "Main Agent"))
  end.

(** the [result] of lines 149-154 and 206-210 *)
Definition end_result (success : bool) (exitCode error : json) (tokenUsage : option json)
    : obj :=
  literal [ ("status", opt_str (if success then "completed" else "failed"));
            ("exitCode", Some exitCode);
            ("error", Some error);
            ("tokenUsage", tokenUsage) ].

Section Hook.

Variable home : string.
Variable sort_sessions : list json -> list json.

(** lines 120-163: the end of a sub-agent is recorded in the session of its
    parent *)
Definition end_sub_agent (r : end_run) (projectDir : string) (geminiSessionId : json)
    (success : bool) (exitCode error : json) : script unit :=
  let env := en_process_env r in
  let geminiParentId := js_or (getenv "GEMINI_PARENT_SESSION_ID" env) JNull in
  let gkParentId := js_or (getenv "GK_PARENT_SESSION_ID" env) JNull in
  (parent <- find_parent home projectDir gkParentId geminiParentId ;;
   let parentSession := fst parent in
   let parentGkSessionId := js_or (snd parent) JNull in
   if truthy parentSession && truthy parentGkSessionId then
     subAgent <- of_outcome (find_in_agents (agent_gemini_id_is geminiSessionId)
                                            parentSession) ;;
     if truthy_opt subAgent then
       tokenUsage <-
         match en_getAgentTokenUsage r with
         | Some usage =>
             if truthy geminiSessionId
                && truthy_opt (opt_prop_of "geminiProjectHash" subAgent)
             then of_outcome usage
             else next JNull
         | None => next JNull
         end ;;
       run (endAgent home projectDir parentGkSessionId (opt_prop_of "gkSessionId" subAgent)
              (end_result success exitCode error (Some tokenUsage))
              (now_iso (en_proc r))) ;;
       process_exit 0
     else process_exit 0
   else process_exit 0)%script.

(** lines 173-199: the session to end and its id, from the payload, from
    [.env], or by the Gemini session id *)
Definition find_session (projectDir : string) (gkSessionIdFromPayload geminiSessionId : json)
    : script (json * json) :=
  with_world (fun w =>
    let gkSessionId :=
      if truthy gkSessionIdFromPayload then gkSessionIdFromPayload
      else js_or (opt_str (ACTIVE_GK_SESSION_ID (readEnv w))) JNull in
    let session :=
      if truthy gkSessionId then getSession home projectDir gkSessionId w else JNull in
    if negb (truthy session) && truthy geminiSessionId then
      match findSessionByGeminiId home projectDir geminiSessionId w with
      | Some sessionPath =>
          (session <- run (read_json sessionPath) ;;
           gkSessionId <- of_outcome (get_prop "gkSessionId" session) ;;
           next (session, js_or gkSessionId JNull))%script
      | None => next (session, gkSessionId)
      end
    else next (session, gkSessionId)).

(** the body of the [try] of [main], lines 90-223 *)
Definition main_body (r : end_run) : script unit :=
  let env := en_process_env r in
  let proc := en_proc r in
  (stdin <- of_outcome (en_stdin r) ;;
   data <- of_outcome (match stdin with
                       | Blank => Ok (JObj [])
                       | _ => parse_input stdin
                       end) ;;
   session_id <- of_outcome (get_prop "session_id" data) ;;
   let geminiSessionId := js_or session_id JNull in
   let gkSessionIdFromPayload := js_or (prop "gk_session_id" data) JNull in
   let cwd := js_or (prop "cwd" data) (JStr (process_cwd proc)) in
   let hookEventName := js_or (prop "hook_event_name" data) (JStr "SessionEnd") in
   if negb (strict_eq hookEventName (JStr "SessionEnd")) then process_exit 0
   else
     ids <- of_outcome (project_identifiers_of (process_cwd proc) cwd) ;;
     let projectDir := ids_projectDir ids in
     let isSubAgent := strict_eq_opt (getenv "GEMINI_TYPE" env) (JStr "sub-agent") in
     let geminiParentId := js_or (getenv "GEMINI_PARENT_SESSION_ID" env) JNull in
     let gkParentId := js_or (getenv "GK_PARENT_SESSION_ID" env) JNull in
     success <- of_outcome (determineSuccess data) ;;
     let exitCode := match prop "exit_code" data with
                     | Some (JNum n) => JNum n
                     | _ => if success : bool then JNum 0 else JNum 1
                     end in
     error <- of_outcome (extractError data) ;;
     if isSubAgent && (truthy geminiParentId || truthy gkParentId)
     then end_sub_agent r projectDir geminiSessionId success exitCode error
     else
       found <- find_session projectDir gkSessionIdFromPayload geminiSessionId ;;
       let session := fst found in
       let gkSessionId := snd found in
       if negb (truthy session) || negb (truthy gkSessionId) then process_exit 0
       else
         run (endSession home sort_sessions projectDir gkSessionId
                (end_result success exitCode error None)
                (process_cwd proc) (now_iso proc)) ;;
         with_world (fun w =>
           of_outcome (find_in_agents is_main_agent
                         (getSession home projectDir gkSessionId w))) ;;
         of_outcome (as_string (Some gkSessionId)) ;;
         process_exit 0)%script.

(** [main()], lines 88-228 *)
Definition main (r : end_run) : script unit :=
  try_script (main_body r) (fun _ => process_exit 0).

End Hook.

End gk_session_end.

(** *** The development-rules reminder hook *)

Module gk_dev_rules_reminder.

(** What one run of the hook is given.  [rr_chat] is what
    [wasRecentlyInjectedViaChatFiles] finds in the chat files of Gemini,
    [None] for [null]; [rr_output] is the building and printing of the
    reminder, lines 267-294, which only reads. *)
Record reminder_run : Type := {
  rr_stdin : outcome input_text;
  rr_process_env : environment;
  rr_proc : process_info;
  rr_chat : option bool;
  rr_output : outcome unit
}.

Section Hook.

Variable home : string.

(** [wasRecentlyInjected(sessionId)], lines 101-116, as the [if] of line
    263 reads it *)
Definition wasRecentlyInjected (process_cwd : string) (chat : option bool)
    (sessionId : json) (w : world) : bool :=
  if negb (truthy sessionId) then false
  else
    let state := readSessionState home process_cwd sessionId w in
    if truthy_opt (opt_prop "projectHash" state) then
      match chat with
      | Some skip => skip
      | None => false
      end
    else false.

(** [main()], lines 247-305 *)
Definition main (r : reminder_run) : script unit :=
  let proc := rr_proc r in
  try_script
    (stdin <- of_outcome (rr_stdin r) ;;
     match stdin with
     | Blank => process_exit 0
     | _ =>
         payload <- of_outcome (parse_input stdin) ;;
         of_outcome (get_prop "session_id" payload) ;;
         with_world (fun w =>
           let env := readEnv w in
           let gkSessionId := js_or (opt_str (ACTIVE_GK_SESSION_ID env)) JNull in
           if wasRecentlyInjected (process_cwd proc) (rr_chat r) gkSessionId w
           then process_exit 0
           else
             of_outcome (rr_output r) ;;
             run (markReminderInjected home (process_cwd proc) (now_iso proc)
                    (strict_eq_opt (getenv "GEMINI_TYPE" (rr_process_env r))
                                   (JStr "sub-agent"))
                    gkSessionId) ;;
             process_exit 0)
     end)%script
    (fun _ => process_exit 0).

End Hook.

End gk_dev_rules_reminder.

(** a webhook address and a stand-in for the functions of node *)
Definition demo_url : url :=
  {| protocol := "https:";
     hostname := "discord.com";
     port := "";
     pathname := "/api/webhooks/1/token";
     search := "" |}.

Definition demo_lib : node_lib :=
  {| parse_url := fun text => if String.prefix "https://" text then Some demo_url else None;
     JSON_stringify := fun v => String_of v;
     byteLength := fun s => Z.of_nat (String.length s) |}.

(** ** What the statements about scripts say *)

(** every [process.exit] the script reaches has status 0 *)
Definition exits_zero {A : Type} (s : script A) : Prop :=
  forall (w w' : world) (code : Z), s w = (Exit code, w') -> code = 0%Z.

(** the script waits for ever only when [C] holds *)
Definition waits_only_if {A : Type} (C : Prop) (s : script A) : Prop :=
  forall (w w' : world), s w = (Waits, w') -> C.

(** ** Sub-agents and the session of their parent *)




(** every JSON file of [w] is already there in [w0] *)
Definition within (w0 w : world) : Prop :=
  forall path,
    ends_with ".json" path = true ->
    file_exists path (files w) = true -> file_exists path (files w0) = true.






(** a property of the store that a computation keeps *)
Definition keeps {A : Type} (P : world -> Prop) (m : M A) : Prop :=
  forall w r w', m w = (r, w') -> P w -> P w'.

Definition preserves {A : Type} (P : world -> Prop) (s : script A) : Prop :=
  forall w r w', s w = (r, w') -> P w -> P w'.

(** a property that only looks at the files *)
Definition files_only (P : world -> Prop) : Prop :=
  forall w w', files w' = files w -> P w -> P w'.


(** a session of a main agent is started, then a sub-agent of it *)
Definition demo_init_run : gk_session_init.init_run :=
  {| gk_session_init.in_stdin :=
       Ok (JsonText (JObj [ ("session_id", JStr "g1");
                            ("cwd", JStr "/home/user/proj");
                            ("hook_event_name", JStr "SessionStart") ]));
     gk_session_init.in_process_env := [];
     gk_session_init.in_proc := demo_process;
     gk_session_init.in_firstUserPrompt := Ok JNull;
     gk_session_init.in_geminiProjectHash := Ok JNull;
     gk_session_init.in_geminiTempDir := Ok JNull;
     gk_session_init.in_first_run :=
       Ok {| gk_session_init.fr_activePlan := JNull;
             gk_session_init.fr_suggestedPlan := JNull;
             gk_session_init.fr_planDateFormat := JStr "YYMMDD-HHmm";
             gk_session_init.fr_value := fun _ => None |};
     gk_session_init.in_output := Ok tt |}.

Definition demo_sub_agent_run : gk_session_init.init_run :=
  {| gk_session_init.in_stdin :=
       Ok (JsonText (JObj [ ("session_id", JStr "g2");
                            ("cwd", JStr "/home/user/proj");
                            ("hook_event_name", JStr "SessionStart") ]));
     gk_session_init.in_process_env :=
       [ ("GEMINI_TYPE", "sub-agent");
         ("GK_PARENT_SESSION_ID", "gemini-main-4242-mjuohs00-k3x9");
         ("GEMINI_AGENT_ROLE", "researcher") ];
     gk_session_init.in_proc := demo_process;
     gk_session_init.in_firstUserPrompt := Ok JNull;
     gk_session_init.in_geminiProjectHash := Ok JNull;
     gk_session_init.in_geminiTempDir := Ok JNull;
     gk_session_init.in_first_run := Throw "not reached";
     gk_session_init.in_output := Ok tt |}.


Definition demo_session_world : world :=
  snd (gk_session_init.main "/home/u" (fun l => l) demo_init_run empty_world).


Definition demo_sub_agent_world : world :=
  snd (gk_session_init.main "/home/u" (fun l => l) demo_sub_agent_run demo_session_world).

(** the parent and the type of the agents of a stored session *)
Definition agent_parents (v : option json) : list (option json * option json) :=
  match v with
  | Some (JArr agents) =>
      map (fun a => (prop "parentGkSessionId" a, prop "agentType" a)) agents
  | _ => []
  end.

(** The part of the pattern after the first group, matched from [rest] with
    [caps] captured so far. *)
Definition after_app_name (rest : string) (caps : list string) : option (list string) :=
  rmatch (Seq (Lit "-")
         (Seq (Group (Plus is_digit))
         (Seq (Lit "-")
         (Seq (Group (Plus is_lower_alnum))
         (Seq (Lit "-")
              (Group (Rep 4 is_lower_alnum)))))))
         rest caps (fun rest' caps' => if rest' =? "" then Some caps' else None).


(* ===================================================================== *)
(** * Part I, continued. More of the library                              *)
(* ===================================================================== *)

(* --------------------------------------------------------------------- *)
(** ** gk-session-manager.cjs: the kind of a session id                   *)
(* --------------------------------------------------------------------- *)

(** [detectSessionType(gkSessionId)], lines 237-241; [None] is [null] *)
Definition detectSessionType (gkSessionId : string) : option string :=
  match parseGkSessionId gkSessionId with
  | None => None
  | Some parsed =>
      Some (if String.prefix "gemini-" (id_appName parsed) then "gemini" else "non-gemini")
  end.

(** [isGeminiSession(gkSessionId)], lines 248-250 *)
Definition isGeminiSession (gkSessionId : string) : bool :=
  match detectSessionType gkSessionId with
  | Some t => t =? "gemini"
  | None => false
  end.

(** [isNonGeminiSession(gkSessionId)], lines 257-259 *)
Definition isNonGeminiSession (gkSessionId : string) : bool :=
  match detectSessionType gkSessionId with
  | Some t => t =? "non-gemini"
  | None => false
  end.

(* --------------------------------------------------------------------- *)
(** ** gk-config-utils.cjs: slugs                                         *)
(* --------------------------------------------------------------------- *)

(** [sanitizeSlug(slug)], lines 164-167.  The class [[^a-z0-9-]] is matched
    without regard to case, so letters of both cases stay. *)
Definition sanitizeSlug (slug : string) : string :=
  if slug =? "" then ""
  else
    substring 0 100
      (replace_runs is_hyphen "-" false
         (replace_each (fun c => negb (is_alnum_or_hyphen c)) "-" slug)).

(** a digit of a lower-case hexadecimal number *)
Definition is_hex_digit (c : ascii) : bool := is_digit c || between 97 102 c.

(** the path [generateGkProjectHash] digests, line 287 *)
Definition normalized_project_path (projectPath : string) : string :=
  toLowerCase (replace_each (fun c => Ascii.eqb c "\") "/" projectPath).

(* --------------------------------------------------------------------- *)
(** ** gk-session-manager.cjs: reading single values of [.gemini/.env]    *)
(* --------------------------------------------------------------------- *)

(** [env.KEY || null] for a text of [readEnv()] *)
Definition or_null (value : string) : option string :=
  if value =? "" then None else Some value.

(** [getActiveGkSessionId()], lines 474-477 *)
Definition getActiveGkSessionId (w : world) : option string :=
  or_null (ACTIVE_GK_SESSION_ID (readEnv w)).

(** [getGkProjectHash()], lines 483-486 *)
Definition getGkProjectHash (w : world) : option string :=
  or_null (GK_PROJECT_HASH (readEnv w)).

(** [getActiveGeminiSessionId()], lines 492-495 *)
Definition getActiveGeminiSessionId (w : world) : option string :=
  or_null (ACTIVE_GEMINI_SESSION_ID (readEnv w)).

(** [getGeminiProjectHash()], lines 501-504 *)
Definition getGeminiProjectHash (w : world) : option string :=
  or_null (GEMINI_PROJECT_HASH (readEnv w)).

(** [getActivePlan()], lines 510-513 *)
Definition getActivePlan (w : world) : option string :=
  or_null (ACTIVE_PLAN (readEnv w)).

(** [getSuggestedPlan()], lines 519-522 *)
Definition getSuggestedPlan (w : world) : option string :=
  or_null (SUGGESTED_PLAN (readEnv w)).

(** [getPlanDateFormat()], lines 528-531 *)
Definition getPlanDateFormat (w : world) : option string :=
  or_null (PLAN_DATE_FORMAT (readEnv w)).

(** [getActiveSessionId()] and [getActiveProjectHash()], lines 1533-1543 *)
Definition getActiveSessionId (w : world) : option string := getActiveGkSessionId w.
Definition getActiveProjectHash (w : world) : option string := getGkProjectHash w.

(** a text of ASCII characters with no line terminator in it: what
    [trim] and the patterns of [readEnv] take for a blank or for the end of
    a line is then a blank or a line break of ASCII *)
Definition single_line (s : string) : bool :=
  all_chars (fun c => negb (is_line_end c) && is_ascii c) s.

(** the eight texts [updateEnv] prints after the [=] signs, lines 448-459 *)
Definition env_data_values (envData : env_data) : list string :=
  [ or_empty (ed_gkSessionId envData);
    or_empty (ed_gkProjectHash envData);
    or_empty (ed_projectDir envData);
    or_empty (ed_geminiSessionId envData);
    or_empty (ed_geminiProjectHash envData);
    or_empty (ed_activePlan envData);
    or_empty (ed_suggestedPlan envData);
    or_empty (ed_planDateFormat envData) ].

(** what a session with a plan puts into [.env] *)
Definition demo_env_data : env_data :=
  {| ed_gkSessionId := Some (JStr "gemini-main-4242-mjuohs00-k3x9");
     ed_gkProjectHash := Some (JStr "7d73bf4fdeae2f49");
     ed_projectDir := Some (JStr "home-user-proj");
     ed_geminiSessionId := Some (JStr "g1");
     ed_geminiProjectHash := Some JNull;
     ed_activePlan := Some (JStr " plans/260101-login ");
     ed_suggestedPlan := None;
     ed_planDateFormat := Some (JStr "YYMMDD-HHmm") |}.

(* --------------------------------------------------------------------- *)
(** ** gk-session-manager.cjs: more of the session files                  *)
(* --------------------------------------------------------------------- *)

(** [sessionExists(projectDir, gkSessionId)], lines 622-625;
    [fs.existsSync] holds of a file and of a directory *)
Definition sessionExists (home projectDir : string) (gkSessionId : json) (w : world) : bool :=
  if (projectDir =? "") || negb (truthy gkSessionId) then false
  else
    let sessionPath := session_file home projectDir gkSessionId in
    file_exists sessionPath (files w) || dir_exists sessionPath (files w).

(** a session with two agents, the first of them ended *)
Definition demo_agents_world : world :=
  {| files :=
       [ (demo_data_dir ++ "/gk-session-s1.json",
          CJson (JObj [ ("gkSessionId", JStr "s1");
                        ("gkProjectHash", JStr "7d73bf4fdeae2f49");
                        ("activePlan", JNull);
                        ("agents",
                         JArr [ JObj [ ("gkSessionId", JStr "s1");
                                       ("agentType", JStr "Main Agent");
                                       ("prompt", JNull);
                                       ("retryCount", JNum 0);
                                       ("status", JStr "completed");
                                       ("startTime", JStr "2026-01-01T00:00:00.000Z");
                                       ("endTime", JStr "2026-01-01T00:05:00.000Z") ];
                                JObj [ ("gkSessionId", JStr "a2");
                                       ("agentType", JStr "Sub Agent");
                                       ("parentGkSessionId", JStr "s1");
                                       ("prompt", JStr "look it up");
                                       ("retryCount", JNum 2);
                                       ("status", JStr "active");
                                       ("startTime", JStr "2026-01-01T00:01:00.000Z");
                                       ("endTime", JNull) ] ]) ])) ];
     env_file := None;
     faults := [] |}.

(** [(count || 0) + 1] on a stored value: numbers are added as doubles,
    [true] counts as one, and anything else is printed and followed by [1] *)
Definition js_add_one (v : json) : json :=
  match v with
  | JNum n => JNum (round_double_Z (n + 1))
  | JBool true => JNum 2
  | JBool false => JNum 1
  | JNull => JNum 1
  | JStr s => JStr (s ++ "1")
  | _ => JStr (String_of v ++ "1")
  end.

(** the body [incrementRetryCount] and [incrementResumeCount] share, lines
    1416-1429 and 1438-1451, for the counter [field] *)
Definition increment_agent_count (home field projectDir : string)
    (gkSessionId : json) (agentGkSessionId : option json) : M json :=
  fun w =>
    let session := getSession home projectDir gkSessionId w in
    if negb (truthy session) || negb (truthy_opt (prop "agents" session))
    then (Ok (JNum (-1)), w)
    else
      match as_array (prop "agents" session) with
      | Throw e => (Throw e, w)
      | Ok agents =>
          match findIndex (agent_id_is agentGkSessionId) 0 agents with
          | Throw e => (Throw e, w)
          | Ok None => (Ok (JNum (-1)), w)
          | Ok (Some i) =>
              let agent := nth i agents JNull in
              if negb (truthy agent) then (Ok (JNum (-1)), w)
              else
                let newCount := js_add_one (js_or (prop field agent) (JNum 0)) in
                (updated <- updateAgent home projectDir gkSessionId agentGkSessionId
                              [(field, newCount)] ;;
                 ret (if updated : bool then newCount else JNum (-1))) w
          end
      end.

(** [incrementRetryCount(projectDir, gkSessionId, agentGkSessionId)] *)
Definition incrementRetryCount (home projectDir : string)
    (gkSessionId : json) (agentGkSessionId : option json) : M json :=
  increment_agent_count home "retryCount" projectDir gkSessionId agentGkSessionId.

(** [incrementResumeCount(projectDir, gkSessionId, agentGkSessionId)] *)
Definition incrementResumeCount (home projectDir : string)
    (gkSessionId : json) (agentGkSessionId : option json) : M json :=
  increment_agent_count home "resumeCount" projectDir gkSessionId agentGkSessionId.

(** the [agents] array of the session [getSession] reads, when it is one *)
Definition stored_agents (home projectDir : string) (gkSessionId : json) (w : world)
    : option (list json) :=
  match prop "agents" (getSession home projectDir gkSessionId w) with
  | Some (JArr agents) => Some agents
  | _ => None
  end.

(* --------------------------------------------------------------------- *)
(** ** gk-session-manager.cjs: listing and counting agents                *)
(* --------------------------------------------------------------------- *)

(** the [filters] of [getAgents]; a missing property is [None] *)
Record agent_filters : Type := {
  filter_agentType : option json;
  filter_status : option json
}.

Definition no_filters : agent_filters :=
  {| filter_agentType := None; filter_status := None |}.

(** [a => a.k === v] on an element of an array; reading a property of
    [null] throws *)
Definition prop_is (k : string) (v : json) (a : json) : outcome bool :=
  match a with
  | JNull => Throw "TypeError"
  | _ => Ok (strict_eq_opt (prop k a) v)
  end.

(** [items.filter(test)] *)
Fixpoint filter_by (test : json -> outcome bool) (items : list json) : outcome (list json) :=
  match items with
  | [] => Ok []
  | a :: rest =>
      match test a with
      | Throw e => Throw e
      | Ok keep =>
          match filter_by test rest with
          | Throw e => Throw e
          | Ok kept => Ok (if keep then a :: kept else kept)
          end
      end
  end.

(** [agents.filter(test)] on a value: only arrays have the method *)
Definition filtered (test : json -> outcome bool) (agents : json) : outcome json :=
  match agents with
  | JArr items =>
      match filter_by test items with
      | Ok kept => Ok (JArr kept)
      | Throw e => Throw e
      end
  | _ => Throw "TypeError"
  end.

(** [getAgents(projectDir, gkSessionId, filters)], lines 776-790 *)
Definition getAgents (home projectDir : string) (gkSessionId : json)
    (filters : agent_filters) (w : world) : outcome json :=
  let session := getSession home projectDir gkSessionId w in
  if negb (truthy session) || negb (truthy_opt (prop "agents" session)) then Ok (JArr [])
  else
    let agents := js_or (prop "agents" session) JNull in
    match (match filter_agentType filters with
           | Some v => if truthy v then filtered (prop_is "agentType" v) agents else Ok agents
           | None => Ok agents
           end) with
    | Throw e => Throw e
    | Ok agents =>
        match filter_status filters with
        | Some v => if truthy v then filtered (prop_is "status" v) agents else Ok agents
        | None => Ok agents
        end
    end.

(** the object [getMetrics] returns; [None] in [totalDurationMs] is [NaN] *)
Record metrics : Type := {
  m_total : nat;
  m_active : nat;
  m_completed : nat;
  m_failed : nat;
  m_mainAgents : nat;
  m_subAgents : nat;
  m_totalDurationMs : option Z
}.

(** the body of the [forEach] of lines 811-822.  [date_ms v] is the time
    value of [new Date(v)], [None] for an invalid date. *)
Definition count_agent (date_ms : json -> option Z) (m : metrics) (agent : json)
    : outcome metrics :=
  match agent with
  | JNull => Throw "TypeError"
  | _ =>
      let status := prop "status" agent in
      let active := if strict_eq_opt status (JStr "active")
                    then S (m_active m) else m_active m in
      let completed := if negb (strict_eq_opt status (JStr "active"))
                          && strict_eq_opt status (JStr "completed")
                       then S (m_completed m) else m_completed m in
      let failed := if negb (strict_eq_opt status (JStr "active"))
                       && negb (strict_eq_opt status (JStr "completed"))
                       && strict_eq_opt status (JStr "failed")
                    then S (m_failed m) else m_failed m in
      let main := strict_eq_opt (prop "agentType" agent) (JStr "Main Agent") in
      let duration :=
        if truthy_opt (prop "startTime" agent) && truthy_opt (prop "endTime" agent)
        then match m_totalDurationMs m,
                   date_ms (js_or (prop "endTime" agent) JNull),
                   date_ms (js_or (prop "startTime" agent) JNull) with
             | Some t, Some e, Some s => Some (t + (e - s))%Z
             | _, _, _ => None
             end
        else m_totalDurationMs m in
      Ok {| m_total := m_total m;
            m_active := active;
            m_completed := completed;
            m_failed := failed;
            m_mainAgents := if main then S (m_mainAgents m) else m_mainAgents m;
            m_subAgents := if main then m_subAgents m else S (m_subAgents m);
            m_totalDurationMs := duration |}
  end.

(** [agents.forEach(...)] *)
Fixpoint count_agents (date_ms : json -> option Z) (m : metrics) (agents : list json)
    : outcome metrics :=
  match agents with
  | [] => Ok m
  | agent :: rest =>
      match count_agent date_ms m agent with
      | Throw e => Throw e
      | Ok m' => count_agents date_ms m' rest
      end
  end.

(** [getMetrics(projectDir, gkSessionId)], lines 798-825.  What [getAgents]
    returns without filters is the stored [agents], whatever it is; only an
    array has [forEach]. *)
Definition getMetrics (home projectDir : string) (gkSessionId : json)
    (date_ms : json -> option Z) (w : world) : outcome metrics :=
  match getAgents home projectDir gkSessionId no_filters w with
  | Throw e => Throw e
  | Ok (JArr agents) =>
      count_agents date_ms
        {| m_total := List.length agents; m_active := 0; m_completed := 0; m_failed := 0;
           m_mainAgents := 0; m_subAgents := 0; m_totalDurationMs := Some 0%Z |}
        agents
  | Ok _ => Throw "TypeError"
  end.

(** the status filter of [getAgents] *)
Definition with_status (status : string) : agent_filters :=
  {| filter_agentType := None; filter_status := Some (JStr status) |}.

(** the number of agents [getAgents] lists under [filters] *)
Definition listed (home projectDir : string) (gkSessionId : json)
    (filters : agent_filters) (w : world) : option nat :=
  match getAgents home projectDir gkSessionId filters w with
  | Ok (JArr agents) => Some (List.length agents)
  | _ => None
  end.

(** a reading of ISO times that knows the two of [demo_agents_world] *)
Definition demo_date_ms (v : json) : option Z :=
  match v with
  | JStr "2026-01-01T00:00:00.000Z" => Some 1767225600000%Z
  | JStr "2026-01-01T00:05:00.000Z" => Some 1767225900000%Z
  | _ => None
  end.

(* --------------------------------------------------------------------- *)
(** ** gk-session-manager.cjs: handing the project hash to the parent     *)
(* --------------------------------------------------------------------- *)

(** [updateSession(projectDir, gkSessionId, updates)], lines 605-614, for
    [updates] whose values may be [undefined]: such a property hides the
    one of the session and is left out of the file *)
Definition updateSession_with (home projectDir : string) (gkSessionId : json)
    (updates : list (string * option json)) : M json :=
  fun w =>
    let session := getSession home projectDir gkSessionId w in
    if negb (truthy session) then (Ok JNull, w)
    else
      let updated := JObj (assign_each updates (spread [] (own_props session))) in
      (saved <- saveSession home projectDir gkSessionId updated ;;
       ret (if saved : bool then updated else JNull)) w.

(** [backfillProjectHash(projectDir, childGkSessionId, parentGkSessionId)],
    lines 1307-1319 *)
Definition backfillProjectHash (home projectDir : string)
    (childGkSessionId parentGkSessionId : json) : M bool :=
  fun w =>
    let childSession := getSession home projectDir childGkSessionId w in
    let parentSession := getSession home projectDir parentGkSessionId w in
    if negb (truthy childSession) || negb (truthy parentSession) then (Ok false, w)
    else if negb (truthy_opt (prop "geminiProjectHash" childSession)) then (Ok false, w)
    else if truthy_opt (prop "geminiProjectHash" parentSession) then (Ok true, w)
    else
      (updated <- updateSession_with home projectDir parentGkSessionId
                    [ ("geminiProjectHash", prop "geminiProjectHash" childSession);
                      ("geminiTempDir", prop "geminiTempDir" childSession) ] ;;
       ret (match updated with
            | JNull => false
            | _ => true
            end)) w.

(** two sessions of one project: the child has the hash of Gemini, the
    parent has not *)
Definition demo_backfill_world : world :=
  {| files :=
       [ (demo_data_dir ++ "/gk-session-parent.json",
          CJson (JObj [ ("gkSessionId", JStr "parent");
                        ("geminiProjectHash", JNull);
                        ("geminiTempDir", JStr "/tmp/old");
                        ("agents", JArr []) ]));
         (demo_data_dir ++ "/gk-session-child.json",
          CJson (JObj [ ("gkSessionId", JStr "child");
                        ("geminiProjectHash", JStr "abc123");
                        ("agents", JArr []) ])) ];
     env_file := None;
     faults := [] |}.

(* --------------------------------------------------------------------- *)
(** ** gk-session-manager.cjs: the active plan                            *)
(* --------------------------------------------------------------------- *)

(** the argument of [updateEnv] in [setActivePlan], lines 1513-1522 *)
Definition active_plan_env (session : json) (env : env_vars) (projectDir : string)
    (gkSessionId planPath : json) : env_data :=
  {| ed_gkSessionId := Some gkSessionId;
     ed_gkProjectHash := Some (js_or (prop "gkProjectHash" session) (JStr (GK_PROJECT_HASH env)));
     ed_projectDir := opt_str projectDir;
     ed_geminiSessionId :=
       Some (js_or (prop "geminiSessionId" session) (JStr (ACTIVE_GEMINI_SESSION_ID env)));
     ed_geminiProjectHash :=
       Some (js_or (prop "geminiProjectHash" session) (JStr (GEMINI_PROJECT_HASH env)));
     ed_activePlan := Some planPath;
     ed_suggestedPlan := opt_str "";
     ed_planDateFormat :=
       Some (js_or (prop "planDateFormat" session) (JStr (PLAN_DATE_FORMAT env))) |}.

(** [setActivePlan(projectDir, gkSessionId, planPath)], lines 1500-1523.
    The two assignments of lines 1505-1506 take hold on an object or an
    array and are lost on any other value. *)
Definition setActivePlan (home projectDir : string) (gkSessionId planPath : json)
    (now : string) : M bool :=
  fun w =>
    let session := getSession home projectDir gkSessionId w in
    if negb (truthy session) then (Ok false, w)
    else
      let data := if is_object session
                  then JObj (set "suggestedPlan" JNull
                               (set "activePlan" planPath (own_props session)))
                  else session in
      (saved <- saveSession home projectDir gkSessionId data ;;
       if negb saved then ret false
       else
         fun w1 =>
           updateEnv (active_plan_env session (readEnv w1) projectDir gkSessionId planPath)
                     now w1) w.

(* --------------------------------------------------------------------- *)
(** ** gk-config-utils.cjs: values of the session state                   *)
(* --------------------------------------------------------------------- *)

(** what [state[key]] gives for the state of a session: an own property,
    or a property of [Object.prototype] (a function, or with [__proto__]
    the prototype), which is not a value of JSON *)
Inductive state_value : Type :=
| Stored (v : json)
| Builtin (name : string).

(** [getSessionValue(sessionId, key, defaultValue)], lines 465-469.  The
    state of a session is an object.  A session file that holds another
    truthy value (an array, a text, a number, [true]) is read through the
    prototype of that value, which is not modelled: the result is [None]
    there. *)
Definition getSessionValue (home process_cwd : string) (sessionId : json) (key : string)
    (defaultValue : json) (w : world) : option state_value :=
  let state := readSessionState home process_cwd sessionId w in
  if negb (truthy state) then Some (Stored defaultValue)
  else match state with
       | JObj props =>
           match lookup key props with
           | Some v => Some (Stored v)
           | None => if inherited key then Some (Builtin key)
                     else Some (Stored defaultValue)
           end
       | _ => None
       end.

(* --------------------------------------------------------------------- *)
(** ** gk-session-manager.cjs: the sessions of a project                  *)
(* --------------------------------------------------------------------- *)

(** [getProjectSessions(projectDir, gkProjectHash)], lines 960-963 *)
Definition getProjectSessions (home projectDir : string) (gkProjectHash : json) (w : world)
    : json :=
  js_or (opt_prop "sessions" (getProject home projectDir gkProjectHash w)) (JArr []).

(** the elements of an array; no element for any other value *)
Definition items_of (v : json) : list json :=
  match v with
  | JArr items => items
  | _ => []
  end.

(** the test of line 918 on an entry that is not [null] *)
Definition listed_as (id : json) (s : json) : bool :=
  match summary_id_is (Some id) s with
  | Ok true => true
  | _ => false
  end.

(* --------------------------------------------------------------------- *)
(** ** notifications: the environment of the notification scripts

    [loadEnv()] is the same function in gk-discord-notify.cjs (lines 47-81)
    and in send-discord.cjs (lines 33-64).  It reads two files, given here
    by their text when they exist: [.env] beside the script and
    [.gemini/.env] of the working directory. *)
(* --------------------------------------------------------------------- *)

(** the parts of [s] before and after its first [c], [None] when [s] has
    no [c]: [s.slice(0, i)] and [s.slice(i + 1)] for [i = s.indexOf(c)] *)
Fixpoint split_at_first (c : ascii) (s : string) : option (string * string) :=
  match s with
  | EmptyString => None
  | String a rest =>
      if Ascii.eqb a c then Some (EmptyString, rest)
      else match split_at_first c rest with
           | Some (before, after) => Some (String a before, after)
           | None => None
           end
  end.

Definition double_quote : string := String "034" EmptyString.

(** lines 66-69: [value.slice(1, -1)] when [value] starts and ends with the
    same quote *)
Definition strip_quotes (value : string) : string :=
  if (String.prefix double_quote value && ends_with double_quote value)
     || (String.prefix "'" value && ends_with "'" value)
  then substring 1 (String.length value - 2) value
  else value.

(** lines 59-69: the key and the value of a line, [None] for a line that is
    blank, a comment, or has no [=] after its first character *)
Definition parse_env_line (line : string) : option (string * string) :=
  let trimmed := trim line in
  if (trimmed =? "") || String.prefix "#" trimmed then None
  else
    match split_at_first "=" trimmed with
    | Some (before, after) =>
        if before =? "" then None
        else Some (trim before, strip_quotes (trim after))
    | None => None
    end.

(** [!!process.env[key]], line 71: a variable that is set and not empty,
    or a name that [process.env] inherits from [Object.prototype] *)
Definition process_env_has (key : string) (process_env : environment) : bool :=
  truthy_opt (getenv key process_env) || inherited key.

(** the loop of lines 58-76 over the lines of one file *)
Definition load_env_file (process_env : environment) (content : string) (env : environment)
    : environment :=
  fold_left
    (fun env line =>
       match parse_env_line line with
       | Some (key, value) =>
           if process_env_has key process_env then env else (key, value) :: env
       | None => env
       end)
    (split_on "010" content) env.

(** [loadEnv()] *)
Definition loadEnv (process_env : environment) (notifications_env gemini_env : option string)
    : environment :=
  let env := process_env in
  let env := match notifications_env with
             | Some content => load_env_file process_env content env
             | None => env
             end in
  match gemini_env with
  | Some content => load_env_file process_env content env
  | None => env
  end.

(** the text of a file that is there has ASCII characters only *)
Definition ascii_file (content : option string) : bool :=
  match content with
  | Some text => ascii_only text
  | None => true
  end.

(** the value the last line of [lines] that sets [key] gives it *)
Fixpoint last_assignment (key : string) (lines : list string) : option string :=
  match lines with
  | [] => None
  | line :: rest =>
      match last_assignment key rest with
      | Some v => Some v
      | None =>
          match parse_env_line line with
          | Some (k, v) => if k =? key then Some v else None
          | None => None
          end
      end
  end.

Definition file_assignment (key : string) (content : option string) : option string :=
  match content with
  | Some text => last_assignment key (split_on "010" text)
  | None => None
  end.

(* --------------------------------------------------------------------- *)
(** ** gk-session-init.cjs: the project hash of Gemini                    *)
(* --------------------------------------------------------------------- *)

(** [text.match(r)] for a pattern without anchors: the captures of the
    leftmost match *)
Fixpoint regex_search (r : regex) (s : string) : option (list string) :=
  match rmatch r s [] (fun _ caps => Some caps) with
  | Some caps => Some caps
  | None =>
      match s with
      | EmptyString => None
      | String _ rest => regex_search r rest
      end
  end.

(** a letter of a pattern with the flag [i] *)
Definition ci (c : ascii) : regex := Class (fun x => Ascii.eqb (lower_char x) c).

Definition is_hex_ci (c : ascii) : bool := is_hex_digit (lower_char c).

(** the pattern of line 42: [.gemini], a separator, [tmp], a separator and
    64 hexadecimal digits, whatever the case *)
Definition gemini_tmp_hash_regex : regex :=
  fold_right Seq (Group (Rep 64 is_hex_ci))
    [ Lit "."; ci "g"; ci "e"; ci "m"; ci "i"; ci "n"; ci "i"; Class is_separator;
      ci "t"; ci "m"; ci "p"; Class is_separator ].

(** [v.length] *)
Definition js_length (v : json) : option json :=
  match v with
  | JArr items => Some (JNum (Z.of_nat (List.length items)))
  | JStr s => Some (JNum (Z.of_nat (String.length s)))
  | _ => prop "length" v
  end.

(** [extractGeminiProjectHash(payload)], lines 38-45 *)
Definition extractGeminiProjectHash (payload : json) : outcome json :=
  match payload with
  | JNull => Throw "TypeError"
  | _ =>
      let messages := opt_prop_of "messages" (prop "llm_request" payload) in
      let length := match messages with
                    | Some JNull => None
                    | Some m => js_length m
                    | None => None
                    end in
      if negb (truthy_opt length) then Ok JNull
      else
        match js_or (opt_prop_of "content" (opt_prop_of "0" messages)) (JStr "") with
        | JStr systemMsg =>
            match regex_search gemini_tmp_hash_regex systemMsg with
            | Some (hash :: _) => Ok (JStr hash)
            | _ => Ok JNull
            end
        | _ => Throw "TypeError"
        end
  end.

(* --------------------------------------------------------------------- *)
(** ** gk-session-manager.cjs: a new session and the next run             *)
(* --------------------------------------------------------------------- *)

(** the [initialState] of the options leaves the two ids of a new session
    alone, as the one of gk-session-init.cjs (lines 420-456) does *)
Definition keeps_ids (initialState : list (string * option json)) : bool :=
  forallb (fun field => negb ((fst field =? "gkSessionId") || (fst field =? "geminiSessionId")))
          initialState.

(** the id [initializeGeminiSession] gives a new session, lines 984-986 *)
Definition new_session_id (proc : process_info) (geminiParentId : json) : string :=
  generateGkSessionId (if truthy geminiParentId then "gemini-sub" else "gemini-main")
    (process_pid proc) (now_ms proc) (random4 proc).

(* --------------------------------------------------------------------- *)
(** ** gk-config-utils.cjs: paths inside the project                      *)
(* --------------------------------------------------------------------- *)

(** the test of line 286: [pathValue] resolves to the project root or to a
    place below it *)
Definition inside_root (projectRoot pathValue : string) : bool :=
  let resolved := path_resolve projectRoot pathValue in
  String.prefix (projectRoot ++ "/") resolved || (resolved =? projectRoot).

(** a session with two sub-agents, the first with the hash of its Gemini
    project and the second without *)
Definition demo_sub_agents : list json :=
  [ JObj [ ("gkSessionId", JStr "a1");
           ("agentType", JStr "Sub Agent");
           ("geminiSessionId", JStr "g-a1");
           ("geminiProjectHash", JStr "0a0a") ];
    JObj [ ("gkSessionId", JStr "a2");
           ("agentType", JStr "Sub Agent");
           ("geminiSessionId", JStr "g-a2") ] ].

Definition demo_hashed_agents_world : world :=
  {| files := [ (demo_data_dir ++ "/gk-session-p1.json",
                 CJson (JObj [ ("gkSessionId", JStr "p1");
                               ("geminiProjectHash", JNull);
                               ("agents", JArr demo_sub_agents) ])) ];
     env_file := None;
     faults := [] |}.

(* --------------------------------------------------------------------- *)
(** ** gk-session-manager.cjs: the pid of the terminal

    [getTerminalPid()] walks up the process tree, at most ten steps.  What
    it reads from the machine is given: on Windows what
    [getProcessInfoWin32] returns for a pid, elsewhere the text of
    [/proc/<pid>/comm] and [/proc/<pid>/stat] when the file exists, or the
    error its read throws. *)
(* --------------------------------------------------------------------- *)

(** [isShellProcess(name)], lines 55-59; [None] is [null] *)
Definition isShellProcess (name : option string) : bool :=
  match name with
  | Some n =>
      negb (n =? "")
      && existsb (String.eqb (toLowerCase n))
           ["powershell.exe"; "pwsh.exe"; "cmd.exe"; "bash.exe"; "zsh.exe"; "sh.exe";
            "fish.exe"]
  | None => false
  end.

(** [isIDEProcess(name)], lines 66-94 *)
Definition isIDEProcess (name : option string) : bool :=
  match name with
  | Some n =>
      negb (n =? "")
      && existsb (String.eqb (toLowerCase n))
           ["code.exe"; "code - insiders.exe"; "cursor.exe"; "windsurf.exe"; "positron.exe";
            "idea64.exe"; "idea.exe"; "webstorm64.exe"; "webstorm.exe"; "pycharm64.exe";
            "pycharm.exe"; "phpstorm64.exe"; "phpstorm.exe"; "goland64.exe"; "goland.exe";
            "rustrover64.exe"; "rustrover.exe"; "rider64.exe"; "rider.exe"; "clion64.exe";
            "clion.exe"; "datagrip64.exe"; "datagrip.exe"; "fleet.exe";
            "windowsterminal.exe"; "sublime_text.exe"; "zed.exe"; "terminal.app"]
  | None => false
  end.

Record process_table : Type := {
  platform_win32 : bool;
  process_ppid : N;
  win32_info : N -> option N * option string;
  proc_comm : N -> option (outcome string);
  proc_stat : N -> option (outcome string)
}.

(** the test of line 141 on the trimmed text of [comm] *)
Definition is_unix_shell (comm : string) : bool :=
  existsb (String.eqb comm) ["bash"; "zsh"; "sh"; "fish"; "dash"; "ksh"; "tcsh"; "csh"].

(** the test of line 150 *)
Definition is_unix_ide (comm : string) : bool :=
  existsb (String.eqb comm)
    ["code"; "code-insiders"; "cursor"; "windsurf"; "positron"; "zed";
     "idea"; "webstorm"; "pycharm"; "phpstorm"; "goland"; "rustrover"; "rider"; "clion";
     "datagrip"; "fleet";
     "sublime_text"; "gnome-terminal"; "konsole"; "xterm"; "alacritty"; "kitty"; "wezterm";
     "iterm2"].

(** the pattern of line 159: digits, spaces, a name in parentheses, spaces,
    a word, spaces, and the digits of the parent pid *)
Definition stat_regex : regex :=
  fold_right Seq (Group (Plus is_digit))
    [ Plus is_digit; Plus is_space; Lit "("; Plus (fun c => negb (Ascii.eqb c ")")); Lit ")";
      Plus is_space; Plus (fun c => negb (is_space c)); Plus is_space ].

(** lines 159-162: the parent pid that [stat] names *)
Definition stat_parent (stat : string) : option N :=
  match rmatch stat_regex stat [] (fun _ caps => Some caps) with
  | Some (digits :: _) => Some (parseInt digits)
  | _ => None
  end.

(** [!!pid] for a pid that may be [null] *)
Definition truthy_pid (pid : option N) : bool :=
  match pid with
  | Some p => negb (p =? 0)%N
  | None => false
  end.

(** the loop of lines 109-126; the result is [lastShellPid] when the loop
    ends or returns *)
Fixpoint walk_win32 (info : N -> option N * option string) (steps : nat) (currentPid : N)
    (lastShellPid : option N) : option N :=
  match steps with
  | O => lastShellPid
  | S steps' =>
      let (nextPid, processName) := info currentPid in
      let lastShellPid := if isShellProcess processName then Some currentPid
                          else lastShellPid in
      if isIDEProcess processName && truthy_pid lastShellPid then lastShellPid
      else
        match nextPid with
        | Some next =>
            if (next <=? 4)%N then lastShellPid
            else walk_win32 info steps' next lastShellPid
        | None => lastShellPid
        end
  end.

(** the loop of lines 135-165; an error of a read leaves the loop *)
Fixpoint walk_proc (comm stat : N -> option (outcome string)) (steps : nat) (currentPid : N)
    (lastShellPid : option N) : outcome (option N) :=
  match steps with
  | O => Ok lastShellPid
  | S steps' =>
      let after_comm (lastShellPid : option N) : outcome (option N) :=
        match stat currentPid with
        | None => Ok lastShellPid
        | Some (Throw e) => Throw e
        | Some (Ok text) =>
            match stat_parent text with
            | Some next =>
                if (next <=? 1)%N then Ok lastShellPid
                else walk_proc comm stat steps' next lastShellPid
            | None => Ok lastShellPid
            end
        end in
      match comm currentPid with
      | None => after_comm lastShellPid
      | Some (Throw e) => Throw e
      | Some (Ok text) =>
          let name := trim text in
          let lastShellPid := if is_unix_shell name then Some currentPid else lastShellPid in
          if is_unix_ide name && truthy_pid lastShellPid then Ok lastShellPid
          else after_comm lastShellPid
      end
  end.

(** [lastShellPid || parentPid] *)
Definition pid_or (lastShellPid : option N) (parentPid : N) : N :=
  match lastShellPid with
  | Some p => if (p =? 0)%N then parentPid else p
  | None => parentPid
  end.

(** [getTerminalPid()], lines 102-172 *)
Definition getTerminalPid (t : process_table) : N :=
  let parentPid := process_ppid t in
  if platform_win32 t
  then pid_or (walk_win32 (win32_info t) 10 parentPid None) parentPid
  else match walk_proc (proc_comm t) (proc_stat t) 10 parentPid None with
       | Ok lastShellPid => pid_or lastShellPid parentPid
       | Throw _ => parentPid
       end.

(** the process is a shell, by the test the platform uses *)
Definition is_shell_of (t : process_table) (pid : N) : bool :=
  if platform_win32 t then isShellProcess (snd (win32_info t pid))
  else match proc_comm t pid with
       | Some (Ok text) => is_unix_shell (trim text)
       | _ => false
       end.

(** the parent the walk goes on to from [pid], if it goes on *)
Definition next_pid (t : process_table) (pid : N) : option N :=
  if platform_win32 t
  then match fst (win32_info t pid) with
       | Some next => if (next <=? 4)%N then None else Some next
       | None => None
       end
  else match proc_stat t pid with
       | Some (Ok text) =>
           match stat_parent text with
           | Some next => if (next <=? 1)%N then None else Some next
           | None => None
           end
       | _ => None
       end.

(** the process [n] steps up from [pid] *)
Fixpoint ancestor (t : process_table) (n : nat) (pid : N) : option N :=
  match n with
  | O => Some pid
  | S n' =>
      match next_pid t pid with
      | Some next => ancestor t n' next
      | None => None
      end
  end.

(* --------------------------------------------------------------------- *)
(** ** gk-session-manager.cjs: sessions of other applications             *)
(* --------------------------------------------------------------------- *)

(** what [initializeNonGeminiSession] returns, lines 1196-1202 *)
Record session_result : Type := {
  sr_session : json;
  sr_gkSessionId : string;
  sr_pid : N;
  sr_projectDir : string;
  sr_gkProjectHash : string
}.

(** the new session of lines 1132-1159 *)
Definition non_gemini_session (proc : process_info) (ids : project_identifiers)
    (gkSessionId appName : string) (pid : N) (options : init_options) : obj :=
  set "agents" (JArr [])
    (assign_each (opt_initialState options)
       [ ("gkSessionId", JStr gkSessionId);
         ("gkProjectHash", JStr (ids_gkProjectHash ids));
         ("projectDir", JStr (ids_projectDir ids));
         ("geminiSessionId", JNull);
         ("geminiParentId", JNull);
         ("geminiProjectHash", JNull);
         ("initialized", JBool true);
         ("initTimestamp", JStr (now_iso proc));
         ("sessionType", JStr "non-gemini");
         ("appName", JStr appName);
         ("pid", JNum (Z.of_N pid));
         ("activePlan", if truthy (opt_activePlan options) then opt_activePlan options else JNull);
         ("suggestedPlan", if truthy (opt_suggestedPlan options)
                           then opt_suggestedPlan options else JNull) ]).

(** the argument of [updateEnv], lines 1185-1194: the id of the Gemini
    session is cleared, and the hash of the Gemini project is kept only for
    the project [.env] already names *)
Definition non_gemini_env (existingEnv : env_vars) (ids : project_identifiers)
    (gkSessionId : string) (session : obj) : env_data :=
  {| ed_gkSessionId := opt_str gkSessionId;
     ed_gkProjectHash := opt_str (ids_gkProjectHash ids);
     ed_projectDir := opt_str (ids_projectDir ids);
     ed_geminiSessionId := opt_str "";
     ed_geminiProjectHash :=
       opt_str (if PROJECT_DIR existingEnv =? ids_projectDir ids
                then GEMINI_PROJECT_HASH existingEnv else "");
     ed_activePlan := lookup "activePlan" session;
     ed_suggestedPlan := lookup "suggestedPlan" session;
     ed_planDateFormat := opt_str "" |}.

(** [initializeNonGeminiSession(appName, options)], lines 1125-1203; [t] is
    what [getTerminalPid] reads *)
Definition initializeNonGeminiSession (home : string)
    (sort_sessions : list json -> list json) (proc : process_info) (t : process_table)
    (appName : string) (options : init_options) : M session_result :=
  ids <- lift (project_identifiers_of (process_cwd proc) (opt_cwd options)) ;;
  let projectDir := ids_projectDir ids in
  let gkProjectHash := JStr (ids_gkProjectHash ids) in
  let pid := getTerminalPid t in
  let gkSessionId := generateGkSessionId appName pid (now_ms proc) (random4 proc) in
  let session := non_gemini_session proc ids gkSessionId appName pid options in
  ensureDir (getProjectDataDir home projectDir) ;;
  saveSession home projectDir (JStr gkSessionId) (JObj session) ;;
  ensureProject home projectDir gkProjectHash (JStr (ids_projectPath ids)) (now_iso proc) ;;
  addSessionToProject home sort_sessions projectDir gkProjectHash
    (literal
       [ ("gkSessionId", opt_str gkSessionId);
         ("pid", Some (JNum (Z.of_N pid)));
         ("sessionType", opt_str "non-gemini");
         ("appName", opt_str appName);
         ("startTime", lookup "initTimestamp" session);
         ("activePlan", lookup "activePlan" session) ])
    (process_cwd proc) (now_iso proc) ;;
  fun w1 =>
    (updateEnv (non_gemini_env (readEnv w1) ids gkSessionId session) (now_iso proc) ;;
     ret {| sr_session := JObj session;
            sr_gkSessionId := gkSessionId;
            sr_pid := pid;
            sr_projectDir := projectDir;
            sr_gkProjectHash := ids_gkProjectHash ids |}) w1.

(** a script started from a shell that runs in an editor *)
Definition demo_process_table : process_table :=
  let nl := String "010" "" in
  {| platform_win32 := false;
     process_ppid := 4243;
     win32_info := fun _ => (None, None);
     proc_comm := fun pid =>
       if (pid =? 4243)%N then Some (Ok ("node" ++ nl))
       else if (pid =? 4200)%N then Some (Ok ("bash" ++ nl))
       else if (pid =? 4100)%N then Some (Ok ("code" ++ nl))
       else None;
     proc_stat := fun pid =>
       if (pid =? 4243)%N then Some (Ok "4243 (node) S 4200 4243 4200 34816")
       else if (pid =? 4200)%N then Some (Ok "4200 (bash) S 4100 4200 4200 34816")
       else if (pid =? 4100)%N then Some (Ok "4100 (code) S 1 4100 4100 0")
       else None |}.

(** a store with no file, whose [.env] names a Gemini session of the
    project *)
Definition demo_env_world : world :=
  {| files := [];
     env_file := Some (env_text
                         {| ed_gkSessionId := opt_str "gemini-main-4242-mjuohs00-k3x9";
                            ed_gkProjectHash := opt_str "7d73bf4fdeae2f49";
                            ed_projectDir := opt_str "home-user-proj";
                            ed_geminiSessionId := opt_str "g1";
                            ed_geminiProjectHash := opt_str "0c0c";
                            ed_activePlan := None;
                            ed_suggestedPlan := None;
                            ed_planDateFormat := opt_str "YYMMDD-HHmm" |}
                         "2026-01-01T00:00:00.000Z");
     faults := [] |}.


(* ===================================================================== *)
(** * Part II. Lemmas and theorems                                        *)
(* ===================================================================== *)

(** ** Property lists *)

Lemma has_key_false_lookup (k : string) (o : obj) :
  has_key k o = false -> lookup k o = None.
Proof.
  induction o as [|[k' v] o IH]; simpl; intros H; [reflexivity|].
  apply orb_false_iff in H. destruct H as [H1 H2].
  rewrite (IH H2), H1. reflexivity.
Qed.

Lemma has_key_true_lookup (k : string) (o : obj) :
  has_key k o = true -> exists v, lookup k o = Some v.
Proof.
  induction o as [|[k' v] o IH]; simpl; intros H; [discriminate|].
  apply orb_true_iff in H. destruct (has_key k o) eqn:E.
  - destruct (IH eq_refl) as [w Hw]. rewrite Hw. eauto.
  - destruct H as [H|H]; [|discriminate].
    rewrite (has_key_false_lookup _ _ E), H. eauto.
Qed.

Lemma lookup_app_last (k k' : string) (v : json) (o : obj) :
  lookup k' (o ++ [(k, v)])%list = if k =? k' then Some v else lookup k' o.
Proof.
  induction o as [|[k0 v0] o IH]; simpl.
  - destruct (k =? k'); reflexivity.
  - rewrite IH. destruct (k =? k'); [reflexivity|]. reflexivity.
Qed.

Lemma lookup_overwrite (k k' : string) (v : json) (o : obj) :
  lookup k' (map (fun p => if fst p =? k then (fst p, v) else p) o)
  = if k =? k' then (if has_key k o then Some v else None) else lookup k' o.
Proof.
  induction o as [|[k0 v0] o IH]; simpl.
  - destruct (k =? k'); reflexivity.
  - destruct (String.eqb_spec k0 k) as [->|Hne0]; simpl; rewrite IH.
    + destruct (String.eqb_spec k k') as [->|Hne]; simpl.
      * destruct (has_key k' o); reflexivity.
      * reflexivity.
    + destruct (String.eqb_spec k k') as [->|Hne]; simpl.
      * destruct (has_key k' o); [reflexivity|].
        apply String.eqb_neq in Hne0. rewrite Hne0. reflexivity.
      * reflexivity.
Qed.

Lemma lookup_set (k k' : string) (v : json) (o : obj) :
  lookup k' (set k v o) = if k =? k' then Some v else lookup k' o.
Proof.
  unfold set. destruct (has_key k o) eqn:E.
  - rewrite lookup_overwrite, E. reflexivity.
  - apply lookup_app_last.
Qed.

Lemma lookup_set_eq (k : string) (v : json) (o : obj) :
  lookup k (set k v o) = Some v.
Proof. rewrite lookup_set, String.eqb_refl. reflexivity. Qed.

Lemma lookup_set_neq (k k' : string) (v : json) (o : obj) :
  k <> k' -> lookup k' (set k v o) = lookup k' o.
Proof. intros H. rewrite lookup_set. apply String.eqb_neq in H. rewrite H. reflexivity. Qed.

(** ** deepMerge *)

Lemma lookup_assign_all (f : string -> json -> json) (k : string) (es acc : obj) :
  lookup k (assign_all f es acc)
  = match lookup k es with
    | Some v => Some (f k v)
    | None => lookup k acc
    end.
Proof.
  revert acc. induction es as [|[k' v] es IH]; intros acc; simpl; [reflexivity|].
  rewrite IH. destruct (lookup k es); [reflexivity|].
  rewrite lookup_set. destruct (String.eqb_spec k' k) as [->|]; reflexivity.
Qed.

Lemma lookup_spread (k : string) (a b : obj) :
  lookup k (spread a b)
  = match lookup k b with
    | Some v => Some v
    | None => lookup k a
    end.
Proof. unfold spread. apply lookup_assign_all. Qed.

Lemma has_key_set (k k' : string) (v : json) (o : obj) :
  has_key k' (set k v o) = (k =? k') || has_key k' o.
Proof.
  unfold set. destruct (has_key k o) eqn:E.
  - destruct (String.eqb_spec k k') as [<-|Hne]; cbn [orb].
    + rewrite <- E. unfold has_key. induction o as [|[k0 v0] o IH]; simpl; [reflexivity|].
      destruct (String.eqb_spec k0 k) as [->|]; simpl;
        [rewrite String.eqb_refl; reflexivity|].
      apply String.eqb_neq in n. rewrite n. simpl. simpl in E. rewrite n in E. simpl in E.
      exact (IH E).
    + clear E. unfold has_key. induction o as [|[k0 v0] o IH]; simpl; [reflexivity|].
      rewrite IH. destruct (String.eqb_spec k0 k) as [->|]; simpl; [|reflexivity].
      apply String.eqb_neq in Hne. rewrite Hne. reflexivity.
  - unfold has_key. rewrite existsb_app. simpl. rewrite orb_false_r.
    fold (has_key k' o). rewrite (String.eqb_sym k k'). apply orb_comm.
Qed.

Lemma has_key_put (k k' : string) (v : json) (o : obj) :
  has_key k' (put k v o)
  = ((k =? k') && negb (k =? "__proto__")) || has_key k' o.
Proof.
  unfold put. destruct (String.eqb_spec k "__proto__") as [->|Hne]; cbn [andb negb].
  - destruct (has_key "__proto__" o) eqn:E; cbn [negb].
    + rewrite has_key_set, andb_false_r. cbn [orb].
      destruct (String.eqb_spec "__proto__" k') as [<-|]; [rewrite E|]; reflexivity.
    + rewrite andb_false_r. reflexivity.
  - rewrite has_key_set, andb_true_r. reflexivity.
Qed.

Lemma lookup_put (k k' : string) (v : json) (o : obj) :
  lookup k' (put k v o)
  = if (k =? k') && negb ((k =? "__proto__") && negb (has_key k o))
    then Some v else lookup k' o.
Proof.
  unfold put. destruct ((k =? "__proto__") && negb (has_key k o)); cbn [negb].
  - rewrite andb_false_r. reflexivity.
  - rewrite andb_true_r. apply lookup_set.
Qed.

(** A key other than [__proto__] is assigned like any own property, and
    [__proto__] too when the object already has it *)
Lemma lookup_put_all (f : string -> json -> json) (k : string) (es acc : obj) :
  lookup k (put_all f es acc)
  = match lookup k es with
    | Some v => if (k =? "__proto__") && negb (has_key k acc) then None else Some (f k v)
    | None => lookup k acc
    end.
Proof.
  revert acc. induction es as [|[k' v] es IH]; intros acc; cbn [put_all lookup]; [reflexivity|].
  rewrite IH. destruct (lookup k es) as [x|].
  - rewrite has_key_put.
    destruct (String.eqb_spec k "__proto__") as [->|]; cbn [andb]; [|reflexivity].
    destruct (k' =? "__proto__"); reflexivity.
  - rewrite lookup_put.
    destruct (String.eqb_spec k' k) as [->|]; cbn [andb]; [|reflexivity].
    destruct (String.eqb_spec k "__proto__") as [->|]; cbn [andb negb]; [|reflexivity].
    destruct (has_key "__proto__" acc) eqn:E; cbn [negb]; [reflexivity|].
    apply has_key_false_lookup. exact E.
Qed.

Lemma proto_free_props (props : obj) (k : string) (v : json) :
  proto_free (JObj props) = true -> lookup k props = Some v ->
  k <> "__proto__" /\ proto_free v = true.
Proof.
  induction props as [|[k0 v0] props IH]; intros H Hl; [discriminate Hl|].
  cbn [proto_free] in H. apply andb_prop in H. destruct H as [H Hrest].
  apply andb_prop in H. destruct H as [Hk Hv].
  cbn [lookup] in Hl. destruct (lookup k props) as [r|] eqn:E.
  - injection Hl as <-. apply IH; [exact Hrest|reflexivity].
  - destruct (String.eqb_spec k0 k) as [->|]; [|discriminate Hl].
    injection Hl as <-. split; [|exact Hv].
    intros ->. discriminate Hk.
Qed.

Lemma proto_free_items (items : list json) (x : json) :
  proto_free (JArr items) = true -> In x items -> proto_free x = true.
Proof.
  induction items as [|y items IH]; intros H Hin; [destruct Hin|].
  cbn [proto_free] in H. apply andb_prop in H. destruct H as [Hy Hrest].
  destruct Hin as [<-|Hin]; [exact Hy|]. apply IH; assumption.
Qed.

Lemma lookup_index_props (k : string) (items : list json) (i : nat) (x : json) :
  lookup k (index_props i items) = Some x -> In x items /\ k <> "__proto__".
Proof.
  revert i. induction items as [|y items IH]; intros i H; [discriminate H|].
  cbn [index_props lookup] in H.
  destruct (lookup k (index_props (S i) items)) as [r|] eqn:E.
  - injection H as <-. destruct (IH _ E) as [Hin Hk]. split; [right; exact Hin|exact Hk].
  - destruct (String.eqb_spec (string_of_nat i) k) as [<-|]; [|discriminate H].
    injection H as <-. split; [left; reflexivity|].
    unfold string_of_nat. destruct (Nat.to_uint i); discriminate.
Qed.

(** what a source without the key [__proto__] holds under a key *)
Lemma proto_free_own (s : json) (k : string) (v : json) :
  proto_free s = true -> lookup k (own_props s) = Some v ->
  k <> "__proto__" /\ proto_free v = true.
Proof.
  intros H Hl. destruct s as [| | |str|items|props]; try discriminate Hl.
  - cbn [own_props] in Hl. destruct (lookup_index_props _ _ _ _ Hl) as [Hin Hk].
    split; [exact Hk|].
    clear Hl Hk H. induction str as [|c str IH]; [destruct Hin|].
    destruct Hin as [<-|Hin]; [reflexivity|auto].
  - cbn [own_props] in Hl. destruct (lookup_index_props _ _ _ _ Hl) as [Hin Hk].
    split; [exact Hk|]. exact (proto_free_items _ _ H Hin).
  - exact (proto_free_props _ _ _ H Hl).
Qed.


Example deepMerge_sample :
  deepMerge (JObj [("a", JNum 1); ("l", JArr [JNum 1]); ("o", JObj [("x", JNum 1)])])
            (JObj [("l", JArr [JNum 2]); ("o", JObj [("y", JNull)]); ("b", JNull)])
  = JObj [("a", JNum 1); ("l", JArr [JNum 2]);
          ("o", JObj [("x", JNum 1); ("y", JNull)]); ("b", JNull)].
Proof. reflexivity. Qed.

Lemma merge_items_assign_all (tprops : obj) (items : list json) :
  forall (i : nat) (acc : obj),
  (fix go (i : nat) (es : list json) (acc : obj) {struct es} : obj :=
     match es with
     | [] => acc
     | sourceVal :: es' =>
         go (S i) es' (put (string_of_nat i)
                         (match sourceVal with
                          | JArr items => JArr items
                          | JObj _ => deepMerge (js_or (lookup (string_of_nat i) tprops) (JObj [])) sourceVal
                          | _ => sourceVal
                          end) acc)
     end) i items acc
  = put_all (merged_value tprops) (index_props i items) acc.
Proof.
  induction items as [|x items IH]; intros i acc; simpl; [reflexivity|].
  rewrite IH. reflexivity.
Qed.

Lemma deepMerge_object_source (t s : json) :
  is_object s = true ->
  deepMerge t s
  = if is_object t
    then JObj (put_all (merged_value (own_props t)) (own_props s) (own_props t))
    else s.
Proof.
  destruct s as [| | | |items|sprops]; try discriminate; intros _.
  - simpl. destruct (is_object t); [|reflexivity].
    f_equal. apply merge_items_assign_all.
  - destruct (is_object t) eqn:Et.
    + destruct t; try discriminate; simpl; f_equal.
      * generalize (index_props 0 items) at 2 4 as acc.
        generalize (index_props 0 items) as tp.
        induction sprops as [|[k v] sprops IH]; intros tp acc; simpl; [reflexivity|].
        rewrite IH. reflexivity.
      * generalize props at 2 4 as acc.
        induction sprops as [|[k v] sprops IH]; intros acc; simpl; [reflexivity|].
        rewrite IH. reflexivity.
    + destruct t; try discriminate; reflexivity.
Qed.

Lemma deepMerge_non_object_source (t s : json) :
  is_object s = false -> deepMerge t s = t.
Proof. destruct s; try discriminate; reflexivity. Qed.

Lemma field_deepMerge (k : string) (t s : json) :
  proto_free s = true ->
  is_object s = true -> is_object t = true ->
  field k (deepMerge t s)
  = match field k s with
    | Some v => Some (merged_value (own_props t) k v)
    | None => field k t
    end.
Proof.
  intros Hf Hs Ht. rewrite (deepMerge_object_source t s Hs), Ht.
  unfold field at 1. simpl. rewrite lookup_put_all.
  unfold field. rewrite Hs, Ht.
  destruct (lookup k (own_props s)) as [v|] eqn:E; [|reflexivity].
  destruct (proto_free_own _ _ _ Hf E) as [Hk _].
  apply String.eqb_neq in Hk. rewrite Hk. reflexivity.
Qed.

Lemma field_proto_free (k : string) (s v : json) :
  proto_free s = true -> field k s = Some v -> proto_free v = true.
Proof.
  unfold field. intros H Hl. destruct (is_object s); [|discriminate Hl].
  exact (proj2 (proto_free_own _ _ _ H Hl)).
Qed.

Lemma get_path_cons (k : string) (r : list string) (v : json) :
  get_path (k :: r) v
  = match field k v with
    | Some x => get_path r x
    | None => None
    end.
Proof. reflexivity. Qed.

Lemma get_path_non_object (p : list string) (v : json) :
  p <> [] -> is_object v = false -> get_path p v = None.
Proof.
  destruct p as [|k r]; [congruence|]. intros _ H. simpl. unfold field. rewrite H. reflexivity.
Qed.

Lemma get_path_empty_object (p : list string) :
  p <> [] -> get_path p (JObj []) = None.
Proof. destruct p; [congruence|reflexivity]. Qed.

Lemma get_path_leaf_step (k : string) (r : list string) (sv v : json) (tp : obj) :
  (forall t, is_object sv = true -> r <> [] -> get_path r (deepMerge t sv) = Some v) ->
  get_path r sv = Some v -> leaf v = true ->
  get_path r (merged_value tp k sv) = Some v.
Proof.
  intros IH H Hl. destruct r as [|k2 r2].
  - simpl in H. injection H as ->. destruct v; try discriminate; reflexivity.
  - destruct sv; try (simpl in H; discriminate H).
    + exact H.
    + unfold merged_value. apply IH; [reflexivity|discriminate].
Qed.

(** Where a source holds a leaf, the merge holds that leaf. *)
Lemma deepMerge_later_wins (p : list string) :
  forall (t s v : json),
  proto_free s = true ->
  is_object s = true -> p <> [] ->
  get_path p s = Some v -> leaf v = true ->
  get_path p (deepMerge t s) = Some v.
Proof.
  induction p as [|k r IH]; intros t s v Hf Hs Hp H Hl; [congruence|].
  destruct (is_object t) eqn:Ht.
  - rewrite get_path_cons, (field_deepMerge k t s Hf Hs Ht).
    rewrite get_path_cons in H. destruct (field k s) as [sv|] eqn:Ek; [|discriminate].
    pose proof (field_proto_free _ _ _ Hf Ek) as Hsv.
    apply get_path_leaf_step; auto.
  - rewrite (deepMerge_object_source t s Hs), Ht. exact H.
Qed.

Lemma silentb_get_path (p : list string) :
  forall s, silentb p s = true -> get_path p s = None.
Proof.
  induction p as [|k r IH]; intros s H; [discriminate|].
  destruct s; try discriminate. simpl in *. unfold field. simpl.
  destruct (lookup k props); [apply IH; exact H|reflexivity].
Qed.

(** Where a source is silent, the merge keeps what the target holds. *)
Lemma deepMerge_earlier_kept (p : list string) :
  forall (t s : json),
  proto_free s = true ->
  silentb p s = true ->
  get_path p (deepMerge t s) = get_path p t.
Proof.
  induction p as [|k r IH]; intros t s Hf H; [discriminate|].
  destruct s as [| | | | |sprops]; try discriminate.
  destruct (is_object t) eqn:Ht.
  - rewrite !get_path_cons. rewrite (field_deepMerge k t (JObj sprops) Hf eq_refl Ht).
    simpl in H. unfold field at 1. cbn [is_object own_props].
    destruct (lookup k sprops) as [sv|] eqn:Ek; [|reflexivity].
    pose proof (proj2 (proto_free_props _ _ _ Hf Ek)) as Hsv.
    assert (Hr : r <> []) by (destruct r; [discriminate|discriminate]).
    assert (Ho : exists o, sv = JObj o).
    { destruct r; [discriminate|]. destruct sv; try discriminate. eauto. }
    destruct Ho as [o ->]. unfold merged_value. rewrite IH by assumption.
    unfold field. rewrite Ht. destruct (lookup k (own_props t)) as [x|]; simpl.
    + destruct (truthy x) eqn:Ex; [reflexivity|].
      rewrite get_path_empty_object by exact Hr.
      symmetry. apply get_path_non_object; [exact Hr|].
      destruct x; try discriminate; reflexivity.
    + apply get_path_empty_object; exact Hr.
  - rewrite (deepMerge_object_source t (JObj sprops) eq_refl), Ht.
    rewrite (silentb_get_path _ _ H).
    symmetry. apply get_path_non_object; [discriminate|exact Ht].
Qed.

Lemma deepMerge_layer_silent (p : list string) (t s : json) :
  proto_free s = true ->
  layer_silent p s = true ->
  get_path p (deepMerge t s) = get_path p t.
Proof.
  unfold layer_silent. intros Hf H. apply orb_true_iff in H. destruct H as [H|H].
  - apply negb_true_iff in H. rewrite deepMerge_non_object_source; auto.
  - apply deepMerge_earlier_kept; assumption.
Qed.




(** ** loadConfig *)

Lemma falsy_not_object (v : json) : truthy v = false -> is_object v = false.
Proof. destruct v; try discriminate; reflexivity. Qed.

Lemma merge_layers_eq (g l : json) :
  merge_layers g l = deepMerge (deepMerge (deepMerge (JObj []) DEFAULT_CONFIG) g) l.
Proof.
  unfold merge_layers.
  destruct (truthy g) eqn:Eg, (truthy l) eqn:El;
    rewrite ?(deepMerge_non_object_source _ g (falsy_not_object g Eg));
    rewrite ?(deepMerge_non_object_source _ l (falsy_not_object l El));
    reflexivity.
Qed.

Lemma lookup_spread_nil (k : string) (o : obj) : lookup k (spread [] o) = lookup k o.
Proof. rewrite lookup_spread. destruct (lookup k o); reflexivity. Qed.

Lemma lookup_update_if_truthy (k k' : string) (f : json -> json) (o : obj) :
  lookup k' (update_if_truthy k f o)
  = if k =? k'
    then match lookup k o with
         | Some v => Some (if truthy v then f v else v)
         | None => None
         end
    else lookup k' o.
Proof.
  unfold update_if_truthy. destruct (String.eqb_spec k k') as [<-|Hne].
  - destruct (lookup k o) as [v|] eqn:E; [|exact E].
    destruct (truthy v); [apply lookup_set_eq|exact E].
  - destruct (lookup k o) as [v|]; [|reflexivity].
    destruct (truthy v); [apply lookup_set_neq; exact Hne|reflexivity].
Qed.

Lemma lookup_sanitizeConfig (k : string) (config : obj) (projectRoot : string) :
  lookup k (sanitizeConfig config projectRoot)
  = match lookup k config with
    | Some v =>
        Some (if truthy v then
                if k =? "plan" then JObj (sanitize_plan v projectRoot)
                else if k =? "paths" then JObj (sanitize_paths v projectRoot)
                else if k =? "locale" then JObj (spread [] (own_props v))
                else v
              else v)
    | None => None
    end.
Proof.
  unfold sanitizeConfig. rewrite !lookup_update_if_truthy, !lookup_spread_nil.
  rewrite (String.eqb_sym k "plan"), (String.eqb_sym k "paths"), (String.eqb_sym k "locale").
  destruct ("locale" =? k) eqn:E3.
  - apply String.eqb_eq in E3. subst k. reflexivity.
  - destruct ("paths" =? k) eqn:E2.
    + apply String.eqb_eq in E2. subst k. reflexivity.
    + destruct ("plan" =? k) eqn:E1.
      * apply String.eqb_eq in E1. subst k. reflexivity.
      * destruct (lookup k config) as [v|]; [|reflexivity]. destruct (truthy v); reflexivity.
Qed.

Lemma lookup_sanitizeConfig_other (k : string) (config : obj) (projectRoot : string) :
  k <> "plan" -> k <> "paths" -> k <> "locale" ->
  lookup k (sanitizeConfig config projectRoot) = lookup k config.
Proof.
  intros H1 H2 H3. rewrite lookup_sanitizeConfig.
  apply String.eqb_neq in H1, H2, H3. rewrite H1, H2, H3.
  destruct (lookup k config) as [v|]; [|reflexivity]. destruct (truthy v); reflexivity.
Qed.

Ltac case_options options :=
  destruct options as [[|] [|] [|]]; cbn [includeProject includeAssertions includeLocale].

Ltac case_optional_sections M :=
  destruct (field "spawn" M) as [spawn|]; [destruct (truthy spawn)|];
  (destruct (field "notifications" M) as [notifications|]; [destruct (truthy notifications)|]).

Lemma lookup_select_sections (options : load_options) (M : json) (section : string) :
  pass_through options section = true ->
  truthy_opt (field section M) = true ->
  lookup section (select_sections options M) = field section M.
Proof.
  unfold pass_through. intros H Ht.
  repeat (apply orb_true_iff in H; destruct H as [H|H]);
    try (apply andb_true_iff in H; destruct H as [Ho H]);
    apply String.eqb_eq in H; subst section;
    unfold select_sections; try rewrite Ho;
    destruct (field _ M) as [x|] eqn:Ex in Ht; try discriminate Ht; simpl in Ht;
    rewrite ?Ex;
    case_options options; try discriminate Ho;
    try case_optional_sections M; try discriminate; try (injection Ex as ->);
    try rewrite Ht in *; try discriminate;
    rewrite ?lookup_set; simpl; unfold js_or; rewrite ?Ex, ?Ht; reflexivity.
Qed.

Lemma lookup_select_plan (options : load_options) (M : json) :
  lookup "plan" (select_sections options M) = Some (js_or (field "plan" M) (JObj DEFAULT_plan)).
Proof.
  unfold select_sections. case_options options; case_optional_sections M;
    rewrite ?lookup_set; reflexivity.
Qed.

Lemma lookup_select_paths (options : load_options) (M : json) :
  lookup "paths" (select_sections options M) = Some (js_or (field "paths" M) (JObj DEFAULT_paths)).
Proof.
  unfold select_sections. case_options options; case_optional_sections M;
    rewrite ?lookup_set; reflexivity.
Qed.

Lemma lookup_select_locale (options : load_options) (M : json) :
  includeLocale options = true ->
  lookup "locale" (select_sections options M) = Some (js_or (field "locale" M) (JObj DEFAULT_locale)).
Proof.
  intros H. unfold select_sections. rewrite H.
  case_options options; case_optional_sections M; rewrite ?lookup_set; reflexivity.
Qed.

Lemma sanitize_plan_keys (po : obj) (projectRoot : string) :
  (forall k, k <> "reportsDir" -> k <> "resolution" ->
     lookup k (sanitize_plan (JObj po) projectRoot) = lookup k po)
  /\ lookup "reportsDir" (sanitize_plan (JObj po) projectRoot)
     = if truthy_opt (sanitizePath (lookup "reportsDir" po) projectRoot)
       then lookup "reportsDir" po
       else Some (JStr "reports").
Proof.
  unfold sanitize_plan. cbn [own_props]. rewrite lookup_spread_nil. split.
  - intros k H1 H2.
    destruct (truthy_opt (sanitizePath (lookup "reportsDir" po) projectRoot)); cbn [negb];
      rewrite ?lookup_set_neq by congruence; apply lookup_spread_nil.
  - destruct (truthy_opt (sanitizePath (lookup "reportsDir" po) projectRoot)); cbn [negb];
      rewrite lookup_set_neq by discriminate;
      [apply lookup_spread_nil|apply lookup_set_eq].
Qed.

Lemma sanitize_paths_keys (po : obj) (projectRoot : string) :
  (forall k, k <> "docs" -> k <> "plans" ->
     lookup k (sanitize_paths (JObj po) projectRoot) = lookup k po)
  /\ lookup "docs" (sanitize_paths (JObj po) projectRoot)
     = (if truthy_opt (sanitizePath (lookup "docs" po) projectRoot)
        then lookup "docs" po
        else Some (JStr "docs"))
  /\ lookup "plans" (sanitize_paths (JObj po) projectRoot)
     = (if truthy_opt (sanitizePath (lookup "plans" po) projectRoot)
        then lookup "plans" po
        else Some (JStr "plans")).
Proof.
  unfold sanitize_paths. cbn [own_props]. rewrite lookup_spread_nil.
  set (p1 := if negb (truthy_opt (sanitizePath (lookup "docs" po) projectRoot)) then _ else _).
  assert (Hp : lookup "plans" p1 = lookup "plans" po).
  { subst p1. destruct (truthy_opt (sanitizePath (lookup "docs" po) projectRoot)); cbn [negb];
      rewrite ?lookup_set_neq by discriminate; apply lookup_spread_nil. }
  assert (Hd : lookup "docs" p1
               = if truthy_opt (sanitizePath (lookup "docs" po) projectRoot)
                 then lookup "docs" po else Some (JStr "docs")).
  { subst p1. destruct (truthy_opt (sanitizePath (lookup "docs" po) projectRoot)); cbn [negb];
      [apply lookup_spread_nil|apply lookup_set_eq]. }
  assert (Ho : forall k, k <> "docs" -> lookup k p1 = lookup k po).
  { intros k Hk. subst p1.
    destruct (truthy_opt (sanitizePath (lookup "docs" po) projectRoot)); cbn [negb];
      rewrite ?lookup_set_neq by congruence; apply lookup_spread_nil. }
  rewrite Hp. clearbody p1.
  destruct (truthy_opt (sanitizePath (lookup "plans" po) projectRoot)); cbn [negb].
  - repeat split; auto.
  - repeat split.
    + intros k H1 H2. rewrite lookup_set_neq by congruence. auto.
    + rewrite lookup_set_neq by discriminate. exact Hd.
    + apply lookup_set_eq.
Qed.

Lemma field_JObj (k : string) (o : obj) : field k (JObj o) = lookup k o.
Proof. reflexivity. Qed.

Lemma get_path_section (section k : string) (q : list string) (M : json) (c so so' : obj) :
  field section M = Some (JObj so) ->
  lookup section c = Some (JObj so') ->
  lookup k so' = lookup k so ->
  get_path (section :: k :: q) (JObj c) = get_path (section :: k :: q) M.
Proof.
  intros HM Hc Hk. rewrite !get_path_cons, field_JObj, Hc, HM, !get_path_cons, !field_JObj, Hk.
  reflexivity.
Qed.

Lemma lookup_select_trust (options : load_options) (M : json) :
  lookup "trust" (select_sections options M)
  = Some (js_or (field "trust" M) (JObj DEFAULT_trust)).
Proof.
  unfold select_sections. case_options options; case_optional_sections M;
    rewrite ?lookup_set; reflexivity.
Qed.

Lemma lookup_select_project (options : load_options) (M : json) :
  lookup "project" (select_sections options M)
  = if includeProject options
    then Some (js_or (field "project" M) (JObj DEFAULT_project))
    else None.
Proof.
  unfold select_sections. case_options options; case_optional_sections M;
    rewrite ?lookup_set; reflexivity.
Qed.

Lemma lookup_select_assertions (options : load_options) (M : json) :
  lookup "assertions" (select_sections options M)
  = if includeAssertions options
    then Some (js_or (field "assertions" M) (JArr []))
    else None.
Proof.
  unfold select_sections. case_options options; case_optional_sections M;
    rewrite ?lookup_set; reflexivity.
Qed.

Lemma lookup_select_optional (options : load_options) (M : json) (section : string) :
  section = "spawn" \/ section = "notifications" ->
  lookup section (select_sections options M)
  = if truthy_opt (field section M) then field section M else None.
Proof.
  intros [-> | ->]; unfold select_sections; case_options options;
    (destruct (field "spawn" M) as [spawn|]; [destruct (truthy spawn) eqn:Es|]);
    (destruct (field "notifications" M) as [notifications|];
     [destruct (truthy notifications) eqn:En|]);
    cbn [truthy_opt]; rewrite ?Es, ?En; rewrite ?lookup_set; reflexivity.
Qed.

(** C1, as amended.  The two config files are given by what
    [loadConfigFromPath] returned for them, values in which no object has
    the key [__proto__].  With neither file yielding a truthy value
    [loadConfig] returns [getDefaultConfig].  Otherwise it returns
    [sanitizeConfig] of the sections it selects from [M], the deep merge of
    defaults, then global, then local.  Of [M] the result keeps: the
    sections [trust], [project], [assertions], [spawn], [notifications] as
    they are when they are selected and truthy; a falsy [trust], [project]
    or [assertions] is replaced by the default, a falsy [spawn] or
    [notifications] is left out, and [project] and [assertions] are left
    out when the options do not include them; every key of [plan] but
    [reportsDir] and [resolution]; every key of [paths] but [docs] and
    [plans]; every key of [locale].  [plan.reportsDir], [paths.docs] and
    [paths.plans] keep the merged value only if [sanitizePath] accepts it
    and fall back to the default otherwise.  In [M] itself a leaf held by
    local wins; where local is silent a leaf held by global wins; where both
    are silent the default stands. *)
Theorem loadConfig_cascade (options : load_options) (projectRoot : string) (g l : json) :
  proto_free g = true ->
  proto_free l = true ->
  let M := deepMerge (deepMerge (deepMerge (JObj []) DEFAULT_CONFIG) g) l in
  let cfg := loadConfig options projectRoot g l in
  (truthy g || truthy l = false -> cfg = JObj (getDefaultConfig options))
  /\ (truthy g || truthy l = true ->
      cfg = JObj (sanitizeConfig (select_sections options M) projectRoot)
      /\ (forall section q,
            pass_through options section = true ->
            truthy_opt (field section M) = true ->
            get_path (section :: q) cfg = get_path (section :: q) M)
      /\ get_path ["trust"] cfg = Some (js_or (field "trust" M) (JObj DEFAULT_trust))
      /\ get_path ["project"] cfg
         = (if includeProject options
            then Some (js_or (field "project" M) (JObj DEFAULT_project))
            else None)
      /\ get_path ["assertions"] cfg
         = (if includeAssertions options
            then Some (js_or (field "assertions" M) (JArr []))
            else None)
      /\ (forall section,
            section = "spawn" \/ section = "notifications" ->
            get_path [section] cfg
            = if truthy_opt (field section M) then field section M else None)
      /\ (forall po k q,
            field "plan" M = Some (JObj po) ->
            k <> "reportsDir" -> k <> "resolution" ->
            get_path ("plan" :: k :: q) cfg = get_path ("plan" :: k :: q) M)
      /\ (forall po,
            field "plan" M = Some (JObj po) ->
            get_path ["plan"; "reportsDir"] cfg
            = if truthy_opt (sanitizePath (lookup "reportsDir" po) projectRoot)
              then lookup "reportsDir" po
              else Some (JStr "reports"))
      /\ (forall po k q,
            field "paths" M = Some (JObj po) ->
            k <> "docs" -> k <> "plans" ->
            get_path ("paths" :: k :: q) cfg = get_path ("paths" :: k :: q) M)
      /\ (forall po k,
            field "paths" M = Some (JObj po) ->
            k = "docs" \/ k = "plans" ->
            get_path ["paths"; k] cfg
            = if truthy_opt (sanitizePath (lookup k po) projectRoot)
              then lookup k po
              else Some (JStr k))
      /\ (forall lo k q,
            includeLocale options = true ->
            field "locale" M = Some (JObj lo) ->
            get_path ("locale" :: k :: q) cfg = get_path ("locale" :: k :: q) M))
  /\ (forall p v,
        p <> [] -> is_object l = true ->
        get_path p l = Some v -> leaf v = true ->
        get_path p M = Some v)
  /\ (forall p v,
        p <> [] -> layer_silent p l = true -> is_object g = true ->
        get_path p g = Some v -> leaf v = true ->
        get_path p M = Some v)
  /\ (forall p,
        layer_silent p l = true -> layer_silent p g = true ->
        get_path p M = get_path p DEFAULT_CONFIG).
Proof.
  intros Hfg Hfl M cfg. split; [|split; [|split; [|split]]].
  - intros H. subst cfg. unfold loadConfig.
    apply orb_false_iff in H. destruct H as [-> ->]. reflexivity.
  - intros H.
    assert (Hcfg : cfg = JObj (sanitizeConfig (select_sections options M) projectRoot)).
    { subst cfg M. unfold loadConfig. rewrite <- negb_orb, H, merge_layers_eq. reflexivity. }
    split; [exact Hcfg|]. rewrite Hcfg. clear Hcfg cfg.
    split; [|split; [|split; [|split; [|split; [|split; [|split; [|split; [|split]]]]]]]].
    + intros section q Hp Ht.
      rewrite !get_path_cons, field_JObj.
      assert (Hs : section <> "plan" /\ section <> "paths" /\ section <> "locale").
      { unfold pass_through in Hp.
        repeat split; intros ->; destruct options as [[|] [|] [|]]; discriminate Hp. }
      destruct Hs as (H1 & H2 & H3).
      rewrite lookup_sanitizeConfig_other by assumption.
      rewrite lookup_select_sections by assumption. reflexivity.
    + rewrite get_path_cons, field_JObj, lookup_sanitizeConfig_other by discriminate.
      rewrite lookup_select_trust. reflexivity.
    + rewrite get_path_cons, field_JObj, lookup_sanitizeConfig_other by discriminate.
      rewrite lookup_select_project. destruct (includeProject options); reflexivity.
    + rewrite get_path_cons, field_JObj, lookup_sanitizeConfig_other by discriminate.
      rewrite lookup_select_assertions. destruct (includeAssertions options); reflexivity.
    + intros section Hs.
      rewrite get_path_cons, field_JObj,
        lookup_sanitizeConfig_other by (destruct Hs as [-> | ->]; discriminate).
      rewrite (lookup_select_optional _ _ _ Hs).
      destruct (truthy_opt (field section M)); [|reflexivity].
      destruct (field section M); reflexivity.
    + intros po k q HM H1 H2.
      eapply get_path_section; [exact HM| |].
      * rewrite lookup_sanitizeConfig, lookup_select_plan, HM. reflexivity.
      * apply (proj1 (sanitize_plan_keys po projectRoot)); assumption.
    + intros po HM.
      rewrite !get_path_cons, field_JObj, lookup_sanitizeConfig, lookup_select_plan, HM.
      cbn [js_or truthy]. cbn -[sanitize_plan sanitizePath].
      rewrite (proj2 (sanitize_plan_keys po projectRoot)).
      destruct (truthy_opt (sanitizePath (lookup "reportsDir" po) projectRoot));
        [destruct (lookup "reportsDir" po)|]; reflexivity.
    + intros po k q HM H1 H2.
      eapply get_path_section; [exact HM| |].
      * rewrite lookup_sanitizeConfig, lookup_select_paths, HM. reflexivity.
      * apply (proj1 (sanitize_paths_keys po projectRoot)); assumption.
    + intros po k HM Hk.
      rewrite !get_path_cons, field_JObj, lookup_sanitizeConfig, lookup_select_paths, HM.
      cbn [js_or truthy]. cbn -[sanitize_paths sanitizePath lookup].
      destruct (sanitize_paths_keys po projectRoot) as (_ & Hd & Hp).
      destruct Hk as [-> | ->]; [rewrite Hd|rewrite Hp];
        match goal with
        | |- context [if ?c then _ else _] => destruct c
        end; try reflexivity;
        match goal with
        | |- context [lookup ?a ?b] => destruct (lookup a b)
        end; reflexivity.
    + intros lo k q Hl HM.
      eapply get_path_section; [exact HM| |].
      * rewrite lookup_sanitizeConfig, (lookup_select_locale _ _ Hl), HM. reflexivity.
      * apply lookup_spread_nil.
  - intros p v Hp Hl Hv Hleaf. subst M. apply deepMerge_later_wins; assumption.
  - intros p v Hp Hs Hg Hv Hleaf. subst M.
    rewrite deepMerge_layer_silent by assumption.
    apply deepMerge_later_wins; assumption.
  - intros p Hl Hg. subst M.
    rewrite deepMerge_layer_silent by assumption.
    rewrite deepMerge_layer_silent by assumption.
    reflexivity.
Qed.

(** A run of the cascade: a global file that only enables trust, no local
    file. *)
Lemma loadConfig_cascade_witness :
  loadConfig all_sections "/home/u/proj" (JObj [("trust", JObj [("enabled", JBool true)])]) JNull
  = JObj (sanitizeConfig
            (select_sections all_sections
               (deepMerge (deepMerge (deepMerge (JObj []) DEFAULT_CONFIG)
                                     (JObj [("trust", JObj [("enabled", JBool true)])]))
                          JNull))
            "/home/u/proj")
  /\ get_path ["trust"; "enabled"]
       (loadConfig all_sections "/home/u/proj"
          (JObj [("trust", JObj [("enabled", JBool true)])]) JNull)
     = Some (JBool true).
Proof.
  destruct (loadConfig_cascade all_sections "/home/u/proj"
              (JObj [("trust", JObj [("enabled", JBool true)])]) JNull eq_refl eq_refl)
    as (_ & H & _).
  destruct (H eq_refl) as (H1 & H2 & _).
  split; [exact H1|].
  rewrite (H2 "trust" ["enabled"] eq_refl eq_refl). reflexivity.
Defined.

(** C1 as first stated does not hold: a local [paths.docs] that leaves the
    project root is in the deep merge, yet [loadConfig] hands back the default
    [docs]; the local value does not override the default there. *)
Lemma loadConfig_is_not_the_plain_merge :
  get_path ["paths"; "docs"]
     (deepMerge (deepMerge (deepMerge (JObj []) DEFAULT_CONFIG) JNull)
                (JObj [("paths", JObj [("docs", JStr "../outside")])]))
  = Some (JStr "../outside")
  /\ get_path ["paths"; "docs"]
       (loadConfig all_sections "/home/u/proj" JNull
                   (JObj [("paths", JObj [("docs", JStr "../outside")])]))
     = Some (JStr "docs").
Proof. split; reflexivity. Qed.

Example path_resolve_samples :
  path_resolve "/home/u/proj" "reports" = "/home/u/proj/reports"
  /\ path_resolve "/home/u/proj" "../../etc" = "/home/etc"
  /\ path_resolve "/home/u/proj" "/tmp/x/" = "/tmp/x"
  /\ path_resolve "/home/u/proj" "./a/../b" = "/home/u/proj/b".
Proof. repeat split; reflexivity. Qed.

Example loadConfig_sample :
  loadConfig all_sections "/home/u/proj"
    (JObj [("plan", JObj [("dateFormat", JStr "YYYY")]); ("paths", JObj [("docs", JStr "g-docs")])])
    (JObj [("paths", JObj [("docs", JStr "l-docs")])])
  = JObj [("plan", JObj [("namingFormat", JStr "{date}-{issue}-{slug}");
                         ("dateFormat", JStr "YYYY");
                         ("issuePrefix", JNull);
                         ("reportsDir", JStr "reports");
                         ("resolution", JObj DEFAULT_resolution)]);
          ("paths", JObj [("docs", JStr "l-docs"); ("plans", JStr "plans")]);
          ("locale", JObj DEFAULT_locale);
          ("trust", JObj DEFAULT_trust);
          ("project", JObj DEFAULT_project);
          ("assertions", JArr [])].
Proof. reflexivity. Qed.

(** ** Strings and the matcher *)

Lemma append_nil_r (s : string) : s ++ "" = s.
Proof. induction s; simpl; congruence. Qed.

Lemma append_assoc (a b c : string) : (a ++ b) ++ c = a ++ (b ++ c).
Proof. induction a; simpl; congruence. Qed.

Lemma length_append (a b : string) :
  String.length (a ++ b) = String.length a + String.length b.
Proof. induction a; simpl; congruence. Qed.

Lemma substring_prefix (a b : string) :
  substring 0 (String.length (a ++ b) - String.length b) (a ++ b) = a.
Proof.
  rewrite length_append. replace (String.length a + String.length b - String.length b)
    with (String.length a) by lia.
  induction a as [|c a IH]; simpl.
  - destruct b; reflexivity.
  - rewrite IH. reflexivity.
Qed.

Lemma substring_whole (a : string) :
  substring 0 (String.length a - String.length "") a = a.
Proof.
  pose proof (substring_prefix a "") as H. rewrite append_nil_r in H. exact H.
Qed.

Lemma count_char_append (c : ascii) (a b : string) :
  count_char c (a ++ b) = count_char c a + count_char c b.
Proof. induction a; simpl; lia. Qed.

Lemma count_char_none (c : ascii) (f : ascii -> bool) (s : string) :
  f c = false -> all_chars f s = true -> count_char c s = 0.
Proof.
  intros Hc. induction s as [|c' s IH]; simpl; intros H; [reflexivity|].
  apply andb_true_iff in H. destruct H as [H1 H2].
  destruct (Ascii.eqb_spec c c') as [->|]; [congruence|]. auto.
Qed.

Lemma all_chars_append (f : ascii -> bool) (a b : string) :
  all_chars f (a ++ b) = all_chars f a && all_chars f b.
Proof. induction a; simpl; [reflexivity|]. rewrite IHa. apply andb_assoc. Qed.

Lemma all_chars_weaken (f g : ascii -> bool) (s : string) :
  (forall c, f c = true -> g c = true) -> all_chars f s = true -> all_chars g s = true.
Proof.
  intros Hfg. induction s; simpl; [reflexivity|]. intros H.
  apply andb_true_iff in H. destruct H. apply andb_true_iff. auto.
Qed.

Section Matcher.
Context {R : Type}.
Variable f : ascii -> bool.
Variable k : string -> option R.

(** A greedy run stops at [b] when nothing longer succeeds. *)
Lemma plus_from_greedy (a b : string) (r : R) :
  a <> "" -> all_chars f a = true ->
  plus_from f b k = None -> k b = Some r ->
  plus_from f (a ++ b) k = Some r.
Proof.
  intros Ha Hf Hb Hk. induction a as [|c a IH]; [congruence|].
  simpl in *. apply andb_true_iff in Hf. destruct Hf as [Hc Hf]. rewrite Hc.
  destruct a as [|c' a'].
  - simpl. rewrite Hb. exact Hk.
  - rewrite IH; [reflexivity|discriminate|exact Hf].
Qed.

Lemma plus_from_inv (s : string) (r : R) :
  plus_from f s k = Some r ->
  exists a b, s = a ++ b /\ a <> "" /\ all_chars f a = true /\ k b = Some r.
Proof.
  induction s as [|c s IH]; simpl; [discriminate|].
  destruct (f c) eqn:Hc; [|discriminate].
  destruct (plus_from f s k) as [r'|] eqn:E.
  - intros H. injection H as ->. destruct (IH eq_refl) as (a & b & -> & Ha & Hf & Hk).
    exists (String c a), b. simpl. rewrite Hc, Hf. repeat split; auto. discriminate.
  - intros H. exists (String c ""), s. simpl. rewrite Hc. repeat split; auto. discriminate.
Qed.

(** No suffix of [t] starts a successful run when the continuation fails
    on every proper suffix of [t]. *)
Lemma plus_from_none (t : string) :
  (forall x t', x <> "" -> t = x ++ t' -> k t' = None) ->
  plus_from f t k = None.
Proof.
  induction t as [|c t IH]; intros H; simpl; [reflexivity|].
  destruct (f c); [|reflexivity].
  rewrite IH.
  - apply (H (String c "")); [discriminate|reflexivity].
  - intros x t' Hx ->. apply (H (String c x)); [discriminate|reflexivity].
Qed.

Lemma rep_from_exact (n : nat) (a b : string) :
  String.length a = n -> all_chars f a = true ->
  rep_from n f (a ++ b) k = k b.
Proof.
  revert a. induction n as [|n IH]; intros a Hn Hf.
  - destruct a; [reflexivity|discriminate].
  - destruct a as [|c a]; [discriminate|]. simpl in *.
    apply andb_true_iff in Hf. destruct Hf as [Hc Hf]. rewrite Hc.
    apply IH; [lia|exact Hf].
Qed.

Lemma rep_from_inv (n : nat) (s : string) (r : R) :
  rep_from n f s k = Some r ->
  exists a b, s = a ++ b /\ all_chars f a = true /\ k b = Some r.
Proof.
  revert s. induction n as [|n IH]; intros s; simpl.
  - intros H. exists "", s. auto.
  - destruct s as [|c s]; [discriminate|]. destruct (f c) eqn:Hc; [|discriminate].
    intros H. destruct (IH _ H) as (a & b & -> & Hf & Hk).
    exists (String c a), b. simpl. rewrite Hc, Hf. auto.
Qed.
End Matcher.

(** ** Session identifiers *)

Lemma is_digit_not_hyphen : is_digit "-" = false.
Proof. reflexivity. Qed.

Lemma is_lower_alnum_not_hyphen : is_lower_alnum "-" = false.
Proof. reflexivity. Qed.

Lemma string_of_uint_digits (d : Decimal.uint) :
  all_chars is_digit (NilEmpty.string_of_uint d) = true.
Proof. induction d; simpl; auto. Qed.

Lemma string_of_uint_empty (d : Decimal.uint) :
  NilEmpty.string_of_uint d = "" -> d = Decimal.Nil.
Proof. destruct d; simpl; congruence. Qed.

Lemma decimal_digits (n : N) : all_chars is_digit (decimal n) = true.
Proof. apply string_of_uint_digits. Qed.

Lemma decimal_nonempty (n : N) : decimal n <> "".
Proof.
  unfold decimal. intros H. apply string_of_uint_empty in H.
  destruct n as [|p]; [discriminate|].
  exact (DecimalPos.Unsigned.to_uint_nonnil p H).
Qed.

Lemma parseInt_decimal (n : N) : parseInt (decimal n) = round_double n.
Proof.
  unfold parseInt, decimal. rewrite NilEmpty.usu, DecimalN.Unsigned.of_to. reflexivity.
Qed.

Lemma round_double_safe (n : N) : is_safe n = true -> round_double n = n.
Proof. unfold is_safe, round_double. intros ->. reflexivity. Qed.

Lemma Number_toString_safe (n : N) : is_safe n = true -> Number_toString n = decimal n.
Proof.
  unfold is_safe, Number_toString, shortest. intros H. rewrite H.
  apply N.ltb_lt in H.
  destruct (N.ltb_spec n 1000000000000000000000); [reflexivity|lia].
Qed.

Lemma drop_trailing_chars (f : ascii -> bool) (c : ascii) (s : string) :
  all_chars f s = true -> all_chars f (drop_trailing c s) = true.
Proof.
  induction s as [|a s IH]; cbn [drop_trailing all_chars]; [reflexivity|].
  intros H. apply andb_prop in H. destruct H as [Ha Hs]. specialize (IH Hs).
  destruct (drop_trailing c s) as [|b t].
  - destruct (Ascii.eqb a c); cbn [all_chars]; [reflexivity|]. rewrite Ha. reflexivity.
  - cbn [all_chars] in IH |- *. rewrite Ha. exact IH.
Qed.

(** a number is printed with digits and, from 10^21 on, a point, [e] and
    [+] *)
Lemma Number_toString_chars (f : ascii -> bool) (n : N) :
  (forall c, is_digit c = true -> f c = true) ->
  f "."%char = true -> f "e"%char = true -> f "+"%char = true ->
  all_chars f (Number_toString n) = true.
Proof.
  intros Hd Hp He Hplus.
  assert (Hdec : forall m, all_chars f (decimal m) = true).
  { intros m. generalize (decimal_digits m). apply all_chars_weaken. exact Hd. }
  unfold Number_toString. cbv zeta.
  destruct (shortest n <? 1000000000000000000000)%N; [apply Hdec|].
  unfold exponent_form. cbv zeta.
  pose proof (drop_trailing_chars f "0" _ (Hdec (shortest n))) as Ht.
  destruct (drop_trailing "0" (decimal (shortest n))) as [|d rest];
    [cbn [all_chars]; rewrite Hd by reflexivity; reflexivity|].
  cbn [all_chars] in Ht. apply andb_prop in Ht. destruct Ht as [H1 H2].
  cbn [append all_chars]. rewrite H1. cbn [andb].
  destruct (rest =? ""); cbn [append all_chars];
    rewrite ?Hp, ?He, ?Hplus, ?all_chars_append, ?H2, ?Hdec; cbn [all_chars andb];
    rewrite ?He, ?Hplus, ?Hdec; reflexivity.
Qed.

Lemma Number_toString_nonempty (n : N) : Number_toString n <> "".
Proof.
  unfold Number_toString. cbv zeta.
  destruct (shortest n <? 1000000000000000000000)%N; [apply decimal_nonempty|].
  unfold exponent_form. cbv zeta.
  destruct (drop_trailing "0" (decimal (shortest n))); discriminate.
Qed.

Lemma digit36_lower_alnum (d : N) : (d < 36)%N -> is_lower_alnum (digit36 d) = true.
Proof.
  intros H. unfold digit36, is_lower_alnum, is_digit, between, code.
  destruct (N.ltb_spec d 10).
  - rewrite N_ascii_embedding by lia.
    apply orb_true_iff. right. apply andb_true_iff. split; apply N.leb_le; lia.
  - rewrite N_ascii_embedding by lia.
    apply orb_true_iff. left. apply andb_true_iff. split; apply N.leb_le; lia.
Qed.

Lemma base36_digits_lower_alnum (fuel : nat) :
  forall n acc,
  all_chars is_lower_alnum acc = true ->
  all_chars is_lower_alnum (base36_digits fuel n acc) = true.
Proof.
  induction fuel as [|fuel IH]; intros n acc H; simpl; [exact H|].
  assert (Hd : is_lower_alnum (digit36 (n mod 36)) = true).
  { apply digit36_lower_alnum. apply N.mod_lt. discriminate. }
  destruct (n / 36 =? 0)%N.
  - simpl. rewrite Hd, H. reflexivity.
  - apply IH. simpl. rewrite Hd, H. reflexivity.
Qed.

Lemma base36_digits_nonempty (fuel : nat) :
  forall n acc, acc <> "" \/ fuel <> 0 -> base36_digits fuel n acc <> "".
Proof.
  induction fuel as [|fuel IH]; intros n acc H; simpl.
  - destruct H; congruence.
  - destruct (n / 36 =? 0)%N; [discriminate|]. apply IH. left. discriminate.
Qed.

Lemma toString36_lower_alnum (n : N) : all_chars is_lower_alnum (toString36 n) = true.
Proof. apply base36_digits_lower_alnum. reflexivity. Qed.

Lemma toString36_nonempty (n : N) : toString36 n <> "".
Proof. apply base36_digits_nonempty. right. discriminate. Qed.

Lemma after_app_name_match (P T Rn : string) (caps : list string) :
  P <> "" -> all_chars is_digit P = true ->
  T <> "" -> all_chars is_lower_alnum T = true ->
  String.length Rn = 4 -> all_chars is_lower_alnum Rn = true ->
  after_app_name ("-" ++ P ++ "-" ++ T ++ "-" ++ Rn) caps
  = Some (caps ++ [P] ++ [T] ++ [Rn])%list.
Proof.
  intros HP HPd HT HTa HR HRa. unfold after_app_name. cbn [rmatch append].
  rewrite Ascii.eqb_refl.
  erewrite plus_from_greedy; [reflexivity|exact HP|exact HPd|reflexivity|].
  cbn [append]. rewrite Ascii.eqb_refl.
  erewrite plus_from_greedy; [reflexivity|exact HT|exact HTa|reflexivity|].
  cbn [append]. rewrite Ascii.eqb_refl.
  rewrite <- (append_nil_r Rn) at 1.
  rewrite rep_from_exact by assumption.
  cbn [String.eqb].
  change ("-" ++ T ++ String "-" Rn) with (String "-" (T ++ String "-" Rn)).
  rewrite (substring_prefix P), (substring_prefix T).
  rewrite substring_whole, <- !app_assoc. reflexivity.
Qed.

Lemma after_app_name_hyphens (rest : string) (caps r : list string) :
  after_app_name rest caps = Some r -> count_char "-" rest = 3.
Proof.
  unfold after_app_name. cbn [rmatch].
  destruct rest as [|c0 t1]; [discriminate|].
  destruct (Ascii.eqb_spec "-"%char c0) as [<-|]; [|discriminate].
  intros H. apply plus_from_inv in H. destruct H as (p & t2 & -> & _ & Hp & H).
  destruct t2 as [|c1 t3]; [discriminate|].
  destruct (Ascii.eqb_spec "-"%char c1) as [<-|]; [|discriminate].
  apply plus_from_inv in H. destruct H as (q & t4 & -> & _ & Hq & H).
  destruct t4 as [|c2 t5]; [discriminate|].
  destruct (Ascii.eqb_spec "-"%char c2) as [<-|]; [|discriminate].
  apply rep_from_inv in H. destruct H as (x & t6 & -> & Hx & H).
  destruct t6; [|discriminate].
  cbn [count_char]. rewrite Ascii.eqb_refl.
  rewrite !count_char_append. cbn [count_char]. rewrite Ascii.eqb_refl.
  rewrite !count_char_append. cbn [count_char]. rewrite Ascii.eqb_refl.
  rewrite !count_char_append. cbn [count_char].
  rewrite (count_char_none "-" _ p is_digit_not_hyphen Hp).
  rewrite (count_char_none "-" _ q is_lower_alnum_not_hyphen Hq).
  rewrite (count_char_none "-" _ x is_lower_alnum_not_hyphen Hx).
  reflexivity.
Qed.

(** The pattern splits an identifier at its last three hyphens, whatever
    hyphens the application name holds. *)
Lemma match_generated_id (A P T Rn : string) :
  A <> "" -> all_chars is_dot A = true ->
  P <> "" -> all_chars is_digit P = true ->
  T <> "" -> all_chars is_lower_alnum T = true ->
  String.length Rn = 4 -> all_chars is_lower_alnum Rn = true ->
  match_whole gk_session_id_regex (A ++ "-" ++ P ++ "-" ++ T ++ "-" ++ Rn)
  = Some [A; P; T; Rn].
Proof.
  intros HA HAd HP HPd HT HTa HR HRa.
  unfold match_whole, gk_session_id_regex.
  set (tail := "-" ++ P ++ "-" ++ T ++ "-" ++ Rn).
  change (rmatch _ (A ++ tail) [] _)
    with (plus_from is_dot (A ++ tail)
            (fun rest => after_app_name rest
               ([] ++ [substring 0 (String.length (A ++ tail) - String.length rest) (A ++ tail)])%list)).
  assert (Htail : count_char "-" tail = 3).
  { subst tail. cbn [append count_char]. rewrite Ascii.eqb_refl.
    rewrite !count_char_append. cbn [count_char]. rewrite Ascii.eqb_refl.
    rewrite !count_char_append. cbn [count_char]. rewrite Ascii.eqb_refl.
    rewrite (count_char_none "-" _ P is_digit_not_hyphen HPd).
    rewrite (count_char_none "-" _ T is_lower_alnum_not_hyphen HTa).
    rewrite (count_char_none "-" _ Rn is_lower_alnum_not_hyphen HRa).
    reflexivity. }
  apply plus_from_greedy; [exact HA|exact HAd| |].
  - apply plus_from_none. intros x t' Hx Ht'.
    destruct (after_app_name t' _) as [r|] eqn:E; [|reflexivity].
    apply after_app_name_hyphens in E.
    rewrite Ht', count_char_append, E in Htail.
    destruct x as [|c x]; [congruence|].
    subst tail. cbn [append] in Ht'. injection Ht' as <- _.
    cbn [count_char] in Htail. rewrite Ascii.eqb_refl in Htail. lia.
  - rewrite substring_prefix. subst tail.
    rewrite after_app_name_match by assumption. reflexivity.
Qed.

Lemma hyphenated_name_is_dot (s : string) :
  all_chars (fun c => is_lower_alnum c || Ascii.eqb c "-") s = true ->
  all_chars is_dot s = true.
Proof.
  apply all_chars_weaken. intros c H. unfold is_dot.
  destruct (Ascii.eqb_spec c "010") as [->|]; [discriminate H|].
  destruct (Ascii.eqb_spec c "013") as [->|]; [discriminate H|]. reflexivity.
Qed.

(** C9, as amended.  Parsing undoes generation for the process ids a
    number holds exactly: for a non-empty application name of lowercase
    letters, digits and hyphens, a process id below 2^53, any clock value
    and any four-character random suffix of [[a-z0-9]], [parseGkSessionId]
    accepts the generated identifier and gives back the application name and
    the process id (and the timestamp and suffix as generated). *)
Theorem parse_generated_session_id (appName : string) (pid now : N) (random : string) :
  appName <> "" ->
  all_chars (fun c => is_lower_alnum c || Ascii.eqb c "-") appName = true ->
  is_safe pid = true ->
  String.length random = 4 ->
  all_chars is_lower_alnum random = true ->
  parseGkSessionId (generateGkSessionId appName pid now random)
  = Some {| id_appName := appName; id_pid := pid;
            id_timestamp := toString36 now; id_random := random |}.
Proof.
  intros Hn Hc Hp Hl Hr. unfold parseGkSessionId, generateGkSessionId.
  rewrite (Number_toString_safe pid Hp).
  destruct (String.eqb_spec (appName ++ "-" ++ decimal pid ++ "-" ++ toString36 now ++ "-" ++ random) "")
    as [E|_].
  - destruct appName; [congruence|discriminate E].
  - rewrite match_generated_id; auto using hyphenated_name_is_dot, decimal_nonempty,
      decimal_digits, toString36_nonempty, toString36_lower_alnum.
    rewrite parseInt_decimal, (round_double_safe pid Hp). reflexivity.
Qed.

Lemma parse_generated_session_id_witness :
  parseGkSessionId (generateGkSessionId "gemini-sub" 31337 1700000000000 "a0z9")
  = Some {| id_appName := "gemini-sub"; id_pid := 31337;
            id_timestamp := toString36 1700000000000; id_random := "a0z9" |}.
Proof.
  apply (parse_generated_session_id "gemini-sub" 31337 1700000000000 "a0z9");
    [discriminate|reflexivity|reflexivity|reflexivity|reflexivity].
Defined.

(** C9 as first stated does not hold for every non-negative pid: from
    10^21 on a template literal prints a number with an exponent, the
    pattern finds no run of digits between the hyphens, and
    [parseGkSessionId] returns [null]. *)
Lemma exponent_pid_is_not_parsed :
  generateGkSessionId "gemini-sub" 1000000000000000000000 1700000000000 "a0z9"
  = "gemini-sub-1e+21-loyw3v28-a0z9"
  /\ parseGkSessionId
       (generateGkSessionId "gemini-sub" 1000000000000000000000 1700000000000 "a0z9")
     = None.
Proof. split; vm_compute; reflexivity. Qed.

(** ** Paths *)

Lemma normalize_segments_fold (segs : list string) :
  normalize_segments segs = rev (fold_left norm_step segs []).
Proof. reflexivity. Qed.

Lemma norm_step_clean (stack : list string) (seg : string) :
  clean_segment seg = true -> norm_step stack seg = seg :: stack.
Proof.
  unfold clean_segment, norm_step. intros H.
  repeat (apply andb_true_iff in H; destruct H as [H ?]).
  apply negb_true_iff in H. rewrite H.
  repeat match goal with
         | Hn : negb _ = true |- _ => apply negb_true_iff in Hn; rewrite Hn
         end.
  reflexivity.
Qed.

Lemma fold_norm_step_clean (segs stack : list string) :
  forallb clean_segment segs = true ->
  fold_left norm_step segs stack = (rev segs ++ stack)%list.
Proof.
  revert stack. induction segs as [|seg segs IH]; intros stack H; simpl; [reflexivity|].
  simpl in H. apply andb_true_iff in H. destruct H as [H1 H2].
  rewrite norm_step_clean by exact H1. rewrite IH by exact H2.
  simpl rev. rewrite <- app_assoc. reflexivity.
Qed.

Lemma norm_step_keeps_clean (stack : list string) (seg : string) :
  all_chars (fun c => negb (Ascii.eqb c "/")) seg = true ->
  forallb clean_segment stack = true ->
  forallb clean_segment (norm_step stack seg) = true.
Proof.
  intros Hs H. unfold norm_step.
  destruct (seg =? "") eqn:E1; [exact H|].
  destruct (seg =? ".") eqn:E2; [exact H|].
  destruct (seg =? "..") eqn:E3.
  - destruct stack; [reflexivity|]. simpl in H. apply andb_true_iff in H. apply H.
  - simpl. rewrite H. unfold clean_segment. rewrite E1, E2, E3, Hs. reflexivity.
Qed.

Lemma split_on_nonempty (sep : ascii) (s : string) : split_on sep s <> [].
Proof.
  induction s as [|c s IH]; simpl; [discriminate|].
  destruct (Ascii.eqb c sep); [discriminate|].
  destruct (split_on sep s); [congruence|discriminate].
Qed.

Lemma split_on_segments (s : string) :
  forallb (all_chars (fun c => negb (Ascii.eqb c "/"))) (split_on "/" s) = true.
Proof.
  induction s as [|c s IH]; simpl; [reflexivity|].
  destruct (Ascii.eqb c "/") eqn:E; [simpl; exact IH|].
  destruct (split_on "/" s) as [|h t]; simpl in *; [rewrite E; reflexivity|].
  rewrite E. exact IH.
Qed.

Lemma split_on_no_sep (s : string) :
  all_chars (fun c => negb (Ascii.eqb c "/")) s = true -> split_on "/" s = [s].
Proof.
  induction s as [|c s IH]; simpl; [reflexivity|]. intros H.
  apply andb_true_iff in H. destruct H as [H1 H2]. apply negb_true_iff in H1.
  rewrite H1, (IH H2). reflexivity.
Qed.

Lemma split_on_app (a b : string) :
  split_on "/" (a ++ String "/" b) = (split_on "/" a ++ split_on "/" b)%list.
Proof.
  induction a as [|c a IH]; simpl; [reflexivity|].
  destruct (Ascii.eqb c "/"); [rewrite IH; reflexivity|].
  rewrite IH. pose proof (split_on_nonempty "/" a) as Hn.
  destruct (split_on "/" a); [congruence|reflexivity].
Qed.

Lemma fold_norm_step_keeps_clean (segs stack : list string) :
  forallb (all_chars (fun c => negb (Ascii.eqb c "/"))) segs = true ->
  forallb clean_segment stack = true ->
  forallb clean_segment (fold_left norm_step segs stack) = true.
Proof.
  revert stack. induction segs as [|seg segs IH]; intros stack Hs H; simpl; [exact H|].
  simpl in Hs. apply andb_true_iff in Hs. destruct Hs as [H1 H2].
  apply IH; [exact H2|]. apply norm_step_keeps_clean; assumption.
Qed.

Lemma forallb_rev {A : Type} (f : A -> bool) (l : list A) :
  forallb f (rev l) = forallb f l.
Proof.
  induction l as [|x l IH]; simpl; [reflexivity|].
  rewrite forallb_app, IH. simpl. rewrite andb_true_r. apply andb_comm.
Qed.

Lemma normalize_segments_clean (s : string) :
  forallb clean_segment (normalize_segments (split_on "/" s)) = true.
Proof.
  rewrite normalize_segments_fold, forallb_rev.
  apply fold_norm_step_keeps_clean; [apply split_on_segments|reflexivity].
Qed.

Lemma clean_segment_no_sep (seg : string) :
  clean_segment seg = true -> all_chars (fun c => negb (Ascii.eqb c "/")) seg = true.
Proof. unfold clean_segment. intros H. apply andb_true_iff in H. apply H. Qed.

Lemma split_on_concat (segs : list string) :
  segs <> [] -> forallb clean_segment segs = true ->
  split_on "/" (String.concat "/" segs) = segs.
Proof.
  induction segs as [|seg segs IH]; [congruence|]. intros _ H.
  simpl in H. apply andb_true_iff in H. destruct H as [H1 H2].
  destruct segs as [|seg' segs'].
  - simpl. apply split_on_no_sep, clean_segment_no_sep, H1.
  - change (String.concat "/" (seg :: seg' :: segs'))
      with (seg ++ String "/" (String.concat "/" (seg' :: segs'))).
    rewrite split_on_app, IH by (try discriminate; exact H2).
    rewrite split_on_no_sep by (apply clean_segment_no_sep, H1). reflexivity.
Qed.

Lemma normalize_segments_of_clean (segs : list string) :
  forallb clean_segment segs = true -> normalize_segments segs = segs.
Proof.
  intros H. rewrite normalize_segments_fold, fold_norm_step_clean by exact H.
  rewrite app_nil_r. apply rev_involutive.
Qed.

Lemma concat_app_last (l : list string) (b : string) :
  l <> [] -> String.concat "/" (l ++ [b]) = String.concat "/" l ++ "/" ++ b.
Proof.
  induction l as [|x l IH]; [congruence|]. intros _.
  destruct l as [|y l].
  - reflexivity.
  - change (String.concat "/" ((x :: y :: l) ++ [b]))
      with (x ++ "/" ++ String.concat "/" ((y :: l) ++ [b])).
    rewrite IH by discriminate.
    change (String.concat "/" (x :: y :: l)) with (x ++ "/" ++ String.concat "/" (y :: l)).
    rewrite !append_assoc. reflexivity.
Qed.

(** Joining a clean segment onto a directory appends it after a slash. *)
Lemma path_join_clean (a b : string) :
  clean_segment b = true ->
  normalize_segments (split_on "/" a) <> [] ->
  path_join a b = normalize_path a ++ "/" ++ b.
Proof.
  intros Hb Ha. unfold path_join, normalize_path.
  change (a ++ "/" ++ b) with (a ++ String "/" b).
  rewrite split_on_app, (split_on_no_sep b) by (apply clean_segment_no_sep, Hb).
  rewrite !normalize_segments_fold in *. rewrite fold_left_app. simpl.
  rewrite norm_step_clean by exact Hb. simpl.
  rewrite concat_app_last by exact Ha. reflexivity.
Qed.

Lemma normalize_path_join (a b : string) :
  normalize_path (path_join a b) = path_join a b.
Proof.
  unfold normalize_path, path_join.
  set (segs := normalize_segments (split_on "/" (a ++ "/" ++ b))).
  assert (Hc : forallb clean_segment segs = true) by apply normalize_segments_clean.
  destruct segs as [|x l] eqn:E; [reflexivity|].
  change ("/" ++ String.concat "/" (x :: l)) with (String "/" (String.concat "/" (x :: l))).
  change (split_on "/" (String "/" (String.concat "/" (x :: l))))
    with ("" :: split_on "/" (String.concat "/" (x :: l))).
  rewrite split_on_concat by (try discriminate; exact Hc).
  change (normalize_segments ("" :: x :: l)) with (normalize_segments (x :: l)).
  rewrite normalize_segments_of_clean by exact Hc.
  reflexivity.
Qed.

Lemma path_join_segments_nonempty (a b : string) :
  clean_segment b = true ->
  normalize_segments (split_on "/" (path_join a b)) <> [].
Proof.
  intros Hb. unfold path_join.
  change (a ++ "/" ++ b) with (a ++ String "/" b).
  rewrite split_on_app, (split_on_no_sep b) by (apply clean_segment_no_sep, Hb).
  set (segs := normalize_segments (split_on "/" a ++ [b])).
  assert (Hs : segs <> []).
  { subst segs. rewrite normalize_segments_fold, fold_left_app. simpl.
    rewrite norm_step_clean by exact Hb. simpl.
    intros H. apply app_eq_nil in H. destruct H; discriminate. }
  assert (Hc : forallb clean_segment segs = true).
  { subst segs. rewrite normalize_segments_fold, forallb_rev.
    apply fold_norm_step_keeps_clean; [|reflexivity].
    rewrite forallb_app. rewrite split_on_segments. simpl.
    rewrite (clean_segment_no_sep b Hb). reflexivity. }
  destruct segs as [|x l]; [congruence|].
  change ("/" ++ String.concat "/" (x :: l)) with (String "/" (String.concat "/" (x :: l))).
  change (split_on "/" (String "/" (String.concat "/" (x :: l))))
    with ("" :: split_on "/" (String.concat "/" (x :: l))).
  rewrite split_on_concat by (try discriminate; exact Hc).
  change (normalize_segments ("" :: x :: l)) with (normalize_segments (x :: l)).
  rewrite normalize_segments_of_clean by exact Hc.
  discriminate.
Qed.

(** ** Project identifiers *)

Section CharClass.
Variable f : ascii -> bool.
Hypothesis f_hyphen : f "-" = true.

Lemma replace_each_class (s : string) :
  all_chars f (replace_each (fun c => negb (f c)) "-" s) = true.
Proof.
  induction s as [|c s IH]; simpl; [reflexivity|].
  rewrite IH. destruct (f c) eqn:E; simpl; rewrite ?E, ?f_hyphen; reflexivity.
Qed.

Lemma replace_runs_class (g : ascii -> bool) (b : bool) (s : string) :
  all_chars f s = true -> all_chars f (replace_runs g "-" b s) = true.
Proof.
  revert b. induction s as [|c s IH]; intros b H; simpl in *; [reflexivity|].
  apply andb_true_iff in H. destruct H as [H1 H2].
  destruct (g c); [destruct b|]; simpl; rewrite ?f_hyphen, ?H1, ?IH; auto.
Qed.

Lemma drop_last_if_class (g : ascii -> bool) (s : string) :
  all_chars f s = true -> all_chars f (drop_last_if g s) = true.
Proof.
  induction s as [|c s IH]; intros H; [reflexivity|].
  simpl in H. apply andb_true_iff in H. destruct H as [H1 H2].
  destruct s as [|c' s'].
  - simpl. destruct (g c); simpl; rewrite ?H1; reflexivity.
  - change (drop_last_if g (String c (String c' s')))
      with (String c (drop_last_if g (String c' s'))).
    simpl. rewrite H1. apply IH. exact H2.
Qed.

Lemma trim_edge_hyphens_class (s : string) :
  all_chars f s = true -> all_chars f (trim_edge_hyphens s) = true.
Proof.
  intros H. unfold trim_edge_hyphens. apply drop_last_if_class.
  destruct s as [|c s]; [reflexivity|]. destruct (is_hyphen c); [|exact H].
  simpl in H. apply andb_true_iff in H. apply H.
Qed.
End CharClass.

Lemma sanitizeProjectPath_chars (projectPath : string) :
  all_chars is_alnum_or_hyphen (sanitizeProjectPath projectPath) = true.
Proof.
  unfold sanitizeProjectPath. destruct (projectPath =? ""); [reflexivity|].
  apply trim_edge_hyphens_class, replace_runs_class; try reflexivity.
  apply replace_each_class. reflexivity.
Qed.

Lemma collapse_hyphens_shape (s : string) :
  forall b,
  has_double_hyphen (replace_runs is_hyphen "-" b s) = false
  /\ (b = true -> starts_with_hyphen (replace_runs is_hyphen "-" b s) = false).
Proof.
  induction s as [|c s IH]; intros b; simpl; [split; reflexivity|].
  destruct (is_hyphen c) eqn:E.
  - destruct b.
    + apply IH.
    + simpl. destruct (IH true) as [H1 H2]. rewrite H1, (H2 eq_refl).
      split; [reflexivity|discriminate].
  - simpl. rewrite E. destruct (IH false) as [H1 _]. rewrite H1.
    split; [reflexivity|intros _; reflexivity].
Qed.

Lemma drop_last_if_shape (s : string) :
  has_double_hyphen s = false ->
  has_double_hyphen (drop_last_if is_hyphen s) = false
  /\ ends_with_hyphen (drop_last_if is_hyphen s) = false
  /\ (starts_with_hyphen s = false -> starts_with_hyphen (drop_last_if is_hyphen s) = false).
Proof.
  induction s as [|c s IH]; intros H; [repeat split; reflexivity|].
  destruct s as [|c' s'].
  - simpl. destruct (is_hyphen c) eqn:E; simpl; rewrite ?E; repeat split; auto.
  - change (drop_last_if is_hyphen (String c (String c' s')))
      with (String c (drop_last_if is_hyphen (String c' s'))).
    change (has_double_hyphen (String c (String c' s')))
      with ((is_hyphen c && is_hyphen c') || has_double_hyphen (String c' s')) in H.
    apply orb_false_iff in H. destruct H as [Hcc H].
    destruct (IH H) as (H1 & H2 & H3).
    set (d := drop_last_if is_hyphen (String c' s')) in *.
    assert (Hd : is_hyphen c && starts_with_hyphen d = false).
    { destruct (is_hyphen c) eqn:E; [|reflexivity]. simpl in Hcc |- *.
      apply H3. exact Hcc. }
    repeat split.
    + simpl. rewrite Hd, H1. reflexivity.
    + destruct d as [|x d'] eqn:Ed.
      * simpl. destruct (is_hyphen c) eqn:E; [|reflexivity].
        subst d. simpl in Hcc.
        destruct s' as [|c'' s''].
        -- simpl in Ed. rewrite Hcc in Ed. discriminate Ed.
        -- discriminate Ed.
      * exact H2.
    + intros Hs. exact Hs.
Qed.

Lemma sanitizeProjectPath_shape (projectPath : string) :
  starts_with_hyphen (sanitizeProjectPath projectPath) = false
  /\ ends_with_hyphen (sanitizeProjectPath projectPath) = false
  /\ has_double_hyphen (sanitizeProjectPath projectPath) = false.
Proof.
  unfold sanitizeProjectPath. destruct (projectPath =? ""); [repeat split; reflexivity|].
  set (s := replace_runs is_hyphen "-" false _).
  destruct (collapse_hyphens_shape
              (replace_each (fun c => negb (is_alnum_or_hyphen c)) "-"
                 (replace_runs is_separator "-" false (strip_drive_colon projectPath))) false)
    as [Hd _].
  fold s in Hd. clearbody s. unfold trim_edge_hyphens.
  assert (Ht : has_double_hyphen
                 (match s with
                  | String c rest => if is_hyphen c then rest else s
                  | EmptyString => s
                  end) = false
               /\ starts_with_hyphen
                    (match s with
                     | String c rest => if is_hyphen c then rest else s
                     | EmptyString => s
                     end) = false).
  { destruct s as [|c rest]; [split; reflexivity|].
    simpl in Hd. apply orb_false_iff in Hd. destruct Hd as [H1 H2].
    destruct (is_hyphen c) eqn:E.
    - split; [exact H2|exact H1].
    - split; [simpl; rewrite E, H2; reflexivity|exact E]. }
  destruct Ht as [Ht1 Ht2].
  destruct (drop_last_if_shape _ Ht1) as (H1 & H2 & H3).
  auto.
Qed.

Lemma sanitized_name_clean (name : string) :
  name <> "" -> all_chars is_alnum_or_hyphen name = true -> clean_segment name = true.
Proof.
  intros Hn Ha. unfold clean_segment.
  assert (H1 : (name =? "") = false) by (apply String.eqb_neq; exact Hn).
  assert (H2 : (name =? ".") = false).
  { apply String.eqb_neq. intros ->. discriminate Ha. }
  assert (H3 : (name =? "..") = false).
  { apply String.eqb_neq. intros ->. discriminate Ha. }
  rewrite H1, H2, H3. simpl.
  revert Ha. apply all_chars_weaken. intros c Hc.
  destruct (Ascii.eqb_spec c "/") as [->|]; [discriminate Hc|reflexivity].
Qed.

Lemma hex_digit_lower_alnum (d : N) : (d < 16)%N -> is_lower_alnum (hex_digit d) = true.
Proof.
  intros H. unfold hex_digit, is_lower_alnum, is_digit, between, code.
  destruct (N.ltb_spec d 10).
  - rewrite N_ascii_embedding by lia.
    apply orb_true_iff. right. apply andb_true_iff. split; apply N.leb_le; lia.
  - rewrite N_ascii_embedding by lia.
    apply orb_true_iff. left. apply andb_true_iff. split; apply N.leb_le; lia.
Qed.

Lemma hex_of_word_lower_alnum (n : nat) (w : N) :
  all_chars is_lower_alnum (hex_of_word n w) = true.
Proof.
  induction n as [|n IH]; cbn [hex_of_word all_chars]; [reflexivity|].
  rewrite IH, hex_digit_lower_alnum; [reflexivity|].
  apply N.mod_lt. discriminate.
Qed.

Lemma concat_empty_sep_chars (f : ascii -> bool) (l : list string) :
  forallb (all_chars f) l = true -> all_chars f (String.concat "" l) = true.
Proof.
  induction l as [|x l IH]; simpl; [reflexivity|]. intros H.
  apply andb_true_iff in H. destruct H as [H1 H2].
  destruct l as [|y l'].
  - exact H1.
  - rewrite all_chars_append, H1. simpl. apply IH. exact H2.
Qed.

Lemma sha256_hex_lower_alnum (s : string) :
  all_chars is_lower_alnum (sha256_hex s) = true.
Proof.
  unfold sha256_hex. apply concat_empty_sep_chars.
  induction (sha256_blocks _ _ _) as [|w l IH]; cbn [map forallb]; [reflexivity|].
  rewrite hex_of_word_lower_alnum. exact IH.
Qed.

Lemma substring_chars (f : ascii -> bool) (s : string) :
  all_chars f s = true -> forall n m, all_chars f (substring n m s) = true.
Proof.
  induction s as [|c s IH]; intros H n m.
  - destruct n, m; reflexivity.
  - simpl in H. apply andb_true_iff in H. destruct H as [H1 H2].
    destruct n as [|n]; simpl.
    + destruct m; simpl; [reflexivity|]. rewrite H1. apply IH. exact H2.
    + apply IH. exact H2.
Qed.

Lemma generateGkProjectHash_lower_alnum (projectPath : string) :
  all_chars is_lower_alnum (generateGkProjectHash projectPath) = true.
Proof. apply substring_chars, sha256_hex_lower_alnum. Qed.

Lemma project_file_name_clean (hash : string) :
  all_chars is_lower_alnum hash = true ->
  clean_segment ("gk-project-" ++ hash ++ ".json") = true.
Proof.
  intros H. unfold clean_segment.
  assert (Hs : all_chars (fun c => negb (Ascii.eqb c "/")) ("gk-project-" ++ hash ++ ".json") = true).
  { rewrite !all_chars_append. simpl. rewrite andb_true_r.
    revert H. apply all_chars_weaken. intros c Hc.
    destruct (Ascii.eqb_spec c "/") as [->|]; [discriminate Hc|reflexivity]. }
  rewrite Hs. reflexivity.
Qed.

Lemma getProjectDataDir_clean (home name : string) :
  clean_segment name = true ->
  getProjectDataDir home name = PROJECTS_DIR home ++ "/" ++ name.
Proof.
  intros H. unfold getProjectDataDir.
  rewrite path_join_clean by (try exact H; apply path_join_segments_nonempty; reflexivity).
  unfold PROJECTS_DIR at 1. rewrite normalize_path_join. reflexivity.
Qed.

(** C4, as amended.  The per-project data directory is named after the
    sanitised project path, not after a hash: [projectDir] is
    [sanitizeProjectPath] of the path, a string of letters, digits and single
    hyphens that neither starts nor ends with a hyphen, and when it is not
    empty the data directory is [PROJECTS_DIR/projectDir].  SHA-256 only
    gives [gkProjectHash], characters of [[a-z0-9]] that name the project
    file [gk-project-{gkProjectHash}.json] inside that directory; for a
    path of ASCII characters they are the first 16 hex characters of the
    digest of the lower-cased, slash-normalised path. *)
Theorem project_data_dir_is_sanitized_path
    (home process_cwd : string) (projectPath : option string) :
  let ids := generateProjectIdentifiers process_cwd projectPath in
  let name := ids_projectDir ids in
  name = sanitizeProjectPath (ids_projectPath ids)
  /\ all_chars is_alnum_or_hyphen name = true
  /\ starts_with_hyphen name = false
  /\ ends_with_hyphen name = false
  /\ has_double_hyphen name = false
  /\ all_chars is_lower_alnum (ids_gkProjectHash ids) = true
  /\ (ascii_only (ids_projectPath ids) = true ->
      ids_gkProjectHash ids
      = substring 0 16
          (sha256_hex (toLowerCase
                         (replace_each (fun c => Ascii.eqb c "\") "/" (ids_projectPath ids)))))
  /\ (name <> "" ->
      getProjectDataDir home name = PROJECTS_DIR home ++ "/" ++ name
      /\ getProjectPath home name (ids_gkProjectHash ids)
         = PROJECTS_DIR home ++ "/" ++ name
           ++ "/" ++ "gk-project-" ++ ids_gkProjectHash ids ++ ".json").
Proof.
  intros ids name. subst name ids. cbn [generateProjectIdentifiers ids_projectDir
                                          ids_projectPath ids_gkProjectHash].
  set (cwd := match projectPath with
              | Some p => if p =? "" then process_cwd else p
              | None => process_cwd
              end).
  destruct (sanitizeProjectPath_shape cwd) as (H1 & H2 & H3).
  repeat split; auto using sanitizeProjectPath_chars, generateGkProjectHash_lower_alnum.
  - apply getProjectDataDir_clean, sanitized_name_clean;
      [assumption|apply sanitizeProjectPath_chars].
  - unfold getProjectPath.
    assert (Hc : clean_segment (sanitizeProjectPath cwd) = true)
      by (apply sanitized_name_clean; [assumption|apply sanitizeProjectPath_chars]).
    rewrite path_join_clean.
    + unfold getProjectDataDir at 1. rewrite normalize_path_join.
      fold (getProjectDataDir home (sanitizeProjectPath cwd)).
      rewrite getProjectDataDir_clean by exact Hc.
      rewrite !append_assoc. reflexivity.
    + apply project_file_name_clean, generateGkProjectHash_lower_alnum.
    + apply path_join_segments_nonempty. exact Hc.
Qed.

Lemma project_data_dir_is_sanitized_path_witness :
  getProjectDataDir "/home/user" "home-user-proj"
  = PROJECTS_DIR "/home/user" ++ "/" ++ "home-user-proj".
Proof.
  destruct (project_data_dir_is_sanitized_path "/home/user" "/" (Some "/home/user/proj"))
    as (_ & _ & _ & _ & _ & _ & _ & H).
  exact (proj1 (H ltac:(discriminate))).
Defined.

(** C4 as first stated does not hold: for the project [/home/user/proj] the
    data directory is named [home-user-proj]; the SHA-256 digest of the path,
    and the 16 characters of it that the code keeps, are different strings. *)
Lemma data_dir_name_is_not_a_digest :
  ids_projectDir (generateProjectIdentifiers "/" (Some "/home/user/proj")) = "home-user-proj"
  /\ getProjectDataDir "/home/user" "home-user-proj"
     = "/home/user/.gemkit/projects/home-user-proj"
  /\ sha256_hex "/home/user/proj"
     = "7d73bf4fdeae2f4951c4c30c31818b272a36061af1a9153e5ab4575436ffc407"
  /\ ids_gkProjectHash (generateProjectIdentifiers "/" (Some "/home/user/proj"))
     = "7d73bf4fdeae2f49".
Proof. repeat split; vm_compute; reflexivity. Qed.

(** ** The file store *)

Lemma file_at_put (p q : string) (c : content) (fs : list (string * content)) :
  file_at q (file_put p c fs) = if p =? q then Some c else file_at q fs.
Proof.
  unfold file_put, file_exists.
  destruct (file_at p fs) as [c0|] eqn:E.
  - induction fs as [|[p0 c1] fs IH]; [discriminate|].
    simpl in E |- *. destruct (String.eqb_spec p0 p) as [->|Hne]; simpl.
    + destruct (String.eqb_spec p q) as [->|Hpq]; [reflexivity|].
      clear IH E. induction fs as [|[p1 c2] fs IH]; simpl; [reflexivity|].
      destruct (String.eqb_spec p1 p) as [->|]; simpl.
      * apply String.eqb_neq in Hpq. rewrite Hpq. exact IH.
      * rewrite IH. reflexivity.
    + rewrite (IH E). destruct (String.eqb_spec p0 q) as [->|]; [|reflexivity].
      apply String.eqb_neq in Hne. rewrite String.eqb_sym, Hne. reflexivity.
  - induction fs as [|[p0 c1] fs IH]; simpl in *.
    + destruct (p =? q); reflexivity.
    + destruct (String.eqb_spec p0 p) as [->|Hne]; [discriminate|].
      rewrite (IH E). destruct (String.eqb_spec p0 q) as [->|]; [|reflexivity].
      apply String.eqb_neq in Hne. rewrite String.eqb_sym, Hne. reflexivity.
Qed.

Lemma file_at_remove (p q : string) (fs : list (string * content)) :
  file_at q (file_remove p fs) = if p =? q then None else file_at q fs.
Proof.
  unfold file_remove. induction fs as [|[p0 c] fs IH]; simpl.
  - destruct (p =? q); reflexivity.
  - destruct (String.eqb_spec p0 p) as [->|Hne]; simpl.
    + rewrite IH. destruct (String.eqb_spec p q); reflexivity.
    + rewrite IH. destruct (String.eqb_spec p0 q) as [->|]; [|reflexivity].
      apply String.eqb_neq in Hne. rewrite String.eqb_sym, Hne. reflexivity.
Qed.

Lemma append_suffix_neq (s t : string) : t <> "" -> s ++ t <> s.
Proof.
  intros Ht H. assert (E : String.length (s ++ t) = String.length s) by (rewrite H; reflexivity).
  rewrite length_append in E. destruct t; [congruence|]. simpl in E. lia.
Qed.

(** ** Saving files *)

Lemma write_then_rename_cases (sessionPath : string) (data : json) (w : world) :
  exists saved w',
    write_then_rename sessionPath data w = (Ok saved, w')
    /\ (saved = true ->
        exists ordered,
          reorderSessionFields data = Ok ordered
          /\ file_at sessionPath (files w') = Some (CJson (JObj ordered)))
    /\ (saved = false -> file_at sessionPath (files w') = file_at sessionPath (files w))
    /\ (forall n rest, faults w = FailPartway n :: rest -> saved = false)
    /\ (forall p, p <> sessionPath -> p <> sessionPath ++ ".tmp" ->
          file_at p (files w') = file_at p (files w))
    /\ env_file w' = env_file w.
Proof.
  unfold write_then_rename.
  assert (Htmp : (sessionPath ++ ".tmp" =? sessionPath) = false)
    by (apply String.eqb_neq, append_suffix_neq; discriminate).
  assert (Htmp' : (sessionPath =? sessionPath ++ ".tmp") = false)
    by (rewrite String.eqb_sym; exact Htmp).
  assert (Hother : forall p q : string, p <> q -> (q =? p) = false).
  { intros p q H. apply String.eqb_neq. congruence. }
  unfold try_catch, bind, lift, fs_writeFileSync, fs_renameSync, fs_unlinkSync,
    bind, next_fault, throw, ret.
  destruct w as [fs env fl].
  destruct (reorderSessionFields data) as [ordered|e] eqn:Er;
    repeat (progress
              (cbn [faults files env_file set_files]; unfold file_exists;
               rewrite ?file_at_put, ?String.eqb_refl;
               try match goal with
                   | |- context [match ?l with nil => _ | cons _ _ => _ end] =>
                       is_var l; destruct l as [|[| |?] ?]
                   | |- context [match file_at ?p ?fs with Some _ => _ | None => _ end] =>
                       destruct (file_at p fs) eqn:?
                   end));
    cbn [faults files env_file set_files];
    (eexists _, _; split; [reflexivity|]; cbn [files env_file];
     repeat split; try discriminate; try congruence;
     try (intros _; exists ordered; split; [reflexivity|]);
     intros; cbn [faults files env_file set_files];
     rewrite ?file_at_put, ?file_at_remove, ?file_at_put, ?String.eqb_refl, ?Htmp, ?Htmp';
     repeat match goal with
            | H : _ <> _ |- _ => rewrite (Hother _ _ H); clear H
            end;
     try reflexivity; try congruence).
Qed.

(** [ensureDir] changes no file; it throws only where the directory is
    missing and a fault is due. *)
Lemma ensureDir_cases (dirPath : string) (w : world) :
  exists r w',
    ensureDir dirPath w = (r, w')
    /\ files w' = files w /\ env_file w' = env_file w
    /\ (r = Ok tt \/ exists e, r = Throw e)
    /\ (forall n rest, faults w = FailPartway n :: rest ->
          (r = Ok tt /\ w' = w) \/ exists e, r = Throw e)
    /\ (dir_exists dirPath (files w) = true -> r = Ok tt /\ w' = w).
Proof.
  unfold ensureDir. destruct (dir_exists dirPath (files w)).
  - exists (Ok tt), w. repeat split; auto.
  - unfold bind, next_fault, ret, throw. destruct w as [fs env fl].
    destruct fl as [|[| |k] fl]; cbn [faults files env_file];
      eexists _, _; (split; [reflexivity|]); cbn [faults files env_file];
      repeat split; eauto; try discriminate; intros; right; eauto.
Qed.

Lemma saveSession_cases (home projectDir : string) (gkSessionId data : json) (w : world) :
  let sessionPath := session_file home projectDir gkSessionId in
  exists r w',
    saveSession home projectDir gkSessionId data w = (r, w')
    /\ (r = Ok true ->
        exists ordered,
          reorderSessionFields data = Ok ordered
          /\ file_at sessionPath (files w') = Some (CJson (JObj ordered)))
    /\ (r <> Ok true -> file_at sessionPath (files w') = file_at sessionPath (files w))
    /\ (forall n rest, faults w = FailPartway n :: rest -> r <> Ok true)
    /\ (forall p, p <> sessionPath -> p <> sessionPath ++ ".tmp" ->
          file_at p (files w') = file_at p (files w))
    /\ env_file w' = env_file w.
Proof.
  intros sessionPath. unfold saveSession. fold sessionPath.
  destruct ((projectDir =? "") || negb (truthy gkSessionId)).
  { exists (Ok false), w. repeat split; auto; discriminate. }
  unfold bind.
  destruct (ensureDir_cases (getProjectDataDir home projectDir) w)
    as (r0 & w0 & E & Hf & He & Hr & Hp & _).
  rewrite E. destruct Hr as [->|[e ->]].
  - destruct (write_then_rename_cases sessionPath data w0)
      as (saved & w' & H1 & H2 & H3 & H4 & H5 & H6).
    exists (Ok saved), w'. split; [exact H1|]. repeat split.
    + intros H. injection H as ->. auto.
    + intros H. rewrite <- Hf. apply H3. destruct saved; congruence.
    + intros n rest Hfl. destruct (Hp n rest Hfl) as [[_ ->]|[e He']]; [|discriminate].
      rewrite (H4 n rest Hfl). discriminate.
    + intros q Hq Hq'. rewrite <- Hf. auto.
    + congruence.
  - exists (Throw e), w0. repeat split; try discriminate; try congruence.
Qed.

Lemma saveProject_partial (home projectDir : string) (gkProjectHash project : json)
    (w : world) (n : nat) (rest : list fault) :
  projectDir <> "" -> truthy gkProjectHash = true ->
  dir_exists (getProjectDataDir home projectDir) (files w) = true ->
  faults w = FailPartway n :: rest ->
  exists w',
    saveProject home projectDir gkProjectHash project w = (Ok false, w')
    /\ file_at (project_file home projectDir gkProjectHash) (files w')
       = Some (CPartial (CJson project) n).
Proof.
  intros Hd Hh He Hf. unfold saveProject.
  apply String.eqb_neq in Hd. rewrite Hd, Hh. cbn [orb negb].
  unfold bind at 1. unfold ensureDir. rewrite He.
  unfold try_catch, bind, fs_writeFileSync, bind, next_fault, ret.
  rewrite Hf. eexists. split; [reflexivity|].
  cbn [files set_files]. rewrite file_at_put, String.eqb_refl. reflexivity.
Qed.

Lemma updateEnv_partial (envData : env_data) (now : string)
    (w : world) (n : nat) (rest : list fault) :
  faults w = FailPartway n :: rest ->
  exists w',
    updateEnv envData now w = (Ok false, w')
    /\ env_file w' = Some (substring 0 n (env_text envData now)).
Proof.
  intros Hf. unfold updateEnv, try_catch, bind, fs_writeEnvFile, bind, next_fault, ret.
  rewrite Hf. eexists. split; reflexivity.
Qed.

(** C3, as amended.  Only session files are replaced atomically.
    [saveSession] writes the new content to [sessionPath.tmp] and renames it
    over [sessionPath]: when it returns [true] the session file holds the new
    content, and in every other case (it returns [false], as it does when
    the write fails partway, or the data directory cannot be created and it
    throws) the session file holds what it held before.  [saveProject] and
    [updateEnv] write the destination in place: a write that fails after [n]
    bytes leaves those [n] bytes there and the function returns [false]. *)
Theorem session_file_write_is_atomic
    (home projectDir : string) (gkSessionId data : json) (w : world) :
  let sessionPath := session_file home projectDir gkSessionId in
  (exists r w',
     saveSession home projectDir gkSessionId data w = (r, w')
     /\ (r = Ok true ->
         exists ordered,
           reorderSessionFields data = Ok ordered
           /\ file_at sessionPath (files w') = Some (CJson (JObj ordered)))
     /\ (r <> Ok true -> file_at sessionPath (files w') = file_at sessionPath (files w))
     /\ (forall n rest, faults w = FailPartway n :: rest -> r <> Ok true))
  /\ (forall gkProjectHash project n rest,
        projectDir <> "" -> truthy gkProjectHash = true ->
        dir_exists (getProjectDataDir home projectDir) (files w) = true ->
        faults w = FailPartway n :: rest ->
        exists w',
          saveProject home projectDir gkProjectHash project w = (Ok false, w')
          /\ file_at (project_file home projectDir gkProjectHash) (files w')
             = Some (CPartial (CJson project) n))
  /\ (forall envData now n rest,
        faults w = FailPartway n :: rest ->
        exists w',
          updateEnv envData now w = (Ok false, w')
          /\ env_file w' = Some (substring 0 n (env_text envData now))).
Proof.
  intros sessionPath. split; [|split].
  - destruct (saveSession_cases home projectDir gkSessionId data w)
      as (r & w' & H1 & H2 & H3 & H4 & _).
    exists r, w'. auto.
  - intros. eapply saveProject_partial; eassumption.
  - intros. eapply updateEnv_partial; eassumption.
Qed.

(** A session save whose write fails after ten bytes *)
Lemma session_file_write_is_atomic_witness :
  exists r w',
    saveSession "/home/u" "proj" (JStr "s1") (JObj [("gkSessionId", JStr "s1")]) failing_world
    = (r, w')
    /\ (r = Ok true ->
        exists ordered,
          reorderSessionFields (JObj [("gkSessionId", JStr "s1")]) = Ok ordered
          /\ file_at (session_file "/home/u" "proj" (JStr "s1")) (files w')
             = Some (CJson (JObj ordered)))
    /\ (r <> Ok true ->
        file_at (session_file "/home/u" "proj" (JStr "s1")) (files w')
        = file_at (session_file "/home/u" "proj" (JStr "s1")) (files failing_world))
    /\ (forall n rest, faults failing_world = FailPartway n :: rest -> r <> Ok true).
Proof.
  exact (proj1 (session_file_write_is_atomic "/home/u" "proj" (JStr "s1")
                  (JObj [("gkSessionId", JStr "s1")]) failing_world)).
Defined.

(** C3 as first stated does not hold for the project file and for [.env]:
    a project save and an env update whose write fails after ten bytes each
    leave ten bytes of the new text where the old content was. *)
Lemma project_and_env_writes_are_in_place :
  file_at "/home/u/.gemkit/projects/proj/gk-project-abcd.json" (files failing_world)
  = Some (CJson (JObj [("gkProjectHash", JStr "abcd"); ("sessions", JArr [])]))
  /\ file_at "/home/u/.gemkit/projects/proj/gk-project-abcd.json"
       (files (snd (saveProject "/home/u" "proj" (JStr "abcd")
                      (JObj [("gkProjectHash", JStr "abcd"); ("sessions", JArr [JNull])])
                      failing_world)))
     = Some (CPartial
               (CJson (JObj [("gkProjectHash", JStr "abcd"); ("sessions", JArr [JNull])])) 10)
  /\ env_file failing_world = Some "ACTIVE_PLAN=plans/a"
  /\ env_file (snd (updateEnv empty_env_data "2026-01-01T00:00:00.000Z" failing_world))
     = Some "# Auto-gen".
Proof. repeat split; vm_compute; reflexivity. Qed.

(** ** Agent operations *)

Lemma lookup_remove (k k' : string) (o : obj) :
  lookup k' (remove k o) = if k =? k' then None else lookup k' o.
Proof.
  unfold remove. destruct (k =? k') eqn:E.
  - apply String.eqb_eq in E. subst k'.
    induction o as [|[k0 v] o IH]; simpl; [reflexivity|].
    destruct (String.eqb_spec k0 k) as [->|Hne]; simpl; [exact IH|].
    rewrite IH. apply String.eqb_neq in Hne. rewrite Hne. reflexivity.
  - induction o as [|[k0 v] o IH]; simpl; [reflexivity|].
    destruct (String.eqb_spec k0 k) as [->|Hne]; simpl.
    + rewrite IH, E. destruct (lookup k' o); reflexivity.
    + rewrite IH. reflexivity.
Qed.

Lemma reorderSessionFields_frame (props ordered : obj) :
  reorderSessionFields (JObj props) = Ok ordered ->
  forall k, k <> "agents" -> lookup k ordered = lookup k props.
Proof.
  intros H k Hk. injection H as <-. cbn [own_props].
  rewrite lookup_set_neq by congruence.
  rewrite lookup_spread_nil, lookup_remove.
  apply not_eq_sym, String.eqb_neq in Hk. rewrite Hk. reflexivity.
Qed.

Lemma add_agent_to_frame (session gkSessionId : json) (agentData : obj) (now : string)
    (session' : json) :
  add_agent_to session gkSessionId agentData now = Ok session' ->
  exists props',
    session' = JObj props'
    /\ forall k, k <> "agents" -> lookup k props' = prop k session.
Proof.
  unfold add_agent_to. destruct (is_object session); [|discriminate].
  destruct (as_array _) as [agents|]; [|discriminate].
  destruct (findIndex _ 0 agents) as [[i|]|]; [| |discriminate].
  - intros H. injection H as <-. eexists. split; [reflexivity|].
    intros k Hk. rewrite !lookup_set_neq by congruence. reflexivity.
  - destruct (if truthy_opt (lookup "pid" agentData) then _ else _) as [pid|]; [|discriminate].
    intros H. injection H as <-. eexists. split; [reflexivity|].
    intros k Hk. rewrite !lookup_set_neq by congruence. reflexivity.
Qed.

Lemma update_agent_in_frame (session : json) (agentGkSessionId : option json) (updates : obj)
    (session' : json) :
  update_agent_in session agentGkSessionId updates = Ok (Some session') ->
  exists props',
    session' = JObj props'
    /\ forall k, k <> "agents" -> lookup k props' = prop k session.
Proof.
  unfold update_agent_in. destruct (as_array _) as [agents|]; [|discriminate].
  destruct (findIndex _ 0 agents) as [[i|]|]; try discriminate.
  intros H. injection H as <-. eexists. split; [reflexivity|].
  intros k Hk. rewrite lookup_set_neq by congruence. reflexivity.
Qed.

(** What a successful [saveSession] of an object leaves behind. *)
Lemma saveSession_true (home projectDir : string) (gkSessionId : json) (props : obj)
    (w w' : world) :
  saveSession home projectDir gkSessionId (JObj props) w = (Ok true, w') ->
  exists ordered,
    reorderSessionFields (JObj props) = Ok ordered
    /\ getSession home projectDir gkSessionId w' = JObj ordered
    /\ file_at (session_file home projectDir gkSessionId) (files w') = Some (CJson (JObj ordered))
    /\ (forall p, p <> session_file home projectDir gkSessionId ->
                  p <> session_file home projectDir gkSessionId ++ ".tmp" ->
                  file_at p (files w') = file_at p (files w))
    /\ env_file w' = env_file w.
Proof.
  intros H.
  destruct (saveSession_cases home projectDir gkSessionId (JObj props) w)
    as (r & w1 & H1 & H2 & _ & _ & H5 & H6).
  rewrite H in H1. injection H1 as <- <-.
  destruct (H2 eq_refl) as (ordered & Ho & Hf).
  exists ordered. repeat split; auto.
  unfold getSession. unfold saveSession in H.
  destruct ((projectDir =? "") || negb (truthy gkSessionId)).
  - discriminate H.
  - rewrite Hf. reflexivity.
Qed.

(** C10.  A successful [addAgent], [updateAgent] or [endAgent] leaves every
    top-level field of the stored session other than [agents] as it was:
    the saved session is an object whose fields, [agents] apart, are those
    read before the call.  Nothing else in the store changes but the
    temporary file of the save, and [.env] is not touched. *)
Theorem agent_operations_keep_session_fields
    (home projectDir : string) (gkSessionId : json) (agentGkSessionId : option json)
    (agentData updates result : obj) (now : string) (w w' : world) :
  addAgent home projectDir gkSessionId agentData now w = (Ok true, w')
  \/ updateAgent home projectDir gkSessionId agentGkSessionId updates w = (Ok true, w')
  \/ endAgent home projectDir gkSessionId agentGkSessionId result now w = (Ok true, w') ->
  exists saved,
    getSession home projectDir gkSessionId w' = JObj saved
    /\ (forall k, k <> "agents" ->
          lookup k saved = prop k (getSession home projectDir gkSessionId w))
    /\ (forall p, p <> session_file home projectDir gkSessionId ->
                  p <> session_file home projectDir gkSessionId ++ ".tmp" ->
                  file_at p (files w') = file_at p (files w))
    /\ env_file w' = env_file w.
Proof.
  assert (Hupd : forall upd,
            updateAgent home projectDir gkSessionId agentGkSessionId upd w = (Ok true, w') ->
            exists saved,
              getSession home projectDir gkSessionId w' = JObj saved
              /\ (forall k, k <> "agents" ->
                    lookup k saved = prop k (getSession home projectDir gkSessionId w))
              /\ (forall p, p <> session_file home projectDir gkSessionId ->
                            p <> session_file home projectDir gkSessionId ++ ".tmp" ->
                            file_at p (files w') = file_at p (files w))
              /\ env_file w' = env_file w).
  { intros upd H. unfold updateAgent in H.
    destruct (negb (truthy _) || negb (truthy_opt _)); [discriminate H|].
    destruct (update_agent_in _ _ _) as [[session'|]|] eqn:E; try discriminate H.
    destruct (update_agent_in_frame _ _ _ _ E) as (props' & -> & Hp).
    destruct (saveSession_true _ _ _ _ _ _ H) as (ordered & Ho & Hg & _ & Hf & He).
    exists ordered. repeat split; auto.
    intros k Hk. rewrite (reorderSessionFields_frame _ _ Ho k Hk). auto. }
  intros [H|[H|H]].
  - unfold addAgent in H.
    destruct (negb (truthy (getSession home projectDir gkSessionId w))); [discriminate H|].
    destruct (add_agent_to _ _ _ _) as [session'|] eqn:E; [|discriminate H].
    destruct (add_agent_to_frame _ _ _ _ _ E) as (props' & -> & Hp).
    destruct (saveSession_true _ _ _ _ _ _ H) as (ordered & Ho & Hg & _ & Hf & He).
    exists ordered. repeat split; auto.
    intros k Hk. rewrite (reorderSessionFields_frame _ _ Ho k Hk). auto.
  - apply (Hupd updates H).
  - apply (Hupd (end_updates result now) H).
Qed.

(** a session with its main agent, to which a sub-agent is added *)
Lemma agent_operations_keep_session_fields_witness :
  exists saved,
    getSession "/home/u" "proj" (JStr "s1")
      (snd (addAgent "/home/u" "proj" (JStr "s1")
              [("gkSessionId", JStr "gemini-sub-7-abc-0001"); ("parentGkSessionId", JStr "s1")]
              "2026-01-01T00:00:00.000Z"
              (set_files (files failing_world) {| files := []; env_file := None; faults := [] |})))
    = JObj saved
    /\ (forall k, k <> "agents" ->
          lookup k saved
          = prop k (getSession "/home/u" "proj" (JStr "s1")
                      (set_files (files failing_world)
                         {| files := []; env_file := None; faults := [] |})))
    /\ (forall p, p <> session_file "/home/u" "proj" (JStr "s1") ->
                  p <> session_file "/home/u" "proj" (JStr "s1") ++ ".tmp" ->
                  file_at p
                    (files (snd (addAgent "/home/u" "proj" (JStr "s1")
                              [("gkSessionId", JStr "gemini-sub-7-abc-0001");
                               ("parentGkSessionId", JStr "s1")]
                              "2026-01-01T00:00:00.000Z"
                              (set_files (files failing_world)
                                 {| files := []; env_file := None; faults := [] |}))))
                  = file_at p (files failing_world))
    /\ env_file (snd (addAgent "/home/u" "proj" (JStr "s1")
                        [("gkSessionId", JStr "gemini-sub-7-abc-0001");
                         ("parentGkSessionId", JStr "s1")]
                        "2026-01-01T00:00:00.000Z"
                        (set_files (files failing_world)
                           {| files := []; env_file := None; faults := [] |})))
       = None.
Proof.
  apply (agent_operations_keep_session_fields "/home/u" "proj" (JStr "s1") None
           [("gkSessionId", JStr "gemini-sub-7-abc-0001"); ("parentGkSessionId", JStr "s1")]
           [] [] "2026-01-01T00:00:00.000Z"
           (set_files (files failing_world) {| files := []; env_file := None; faults := [] |})).
  left. vm_compute. reflexivity.
Defined.

(** ** Resuming a session *)

Lemma updateEnv_cases (envData : env_data) (now : string) (w : world) :
  exists saved w',
    updateEnv envData now w = (Ok saved, w') /\ files w' = files w.
Proof.
  unfold updateEnv, try_catch, bind, fs_writeEnvFile, bind, next_fault, ret, throw.
  destruct w as [fs env fl]. destruct fl as [|[| |n] fl]; cbn [faults files env_file];
    eexists _, _; split; reflexivity.
Qed.

Lemma JSON_parse_inv (c : content) (v : json) : JSON_parse c = Some v -> c = CJson v.
Proof. destruct c; simpl; congruence. Qed.

(** In a directory whose session files all parse, the scan stops at the
    first session file that holds the id. *)
Lemma scan_sessions_first (dir : string) (id : json) (fs : list (string * content))
    (names : list string) (name : string) (others : list string) :
  forallb (fun file =>
             negb (is_session_name file)
             || match stored_session dir fs file with
                | Some JNull => false
                | Some _ => true
                | None => false
                end) names = true ->
  filter (fun file =>
            is_session_name file
            && match stored_session dir fs file with
               | Some JNull => false
               | Some session => strict_eq_opt (prop "geminiSessionId" session) id
               | None => false
               end) names = name :: others ->
  scan_sessions dir id fs names = Some (path_join dir name)
  /\ exists session,
       file_at (path_join dir name) fs = Some (CJson session)
       /\ session <> JNull
       /\ strict_eq_opt (prop "geminiSessionId" session) id = true.
Proof.
  induction names as [|file names IH]; intros Hr Hf; [discriminate Hf|].
  cbn [forallb filter scan_sessions] in *.
  apply andb_prop in Hr. destruct Hr as [Hfile Hrest].
  unfold is_session_name in *.
  destruct (String.prefix "gk-session-" file && ends_with ".json" file) eqn:En.
  - apply andb_prop in En. destruct En as [-> ->]. cbn [negb orb andb] in *.
    unfold stored_session in *.
    destruct (file_at (path_join dir file) fs) as [c|] eqn:Ec; [|discriminate Hfile].
    destruct (JSON_parse c) as [session|] eqn:Ep; [|discriminate Hfile].
    apply JSON_parse_inv in Ep. subst c.
    destruct session; try discriminate Hfile;
      (destruct (strict_eq_opt _ id) eqn:Es;
       [ injection Hf as <- <-; split; [reflexivity|];
         eexists; split; [exact Ec|]; split; [discriminate|exact Es]
       | apply IH; assumption ]).
  - cbn [andb] in Hf.
    apply Bool.andb_false_iff in En.
    destruct En as [->| ->]; cbn [negb orb]; rewrite ?Bool.orb_true_r; apply IH; assumption.
Qed.

(** C2, as amended.  When the project directory name is not empty, the
    Gemini session id is truthy, every session file of the data directory
    parses to a value other than [null], and [name] is the first session
    file that holds the id among the names [fs.readdirSync] returns for the
    directory (files and directories, sorted by the bytes of their names),
    [initializeGeminiSession] returns the session stored in that file, with
    [isResume] true and with the stored [gkSessionId]; it leaves every file
    as it was, so the session files that hold the id are the same before
    and after. *)
Theorem initializeGeminiSession_resumes
    (home : string) (sort_sessions : list json -> list json) (proc : process_info)
    (geminiSessionId geminiParentId : json) (options : init_options)
    (ids : project_identifiers) (w : world) (name : string) (others : list string) :
  project_identifiers_of (process_cwd proc) (opt_cwd options) = Ok ids ->
  ids_projectDir ids <> "" ->
  truthy geminiSessionId = true ->
  sessions_readable (getProjectDataDir home (ids_projectDir ids)) (files w) = true ->
  sessions_holding (getProjectDataDir home (ids_projectDir ids)) geminiSessionId (files w)
  = name :: others ->
  exists session r w',
    initializeGeminiSession home sort_sessions proc geminiSessionId geminiParentId options w
    = (Ok r, w')
    /\ file_at (path_join (getProjectDataDir home (ids_projectDir ids)) name) (files w)
       = Some (CJson session)
    /\ strict_eq_opt (prop "geminiSessionId" session) geminiSessionId = true
    /\ ir_session r = session
    /\ ir_isResume r = true
    /\ ir_gkSessionId r = prop "gkSessionId" session
    /\ files w' = files w
    /\ sessions_holding (getProjectDataDir home (ids_projectDir ids)) geminiSessionId (files w')
       = name :: others.
Proof.
  intros Hids Hdir Hid Hread Hhold.
  destruct (scan_sessions_first _ _ _ _ _ _ Hread Hhold)
    as (Hscan & session & Hfile & Hnull & Heq).
  exists session.
  unfold initializeGeminiSession, bind at 1, lift. rewrite Hids.
  unfold findSessionByGeminiId.
  apply String.eqb_neq in Hdir. rewrite Hdir, Hid. cbn [orb negb].
  rewrite Hscan.
  unfold resume_session, bind at 1, read_json. rewrite Hfile. cbn [JSON_parse].
  unfold bind at 1, lift, get_prop.
  destruct (updateEnv_cases
              {| ed_gkSessionId := prop "gkSessionId" session;
                 ed_gkProjectHash := Some (js_or (prop "gkProjectHash" session)
                                                 (JStr (ids_gkProjectHash ids)));
                 ed_projectDir := opt_str (ids_projectDir ids);
                 ed_geminiSessionId := Some geminiSessionId;
                 ed_geminiProjectHash :=
                   Some (js_or (prop "geminiProjectHash" session)
                               (js_or (opt_str (GEMINI_PROJECT_HASH (readEnv w))) (JStr "")));
                 ed_activePlan := Some (js_or (prop "activePlan" session) (JStr ""));
                 ed_suggestedPlan := Some (js_or (prop "suggestedPlan" session) (JStr ""));
                 ed_planDateFormat := Some (js_or (prop "planDateFormat" session) (JStr "")) |}
              (now_iso proc) w) as (saved & w' & Hu & Hfs).
  destruct session; try (exfalso; apply Hnull; reflexivity);
    unfold bind, ret; rewrite Hu;
    (eexists _, w'; split; [reflexivity|]; cbn [ir_session ir_isResume ir_gkSessionId];
     rewrite Hfs; repeat split; assumption).
Qed.

(** the resume of the session of Gemini session [g1] *)
Lemma initializeGeminiSession_resumes_witness :
  exists session r w',
    initializeGeminiSession "/home/u" (fun l => l) demo_process (JStr "g1") JNull demo_options
      resumable_world
    = (Ok r, w')
    /\ file_at (path_join (getProjectDataDir "/home/u" "home-user-proj") "gk-session-b.json")
         (files resumable_world)
       = Some (CJson session)
    /\ strict_eq_opt (prop "geminiSessionId" session) (JStr "g1") = true
    /\ ir_session r = session
    /\ ir_isResume r = true
    /\ ir_gkSessionId r = prop "gkSessionId" session
    /\ files w' = files resumable_world
    /\ sessions_holding (getProjectDataDir "/home/u" "home-user-proj") (JStr "g1") (files w')
       = ["gk-session-b.json"].
Proof.
  apply (initializeGeminiSession_resumes "/home/u" (fun l => l) demo_process (JStr "g1") JNull
           demo_options
           (generateProjectIdentifiers "/home/user/proj" (Some "/home/user/proj"))
           resumable_world "gk-session-b.json" []).
  - reflexivity.
  - vm_compute. discriminate.
  - reflexivity.
  - vm_compute. reflexivity.
  - vm_compute. reflexivity.
Defined.

(** C2 as first stated does not hold.  The session file [gk-session-b.json]
    holds the Gemini session id [g1], but a session file that does not
    parse is listed before it and ends the search, so
    [initializeGeminiSession] starts a new session ([isResume] false) and
    two session files hold [g1] afterwards.  And for the id [null], which
    the hook passes for a payload without [session_id], the search is not
    made: a second initialisation starts a second session. *)
Lemma resume_misses_existing_session :
  sessions_holding demo_data_dir (JStr "g1") (files unreadable_first_world)
  = ["gk-session-b.json"]
  /\ isResume_of (fst (initializeGeminiSession "/home/u" (fun l => l) demo_process
                         (JStr "g1") JNull demo_options unreadable_first_world))
     = Some false
  /\ sessions_holding demo_data_dir (JStr "g1")
       (files (snd (initializeGeminiSession "/home/u" (fun l => l) demo_process
                      (JStr "g1") JNull demo_options unreadable_first_world)))
     = ["gk-session-b.json"; "gk-session-gemini-main-4242-mjuohs00-k3x9.json"]
  /\ sessions_holding demo_data_dir JNull (files anonymous_session_world)
     = ["gk-session-gemini-main-4242-mjuohs00-k3x9.json"]
  /\ isResume_of (fst (initializeGeminiSession "/home/u" (fun l => l) demo_process_later
                         JNull JNull demo_options anonymous_session_world))
     = Some false
  /\ sessions_holding demo_data_dir JNull
       (files (snd (initializeGeminiSession "/home/u" (fun l => l) demo_process_later
                      JNull JNull demo_options anonymous_session_world)))
     = [ "gk-session-gemini-main-4242-mjuohs00-k3x9.json";
         "gk-session-gemini-main-4243-mjuoj2ao-p0q7.json" ].
Proof. repeat split; vm_compute; reflexivity. Qed.

(** ** The Discord webhook *)

Lemma settled_stays (events : list event) (p : promise) :
  p <> Pending -> fold_left (fun p ev => on_event ev p) events p = p.
Proof.
  revert p. induction events as [|ev events IH]; intros p Hp; [reflexivity|].
  cbn [fold_left]. rewrite IH.
  - destruct p; [contradiction| |]; destruct ev as [c|e]; cbn [on_event resolve reject];
      try destruct ((200 <=? c)%Z && (c <? 300)%Z); reflexivity.
  - destruct p; [contradiction| |]; destruct ev as [c|e]; cbn [on_event resolve reject];
      try destruct ((200 <=? c)%Z && (c <? 300)%Z); discriminate.
Qed.

Lemma settle_first (first : event) (rest : list event) :
  settle (first :: rest) = on_event first Pending.
Proof.
  unfold settle. cbn [fold_left]. apply settled_stays.
  destruct first as [c|e]; cbn [on_event resolve reject];
    try destruct ((200 <=? c)%Z && (c <? 300)%Z); discriminate.
Qed.

Lemma settle_nothing : settle [] = Pending.
Proof. reflexivity. Qed.




(** ** Exit statuses *)

Lemma exits_zero_next {A : Type} (a : A) : exits_zero (next a).
Proof. intros w w' code H. discriminate H. Qed.

Lemma exits_zero_process_exit {A : Type} : exits_zero (@process_exit A 0).
Proof. intros w w' code H. injection H as <- _. reflexivity. Qed.

Lemma exits_zero_run {A : Type} (m : M A) : exits_zero (run m).
Proof.
  intros w w' code H. unfold run in H. destruct (m w) as [[a|e] w1]; discriminate H.
Qed.

Lemma exits_zero_of_outcome {A : Type} (o : outcome A) : exits_zero (of_outcome o).
Proof. apply exits_zero_run. Qed.

Lemma exits_zero_and_then {A B : Type} (s : script A) (k : A -> script B) :
  exits_zero s -> (forall a, exits_zero (k a)) -> exits_zero (and_then s k).
Proof.
  intros Hs Hk w w' code H. unfold and_then in H.
  destruct (s w) as [[a|e|c|] w1] eqn:E.
  - exact (Hk a _ _ _ H).
  - discriminate H.
  - injection H as <- <-. exact (Hs _ _ _ E).
  - discriminate H.
Qed.

Lemma exits_zero_with_world {A : Type} (f : world -> script A) :
  (forall w, exits_zero (f w)) -> exits_zero (with_world f).
Proof. intros Hf w w' code H. exact (Hf w _ _ _ H). Qed.

Lemma exits_zero_try {A : Type} (body : script A) (handler : string -> script A) :
  exits_zero body -> (forall e, exits_zero (handler e)) ->
  exits_zero (try_script body handler).
Proof.
  intros Hb Hh w w' code H. unfold try_script in H.
  destruct (body w) as [[a|e|c|] w1] eqn:E.
  - discriminate H.
  - exact (Hh e _ _ _ H).
  - injection H as <- <-. exact (Hb _ _ _ E).
  - discriminate H.
Qed.

Lemma exits_zero_await (p : promise) : exits_zero (await p).
Proof. destruct p; intros w w' code H; cbn [await] in H; discriminate H. Qed.

(** one step of the walk through a script *)
Ltac exits_zero_step :=
  cbv beta zeta;
  lazymatch goal with
  | |- exits_zero (next _) => apply exits_zero_next
  | |- exits_zero (process_exit _) => apply exits_zero_process_exit
  | |- exits_zero (run _) => apply exits_zero_run
  | |- exits_zero (of_outcome _) => apply exits_zero_of_outcome
  | |- exits_zero (await _) => apply exits_zero_await
  | |- exits_zero (and_then _ _) => apply exits_zero_and_then; [|intros ?]
  | |- exits_zero (with_world _) => apply exits_zero_with_world; intros ?
  | |- exits_zero (try_script _ _) => apply exits_zero_try; [|intros ?]
  | |- exits_zero (if ?b then _ else _) => destruct b
  | |- exits_zero (match ?x with _ => _ end) => destruct x
  | |- exits_zero _ => solve [auto]
  end.

Ltac exits_zero := repeat exits_zero_step.

(** *** Where a script can wait *)

Lemma waits_next {A : Type} (C : Prop) (a : A) : waits_only_if C (next a).
Proof. intros w w' H. discriminate H. Qed.

Lemma waits_process_exit {A : Type} (C : Prop) (code : Z) :
  waits_only_if C (@process_exit A code).
Proof. intros w w' H. discriminate H. Qed.

Lemma waits_run {A : Type} (C : Prop) (m : M A) : waits_only_if C (run m).
Proof.
  intros w w' H. unfold run in H. destruct (m w) as [[a|e] w1]; discriminate H.
Qed.

Lemma waits_of_outcome {A : Type} (C : Prop) (o : outcome A) : waits_only_if C (of_outcome o).
Proof. apply waits_run. Qed.

Lemma waits_and_then {A B : Type} (C : Prop) (s : script A) (k : A -> script B) :
  waits_only_if C s -> (forall a, waits_only_if C (k a)) -> waits_only_if C (and_then s k).
Proof.
  intros Hs Hk w w' H. unfold and_then in H.
  destruct (s w) as [[a|e|c|] w1] eqn:E.
  - exact (Hk a _ _ H).
  - discriminate H.
  - discriminate H.
  - exact (Hs _ _ E).
Qed.

Lemma waits_with_world {A : Type} (C : Prop) (f : world -> script A) :
  (forall w, waits_only_if C (f w)) -> waits_only_if C (with_world f).
Proof. intros Hf w w' H. exact (Hf w _ _ H). Qed.

Lemma waits_try {A : Type} (C : Prop) (body : script A) (handler : string -> script A) :
  waits_only_if C body -> (forall e, waits_only_if C (handler e)) ->
  waits_only_if C (try_script body handler).
Proof.
  intros Hb Hh w w' H. unfold try_script in H.
  destruct (body w) as [[a|e|c|] w1] eqn:E.
  - discriminate H.
  - exact (Hh e _ _ H).
  - discriminate H.
  - exact (Hb _ _ E).
Qed.

Lemma waits_await (p : promise) : waits_only_if (p = Pending) (await p).
Proof. destruct p; intros w w' H; cbn [await] in H; try discriminate H. reflexivity. Qed.

(** a promise that is pending after some events had none to settle it *)
Lemma settle_pending (events : list event) : settle events = Pending -> events = [].
Proof.
  destruct events as [|first rest]; [reflexivity|].
  rewrite settle_first. destruct first as [c|e]; cbn [on_event resolve reject];
    try destruct ((200 <=? c)%Z && (c <? 300)%Z); discriminate.
Qed.

Lemma waits_await_notify (lib : node_lib) (webhookUrl : string) (embed : json)
    (events : list event) :
  waits_only_if (events = [])
    (await (snd (gk_discord_notify.sendDiscordEmbed lib webhookUrl embed events))).
Proof.
  intros w w' H. apply waits_await in H. apply settle_pending.
  unfold gk_discord_notify.sendDiscordEmbed in H.
  destruct (parse_url lib webhookUrl); [exact H|discriminate H].
Qed.

Ltac waits_step :=
  cbv beta zeta;
  lazymatch goal with
  | |- waits_only_if _ (next _) => apply waits_next
  | |- waits_only_if _ (process_exit _) => apply waits_process_exit
  | |- waits_only_if _ (run _) => apply waits_run
  | |- waits_only_if _ (of_outcome _) => apply waits_of_outcome
  | |- waits_only_if _ (await _) => apply waits_await_notify
  | |- waits_only_if _ (and_then _ _) => apply waits_and_then; [|intros ?]
  | |- waits_only_if _ (with_world _) => apply waits_with_world; intros ?
  | |- waits_only_if _ (try_script _ _) => apply waits_try; [|intros ?]
  | |- waits_only_if _ (if ?b then _ else _) => destruct b
  | |- waits_only_if _ (match ?x with _ => _ end) => destruct x
  | |- waits_only_if _ _ => solve [auto]
  end.

Ltac waits_walk := repeat waits_step.

(** a [main] whose [catch] exits with 0 and which waits for nothing *)
Lemma exit_status_try_zero (body : script unit) (w : world) :
  exits_zero body -> waits_only_if False body ->
  exit_status (fst (try_script body (fun _ => process_exit 0) w)) = Some 0%Z.
Proof.
  intros H Hw. unfold try_script.
  destruct (body w) as [[a|e|c|] w1] eqn:E; cbn [fst exit_status process_exit].
  - reflexivity.
  - reflexivity.
  - rewrite (H _ _ _ E). reflexivity.
  - destruct (Hw _ _ E).
Qed.

Lemma exits_zero_find_parent (home projectDir : string) (gk gemini : json) :
  exits_zero (find_parent home projectDir gk gemini).
Proof. unfold find_parent. exits_zero. Qed.

Lemma waits_find_parent (C : Prop) (home projectDir : string) (gk gemini : json) :
  waits_only_if C (find_parent home projectDir gk gemini).
Proof. unfold find_parent. waits_walk. Qed.

Lemma exits_zero_register_sub_agent (home : string) (r : gk_session_init.init_run)
    (projectDir : string) (geminiSessionId hookEventName : json) :
  exits_zero (gk_session_init.register_sub_agent home r projectDir geminiSessionId
                hookEventName).
Proof.
  unfold gk_session_init.register_sub_agent. pose proof exits_zero_find_parent.
  exits_zero.
Qed.

Lemma waits_register_sub_agent (C : Prop) (home : string) (r : gk_session_init.init_run)
    (projectDir : string) (geminiSessionId hookEventName : json) :
  waits_only_if C (gk_session_init.register_sub_agent home r projectDir geminiSessionId
                     hookEventName).
Proof.
  unfold gk_session_init.register_sub_agent. pose proof (waits_find_parent C).
  waits_walk.
Qed.

Lemma exits_zero_init_body (home : string) (sort_sessions : list json -> list json)
    (r : gk_session_init.init_run) :
  exits_zero (gk_session_init.main_body home sort_sessions r).
Proof.
  unfold gk_session_init.main_body, gk_session_init.main_agent,
    gk_session_init.find_existing,
    gk_session_init.before_agent, gk_session_init.before_model, gk_session_init.resume,
    gk_session_init.initialize.
  pose proof exits_zero_register_sub_agent.
  exits_zero.
Qed.

Lemma waits_init_body (home : string) (sort_sessions : list json -> list json)
    (r : gk_session_init.init_run) :
  waits_only_if False (gk_session_init.main_body home sort_sessions r).
Proof.
  unfold gk_session_init.main_body, gk_session_init.main_agent,
    gk_session_init.find_existing,
    gk_session_init.before_agent, gk_session_init.before_model, gk_session_init.resume,
    gk_session_init.initialize.
  pose proof (waits_register_sub_agent False).
  waits_walk.
Qed.

Lemma exits_zero_end_body (home : string) (sort_sessions : list json -> list json)
    (r : gk_session_end.end_run) :
  exits_zero (gk_session_end.main_body home sort_sessions r).
Proof.
  unfold gk_session_end.main_body, gk_session_end.end_sub_agent, gk_session_end.find_session.
  pose proof exits_zero_find_parent.
  exits_zero.
Qed.

Lemma waits_end_body (home : string) (sort_sessions : list json -> list json)
    (r : gk_session_end.end_run) :
  waits_only_if False (gk_session_end.main_body home sort_sessions r).
Proof.
  unfold gk_session_end.main_body, gk_session_end.end_sub_agent, gk_session_end.find_session.
  pose proof (waits_find_parent False).
  waits_walk.
Qed.

Lemma exits_zero_notify_body (home tmpdir : string) (lib : node_lib)
    (r : gk_discord_notify.notify_run) :
  exits_zero (gk_discord_notify.main home tmpdir lib r).
Proof. unfold gk_discord_notify.main. exits_zero. Qed.

Lemma waits_notify_body (home tmpdir : string) (lib : node_lib)
    (r : gk_discord_notify.notify_run) :
  waits_only_if (gk_discord_notify.nr_events r = [])
    (gk_discord_notify.main home tmpdir lib r).
Proof. unfold gk_discord_notify.main. waits_walk. Qed.

Lemma exits_zero_reminder (home : string) (r : gk_dev_rules_reminder.reminder_run) :
  exits_zero (gk_dev_rules_reminder.main home r).
Proof. unfold gk_dev_rules_reminder.main. exits_zero. Qed.

Lemma waits_reminder (home : string) (r : gk_dev_rules_reminder.reminder_run) :
  waits_only_if False (gk_dev_rules_reminder.main home r).
Proof. unfold gk_dev_rules_reminder.main. waits_walk. Qed.

(** a [main] that is one [try] whose [catch] exits with 0 *)
Lemma exit_status_of_exits_zero (C : Prop) (s : script unit) (w : world) :
  exits_zero s -> waits_only_if C s -> (forall w' e, s w <> (Raise e, w')) ->
  exit_status (fst (s w)) = Some 0%Z
  \/ (exit_status (fst (s w)) = None /\ C).
Proof.
  intros H Hw Hr. destruct (s w) as [[a|e|c|] w1] eqn:E; cbn [fst exit_status].
  - left. reflexivity.
  - exfalso. exact (Hr w1 e eq_refl).
  - left. rewrite (H _ _ _ E). reflexivity.
  - right. split; [reflexivity|exact (Hw _ _ E)].
Qed.

Lemma try_script_never_raises (body : script unit) (w w' : world) (e : string) :
  try_script body (fun _ => process_exit 0) w <> (Raise e, w').
Proof.
  unfold try_script. destruct (body w) as [[a|e0|c|] w1]; cbn [process_exit]; discriminate.
Qed.

(** The status of send-discord.cjs: 0 only when there is a message, the
    environment loads and names a webhook, and the promise is resolved;
    no status only when all that is given but the request reports
    nothing. *)
Lemma send_discord_status (lib : node_lib) (cwd now time : string) (argv2 : option string)
    (loadEnv : outcome environment) (events : list event) (w : world) :
  let status := exit_status (fst (send_discord.main lib cwd now time argv2 loadEnv events w)) in
  (status = Some 0%Z \/ status = Some 1%Z \/ status = None)
  /\ (status = Some 0%Z <->
      exists message env webhookUrl,
        argv2 = Some message /\ message <> ""
        /\ loadEnv = Ok env
        /\ getenv "DISCORD_WEBHOOK_URL" env = Some (JStr webhookUrl) /\ webhookUrl <> ""
        /\ snd (send_discord.sendDiscordEmbed lib cwd now time webhookUrl message events)
           = Resolved)
  /\ (status = None -> events = []).
Proof.
  cbv zeta. unfold send_discord.main.
  destruct argv2 as [message|].
  2:{ cbn. split; [right; left; reflexivity|].
      split; [|discriminate].
      split; [discriminate|]. intros (m & env & u & H & _). discriminate H. }
  destruct (String.eqb_spec message "") as [->|Hm].
  { cbn. split; [right; left; reflexivity|].
    split; [|discriminate].
    split; [discriminate|]. intros (m & env & u & H & Hne & _).
    injection H as <-. contradiction. }
  destruct loadEnv as [env|err].
  2:{ cbn. split; [right; left; reflexivity|].
      split; [|discriminate].
      split; [discriminate|]. intros (m & env & u & _ & _ & H & _). discriminate H. }
  unfold and_then, of_outcome, run, lift. cbv beta iota.
  destruct (getenv "DISCORD_WEBHOOK_URL" env) as [v|] eqn:Eg.
  2:{ cbn. split; [right; left; reflexivity|].
      split; [|discriminate].
      split; [discriminate|].
      intros (m & env' & u & _ & _ & H & H' & _). injection H as <-.
      rewrite Eg in H'. discriminate H'. }
  destruct v as [| | |webhookUrl| |];
    try (cbn; split; [right; left; reflexivity|];
         split; [|discriminate];
         split; [discriminate|];
         intros (m & env' & u & _ & _ & H & H' & _); injection H as <-;
         rewrite Eg in H'; discriminate H').
  destruct (String.eqb_spec webhookUrl "") as [->|Hu].
  { cbn. split; [right; left; reflexivity|].
    split; [|discriminate].
    split; [discriminate|].
    intros (m & env' & u & _ & _ & H & H' & Hne & _). injection H as <-.
    rewrite Eg in H'. injection H' as <-. contradiction. }
  unfold try_script.
  destruct (snd (send_discord.sendDiscordEmbed lib cwd now time webhookUrl message events))
    as [| |err] eqn:Ep; cbn [await process_exit next fst exit_status].
  - split; [right; right; reflexivity|]. split.
    + split; [discriminate|].
      intros (m & env' & u & H1 & _ & H2 & H3 & _ & H4).
      injection H1 as <-. injection H2 as <-. rewrite Eg in H3. injection H3 as <-.
      rewrite Ep in H4. discriminate H4.
    + intros _. apply settle_pending.
      unfold send_discord.sendDiscordEmbed in Ep.
      destruct (parse_url lib webhookUrl); [exact Ep|discriminate Ep].
  - split; [left; reflexivity|]. split; [|discriminate].
    split; [|reflexivity]. intros _.
    exists message, env, webhookUrl. repeat split; auto.
  - split; [right; left; reflexivity|]. split; [|discriminate].
    split; [discriminate|].
    intros (m & env' & u & H1 & _ & H2 & H3 & _ & H4).
    injection H1 as <-. injection H2 as <-. rewrite Eg in H3. injection H3 as <-.
    rewrite Ep in H4. discriminate H4.
Qed.

(** C5, as amended.  The hooks gk-session-init, gk-session-end and the
    development-rules reminder end with status 0 whatever they are given
    and whatever fails: every [process.exit] they reach has status 0 and
    every exception is caught by the [try] of [main], whose [catch] exits
    with 0.  So does gk-discord-notify whenever it ends; it does not end
    only while it waits for a webhook request that reports nothing (no
    response and no error; the script sets no timeout).  The stand-alone
    notifier send-discord.cjs ends with status 0 or 1 unless it waits in
    the same way, and with 0 exactly when it has a message, the
    environment loads and names a webhook, and the send is resolved. *)
Theorem hooks_exit_zero
    (home tmpdir : string) (sort_sessions : list json -> list json) (lib : node_lib)
    (init : gk_session_init.init_run) (ending : gk_session_end.end_run)
    (notify : gk_discord_notify.notify_run) (reminder : gk_dev_rules_reminder.reminder_run)
    (cwd now time : string) (argv2 : option string) (loadEnv : outcome environment)
    (events : list event) (w : world) :
  exit_status (fst (gk_session_init.main home sort_sessions init w)) = Some 0%Z
  /\ exit_status (fst (gk_session_end.main home sort_sessions ending w)) = Some 0%Z
  /\ exit_status (fst (gk_dev_rules_reminder.main home reminder w)) = Some 0%Z
  /\ (exit_status (fst (gk_discord_notify.main home tmpdir lib notify w)) = Some 0%Z
      \/ (exit_status (fst (gk_discord_notify.main home tmpdir lib notify w)) = None
          /\ gk_discord_notify.nr_events notify = []))
  /\ (exit_status (fst (send_discord.main lib cwd now time argv2 loadEnv events w)) = Some 0%Z
      \/ exit_status (fst (send_discord.main lib cwd now time argv2 loadEnv events w))
         = Some 1%Z
      \/ exit_status (fst (send_discord.main lib cwd now time argv2 loadEnv events w)) = None)
  /\ (exit_status (fst (send_discord.main lib cwd now time argv2 loadEnv events w)) = Some 0%Z
      <-> exists message env webhookUrl,
            argv2 = Some message /\ message <> ""
            /\ loadEnv = Ok env
            /\ getenv "DISCORD_WEBHOOK_URL" env = Some (JStr webhookUrl)
            /\ webhookUrl <> ""
            /\ snd (send_discord.sendDiscordEmbed lib cwd now time webhookUrl message events)
               = Resolved)
  /\ (exit_status (fst (send_discord.main lib cwd now time argv2 loadEnv events w)) = None
      -> events = []).
Proof.
  split; [|split; [|split; [|split]]].
  - apply exit_status_try_zero; [apply exits_zero_init_body|apply waits_init_body].
  - apply exit_status_try_zero; [apply exits_zero_end_body|apply waits_end_body].
  - destruct (exit_status_of_exits_zero False (gk_dev_rules_reminder.main home reminder) w)
      as [H|[_ []]]; [apply exits_zero_reminder|apply waits_reminder| |exact H].
    intros w' e. apply try_script_never_raises.
  - apply exit_status_of_exits_zero;
      [apply exits_zero_notify_body|apply waits_notify_body|].
    intros w' e. apply try_script_never_raises.
  - apply send_discord_status.
Qed.

(** C5 as first stated does not hold for send-discord.cjs: without a
    message it ends with status 1, and so it does when the webhook answers
    500. *)
Lemma send_discord_exits_one :
  exit_status (fst (send_discord.main demo_lib "/home/user/proj" "2026-01-01T00:00:00.000Z"
                      "12:00:00 AM" None (Ok []) [] empty_world)) = Some 1%Z
  /\ exit_status (fst (send_discord.main demo_lib "/home/user/proj" "2026-01-01T00:00:00.000Z"
                         "12:00:00 AM" (Some "done")
                         (Ok [("DISCORD_WEBHOOK_URL", "https://discord.com/api/webhooks/1/token")])
                         [Response 500] empty_world)) = Some 1%Z.
Proof. split; vm_compute; reflexivity. Qed.


(** ** Sub-agents are tracked in the session of their parent *)

(** *** The names of the files *)

Lemma ends_with_app (suffix x : string) : ends_with suffix (x ++ suffix) = true.
Proof.
  induction x as [|c x IH]; simpl.
  - destruct suffix; simpl; rewrite ?Ascii.eqb_refl, ?String.eqb_refl; reflexivity.
  - rewrite IH. apply orb_true_r.
Qed.

Lemma ends_with_json_tmp (q : string) : ends_with ".json" (q ++ ".tmp") = false.
Proof.
  induction q as [|c q IH]; [reflexivity|].
  change (ends_with ".json" (String c q ++ ".tmp"))
    with ((String c (q ++ ".tmp") =? ".json") || ends_with ".json" (q ++ ".tmp")).
  rewrite IH, orb_false_r. apply String.eqb_neq. intros H.
  assert (E : String.length (String c (q ++ ".tmp")) = String.length ".json")
    by (rewrite H; reflexivity).
  simpl in E. rewrite length_append in E. simpl in E.
  destruct q as [|c1 q]; [|simpl in E; lia].
  simpl in H. injection H as _ H. discriminate H.
Qed.

(** the last segment of a name that ends in [.json] ends in [.json] *)
Lemma split_on_json_last (b : string) :
  exists front t, split_on "/" (b ++ ".json") = (front ++ [(t ++ ".json")%string])%list.
Proof.
  induction b as [|c b IH].
  - exists [], "". reflexivity.
  - destruct IH as (front & t & IH).
    change (split_on "/" (String c b ++ ".json"))
      with (if Ascii.eqb c "/" then EmptyString :: split_on "/" (b ++ ".json")
            else match split_on "/" (b ++ ".json") with
                 | [] => [String c EmptyString]
                 | h :: rest => String c h :: rest
                 end).
    rewrite IH. destruct (Ascii.eqb c "/").
    + exists ("" :: front), t. reflexivity.
    + destruct front as [|h front]; simpl.
      * exists [], (String c t). reflexivity.
      * exists (String c h :: front), t. reflexivity.
Qed.

Lemma concat_ends_with_last (l : list string) (x : string) :
  exists y, String.concat "/" (l ++ [x]) = y ++ x.
Proof.
  induction l as [|h l IH].
  - exists "". reflexivity.
  - destruct IH as (y & IH). destruct l as [|h' l].
    + exists (h ++ "/"). rewrite append_assoc. reflexivity.
    + exists (h ++ "/" ++ y).
      change (String.concat "/" ((h :: h' :: l) ++ [x]))
        with (h ++ "/" ++ String.concat "/" ((h' :: l) ++ [x])).
      rewrite IH, !append_assoc. reflexivity.
Qed.

Lemma path_join_json (a b : string) : exists x, path_join a (b ++ ".json") = x ++ ".json".
Proof.
  unfold path_join. change (a ++ "/" ++ b ++ ".json") with (a ++ String "/" (b ++ ".json")).
  rewrite split_on_app.
  destruct (split_on_json_last b) as (front & t & ->).
  rewrite app_assoc, normalize_segments_fold, fold_left_app. cbn [fold_left].
  assert (Hn : forall stack, norm_step stack (t ++ ".json") = (t ++ ".json") :: stack).
  { intros stack. unfold norm_step.
    assert (H1 : (t ++ ".json" =? "") = false) by (destruct t; reflexivity).
    assert (H2 : (t ++ ".json" =? ".") = false).
    { destruct t as [|c [|c' t]]; simpl; try reflexivity;
        destruct (Ascii.eqb c "."); reflexivity. }
    assert (H3 : (t ++ ".json" =? "..") = false).
    { destruct t as [|c [|c' [|c'' t]]]; simpl; try reflexivity;
        repeat match goal with
               | |- context [Ascii.eqb ?x "."] => destruct (Ascii.eqb x ".")
               end; reflexivity. }
    rewrite H1, H2, H3. reflexivity. }
  rewrite Hn. cbn [rev].
  destruct (concat_ends_with_last (rev (fold_left norm_step (split_on "/" a ++ front) []))
              (t ++ ".json")) as (y & ->).
  exists ("/" ++ y ++ t). rewrite !append_assoc. reflexivity.
Qed.

Lemma session_file_json (home projectDir : string) (gkSessionId : json) :
  ends_with ".json" (session_file home projectDir gkSessionId) = true.
Proof.
  unfold session_file, getSessionPath.
  destruct (path_join_json (getProjectDataDir home projectDir)
              ("gk-session-" ++ String_of gkSessionId)) as (x & H).
  change (("gk-session-" ++ String_of gkSessionId) ++ ".json")
    with ("gk-session-" ++ String_of gkSessionId ++ ".json") in H.
  rewrite H. apply ends_with_app.
Qed.



(** *** Entries, arrays and sessions *)





Lemma prop_obj (k : string) (props : obj) : prop k (JObj props) = lookup k props.
Proof. reflexivity. Qed.





Lemma as_array_inv (v : option json) (agents : list json) :
  as_array v = Ok agents -> v = Some (JArr agents).
Proof.
  destruct v as [[]|]; simpl; intros H; try discriminate H. injection H as <-. reflexivity.
Qed.


(** *** Properties that only look at the files *)



Lemma keeps_ret {A : Type} (P : world -> Prop) (a : A) : keeps P (ret a).
Proof. intros w r w' H HP. injection H as _ <-. exact HP. Qed.

Lemma keeps_throw {A : Type} (P : world -> Prop) (e : string) : keeps P (@throw A e).
Proof. intros w r w' H HP. injection H as _ <-. exact HP. Qed.

Lemma keeps_lift {A : Type} (P : world -> Prop) (o : outcome A) : keeps P (lift o).
Proof. intros w r w' H HP. injection H as _ <-. exact HP. Qed.

Lemma keeps_bind {A B : Type} (P : world -> Prop) (m : M A) (k : A -> M B) :
  keeps P m -> (forall a, keeps P (k a)) -> keeps P (bind m k).
Proof.
  intros Hm Hk w r w' H HP. unfold bind in H.
  destruct (m w) as [[a|e] w1] eqn:E.
  - exact (Hk a _ _ _ H (Hm _ _ _ E HP)).
  - injection H as _ <-. exact (Hm _ _ _ E HP).
Qed.

Lemma keeps_try_catch {A : Type} (P : world -> Prop) (m : M A) (h : string -> M A) :
  keeps P m -> (forall e, keeps P (h e)) -> keeps P (try_catch m h).
Proof.
  intros Hm Hh w r w' H HP. unfold try_catch in H.
  destruct (m w) as [[a|e] w1] eqn:E.
  - injection H as _ <-. exact (Hm _ _ _ E HP).
  - exact (Hh e _ _ _ H (Hm _ _ _ E HP)).
Qed.

Lemma keeps_updateEnv (P : world -> Prop) (envData : env_data) (now : string) :
  files_only P -> keeps P (updateEnv envData now).
Proof.
  intros HP w r w' H Hw.
  destruct (updateEnv_cases envData now w) as (saved & w1 & E & Hf).
  rewrite H in E. injection E as _ <-. exact (HP _ _ Hf Hw).
Qed.

Lemma keeps_ensureDir (P : world -> Prop) (dirPath : string) :
  files_only P -> keeps P (ensureDir dirPath).
Proof.
  intros HP w r w' H Hw.
  destruct (ensureDir_cases dirPath w) as (r0 & w1 & E & Hf & _).
  rewrite H in E. injection E as _ <-. exact (HP _ _ Hf Hw).
Qed.

Lemma keeps_read_json (P : world -> Prop) (path : string) : keeps P (read_json path).
Proof.
  intros w r w' H Hw. unfold read_json in H.
  destruct (file_at path (files w)) as [c|]; [destruct (JSON_parse c)|];
    injection H as _ <-; exact Hw.
Qed.

(** *** Saving a session or a project *)






Lemma saveProject_cases (home projectDir : string) (gkProjectHash data : json) (w : world) :
  let projectPath := project_file home projectDir gkProjectHash in
  exists r w',
    saveProject home projectDir gkProjectHash data w = (r, w')
    /\ (forall p, p <> projectPath -> file_at p (files w') = file_at p (files w))
    /\ (file_at projectPath (files w') = file_at projectPath (files w)
        \/ file_at projectPath (files w') = Some (CJson data)
        \/ exists n, file_at projectPath (files w') = Some (CPartial (CJson data) n)).
Proof.
  intros projectPath. unfold saveProject. fold projectPath.
  destruct ((projectDir =? "") || negb (truthy gkProjectHash)).
  { exists (Ok false), w. auto. }
  unfold bind at 1.
  destruct (ensureDir_cases (getProjectDataDir home projectDir) w)
    as (r0 & w0 & E & Hf & _ & Hr & _).
  rewrite E. destruct Hr as [->|[e ->]].
  - unfold try_catch, bind, fs_writeFileSync, bind, next_fault, ret, throw.
    destruct w0 as [fs env fl]. cbn [files] in Hf. subst fs.
    destruct fl as [|[| |n] fl]; cbn [faults files env_file set_files];
      eexists _, _; (split; [reflexivity|]); cbn [files set_files];
      (split; [intros p Hp; rewrite ?file_at_put;
               try (apply not_eq_sym, String.eqb_neq in Hp; rewrite Hp); reflexivity|]);
      rewrite ?file_at_put, ?String.eqb_refl; eauto.
  - exists (Throw e), w0. rewrite Hf. auto.
Qed.






(** *** The operations on agents *)









Lemma lookup_end_updates (k : string) (result : obj) (now : string) :
  k <> "endTime" -> k <> "status" -> k <> "exitCode" -> k <> "error" -> k <> "tokenUsage" ->
  lookup k (end_updates result now) = None.
Proof.
  intros H1 H2 H3 H4 H5. unfold end_updates.
  assert (E : lookup k [ ("endTime", JStr now);
                         ("status", js_or (lookup "status" result) (JStr "completed"));
                         ("exitCode", nullish_or (lookup "exitCode" result) (JNum 0));
                         ("error", js_or (lookup "error" result) JNull) ] = None).
  { cbn [lookup].
    apply not_eq_sym, String.eqb_neq in H1, H2, H3, H4.
    rewrite H1, H2, H3, H4. reflexivity. }
  destruct (lookup "tokenUsage" result) as [t|]; [destruct (truthy t)|]; try exact E.
  rewrite lookup_set_neq by congruence. exact E.
Qed.






Lemma lookup_capture_updates (k : string) (session geminiProjectHash geminiTempDir : json)
    (now : string) :
  k <> "geminiProjectHash" -> k <> "geminiTempDir" -> k <> "geminiProjectHashCapturedAt" ->
  lookup k (capture_updates session geminiProjectHash geminiTempDir now) = None.
Proof.
  intros H1 H2 H3. unfold capture_updates.
  repeat match goal with
         | |- context [if ?b then _ else _] => destruct b
         end;
    rewrite ?lookup_set_neq by congruence; reflexivity.
Qed.





Lemma fill_env_hash_keeps (P : world -> Prop) (geminiProjectHash : json) (now : string) :
  files_only P -> keeps P (gk_session_init.fill_env_hash geminiProjectHash now).
Proof.
  intros HP w r w' H Hw. unfold gk_session_init.fill_env_hash in H.
  destruct (GEMINI_PROJECT_HASH (readEnv w) =? ""); [|injection H as _ <-; exact Hw].
  refine (keeps_bind P _ _ _ _ _ _ _ H Hw).
  - apply keeps_updateEnv, HP.
  - intros saved. apply keeps_ret.
Qed.


(** *** Session state, projects, new sessions *)








Lemma resume_session_keeps (P : world -> Prop) (home : string) (proc : process_info)
    (ids : project_identifiers) (geminiSessionId : json) (existingSessionPath : string) :
  files_only P ->
  keeps P (resume_session proc ids geminiSessionId existingSessionPath).
Proof.
  intros HP. unfold resume_session.
  apply keeps_bind; [apply keeps_read_json|]. intros existingSession.
  apply keeps_bind; [apply keeps_lift|]. intros existingGkSessionId.
  intros w r w' H Hw.
  refine (keeps_bind P _ _ _ _ _ _ _ H Hw).
  - apply keeps_updateEnv, HP.
  - intros saved. apply keeps_ret.
Qed.






(** *** Scripts *)

Lemma preserves_next {A : Type} (P : world -> Prop) (a : A) : preserves P (next a).
Proof. intros w r w' H HP. injection H as _ <-. exact HP. Qed.

Lemma preserves_process_exit {A : Type} (P : world -> Prop) (code : Z) :
  preserves P (@process_exit A code).
Proof. intros w r w' H HP. injection H as _ <-. exact HP. Qed.

Lemma preserves_run {A : Type} (P : world -> Prop) (m : M A) :
  keeps P m -> preserves P (run m).
Proof.
  intros Hm w r w' H HP. unfold run in H.
  destruct (m w) as [[a|e] w1] eqn:E; injection H as _ <-; exact (Hm _ _ _ E HP).
Qed.

Lemma preserves_of_outcome {A : Type} (P : world -> Prop) (o : outcome A) :
  preserves P (of_outcome o).
Proof. apply preserves_run, keeps_lift. Qed.

Lemma preserves_await (P : world -> Prop) (p : promise) : preserves P (await p).
Proof. destruct p; intros w r w' H HP; injection H as _ <-; exact HP. Qed.

Lemma preserves_and_then {A B : Type} (P : world -> Prop) (s : script A)
    (k : A -> script B) :
  preserves P s -> (forall a, preserves P (k a)) -> preserves P (and_then s k).
Proof.
  intros Hs Hk w r w' H HP. unfold and_then in H.
  destruct (s w) as [[a|e|c|] w1] eqn:E.
  - exact (Hk a _ _ _ H (Hs _ _ _ E HP)).
  - injection H as _ <-. exact (Hs _ _ _ E HP).
  - injection H as _ <-. exact (Hs _ _ _ E HP).
  - injection H as _ <-. exact (Hs _ _ _ E HP).
Qed.

Lemma preserves_with_world {A : Type} (P : world -> Prop) (f : world -> script A) :
  (forall w, preserves P (f w)) -> preserves P (with_world f).
Proof. intros Hf w r w' H HP. exact (Hf w _ _ _ H HP). Qed.

Lemma preserves_try {A : Type} (P : world -> Prop) (body : script A)
    (handler : string -> script A) :
  preserves P body -> (forall e, preserves P (handler e)) ->
  preserves P (try_script body handler).
Proof.
  intros Hb Hh w r w' H HP. unfold try_script in H.
  destruct (body w) as [[a|e|c|] w1] eqn:E.
  - injection H as _ <-. exact (Hb _ _ _ E HP).
  - exact (Hh e _ _ _ H (Hb _ _ _ E HP)).
  - injection H as _ <-. exact (Hb _ _ _ E HP).
  - injection H as _ <-. exact (Hb _ _ _ E HP).
Qed.

(** one step of the walk through a script; [leaf] settles a call into the
    session manager *)
Ltac preserves_step leaf :=
  cbv beta zeta;
  lazymatch goal with
  | |- preserves _ (next _) => apply preserves_next
  | |- preserves _ (process_exit _) => apply preserves_process_exit
  | |- preserves _ (run _) => apply preserves_run; leaf
  | |- preserves _ (of_outcome _) => apply preserves_of_outcome
  | |- preserves _ (await _) => apply preserves_await
  | |- preserves _ (and_then _ _) => apply preserves_and_then; [|intros ?]
  | |- preserves _ (with_world _) => apply preserves_with_world; intros ?
  | |- preserves _ (try_script _ _) => apply preserves_try; [|intros ?]
  | |- preserves _ (if ?b then _ else _) => destruct b
  | |- preserves _ (match ?x with _ => _ end) => destruct x
  | |- preserves _ _ => solve [auto]
  end.



Lemma find_parent_preserves (P : world -> Prop) (home projectDir : string)
    (gk gemini : json) :
  preserves P (find_parent home projectDir gk gemini).
Proof.
  unfold find_parent. repeat preserves_step ltac:(apply keeps_read_json).
Qed.








Lemma send_discord_main_preserves (P : world -> Prop) (lib : node_lib)
    (cwd now time : string) (argv2 : option string) (loadEnv : outcome environment)
    (events : list event) :
  preserves P (send_discord.main lib cwd now time argv2 loadEnv events).
Proof. unfold send_discord.main. repeat preserves_step idtac. Qed.

Lemma preserves_snd {A : Type} (P : world -> Prop) (s : script A) (w : world) :
  preserves P s -> P w -> P (snd (s w)).
Proof. intros H HP. destruct (s w) as [r w'] eqn:E. exact (H _ _ _ E HP). Qed.




(** *** The registration of a sub-agent creates no file *)




















Lemma strict_eq_string (v : json) (s : string) : strict_eq v (JStr s) = true -> v = JStr s.
Proof.
  destruct v; simpl; intros H; try discriminate H.
  apply String.eqb_eq in H. subst. reflexivity.
Qed.





(** In that store the one session file lists the main agent, with no
    parent, and the sub-agent, with the session as its parent. *)
Example registered_sub_agent :
  fs_readdirSync demo_data_dir (files demo_sub_agent_world)
  = ["gk-project-7d73bf4fdeae2f49.json"; "gk-session-gemini-main-4242-mjuohs00-k3x9.json"]
  /\ agent_parents
       (prop "agents"
          (getSession "/home/u" "home-user-proj" (JStr "gemini-main-4242-mjuohs00-k3x9")
             demo_sub_agent_world))
     = [ (Some JNull, Some (JStr "Main Agent"));
         (Some (JStr "gemini-main-4242-mjuohs00-k3x9"), Some (JStr "Sub Agent")) ].
Proof. split; vm_compute; reflexivity. Qed.


Example parseGkSessionId_sample :
  parseGkSessionId (generateGkSessionId "gemini-main" 4242 1700000000000 "k3x9")
  = Some {| id_appName := "gemini-main"; id_pid := 4242;
            id_timestamp := "loyw3v28"; id_random := "k3x9" |}.
Proof. vm_compute. reflexivity. Qed.

Example sha256_test_vectors :
  sha256_hex "abc" = "ba7816bf8f01cfea414140de5dae2223b00361a396177a9cb410ff61f20015ad"
  /\ sha256_hex "" = "e3b0c44298fc1c149afbf4c8996fb92427ae41e4649b934ca495991b7852b855".
Proof. split; vm_compute; reflexivity. Qed.

Example sanitizeProjectPath_samples :
  sanitizeProjectPath "/home/user/proj" = "home-user-proj"
  /\ sanitizeProjectPath "C:\\Users\\me\\My Project" = "C-Users-me-My-Project"
  /\ sanitizeProjectPath "/" = ""
  /\ sanitizeProjectPath "/a//b_c/" = "a-b-c".
Proof. repeat split; reflexivity. Qed.

(* ===================================================================== *)
(** * Part II, continued. Properties of the rest of the library          *)
(* ===================================================================== *)

(** ** Sanitised names are left as they are *)

Lemma replace_each_fixed (f : ascii -> bool) (r : ascii) (s : string) :
  all_chars f s = true -> replace_each (fun c => negb (f c)) r s = s.
Proof.
  induction s as [|c s IH]; simpl; intros H; [reflexivity|].
  apply andb_true_iff in H. destruct H as [H1 H2].
  rewrite H1, (IH H2). reflexivity.
Qed.

Lemma replace_runs_none (g : ascii -> bool) (r : ascii) (s : string) :
  all_chars (fun c => negb (g c)) s = true ->
  forall b, replace_runs g r b s = s.
Proof.
  induction s as [|c s IH]; simpl; intros H b; [reflexivity|].
  apply andb_true_iff in H. destruct H as [H1 H2].
  apply negb_true_iff in H1. rewrite H1, (IH H2). reflexivity.
Qed.

Lemma collapse_hyphens_fixed (s : string) :
  has_double_hyphen s = false ->
  forall b, (b = true -> starts_with_hyphen s = false) ->
  replace_runs is_hyphen "-" b s = s.
Proof.
  induction s as [|c s IH]; simpl; intros H b Hb; [reflexivity|].
  apply orb_false_iff in H. destruct H as [H1 H2].
  destruct (is_hyphen c) eqn:E.
  - destruct b; [specialize (Hb eq_refl); discriminate Hb|].
    simpl in H1. rewrite (IH H2 true (fun _ => H1)).
    f_equal. unfold is_hyphen in E. apply Ascii.eqb_eq in E. symmetry. exact E.
  - rewrite (IH H2 false); [reflexivity|discriminate].
Qed.

Lemma drop_last_if_fixed (s : string) :
  ends_with_hyphen s = false -> drop_last_if is_hyphen s = s.
Proof.
  induction s as [|c s IH]; intros H; [reflexivity|].
  destruct s as [|c' s'].
  - simpl in *. rewrite H. reflexivity.
  - change (drop_last_if is_hyphen (String c (String c' s')))
      with (String c (drop_last_if is_hyphen (String c' s'))).
    rewrite IH; [reflexivity|exact H].
Qed.

Lemma trim_edge_hyphens_fixed (s : string) :
  starts_with_hyphen s = false -> ends_with_hyphen s = false ->
  trim_edge_hyphens s = s.
Proof.
  intros H1 H2. unfold trim_edge_hyphens.
  destruct s as [|c s]; [reflexivity|].
  simpl in H1. rewrite H1. apply drop_last_if_fixed. exact H2.
Qed.

Lemma strip_drive_colon_fixed (s : string) :
  all_chars is_alnum_or_hyphen s = true -> strip_drive_colon s = s.
Proof.
  intros H. destruct s as [|c [|c' s]]; try reflexivity.
  simpl in H. apply andb_true_iff in H. destruct H as [_ H].
  apply andb_true_iff in H. destruct H as [H _].
  unfold strip_drive_colon.
  destruct c' as [[] [] [] [] [] [] [] []]; try reflexivity; discriminate H.
Qed.

Lemma alnum_or_hyphen_not_separator (s : string) :
  all_chars is_alnum_or_hyphen s = true ->
  all_chars (fun c => negb (is_separator c)) s = true.
Proof.
  apply all_chars_weaken. intros c Hc.
  unfold is_separator.
  destruct (Ascii.eqb_spec c "\") as [->|]; [discriminate Hc|].
  destruct (Ascii.eqb_spec c "/") as [->|]; [discriminate Hc|reflexivity].
Qed.

(** X1.  A sanitised project path is a fixed point of [sanitizeProjectPath]. *)
Theorem sanitizeProjectPath_idempotent (projectPath : string) :
  sanitizeProjectPath (sanitizeProjectPath projectPath) = sanitizeProjectPath projectPath.
Proof.
  pose proof (sanitizeProjectPath_chars projectPath) as Hc.
  destruct (sanitizeProjectPath_shape projectPath) as (Hs & He & Hd).
  set (d := sanitizeProjectPath projectPath) in *. clearbody d.
  unfold sanitizeProjectPath. destruct (String.eqb_spec d "") as [->|_]; [reflexivity|].
  rewrite (strip_drive_colon_fixed d Hc).
  rewrite (replace_runs_none is_separator "-" d (alnum_or_hyphen_not_separator d Hc)).
  rewrite (replace_each_fixed is_alnum_or_hyphen "-" d Hc).
  rewrite (collapse_hyphens_fixed d Hd false) by discriminate.
  apply trim_edge_hyphens_fixed; assumption.
Qed.

(** ** Slugs *)

Lemma length_substring_prefix (n : nat) (s : string) :
  String.length (substring 0 n s) = Nat.min n (String.length s).
Proof.
  revert n. induction s as [|c s IH]; intros [|n]; simpl; try reflexivity.
  rewrite IH. reflexivity.
Qed.

Lemma substring_prefix_all (n : nat) (s : string) :
  String.length s <= n -> substring 0 n s = s.
Proof.
  revert n. induction s as [|c s IH]; intros [|n] H; simpl in *; try reflexivity; try lia.
  rewrite IH; [reflexivity|lia].
Qed.

Lemma starts_with_hyphen_prefix (n : nat) (s : string) :
  starts_with_hyphen s = false -> starts_with_hyphen (substring 0 n s) = false.
Proof. destruct s, n; simpl; auto. Qed.

Lemma has_double_hyphen_prefix (n : nat) (s : string) :
  has_double_hyphen s = false -> has_double_hyphen (substring 0 n s) = false.
Proof.
  revert n. induction s as [|c s IH]; intros [|n] H; simpl in *; try reflexivity.
  apply orb_false_iff in H. destruct H as [H1 H2].
  rewrite (IH n H2), orb_false_r.
  destruct (is_hyphen c); [|reflexivity]. simpl in *.
  apply starts_with_hyphen_prefix. exact H1.
Qed.

(** X2.  [sanitizeSlug] gives at most 100 characters, all of them letters,
    digits or hyphens, with no two hyphens in a row, and it leaves its own
    results as they are. *)
Theorem sanitizeSlug_safe (slug : string) :
  all_chars is_alnum_or_hyphen (sanitizeSlug slug) = true
  /\ has_double_hyphen (sanitizeSlug slug) = false
  /\ String.length (sanitizeSlug slug) <= 100
  /\ sanitizeSlug (sanitizeSlug slug) = sanitizeSlug slug.
Proof.
  assert (H : all_chars is_alnum_or_hyphen (sanitizeSlug slug) = true
              /\ has_double_hyphen (sanitizeSlug slug) = false
              /\ String.length (sanitizeSlug slug) <= 100).
  { unfold sanitizeSlug. destruct (slug =? ""); [repeat split; simpl; lia|].
    repeat split.
    - apply substring_chars, replace_runs_class; [reflexivity|].
      apply replace_each_class. reflexivity.
    - apply has_double_hyphen_prefix, collapse_hyphens_shape.
    - rewrite length_substring_prefix. lia. }
  destruct H as (Hc & Hd & Hl). repeat split; try assumption.
  set (d := sanitizeSlug slug) in *. clearbody d.
  unfold sanitizeSlug. destruct (String.eqb_spec d "") as [->|_]; [reflexivity|].
  rewrite (replace_each_fixed is_alnum_or_hyphen "-" d Hc).
  rewrite (collapse_hyphens_fixed d Hd false) by discriminate.
  apply substring_prefix_all; exact Hl.
Qed.

(** ** The project hash *)

Lemma sha256_round_length (st : list N) (kw : N * N) :
  List.length st = 8 -> List.length (sha256_round st kw) = 8.
Proof.
  intros H. destruct st as [|a [|b [|c [|d [|e [|f [|g [|h [|x st]]]]]]]]];
    try discriminate H. reflexivity.
Qed.

Lemma sha256_rounds_length (kws : list (N * N)) (st : list N) :
  List.length st = 8 -> List.length (fold_left sha256_round kws st) = 8.
Proof.
  revert st. induction kws as [|kw kws IH]; intros st H; simpl; [exact H|].
  apply IH, sha256_round_length, H.
Qed.

Lemma compress_length (hash block : list N) :
  List.length hash = 8 -> List.length (compress hash block) = 8.
Proof.
  intros H. unfold compress.
  rewrite length_map, length_combine, sha256_rounds_length, H by exact H. reflexivity.
Qed.

Lemma sha256_blocks_length (n : nat) (ws hash : list N) :
  List.length hash = 8 -> List.length (sha256_blocks n ws hash) = 8.
Proof.
  revert ws hash. induction n as [|n IH]; intros ws hash H; simpl; [exact H|].
  apply IH, compress_length, H.
Qed.

Lemma hex_of_word_length (n : nat) (w : N) : String.length (hex_of_word n w) = n.
Proof. induction n as [|n IH]; simpl; [reflexivity|]. rewrite IH. reflexivity. Qed.

Lemma concat_words_length (n : nat) (l : list N) :
  String.length (String.concat "" (map (hex_of_word n) l)) = List.length l * n.
Proof.
  induction l as [|w l IH]; [reflexivity|].
  cbn [map]. destruct l as [|w' l'].
  - simpl. rewrite hex_of_word_length. lia.
  - change (String.concat "" (hex_of_word n w :: map (hex_of_word n) (w' :: l')))
      with (hex_of_word n w ++ "" ++ String.concat "" (map (hex_of_word n) (w' :: l'))).
    rewrite !length_append, IH, hex_of_word_length. simpl. lia.
Qed.

Lemma sha256_hex_length (s : string) : String.length (sha256_hex s) = 64.
Proof.
  unfold sha256_hex. rewrite concat_words_length, sha256_blocks_length; reflexivity.
Qed.

Lemma hex_digit_is_hex (d : N) : (d < 16)%N -> is_hex_digit (hex_digit d) = true.
Proof.
  intros H. unfold hex_digit, is_hex_digit, is_digit, between, code.
  destruct (N.ltb_spec d 10).
  - rewrite N_ascii_embedding by lia.
    apply orb_true_iff. left. apply andb_true_iff. split; apply N.leb_le; lia.
  - rewrite N_ascii_embedding by lia.
    apply orb_true_iff. right. apply andb_true_iff. split; apply N.leb_le; lia.
Qed.

Lemma hex_of_word_is_hex (n : nat) (w : N) :
  all_chars is_hex_digit (hex_of_word n w) = true.
Proof.
  induction n as [|n IH]; cbn [hex_of_word all_chars]; [reflexivity|].
  rewrite IH, hex_digit_is_hex; [reflexivity|].
  apply N.mod_lt. discriminate.
Qed.

Lemma sha256_hex_is_hex (s : string) : all_chars is_hex_digit (sha256_hex s) = true.
Proof.
  unfold sha256_hex. apply concat_empty_sep_chars.
  induction (sha256_blocks _ _ _) as [|w l IH]; cbn [map forallb]; [reflexivity|].
  rewrite hex_of_word_is_hex. exact IH.
Qed.

Lemma generateGkProjectHash_normalized (projectPath : string) :
  generateGkProjectHash projectPath
  = substring 0 16 (sha256_hex (normalized_project_path projectPath)).
Proof. reflexivity. Qed.

Lemma normalized_char_lower (c : ascii) :
  lower_char (if Ascii.eqb (lower_char c) "\" then "/"%char else lower_char c)
  = lower_char (if Ascii.eqb c "\" then "/"%char else c).
Proof. destruct c as [[] [] [] [] [] [] [] []]; reflexivity. Qed.

Lemma normalized_char_slash (c : ascii) :
  lower_char (if Ascii.eqb (if Ascii.eqb c "\" then "/"%char else c) "\"
              then "/"%char else (if Ascii.eqb c "\" then "/"%char else c))
  = lower_char (if Ascii.eqb c "\" then "/"%char else c).
Proof. destruct c as [[] [] [] [] [] [] [] []]; reflexivity. Qed.

Lemma normalized_project_path_lower (p : string) :
  normalized_project_path (toLowerCase p) = normalized_project_path p.
Proof.
  unfold normalized_project_path.
  induction p as [|c p IH]; simpl; [reflexivity|].
  rewrite IH, normalized_char_lower. reflexivity.
Qed.

Lemma normalized_project_path_slash (p : string) :
  normalized_project_path (replace_each (fun c => Ascii.eqb c "\") "/" p)
  = normalized_project_path p.
Proof.
  unfold normalized_project_path.
  induction p as [|c p IH]; simpl; [reflexivity|].
  rewrite IH, normalized_char_slash. reflexivity.
Qed.

(** X3.  The project hash is 16 lower-case hexadecimal digits, and it does not
    tell the case of letters or the direction of slashes apart. *)
Theorem generateGkProjectHash_shape (projectPath : string) :
  String.length (generateGkProjectHash projectPath) = 16
  /\ all_chars is_hex_digit (generateGkProjectHash projectPath) = true
  /\ generateGkProjectHash (toLowerCase projectPath) = generateGkProjectHash projectPath
  /\ generateGkProjectHash (replace_each (fun c => Ascii.eqb c "\") "/" projectPath)
     = generateGkProjectHash projectPath.
Proof.
  rewrite !generateGkProjectHash_normalized.
  rewrite normalized_project_path_lower, normalized_project_path_slash.
  repeat split.
  - rewrite length_substring_prefix, sha256_hex_length. reflexivity.
  - apply substring_chars, sha256_hex_is_hex.
Qed.

(** ** The kind of a session id *)

Lemma parse_generated_id_app_name (appName : string) (pid now : N) (random : string) :
  appName <> "" -> all_chars is_dot appName = true -> is_safe pid = true ->
  String.length random = 4 -> all_chars is_lower_alnum random = true ->
  parseGkSessionId (generateGkSessionId appName pid now random)
  = Some {| id_appName := appName; id_pid := pid;
            id_timestamp := toString36 now; id_random := random |}.
Proof.
  intros Hn Hc Hp Hl Hr. unfold parseGkSessionId, generateGkSessionId.
  rewrite (Number_toString_safe pid Hp).
  destruct (String.eqb_spec (appName ++ "-" ++ decimal pid ++ "-" ++ toString36 now ++ "-" ++ random) "")
    as [E|_].
  - destruct appName; [congruence|discriminate E].
  - rewrite match_generated_id; auto using decimal_nonempty,
      decimal_digits, toString36_nonempty, toString36_lower_alnum.
    rewrite parseInt_decimal, (round_double_safe pid Hp). reflexivity.
Qed.

(** X4.  An identifier made by [generateGkSessionId] from a name of ASCII
    characters with no line break in it, not empty, a pid below 2^53 and
    four random characters of [a-z0-9] is classified by its application
    name alone: it is a Gemini session exactly when the name starts with
    [gemini-], and a non-Gemini session otherwise; no identifier is both. *)
Theorem generated_id_session_type (appName : string) (pid now : N) (random : string) :
  appName <> "" -> ascii_only appName = true -> all_chars is_dot appName = true ->
  is_safe pid = true ->
  String.length random = 4 -> all_chars is_lower_alnum random = true ->
  let gkSessionId := generateGkSessionId appName pid now random in
  detectSessionType gkSessionId
  = Some (if String.prefix "gemini-" appName then "gemini" else "non-gemini")
  /\ isGeminiSession gkSessionId = String.prefix "gemini-" appName
  /\ isNonGeminiSession gkSessionId = negb (String.prefix "gemini-" appName)
  /\ forall other, isGeminiSession other && isNonGeminiSession other = false.
Proof.
  intros Hn _ Hc Hp Hl Hr gkSessionId. subst gkSessionId.
  unfold isGeminiSession, isNonGeminiSession, detectSessionType.
  rewrite parse_generated_id_app_name by assumption. cbn [id_appName].
  repeat split; try (destruct (String.prefix "gemini-" appName); reflexivity).
  intros other. destruct (parseGkSessionId other) as [parsed|]; [|reflexivity].
  destruct (String.prefix "gemini-" (id_appName parsed)); reflexivity.
Qed.

Lemma generated_id_session_type_witness :
  detectSessionType (generateGkSessionId "gemini-main" 4242 1767225600000 "k3x9")
  = Some "gemini"
  /\ isGeminiSession (generateGkSessionId "vscode" 17 1767225600000 "0a0a") = false
  /\ isNonGeminiSession (generateGkSessionId "vscode" 17 1767225600000 "0a0a") = true.
Proof.
  split; [|split].
  - apply (generated_id_session_type "gemini-main" 4242 1767225600000 "k3x9");
      [discriminate|reflexivity|reflexivity|reflexivity|reflexivity|reflexivity].
  - apply (generated_id_session_type "vscode" 17 1767225600000 "0a0a");
      [discriminate|reflexivity|reflexivity|reflexivity|reflexivity|reflexivity].
  - apply (generated_id_session_type "vscode" 17 1767225600000 "0a0a");
      [discriminate|reflexivity|reflexivity|reflexivity|reflexivity|reflexivity].
Defined.

(** ** Property lists without repeated keys *)

Lemma has_key_app (k : string) (a b : obj) :
  has_key k (a ++ b)%list = has_key k a || has_key k b.
Proof. unfold has_key. apply existsb_app. Qed.

Lemma has_key_overwrite (k k' : string) (v : json) (o : obj) :
  has_key k' (map (fun p => if fst p =? k then (fst p, v) else p) o) = has_key k' o.
Proof.
  unfold has_key. induction o as [|[k0 v0] o IH]; simpl; [reflexivity|].
  rewrite IH. destruct (k0 =? k); reflexivity.
Qed.

Lemma has_key_assign_all (f : string -> json -> json) (k : string) (es acc : obj) :
  has_key k (assign_all f es acc) = has_key k es || has_key k acc.
Proof.
  revert acc. induction es as [|[k0 v0] es IH]; intros acc; simpl; [reflexivity|].
  rewrite IH, has_key_set.
  destruct (k0 =? k), (has_key k es), (has_key k acc); reflexivity.
Qed.

Lemma has_key_remove (k k' : string) (o : obj) :
  has_key k' (remove k o) = negb (k =? k') && has_key k' o.
Proof.
  unfold has_key, remove. induction o as [|[k0 v0] o IH]; simpl.
  - rewrite andb_false_r. reflexivity.
  - destruct (String.eqb_spec k0 k) as [->|Hne]; simpl.
    + rewrite IH. destruct (k =? k'); reflexivity.
    + rewrite IH. destruct (String.eqb_spec k0 k') as [->|]; simpl.
      * apply String.eqb_neq in Hne. rewrite String.eqb_sym, Hne. reflexivity.
      * reflexivity.
Qed.

Lemma has_key_In (k : string) (o : obj) :
  has_key k o = true <-> In k (map fst o).
Proof.
  unfold has_key. rewrite existsb_exists. split.
  - intros [[k0 v0] [Hin E]]. simpl in E. apply String.eqb_eq in E. subst k0.
    apply in_map_iff. exists (k, v0). auto.
  - intros H. apply in_map_iff in H. destruct H as [[k0 v0] [E Hin]]. simpl in E. subst k0.
    exists (k, v0). split; [exact Hin|apply String.eqb_refl].
Qed.

Lemma keys_overwrite (k : string) (v : json) (o : obj) :
  map fst (map (fun p => if fst p =? k then (fst p, v) else p) o) = map fst o.
Proof.
  induction o as [|[k0 v0] o IH]; simpl; [reflexivity|].
  rewrite IH. destruct (k0 =? k); reflexivity.
Qed.

Lemma NoDup_keys_set (k : string) (v : json) (o : obj) :
  NoDup (map fst o) -> NoDup (map fst (set k v o)).
Proof.
  intros H. unfold set. destruct (has_key k o) eqn:E.
  - rewrite keys_overwrite. exact H.
  - rewrite map_app. simpl. apply NoDup_app; [exact H|repeat constructor; auto|].
    intros x Hx [<-|[]]. apply has_key_In in Hx. congruence.
Qed.

Lemma NoDup_keys_assign_all (f : string -> json -> json) (es acc : obj) :
  NoDup (map fst acc) -> NoDup (map fst (assign_all f es acc)).
Proof.
  revert acc. induction es as [|[k v] es IH]; intros acc H; simpl; [exact H|].
  apply IH, NoDup_keys_set, H.
Qed.

Lemma NoDup_keys_spread (a b : obj) : NoDup (map fst a) -> NoDup (map fst (spread a b)).
Proof. apply NoDup_keys_assign_all. Qed.

(** copying an object whose keys are all different gives the same list *)
Lemma assign_all_fresh (es acc : obj) :
  NoDup (map fst es) ->
  (forall k, In k (map fst es) -> has_key k acc = false) ->
  assign_all (fun _ v => v) es acc = (acc ++ es)%list.
Proof.
  revert acc. induction es as [|[k v] es IH]; intros acc Hn Hd; simpl.
  - rewrite app_nil_r. reflexivity.
  - inversion Hn as [|? ? Hk Hn']; subst.
    unfold set at 1. rewrite (Hd k) by (left; reflexivity).
    rewrite IH; [rewrite <- app_assoc; reflexivity|exact Hn'|].
    intros k' Hk'. rewrite has_key_app, (Hd k') by (right; exact Hk').
    simpl. rewrite orb_false_r.
    apply String.eqb_neq. intros ->. exact (Hk Hk').
Qed.

Lemma spread_nil_fixed (o : obj) : NoDup (map fst o) -> spread [] o = o.
Proof.
  intros H. unfold spread. rewrite assign_all_fresh; [reflexivity|exact H|reflexivity].
Qed.

Lemma set_fresh (k : string) (v : json) (o : obj) :
  has_key k o = false -> set k v o = (o ++ [(k, v)])%list.
Proof. intros H. unfold set. rewrite H. reflexivity. Qed.

Lemma remove_app (k : string) (a b : obj) :
  remove k (a ++ b)%list = (remove k a ++ remove k b)%list.
Proof. unfold remove. apply filter_app. Qed.

Lemma remove_absent (k : string) (o : obj) : has_key k o = false -> remove k o = o.
Proof.
  unfold has_key, remove. induction o as [|[k0 v0] o IH]; simpl; intros H; [reflexivity|].
  apply orb_false_iff in H. destruct H as [H1 H2].
  rewrite H1, (IH H2). reflexivity.
Qed.

Lemma js_or_truthy (a : option json) (b : json) : truthy b = true -> truthy (js_or a b) = true.
Proof.
  intros H. destruct a as [x|]; simpl; [|exact H].
  destruct (truthy x) eqn:E; assumption.
Qed.

Lemma js_or_of_truthy (x b : json) : truthy x = true -> js_or (Some x) b = x.
Proof. intros H. simpl. rewrite H. reflexivity. Qed.

(** what [reorderSessionFields] gives for the properties [props] *)
Lemma reorder_props (session : json) :
  session <> JNull ->
  reorderSessionFields session
  = Ok (spread [] (remove "agents" (own_props session))
          ++ [("agents", js_or (prop "agents" session) (JArr []))])%list.
Proof.
  intros H. unfold reorderSessionFields.
  rewrite set_fresh.
  - destruct session; try reflexivity. congruence.
  - unfold spread. rewrite has_key_assign_all, has_key_remove. reflexivity.
Qed.

(** X5.  [reorderSessionFields] moves [agents] to the end, where it stands
    once, as an empty array when the session has none; every other field
    keeps its value, and a reordered session is reordered to itself. *)
Theorem reorderSessionFields_agents_last (session : json) :
  session <> JNull ->
  exists front agents,
    reorderSessionFields session = Ok (front ++ [("agents", agents)])%list
    /\ has_key "agents" front = false
    /\ agents = js_or (prop "agents" session) (JArr [])
    /\ (forall k, k <> "agents" -> lookup k front = prop k session)
    /\ reorderSessionFields (JObj (front ++ [("agents", agents)])%list)
       = Ok (front ++ [("agents", agents)])%list.
Proof.
  intros H.
  exists (spread [] (remove "agents" (own_props session))),
         (js_or (prop "agents" session) (JArr [])).
  assert (Hk : has_key "agents" (spread [] (remove "agents" (own_props session))) = false).
  { unfold spread. rewrite has_key_assign_all, has_key_remove. reflexivity. }
  split; [apply reorder_props; exact H|]. split; [exact Hk|]. split; [reflexivity|]. split.
  - intros k Hne. rewrite lookup_spread_nil, lookup_remove.
    apply not_eq_sym, String.eqb_neq in Hne. rewrite Hne. reflexivity.
  - rewrite reorder_props by discriminate. cbn [own_props]. rewrite prop_obj.
    rewrite remove_app, (remove_absent _ _ Hk). cbn [remove filter fst String.eqb Ascii.eqb Bool.eqb negb].
    rewrite app_nil_r, lookup_app_last, String.eqb_refl.
    rewrite js_or_of_truthy by (apply js_or_truthy; reflexivity).
    rewrite spread_nil_fixed; [reflexivity|].
    apply NoDup_keys_spread. constructor.
Qed.

Lemma reorderSessionFields_agents_last_witness :
  exists front agents,
    reorderSessionFields
      (JObj [("agents", JArr [JStr "a"]); ("gkSessionId", JStr "s"); ("pid", JNum 7)])
    = Ok (front ++ [("agents", agents)])%list
    /\ has_key "agents" front = false
    /\ agents = JArr [JStr "a"]
    /\ lookup "pid" front = Some (JNum 7).
Proof.
  destruct (reorderSessionFields_agents_last
              (JObj [("agents", JArr [JStr "a"]); ("gkSessionId", JStr "s"); ("pid", JNum 7)]))
    as (front & agents & H1 & H2 & H3 & H4 & _); [discriminate|].
  exists front, agents. repeat split; try assumption.
  rewrite H4 by discriminate. reflexivity.
Defined.

(** ** Reading back what [updateEnv] wrote *)

Lemma split_lines_single (a : string) : single_line a = true -> split_lines a = [a].
Proof.
  unfold single_line. induction a as [|c a IH]; simpl; intros H; [reflexivity|].
  apply andb_true_iff in H. destruct H as [H1 H2].
  apply andb_true_iff in H1. destruct H1 as [H1 _].
  apply negb_true_iff in H1. rewrite H1, (IH H2). reflexivity.
Qed.

Lemma split_lines_app (a b : string) :
  single_line a = true ->
  split_lines (a ++ String "010" b) = a :: split_lines b.
Proof.
  unfold single_line. induction a as [|c a IH]; simpl; intros H; [reflexivity|].
  apply andb_true_iff in H. destruct H as [H1 H2].
  apply andb_true_iff in H1. destruct H1 as [H1 _].
  apply negb_true_iff in H1. rewrite H1, (IH H2). reflexivity.
Qed.

Lemma split_lines_concat (lines : list string) :
  lines <> [] -> forallb single_line lines = true ->
  split_lines (String.concat (String "010" "") lines) = lines.
Proof.
  induction lines as [|a lines IH]; intros Hn H; [congruence|].
  simpl in H. apply andb_true_iff in H. destruct H as [H1 H2].
  destruct lines as [|b lines].
  - simpl. apply split_lines_single, H1.
  - change (String.concat (String "010" "") (a :: b :: lines))
      with (a ++ String "010" (String.concat (String "010" "") (b :: lines))).
    rewrite split_lines_app by exact H1. rewrite IH; [reflexivity|discriminate|exact H2].
Qed.

Lemma single_line_append (a b : string) :
  single_line (a ++ b) = single_line a && single_line b.
Proof. apply all_chars_append. Qed.

Lemma updateEnv_true (envData : env_data) (now : string) (w w' : world) :
  updateEnv envData now w = (Ok true, w') ->
  env_file w' = Some (env_text envData now) /\ files w' = files w.
Proof.
  unfold updateEnv, try_catch, bind, fs_writeEnvFile, bind, next_fault, ret, throw.
  destruct w as [fs env fl]. destruct fl as [|[| |n] fl]; cbn [faults files env_file];
    intros H; inversion H; subst; split; reflexivity.
Qed.

Lemma env_text_lines (envData : env_data) (now : string) :
  single_line now = true ->
  forallb single_line (env_data_values envData) = true ->
  split_lines (env_text envData now)
  = [ "# Auto-generated by gk-session-manager";
      "# Updated at: " ++ now;
      "";
      "# GEMKIT IDs";
      "ACTIVE_GK_SESSION_ID=" ++ or_empty (ed_gkSessionId envData);
      "GK_PROJECT_HASH=" ++ or_empty (ed_gkProjectHash envData);
      "PROJECT_DIR=" ++ or_empty (ed_projectDir envData);
      "";
      "# GEMINI IDs (mapped)";
      "ACTIVE_GEMINI_SESSION_ID=" ++ or_empty (ed_geminiSessionId envData);
      "GEMINI_PROJECT_HASH=" ++ or_empty (ed_geminiProjectHash envData);
      "";
      "# PLAN INFO";
      "ACTIVE_PLAN=" ++ or_empty (ed_activePlan envData);
      "SUGGESTED_PLAN=" ++ or_empty (ed_suggestedPlan envData);
      "PLAN_DATE_FORMAT=" ++ or_empty (ed_planDateFormat envData);
      "" ].
Proof.
  intros Hn Hv. unfold env_text. apply split_lines_concat; [discriminate|].
  unfold env_data_values in Hv. cbn [forallb] in Hv |- *.
  repeat (apply andb_true_iff in Hv; destruct Hv as [? Hv]).
  rewrite !single_line_append.
  repeat match goal with H : single_line _ = true |- _ => rewrite H; clear H end.
  reflexivity.
Qed.

(** X6.  After a successful [updateEnv] of values and a time stamp that are
    ASCII texts with no line break in them, [readEnv] gives back every value
    that was written, trimmed; the session id falls back on the Gemini
    session id when it is blank, and [GEMINI_PARENT_ID], which [updateEnv]
    never writes, is empty. *)
Theorem readEnv_after_updateEnv (envData : env_data) (now : string) (w w' : world) :
  single_line now = true ->
  forallb single_line (env_data_values envData) = true ->
  updateEnv envData now w = (Ok true, w') ->
  let env := readEnv w' in
  ACTIVE_GK_SESSION_ID env
  = (if trim (or_empty (ed_gkSessionId envData)) =? ""
     then trim (or_empty (ed_geminiSessionId envData))
     else trim (or_empty (ed_gkSessionId envData)))
  /\ GK_PROJECT_HASH env = trim (or_empty (ed_gkProjectHash envData))
  /\ PROJECT_DIR env = trim (or_empty (ed_projectDir envData))
  /\ ACTIVE_GEMINI_SESSION_ID env = trim (or_empty (ed_geminiSessionId envData))
  /\ GEMINI_PROJECT_HASH env = trim (or_empty (ed_geminiProjectHash envData))
  /\ GEMINI_PARENT_ID env = ""
  /\ ACTIVE_PLAN env = trim (or_empty (ed_activePlan envData))
  /\ SUGGESTED_PLAN env = trim (or_empty (ed_suggestedPlan envData))
  /\ PLAN_DATE_FORMAT env = trim (or_empty (ed_planDateFormat envData))
  /\ files w' = files w.
Proof.
  intros Hn Hv H env. subst env.
  destruct (updateEnv_true _ _ _ _ H) as [He Hf].
  unfold readEnv. rewrite He, (env_text_lines envData now Hn Hv).
  cbn [ACTIVE_GK_SESSION_ID GK_PROJECT_HASH PROJECT_DIR ACTIVE_GEMINI_SESSION_ID
       GEMINI_PROJECT_HASH GEMINI_PARENT_ID ACTIVE_PLAN SUGGESTED_PLAN PLAN_DATE_FORMAT].
  unfold env_get. simpl env_match.
  repeat split; try reflexivity. exact Hf.
Qed.

Lemma readEnv_after_updateEnv_witness :
  let w' := snd (updateEnv demo_env_data "2026-01-01T00:00:00.000Z" empty_world) in
  ACTIVE_GK_SESSION_ID (readEnv w') = "gemini-main-4242-mjuohs00-k3x9"
  /\ ACTIVE_PLAN (readEnv w') = "plans/260101-login"
  /\ GEMINI_PROJECT_HASH (readEnv w') = ""
  /\ GEMINI_PARENT_ID (readEnv w') = "".
Proof.
  destruct (readEnv_after_updateEnv demo_env_data "2026-01-01T00:00:00.000Z" empty_world
              (snd (updateEnv demo_env_data "2026-01-01T00:00:00.000Z" empty_world))
              eq_refl eq_refl eq_refl)
    as (H1 & _ & _ & _ & H5 & H6 & H7 & _).
  cbv zeta. rewrite H1, H5, H6, H7. repeat split; reflexivity.
Defined.

(** ** Searching and replacing in an array *)

Lemma findIndex_shift (test : json -> outcome bool) (s : nat) (l : list json) :
  findIndex test s l
  = match findIndex test 0 l with
    | Ok (Some i) => Ok (Some (s + i))
    | other => other
    end.
Proof.
  revert s. induction l as [|a l IH]; intros s; simpl; [reflexivity|].
  destruct (test a) as [[|]|e]; try reflexivity.
  - rewrite Nat.add_0_r. reflexivity.
  - rewrite (IH (S s)), (IH 1).
    destruct (findIndex test 0 l) as [[i|]|e]; try reflexivity.
    rewrite Nat.add_succ_r. reflexivity.
Qed.

Lemma findIndex_found (test : json -> outcome bool) (l : list json) (i : nat) (d : json) :
  findIndex test 0 l = Ok (Some i) ->
  i < List.length l
  /\ test (nth i l d) = Ok true
  /\ forall j, j < i -> test (nth j l d) = Ok false.
Proof.
  revert i. induction l as [|a l IH]; intros i H; simpl in H; [discriminate|].
  destruct (test a) as [[|]|e] eqn:E; try discriminate.
  - injection H as <-. simpl. repeat split; [lia|exact E|intros j Hj; lia].
  - rewrite findIndex_shift in H.
    destruct (findIndex test 0 l) as [[i'|]|e] eqn:E'; try discriminate.
    injection H as <-. destruct (IH i' eq_refl) as (H1 & H2 & H3).
    simpl. repeat split; [lia|exact H2|].
    intros [|j] Hj; [exact E|]. apply H3. lia.
Qed.

Lemma findIndex_first (test : json -> outcome bool) (l : list json) (i : nat) (d : json) :
  i < List.length l ->
  test (nth i l d) = Ok true ->
  (forall j, j < i -> test (nth j l d) = Ok false) ->
  findIndex test 0 l = Ok (Some i).
Proof.
  revert i. induction l as [|a l IH]; intros i Hi Ht Hf; simpl in Hi; [lia|].
  destruct i as [|i]; simpl in *.
  - rewrite Ht. reflexivity.
  - rewrite (Hf 0) by lia. rewrite findIndex_shift, (IH i); [reflexivity|lia|exact Ht|].
    intros j Hj. apply (Hf (S j)). lia.
Qed.

Lemma findIndex_none (test : json -> outcome bool) (l : list json) :
  findIndex test 0 l = Ok None -> Forall (fun a => test a = Ok false) l.
Proof.
  induction l as [|a l IH]; intros H; simpl in H; [constructor|].
  destruct (test a) as [[|]|e] eqn:E; try discriminate.
  rewrite findIndex_shift in H.
  destruct (findIndex test 0 l) as [[i'|]|e] eqn:E'; try discriminate.
  constructor; [exact E|apply IH; reflexivity].
Qed.

Lemma findIndex_app_new (test : json -> outcome bool) (l : list json) (x : json) :
  findIndex test 0 l = Ok None -> test x = Ok true ->
  findIndex test 0 (l ++ [x]) = Ok (Some (List.length l)).
Proof.
  induction l as [|a l IH]; intros H Hx; simpl in *.
  - rewrite Hx. reflexivity.
  - destruct (test a) as [[|]|e] eqn:E; try discriminate.
    rewrite findIndex_shift in H |- *.
    destruct (findIndex test 0 l) as [[i'|]|e] eqn:E'; try discriminate.
    rewrite (IH eq_refl Hx). reflexivity.
Qed.

Lemma length_replace_nth (i : nat) (x : json) (l : list json) :
  List.length (replace_nth i x l) = List.length l.
Proof.
  revert i. induction l as [|a l IH]; intros [|i]; simpl; try reflexivity.
  rewrite IH. reflexivity.
Qed.

Lemma nth_replace_nth (i j : nat) (x d : json) (l : list json) :
  i < List.length l ->
  nth j (replace_nth i x l) d = if (i =? j)%nat then x else nth j l d.
Proof.
  revert i j. induction l as [|a l IH]; intros i j H; simpl in H; [lia|].
  destruct i as [|i], j as [|j]; simpl; try reflexivity.
  apply IH. lia.
Qed.

Lemma map_replace_nth (A : Type) (f : json -> A) (i : nat) (x : json) (l : list json) :
  f x = f (nth i l JNull) -> map f (replace_nth i x l) = map f l.
Proof.
  revert i. induction l as [|a l IH]; intros [|i] H; simpl in *; try reflexivity.
  - rewrite H. reflexivity.
  - rewrite (IH i H). reflexivity.
Qed.

(** ** Reading a session after it was saved *)

Lemma session_file_not_tmp (home p p' : string) (id id' : json) :
  session_file home p' id' <> session_file home p id ++ ".tmp".
Proof.
  intros H. pose proof (session_file_json home p' id') as E.
  rewrite H, ends_with_json_tmp in E. discriminate E.
Qed.

Lemma file_exists_at (path : string) (fs : list (string * content)) (c : content) :
  file_at path fs = Some c -> file_exists path fs = true.
Proof. unfold file_exists. intros ->. reflexivity. Qed.

Lemma getSession_unchanged (home p : string) (id : json) (w w' : world) :
  file_at (session_file home p id) (files w') = file_at (session_file home p id) (files w) ->
  getSession home p id w' = getSession home p id w.
Proof. unfold getSession. intros ->. reflexivity. Qed.

Lemma saveSession_read_back (home projectDir : string) (gkSessionId data : json)
    (w w' : world) :
  saveSession home projectDir gkSessionId data w = (Ok true, w') ->
  exists ordered,
    reorderSessionFields data = Ok ordered
    /\ getSession home projectDir gkSessionId w' = JObj ordered
    /\ file_exists (session_file home projectDir gkSessionId) (files w') = true
    /\ (forall k, k <> "agents" -> prop k (getSession home projectDir gkSessionId w') = prop k data)
    /\ prop "agents" (getSession home projectDir gkSessionId w')
       = Some (js_or (prop "agents" data) (JArr []))
    /\ (forall projectDir' gkSessionId',
          session_file home projectDir' gkSessionId' <> session_file home projectDir gkSessionId ->
          getSession home projectDir' gkSessionId' w' = getSession home projectDir' gkSessionId' w)
    /\ env_file w' = env_file w.
Proof.
  intros H.
  destruct (saveSession_cases home projectDir gkSessionId data w)
    as (r & w1 & H1 & H2 & _ & _ & H5 & H6).
  cbv zeta in H1, H2, H5. rewrite H in H1. injection H1 as <- <-.
  destruct (H2 eq_refl) as (ordered & Ho & Hf).
  assert (Hg : getSession home projectDir gkSessionId w' = JObj ordered).
  { unfold getSession. unfold saveSession in H.
    destruct ((projectDir =? "") || negb (truthy gkSessionId)); [discriminate H|].
    rewrite Hf. reflexivity. }
  assert (Hd : data <> JNull) by (intros ->; discriminate Ho).
  exists ordered. rewrite Hg. repeat split; try assumption.
  - exact (file_exists_at _ _ _ Hf).
  - intros k Hk. rewrite reorder_props in Ho by exact Hd. injection Ho as <-.
    rewrite prop_obj, lookup_app_last.
    apply not_eq_sym, String.eqb_neq in Hk. rewrite Hk.
    rewrite lookup_spread_nil, lookup_remove, Hk. reflexivity.
  - rewrite reorder_props in Ho by exact Hd. injection Ho as <-.
    rewrite prop_obj, lookup_app_last, String.eqb_refl. reflexivity.
  - intros p' id' Hne. apply getSession_unchanged, H5; [exact Hne|].
    apply session_file_not_tmp.
Qed.

(** X7.  A session that [saveSession] reported saved is what [getSession]
    reads next: the saved fields with [agents] moved to the end.  The
    session exists, and every other session reads as before. *)
Theorem getSession_after_saveSession (home projectDir : string) (gkSessionId data : json)
    (w w' : world) :
  saveSession home projectDir gkSessionId data w = (Ok true, w') ->
  exists ordered,
    reorderSessionFields data = Ok ordered
    /\ getSession home projectDir gkSessionId w' = JObj ordered
    /\ sessionExists home projectDir gkSessionId w' = true
    /\ (forall k, k <> "agents" -> prop k (getSession home projectDir gkSessionId w') = prop k data)
    /\ prop "agents" (getSession home projectDir gkSessionId w')
       = Some (js_or (prop "agents" data) (JArr []))
    /\ (forall projectDir' gkSessionId',
          session_file home projectDir' gkSessionId' <> session_file home projectDir gkSessionId ->
          getSession home projectDir' gkSessionId' w' = getSession home projectDir' gkSessionId' w)
    /\ env_file w' = env_file w.
Proof.
  intros H.
  destruct (saveSession_read_back _ _ _ _ _ _ H) as (ordered & H1 & H2 & H3 & H4 & H5 & H6 & H7).
  exists ordered. repeat split; try assumption.
  unfold sessionExists. unfold saveSession in H.
  destruct ((projectDir =? "") || negb (truthy gkSessionId)); [discriminate H|].
  rewrite H3. reflexivity.
Qed.

Lemma getSession_after_saveSession_witness :
  let w' := snd (saveSession "/home/u" "home-user-proj" (JStr "s9")
                   (JObj [("agents", JArr []); ("gkSessionId", JStr "s9")]) empty_world) in
  exists ordered,
    getSession "/home/u" "home-user-proj" (JStr "s9") w' = JObj ordered
    /\ sessionExists "/home/u" "home-user-proj" (JStr "s9") w' = true
    /\ lookup "gkSessionId" ordered = Some (JStr "s9").
Proof.
  destruct (getSession_after_saveSession "/home/u" "home-user-proj" (JStr "s9")
              (JObj [("agents", JArr []); ("gkSessionId", JStr "s9")]) empty_world
              (snd (saveSession "/home/u" "home-user-proj" (JStr "s9")
                      (JObj [("agents", JArr []); ("gkSessionId", JStr "s9")]) empty_world))
              eq_refl)
    as (ordered & _ & H2 & H3 & H4 & _).
  exists ordered. cbv zeta. repeat split; try assumption.
  rewrite <- prop_obj, <- H2. apply H4. discriminate.
Defined.

(** ** Updating a session and its agents *)

Lemma updateSession_cases (home p : string) (id : json) (updates : obj)
    (w w' : world) (updated : json) :
  updateSession home p id updates w = (Ok updated, w') ->
  (updated = JNull /\ getSession home p id w' = getSession home p id w)
  \/ (updated = JObj (spread (spread [] (own_props (getSession home p id w))) updates)
      /\ truthy (getSession home p id w) = true
      /\ saveSession home p id updated w = (Ok true, w')).
Proof.
  unfold updateSession. intros H.
  destruct (truthy (getSession home p id w)) eqn:Es; cbn [negb] in H.
  - unfold bind, ret in H.
    destruct (saveSession_cases home p id
                (JObj (spread (spread [] (own_props (getSession home p id w))) updates)) w)
      as (r & w1 & H1 & _ & H3 & _).
    cbv zeta in H3. rewrite H1 in H. destruct r as [[|]|e].
    + injection H as <- <-. right. auto.
    + injection H as <- <-. left. split; [reflexivity|].
      apply getSession_unchanged, H3. discriminate.
    + discriminate H.
  - injection H as <- <-. left. auto.
Qed.

(** X8.  [updateSession] returns [null] and leaves the session as it was, or
    it returns the session with the updates laid over it, which is then what
    [getSession] reads ([agents] apart, which the save moves to the end). *)
Theorem updateSession_merges (home projectDir : string) (gkSessionId : json) (updates : obj)
    (w w' : world) (updated : json) :
  updateSession home projectDir gkSessionId updates w = (Ok updated, w') ->
  (updated = JNull
   /\ getSession home projectDir gkSessionId w' = getSession home projectDir gkSessionId w)
  \/ (updated <> JNull
      /\ (forall k, prop k updated
                    = match lookup k updates with
                      | Some v => Some v
                      | None => prop k (getSession home projectDir gkSessionId w)
                      end)
      /\ (forall k, k <> "agents" ->
                    prop k (getSession home projectDir gkSessionId w') = prop k updated)
      /\ prop "agents" (getSession home projectDir gkSessionId w')
         = Some (js_or (prop "agents" updated) (JArr []))).
Proof.
  intros H. destruct (updateSession_cases _ _ _ _ _ _ _ H) as [[-> Hg]|(Hu & Hs & Hsave)].
  - left. auto.
  - right. destruct (saveSession_read_back _ _ _ _ _ _ Hsave) as (ordered & _ & _ & _ & H4 & H5 & _).
    split; [rewrite Hu; discriminate|]. split; [|split; assumption].
    intros k. rewrite Hu, prop_obj, lookup_spread, lookup_spread_nil. reflexivity.
Qed.

Lemma updateSession_merges_witness :
  let r := updateSession "/home/u" "home-user-proj" (JStr "s1")
             [("activePlan", JStr "plans/a")] demo_agents_world in
  prop "activePlan" (getSession "/home/u" "home-user-proj" (JStr "s1") (snd r))
  = Some (JStr "plans/a")
  /\ prop "gkSessionId" (getSession "/home/u" "home-user-proj" (JStr "s1") (snd r))
     = Some (JStr "s1").
Proof.
  cbv zeta.
  destruct (updateSession "/home/u" "home-user-proj" (JStr "s1")
              [("activePlan", JStr "plans/a")] demo_agents_world) as [r w'] eqn:E.
  assert (Er : exists u, r = Ok u /\ u <> JNull).
  { vm_compute in E. injection E as <- _. eexists. split; [reflexivity|discriminate]. }
  destruct Er as (u & -> & Hu).
  destruct (updateSession_merges _ _ _ _ _ _ _ E) as [[-> _]|(_ & H1 & H2 & _)]; [congruence|].
  cbn [snd]. rewrite !H2, !H1 by discriminate. split; reflexivity.
Defined.

(** ** One agent of a session *)

Lemma stored_agents_prop (home p : string) (id : json) (w : world) (agents : list json) :
  prop "agents" (getSession home p id w) = Some (JArr agents) ->
  stored_agents home p id w = Some agents.
Proof. unfold stored_agents. intros ->. reflexivity. Qed.

(** what a successful [updateAgent] saved *)
Lemma updateAgent_saved (home p : string) (id : json) (agentId : option json)
    (updates : obj) (w w' : world) :
  updateAgent home p id agentId updates w = (Ok true, w') ->
  exists agents i,
    prop "agents" (getSession home p id w) = Some (JArr agents)
    /\ findIndex (agent_id_is agentId) 0 agents = Ok (Some i)
    /\ prop "agents" (getSession home p id w')
       = Some (JArr (replace_nth i
                       (JObj (spread (spread [] (own_props (nth i agents JNull))) updates))
                       agents))
    /\ (forall k, k <> "agents" ->
                  prop k (getSession home p id w') = prop k (getSession home p id w))
    /\ (forall p' id', session_file home p' id' <> session_file home p id ->
                       getSession home p' id' w' = getSession home p' id' w)
    /\ env_file w' = env_file w.
Proof.
  unfold updateAgent. intros H.
  destruct (negb (truthy (getSession home p id w))
            || negb (truthy_opt (prop "agents" (getSession home p id w)))); [discriminate H|].
  unfold update_agent_in in H.
  destruct (as_array (prop "agents" (getSession home p id w))) as [agents|e] eqn:Ea;
    [|discriminate H].
  apply as_array_inv in Ea.
  destruct (findIndex (agent_id_is agentId) 0 agents) as [[i|]|e] eqn:Ei; try discriminate H.
  destruct (saveSession_read_back _ _ _ _ _ _ H) as (ordered & _ & _ & _ & H4 & H5 & H6 & H7).
  exists agents, i. repeat split; try assumption.
  - rewrite H5, prop_obj, lookup_set_eq. reflexivity.
  - intros k Hk. rewrite (H4 k Hk), prop_obj. apply lookup_set_neq. congruence.
Qed.

(** X9.  A successful [updateAgent] rewrites the first agent that carries the
    given id and no other: the array keeps its length, every other entry is
    what it was, and the entry itself has the updates laid over its fields. *)
Theorem updateAgent_changes_one_agent (home projectDir : string) (gkSessionId : json)
    (agentGkSessionId : option json) (updates : obj) (w w' : world) :
  updateAgent home projectDir gkSessionId agentGkSessionId updates w = (Ok true, w') ->
  exists agents agents' i,
    stored_agents home projectDir gkSessionId w = Some agents
    /\ stored_agents home projectDir gkSessionId w' = Some agents'
    /\ i < List.length agents
    /\ agent_id_is agentGkSessionId (nth i agents JNull) = Ok true
    /\ (forall j, j < i -> agent_id_is agentGkSessionId (nth j agents JNull) = Ok false)
    /\ List.length agents' = List.length agents
    /\ (forall j, j <> i -> nth j agents' JNull = nth j agents JNull)
    /\ (forall k, prop k (nth i agents' JNull)
                  = match lookup k updates with
                    | Some v => Some v
                    | None => prop k (nth i agents JNull)
                    end).
Proof.
  intros H. destruct (updateAgent_saved _ _ _ _ _ _ _ H) as (agents & i & Ha & Hi & Ha' & _).
  destruct (findIndex_found _ _ _ JNull Hi) as (Hlt & Ht & Hf).
  eexists agents, _, i. split; [apply stored_agents_prop, Ha|].
  split; [apply stored_agents_prop, Ha'|].
  repeat split; try assumption.
  - apply length_replace_nth.
  - intros j Hj. rewrite nth_replace_nth by exact Hlt.
    destruct (Nat.eqb_spec i j); [congruence|reflexivity].
  - intros k. rewrite nth_replace_nth, Nat.eqb_refl by exact Hlt.
    rewrite prop_obj, lookup_spread, lookup_spread_nil. reflexivity.
Qed.

Lemma updateAgent_changes_one_agent_witness :
  let w' := snd (updateAgent "/home/u" "home-user-proj" (JStr "s1") (Some (JStr "a2"))
                   [("model", JStr "flash")] demo_agents_world) in
  exists agents',
    stored_agents "/home/u" "home-user-proj" (JStr "s1") w' = Some agents'
    /\ List.length agents' = 2
    /\ prop "model" (nth 1 agents' JNull) = Some (JStr "flash")
    /\ prop "status" (nth 1 agents' JNull) = Some (JStr "active")
    /\ prop "status" (nth 0 agents' JNull) = Some (JStr "completed").
Proof.
  cbv zeta.
  destruct (updateAgent_changes_one_agent "/home/u" "home-user-proj" (JStr "s1")
              (Some (JStr "a2")) [("model", JStr "flash")] demo_agents_world
              (snd (updateAgent "/home/u" "home-user-proj" (JStr "s1") (Some (JStr "a2"))
                      [("model", JStr "flash")] demo_agents_world)) eq_refl)
    as (agents & agents' & i & H1 & H2 & H3 & H4 & H5 & H6 & H7 & H8).
  vm_compute in H1. injection H1 as <-.
  assert (Ei : i = 1).
  { destruct i as [|[|i]]; [discriminate H4|reflexivity|simpl in H3; lia]. }
  subst i. exists agents'. repeat split; try assumption.
  - rewrite H8. reflexivity.
  - rewrite H8. reflexivity.
  - rewrite H7 by discriminate. reflexivity.
Defined.

(** X10.  A successful [endAgent] stamps the agent with the end time, the
    status (completed unless the result says otherwise), the exit code (0
    unless the result has one) and the error; the fields it does not write,
    and every other agent, stay as they were. *)
Theorem endAgent_records_result (home projectDir : string) (gkSessionId : json)
    (agentGkSessionId : option json) (result : obj) (now : string) (w w' : world) :
  endAgent home projectDir gkSessionId agentGkSessionId result now w = (Ok true, w') ->
  exists agents agents' i,
    stored_agents home projectDir gkSessionId w = Some agents
    /\ stored_agents home projectDir gkSessionId w' = Some agents'
    /\ i < List.length agents
    /\ agent_id_is agentGkSessionId (nth i agents JNull) = Ok true
    /\ List.length agents' = List.length agents
    /\ (forall j, j <> i -> nth j agents' JNull = nth j agents JNull)
    /\ prop "endTime" (nth i agents' JNull) = Some (JStr now)
    /\ prop "status" (nth i agents' JNull)
       = Some (js_or (lookup "status" result) (JStr "completed"))
    /\ prop "exitCode" (nth i agents' JNull)
       = Some (nullish_or (lookup "exitCode" result) (JNum 0))
    /\ prop "error" (nth i agents' JNull) = Some (js_or (lookup "error" result) JNull)
    /\ (forall k, k <> "endTime" -> k <> "status" -> k <> "exitCode" -> k <> "error" ->
                  k <> "tokenUsage" ->
                  prop k (nth i agents' JNull) = prop k (nth i agents JNull)).
Proof.
  unfold endAgent. intros H.
  destruct (updateAgent_saved _ _ _ _ _ _ _ H) as (agents & i & Ha & Hi & Ha' & _).
  destruct (findIndex_found _ _ _ JNull Hi) as (Hlt & Ht & Hf).
  eexists agents, _, i. split; [apply stored_agents_prop, Ha|].
  split; [apply stored_agents_prop, Ha'|].
  assert (Hk : forall k, prop k (nth i (replace_nth i
                  (JObj (spread (spread [] (own_props (nth i agents JNull)))
                           (end_updates result now))) agents) JNull)
               = match lookup k (end_updates result now) with
                 | Some v => Some v
                 | None => prop k (nth i agents JNull)
                 end).
  { intros k. rewrite nth_replace_nth, Nat.eqb_refl by exact Hlt.
    rewrite prop_obj, lookup_spread, lookup_spread_nil. reflexivity. }
  assert (Hu : forall k v, k <> "tokenUsage" ->
                 lookup k [ ("endTime", JStr now);
                            ("status", js_or (lookup "status" result) (JStr "completed"));
                            ("exitCode", nullish_or (lookup "exitCode" result) (JNum 0));
                            ("error", js_or (lookup "error" result) JNull) ] = Some v ->
                 lookup k (end_updates result now) = Some v).
  { intros k v Hne Hl. unfold end_updates.
    destruct (lookup "tokenUsage" result) as [t|]; [|exact Hl].
    destruct (truthy t); [|exact Hl]. rewrite lookup_set_neq by congruence. exact Hl. }
  repeat split; try assumption.
  - apply length_replace_nth.
  - intros j Hj. rewrite nth_replace_nth by exact Hlt.
    destruct (Nat.eqb_spec i j); [congruence|reflexivity].
  - rewrite Hk, (Hu "endTime" (JStr now)); [reflexivity|discriminate|reflexivity].
  - rewrite Hk, (Hu "status" _ ltac:(discriminate) eq_refl). reflexivity.
  - rewrite Hk, (Hu "exitCode" _ ltac:(discriminate) eq_refl). reflexivity.
  - rewrite Hk, (Hu "error" _ ltac:(discriminate) eq_refl). reflexivity.
  - intros k H1 H2 H3 H4 H5. rewrite Hk, lookup_end_updates by assumption. reflexivity.
Qed.

Lemma endAgent_records_result_witness :
  let w' := snd (endAgent "/home/u" "home-user-proj" (JStr "s1") (Some (JStr "a2"))
                   [("status", JStr "failed"); ("exitCode", JNum 3)]
                   "2026-01-01T00:09:00.000Z" demo_agents_world) in
  exists agents',
    stored_agents "/home/u" "home-user-proj" (JStr "s1") w' = Some agents'
    /\ prop "status" (nth 1 agents' JNull) = Some (JStr "failed")
    /\ prop "exitCode" (nth 1 agents' JNull) = Some (JNum 3)
    /\ prop "endTime" (nth 1 agents' JNull) = Some (JStr "2026-01-01T00:09:00.000Z")
    /\ prop "startTime" (nth 1 agents' JNull) = Some (JStr "2026-01-01T00:01:00.000Z").
Proof.
  cbv zeta.
  destruct (endAgent_records_result "/home/u" "home-user-proj" (JStr "s1")
              (Some (JStr "a2")) [("status", JStr "failed"); ("exitCode", JNum 3)]
              "2026-01-01T00:09:00.000Z" demo_agents_world
              (snd (endAgent "/home/u" "home-user-proj" (JStr "s1") (Some (JStr "a2"))
                      [("status", JStr "failed"); ("exitCode", JNum 3)]
                      "2026-01-01T00:09:00.000Z" demo_agents_world)) eq_refl)
    as (agents & agents' & i & H1 & H2 & H3 & H4 & H5 & H6 & H7 & H8 & H9 & H10 & H11).
  vm_compute in H1. injection H1 as <-.
  assert (Ei : i = 1).
  { destruct i as [|[|i]]; [discriminate H4|reflexivity|simpl in H3; lia]. }
  subst i. exists agents'. repeat split; try assumption.
  rewrite H11 by discriminate. reflexivity.
Defined.

(** ** Prompts are written once, agents are added once *)

Lemma prop_some_truthy (k : string) (v x : json) : prop k v = Some x -> truthy v = true.
Proof.
  unfold prop. destruct v as [| | |s| |]; simpl; try discriminate; try reflexivity.
  destruct s; [discriminate|reflexivity].
Qed.

Lemma agent_id_is_true (id : option json) (a : json) :
  agent_id_is id a = Ok true ->
  a <> JNull /\ strict_eq_opts (prop "gkSessionId" a) id = true.
Proof.
  unfold agent_id_is. destruct a; intros H; try discriminate H;
    injection H as H; split; try discriminate; exact H.
Qed.

Lemma agent_id_is_obj (id : option json) (props : obj) :
  agent_id_is id (JObj props) = Ok (strict_eq_opts (lookup "gkSessionId" props) id).
Proof. reflexivity. Qed.

(** an update that does not write [gkSessionId] leaves the agent where
    [findIndex] finds it *)
Lemma findIndex_after_update (id : option json) (agents : list json) (i : nat)
    (updates : obj) :
  findIndex (agent_id_is id) 0 agents = Ok (Some i) ->
  lookup "gkSessionId" updates = None ->
  findIndex (agent_id_is id) 0
    (replace_nth i (JObj (spread (spread [] (own_props (nth i agents JNull))) updates)) agents)
  = Ok (Some i).
Proof.
  intros Hi Hu. destruct (findIndex_found _ _ _ JNull Hi) as (Hlt & Ht & Hf).
  apply (findIndex_first _ _ _ JNull).
  - rewrite length_replace_nth. exact Hlt.
  - rewrite nth_replace_nth, Nat.eqb_refl by exact Hlt.
    rewrite agent_id_is_obj, lookup_spread, Hu, lookup_spread_nil.
    apply agent_id_is_true in Ht. f_equal. apply Ht.
  - intros j Hj. rewrite nth_replace_nth by exact Hlt.
    destruct (Nat.eqb_spec i j); [lia|]. apply Hf, Hj.
Qed.

(** X11.  [updateAgentPrompt] writes the prompt of an agent that has none, and
    once a prompt is there no later call replaces it: the call returns
    [false] and changes nothing. *)
Theorem updateAgentPrompt_write_once (home projectDir : string)
    (gkSessionId agentGkSessionId prompt : json) (w w' : world) :
  truthy prompt = true ->
  updateAgentPrompt home projectDir gkSessionId agentGkSessionId prompt w = (Ok true, w') ->
  (exists agents agents' i,
     stored_agents home projectDir gkSessionId w = Some agents
     /\ stored_agents home projectDir gkSessionId w' = Some agents'
     /\ agent_id_is (Some agentGkSessionId) (nth i agents JNull) = Ok true
     /\ truthy_opt (prop "prompt" (nth i agents JNull)) = false
     /\ prop "prompt" (nth i agents' JNull) = Some prompt)
  /\ forall prompt',
       updateAgentPrompt home projectDir gkSessionId agentGkSessionId prompt' w'
       = (Ok false, w').
Proof.
  intros Hp H. unfold updateAgentPrompt in H.
  destruct (negb (truthy (getSession home projectDir gkSessionId w))
            || negb (truthy_opt (prop "agents" (getSession home projectDir gkSessionId w))));
    [discriminate H|].
  destruct (as_array (prop "agents" (getSession home projectDir gkSessionId w)))
    as [agents|e] eqn:Ea; [|discriminate H].
  apply as_array_inv in Ea.
  destruct (findIndex (agent_id_is (Some agentGkSessionId)) 0 agents) as [[i|]|e] eqn:Ei;
    try discriminate H.
  destruct (truthy_opt (prop "prompt" (nth i agents JNull))) eqn:Eprompt; [discriminate H|].
  destruct (updateAgent_saved _ _ _ _ _ _ _ H) as (agents0 & i0 & Ha0 & Hi0 & Ha' & _).
  rewrite Ea in Ha0. injection Ha0 as <-. rewrite Ei in Hi0. injection Hi0 as <-.
  destruct (findIndex_found _ _ _ JNull Ei) as (Hlt & Ht & Hf).
  assert (Hnew : prop "prompt"
                   (nth i (replace_nth i
                      (JObj (spread (spread [] (own_props (nth i agents JNull)))
                               [("prompt", prompt)])) agents) JNull) = Some prompt).
  { rewrite nth_replace_nth, Nat.eqb_refl by exact Hlt.
    rewrite prop_obj, lookup_spread. reflexivity. }
  split.
  - eexists agents, _, i. split; [apply stored_agents_prop, Ea|].
    split; [apply stored_agents_prop, Ha'|]. repeat split; assumption.
  - intros prompt'. unfold updateAgentPrompt.
    rewrite (prop_some_truthy _ _ _ Ha'), Ha'. cbn [negb truthy_opt truthy orb as_array].
    rewrite (findIndex_after_update _ _ _ [("prompt", prompt)] Ei eq_refl), Hnew. cbn [truthy_opt].
    rewrite Hp. reflexivity.
Qed.

Lemma updateAgentPrompt_write_once_witness :
  let w' := snd (updateAgentPrompt "/home/u" "home-user-proj" (JStr "s1") (JStr "s1")
                   (JStr "fix the login page") demo_agents_world) in
  updateAgentPrompt "/home/u" "home-user-proj" (JStr "s1") (JStr "s1")
    (JStr "something else") w' = (Ok false, w').
Proof.
  cbv zeta.
  apply (updateAgentPrompt_write_once "/home/u" "home-user-proj" (JStr "s1") (JStr "s1")
           (JStr "fix the login page") demo_agents_world); reflexivity.
Defined.

Lemma strict_eq_refl_primitive (v : json) : is_object v = false -> strict_eq v v = true.
Proof.
  destruct v; simpl; intros H; try discriminate H; try reflexivity.
  - apply Bool.eqb_reflx.
  - apply Z.eqb_refl.
  - apply String.eqb_refl.
Qed.

Lemma prop_gkSessionId_refreshed (existing : json) (agentData : obj) :
  prop "gkSessionId" (refreshed_agent existing agentData) = prop "gkSessionId" existing.
Proof.
  unfold refreshed_agent. rewrite prop_obj, !lookup_set_neq by discriminate.
  apply lookup_spread_nil.
Qed.

Lemma lookup_chars (k : string) (n : nat) (s : string) (v : json) :
  lookup k (index_props n (chars s)) = Some v -> exists c, v = JStr c.
Proof.
  revert n. induction s as [|c s IH]; intros n H; [discriminate H|].
  cbn [chars index_props lookup] in H.
  destruct (lookup k (index_props (S n) (chars s))) eqn:E.
  - injection H as <-. exact (IH _ E).
  - destruct (string_of_nat n =? k); [|discriminate H]. injection H as <-. eauto.
Qed.

(** what a successful [addAgent] saved, and where the agent now stands *)
Lemma addAgent_saved (home p : string) (id : json) (agentData : obj) (now : string)
    (w w' : world) :
  is_object (js_or (lookup "gkSessionId" agentData) id) = false ->
  addAgent home p id agentData now w = (Ok true, w') ->
  exists agents1 i,
    prop "agents" (getSession home p id w') = Some (JArr agents1)
    /\ findIndex (agent_id_is (Some (js_or (lookup "gkSessionId" agentData) id))) 0 agents1
       = Ok (Some i).
Proof.
  intros Hprim H. unfold addAgent in H.
  destruct (negb (truthy (getSession home p id w))); [discriminate H|].
  destruct (add_agent_to (getSession home p id w) id agentData now) as [session'|e] eqn:Eadd;
    [|discriminate H].
  destruct (saveSession_read_back _ _ _ _ _ _ H) as (ordered & _ & _ & _ & _ & H5 & _).
  unfold add_agent_to in Eadd.
  destruct (is_object (getSession home p id w)); [|discriminate Eadd].
  set (aid := js_or (lookup "gkSessionId" agentData) id) in *.
  set (props := set "agents" _ (own_props (getSession home p id w))) in *.
  destruct (as_array (lookup "agents" props)) as [agents|e]; [|discriminate Eadd].
  destruct (findIndex (agent_id_is (Some aid)) 0 agents) as [[i|]|e] eqn:Ei;
    try discriminate Eadd.
  - injection Eadd as <-. rewrite prop_obj, lookup_set_eq in H5.
    cbn [js_or truthy] in H5. eexists _, i. split; [exact H5|].
    destruct (findIndex_found _ _ _ JNull Ei) as (Hlt & Ht & Hf).
    apply (findIndex_first _ _ _ JNull).
    + rewrite length_replace_nth. exact Hlt.
    + rewrite nth_replace_nth, Nat.eqb_refl by exact Hlt.
      apply agent_id_is_true in Ht. destruct Ht as [_ Ht].
      unfold agent_id_is, refreshed_agent at 1.
      rewrite prop_gkSessionId_refreshed, Ht. reflexivity.
    + intros j Hj. rewrite nth_replace_nth by exact Hlt.
      destruct (Nat.eqb_spec i j); [lia|]. apply Hf, Hj.
  - destruct (if truthy_opt (lookup "pid" agentData)
              then Ok (js_or (lookup "pid" agentData) JNull) else getPid aid) as [pid|e];
      [|discriminate Eadd].
    injection Eadd as <-. rewrite prop_obj, lookup_set_eq in H5.
    cbn [js_or truthy] in H5. eexists _, _. split; [exact H5|].
    apply findIndex_app_new; [exact Ei|].
    unfold new_agent. rewrite agent_id_is_obj. cbn [lookup].
    simpl. rewrite (strict_eq_refl_primitive aid Hprim). reflexivity.
Qed.

(** X12.  An agent is listed once.  After a successful [addAgent], adding an
    agent with the same id again, whatever else the call says and whether
    or not its save succeeds, leaves the array with the same length and the
    same ids in the same places. *)
Theorem addAgent_again_adds_nothing (home projectDir : string) (gkSessionId : json)
    (agentData agentData' : obj) (now now' : string) (w w1 w2 : world) (r : outcome bool) :
  is_object (js_or (lookup "gkSessionId" agentData) gkSessionId) = false ->
  js_or (lookup "gkSessionId" agentData') gkSessionId
  = js_or (lookup "gkSessionId" agentData) gkSessionId ->
  addAgent home projectDir gkSessionId agentData now w = (Ok true, w1) ->
  addAgent home projectDir gkSessionId agentData' now' w1 = (r, w2) ->
  exists agents1 agents2,
    stored_agents home projectDir gkSessionId w1 = Some agents1
    /\ stored_agents home projectDir gkSessionId w2 = Some agents2
    /\ List.length agents2 = List.length agents1
    /\ map (prop "gkSessionId") agents2 = map (prop "gkSessionId") agents1.
Proof.
  intros Hprim Hid H1 H2.
  destruct (addAgent_saved _ _ _ _ _ _ _ Hprim H1) as (agents1 & i & Ha & Hi).
  exists agents1. unfold addAgent in H2.
  rewrite (prop_some_truthy _ _ _ Ha) in H2. cbn [negb] in H2.
  unfold add_agent_to in H2.
  assert (Ho : is_object (getSession home projectDir gkSessionId w1) = true).
  { destruct (getSession home projectDir gkSessionId w1) eqn:E; try reflexivity;
      try discriminate Ha.
    unfold prop in Ha. cbn [own_props] in Ha.
    destruct (lookup_chars _ _ _ _ Ha) as [c Hc]. discriminate Hc. }
  rewrite Ho, Hid, Ha in H2. cbn [js_or truthy] in H2.
  rewrite lookup_set_eq in H2. cbn [as_array] in H2. rewrite Hi in H2.
  destruct (findIndex_found _ _ _ JNull Hi) as (Hlt & Ht & Hf).
  destruct (saveSession_cases home projectDir gkSessionId
              (JObj (set "agents"
                       (JArr (replace_nth i (refreshed_agent (nth i agents1 JNull) agentData')
                                agents1))
                       (set "agents" (JArr agents1)
                          (own_props (getSession home projectDir gkSessionId w1))))) w1)
    as (r' & w' & E & _ & H3 & _).
  cbv zeta in H3. rewrite E in H2. injection H2 as -> ->.
  destruct r as [[|]|e].
  - destruct (saveSession_read_back _ _ _ _ _ _ E) as (ordered & _ & _ & _ & _ & H5 & _).
    rewrite prop_obj, lookup_set_eq in H5. cbn [js_or truthy] in H5.
    eexists. split; [apply stored_agents_prop, Ha|]. split; [apply stored_agents_prop, H5|].
    split; [apply length_replace_nth|].
    apply map_replace_nth, prop_gkSessionId_refreshed.
  - exists agents1. unfold stored_agents.
    rewrite (getSession_unchanged _ _ _ _ _ (H3 ltac:(discriminate))), Ha. auto.
  - exists agents1. unfold stored_agents.
    rewrite (getSession_unchanged _ _ _ _ _ (H3 ltac:(discriminate))), Ha. auto.
Qed.

Lemma addAgent_again_adds_nothing_witness :
  let agentData := [("gkSessionId", JStr "a3"); ("parentGkSessionId", JStr "s1")] in
  let w1 := snd (addAgent "/home/u" "home-user-proj" (JStr "s1") agentData
                   "2026-01-01T00:02:00.000Z" demo_agents_world) in
  let w2 := snd (addAgent "/home/u" "home-user-proj" (JStr "s1")
                   (("model", JStr "pro") :: agentData)
                   "2026-01-01T00:03:00.000Z" w1) in
  exists agents1 agents2,
    stored_agents "/home/u" "home-user-proj" (JStr "s1") w1 = Some agents1
    /\ stored_agents "/home/u" "home-user-proj" (JStr "s1") w2 = Some agents2
    /\ List.length agents1 = 3
    /\ List.length agents2 = 3.
Proof.
  cbv zeta.
  destruct (addAgent_again_adds_nothing "/home/u" "home-user-proj" (JStr "s1")
              [("gkSessionId", JStr "a3"); ("parentGkSessionId", JStr "s1")]
              [("model", JStr "pro"); ("gkSessionId", JStr "a3");
               ("parentGkSessionId", JStr "s1")]
              "2026-01-01T00:02:00.000Z" "2026-01-01T00:03:00.000Z" demo_agents_world
              _ _ _ eq_refl eq_refl eq_refl (surjective_pairing _))
    as (agents1 & agents2 & H1 & H2 & H3 & _).
  exists agents1, agents2. repeat split; try assumption.
  - vm_compute in H1. injection H1 as <-. reflexivity.
  - rewrite H3. vm_compute in H1. injection H1 as <-. reflexivity.
Defined.

(** ** Counting retries and resumes *)

Lemma increment_agent_count_cases (home field p : string) (id : json)
    (agentId : option json) (w w' : world) (c : json) :
  field <> "gkSessionId" ->
  increment_agent_count home field p id agentId w = (Ok c, w') ->
  c <> JNum (-1) ->
  exists agents agents' i,
    stored_agents home p id w = Some agents
    /\ stored_agents home p id w' = Some agents'
    /\ i < List.length agents
    /\ agent_id_is agentId (nth i agents JNull) = Ok true
    /\ c = js_add_one (js_or (prop field (nth i agents JNull)) (JNum 0))
    /\ prop field (nth i agents' JNull) = Some c
    /\ (forall k, k <> field -> prop k (nth i agents' JNull) = prop k (nth i agents JNull))
    /\ List.length agents' = List.length agents
    /\ (forall j, j <> i -> nth j agents' JNull = nth j agents JNull).
Proof.
  intros Hfield H Hc. unfold increment_agent_count in H.
  destruct (negb (truthy (getSession home p id w))
            || negb (truthy_opt (prop "agents" (getSession home p id w))));
    [injection H as <- _; congruence|].
  destruct (as_array (prop "agents" (getSession home p id w))) as [agents|e] eqn:Ea;
    [|discriminate H].
  apply as_array_inv in Ea.
  destruct (findIndex (agent_id_is agentId) 0 agents) as [[i|]|e] eqn:Ei;
    [|injection H as <- _; congruence|discriminate H].
  destruct (negb (truthy (nth i agents JNull))); [injection H as <- _; congruence|].
  unfold bind, ret in H.
  destruct (updateAgent home p id agentId
              [(field, js_add_one (js_or (prop field (nth i agents JNull)) (JNum 0)))] w)
    as [[[|]|e] w1] eqn:Eu; [|injection H as <- _; congruence|discriminate H].
  injection H as <- <-.
  destruct (updateAgent_saved _ _ _ _ _ _ _ Eu) as (agents0 & i0 & Ha0 & Hi0 & Ha' & _).
  rewrite Ea in Ha0. injection Ha0 as <-. rewrite Ei in Hi0. injection Hi0 as <-.
  destruct (findIndex_found _ _ _ JNull Ei) as (Hlt & Ht & Hf).
  eexists agents, _, i. split; [apply stored_agents_prop, Ea|].
  split; [apply stored_agents_prop, Ha'|].
  repeat split; try assumption.
  - rewrite nth_replace_nth, Nat.eqb_refl by exact Hlt.
    rewrite prop_obj, lookup_spread. cbn [lookup]. rewrite String.eqb_refl. reflexivity.
  - intros k Hk. rewrite nth_replace_nth, Nat.eqb_refl by exact Hlt.
    rewrite prop_obj, lookup_spread, lookup_spread_nil. cbn [lookup].
    apply not_eq_sym, String.eqb_neq in Hk. rewrite Hk. reflexivity.
  - apply length_replace_nth.
  - intros j Hj. rewrite nth_replace_nth by exact Hlt.
    destruct (Nat.eqb_spec i j); [congruence|reflexivity].
Qed.

Lemma round_double_Z_small (m : Z) :
  (-9007199254740992 <= m <= 9007199254740992)%Z -> round_double_Z m = m.
Proof.
  intros H. destruct m as [|p|p]; cbn [round_double_Z]; [reflexivity| |].
  - destruct (N.ltb_spec (Npos p) 9007199254740992) as [Hlt|Hge].
    + unfold round_double. apply N.ltb_lt in Hlt. rewrite Hlt. reflexivity.
    + assert (Hp : p = 9007199254740992%positive) by lia. subst p. reflexivity.
  - destruct (N.ltb_spec (Npos p) 9007199254740992) as [Hlt|Hge].
    + unfold round_double. apply N.ltb_lt in Hlt. rewrite Hlt. reflexivity.
    + assert (Hp : p = 9007199254740992%positive) by lia. subst p. reflexivity.
Qed.

(** X13.  When [incrementRetryCount] or [incrementResumeCount] returns a count
    other than [-1], that count is the stored one plus one when the stored
    one is an integer [n] with [-2^53 <= n < 2^53] (where adding one to a
    double is exact), and one when the agent had none; it is what the agent
    now holds, and nothing else of the agent or of the other agents has
    changed. *)
Theorem increment_count_adds_one (home projectDir field : string) (gkSessionId : json)
    (agentGkSessionId : option json) (run : M json) (w w' : world) (count : json) :
  (run = incrementRetryCount home projectDir gkSessionId agentGkSessionId
   /\ field = "retryCount")
  \/ (run = incrementResumeCount home projectDir gkSessionId agentGkSessionId
      /\ field = "resumeCount") ->
  run w = (Ok count, w') ->
  count <> JNum (-1) ->
  exists agents agents' i,
    stored_agents home projectDir gkSessionId w = Some agents
    /\ stored_agents home projectDir gkSessionId w' = Some agents'
    /\ i < List.length agents
    /\ agent_id_is agentGkSessionId (nth i agents JNull) = Ok true
    /\ (forall n, prop field (nth i agents JNull) = Some (JNum n) ->
                   (-9007199254740992 <= n < 9007199254740992)%Z -> count = JNum (n + 1))
    /\ (prop field (nth i agents JNull) = None -> count = JNum 1)
    /\ prop field (nth i agents' JNull) = Some count
    /\ (forall k, k <> field -> prop k (nth i agents' JNull) = prop k (nth i agents JNull))
    /\ List.length agents' = List.length agents
    /\ (forall j, j <> i -> nth j agents' JNull = nth j agents JNull).
Proof.
  intros Hrun H Hc.
  assert (Hg : field <> "gkSessionId"
               /\ increment_agent_count home field projectDir gkSessionId agentGkSessionId w
                  = (Ok count, w')).
  { destruct Hrun as [[-> ->]|[-> ->]]; (split; [discriminate|exact H]). }
  destruct Hg as [Hf Hg].
  destruct (increment_agent_count_cases _ _ _ _ _ _ _ _ Hf Hg Hc)
    as (agents & agents' & i & H1 & H2 & H3 & H4 & H5 & H6 & H7 & H8 & H9).
  exists agents, agents', i. repeat split; try assumption.
  - intros n Hn Hsafe. rewrite H5, Hn. cbn [js_or truthy_opt truthy].
    destruct (n =? 0)%Z eqn:E; cbn [negb js_add_one].
    + apply Z.eqb_eq in E. subst n. reflexivity.
    + rewrite round_double_Z_small by lia. reflexivity.
  - intros Hn. rewrite H5, Hn. reflexivity.
Qed.

Lemma increment_count_adds_one_witness :
  let r := incrementRetryCount "/home/u" "home-user-proj" (JStr "s1") (Some (JStr "a2"))
             demo_agents_world in
  fst r = Ok (JNum 3)
  /\ exists agents',
       stored_agents "/home/u" "home-user-proj" (JStr "s1") (snd r) = Some agents'
       /\ prop "retryCount" (nth 1 agents' JNull) = Some (JNum 3)
       /\ prop "retryCount" (nth 0 agents' JNull) = Some (JNum 0).
Proof.
  cbv zeta. split; [reflexivity|].
  destruct (increment_count_adds_one "/home/u" "home-user-proj" "retryCount" (JStr "s1")
              (Some (JStr "a2"))
              (incrementRetryCount "/home/u" "home-user-proj" (JStr "s1") (Some (JStr "a2")))
              demo_agents_world
              (snd (incrementRetryCount "/home/u" "home-user-proj" (JStr "s1")
                      (Some (JStr "a2")) demo_agents_world))
              (JNum 3) (or_introl (conj eq_refl eq_refl)) eq_refl ltac:(discriminate))
    as (agents & agents' & i & H1 & H2 & H3 & H4 & _ & _ & H7 & _ & _ & H10).
  vm_compute in H1. injection H1 as <-.
  assert (Ei : i = 1).
  { destruct i as [|[|i]]; [discriminate H4|reflexivity|simpl in H3; lia]. }
  subst i. exists agents'. repeat split; try assumption.
  rewrite H10 by discriminate. reflexivity.
Defined.

(** ** Metrics agree with the lists of [getAgents] *)

Lemma filter_by_length (test : json -> outcome bool) (l kept : list json) :
  filter_by test l = Ok kept -> List.length kept <= List.length l.
Proof.
  revert kept. induction l as [|a l IH]; intros kept H; simpl in H.
  - injection H as <-. simpl. lia.
  - destruct (test a) as [keep|e]; [|discriminate H].
    destruct (filter_by test l) as [kept'|e]; [|discriminate H].
    injection H as <-. specialize (IH _ eq_refl). destruct keep; simpl; lia.
Qed.

Lemma filter_by_sound (test : json -> outcome bool) (l kept : list json) :
  filter_by test l = Ok kept ->
  Forall (fun a => test a = Ok true) kept /\ incl kept l.
Proof.
  revert kept. induction l as [|a l IH]; intros kept H; simpl in H.
  - injection H as <-. split; [constructor|apply incl_nil_l].
  - destruct (test a) as [keep|e] eqn:E; [|discriminate H].
    destruct (filter_by test l) as [kept'|e]; [|discriminate H].
    injection H as <-. destruct (IH _ eq_refl) as [H1 H2]. destruct keep.
    + split; [constructor; assumption|]. apply incl_cons; [left; reflexivity|].
      apply incl_tl, H2.
    + split; [exact H1|apply incl_tl, H2].
Qed.

(** what the loop of [getMetrics] adds to the counters *)
Lemma count_agents_sums (date_ms : json -> option Z) (agents : list json) (m m' : metrics) :
  count_agents date_ms m agents = Ok m' ->
  m_total m' = m_total m
  /\ m_mainAgents m' + m_subAgents m' = m_mainAgents m + m_subAgents m + List.length agents
  /\ (exists l, filter_by (prop_is "status" (JStr "active")) agents = Ok l
                /\ m_active m' = m_active m + List.length l)
  /\ (exists l, filter_by (prop_is "status" (JStr "completed")) agents = Ok l
                /\ m_completed m' = m_completed m + List.length l)
  /\ (exists l, filter_by (prop_is "status" (JStr "failed")) agents = Ok l
                /\ m_failed m' = m_failed m + List.length l)
  /\ (exists l, filter_by (prop_is "agentType" (JStr "Main Agent")) agents = Ok l
                /\ m_mainAgents m' = m_mainAgents m + List.length l)
  /\ m_active m' + m_completed m' + m_failed m'
     <= m_active m + m_completed m + m_failed m + List.length agents.
Proof.
  revert m. induction agents as [|a agents IH]; intros m H; simpl in H.
  - injection H as <-. simpl. repeat split; try lia; exists []; split; auto.
  - destruct (count_agent date_ms m a) as [m1|e] eqn:E; [|discriminate H].
    destruct (IH _ H) as (H1 & H2 & (l3 & F3 & H3) & (l4 & F4 & H4) & (l5 & F5 & H5)
                          & (l6 & F6 & H6) & H7).
    clear IH H. unfold count_agent in E.
    assert (Ha : a <> JNull) by (intros ->; discriminate E).
    assert (Hp : forall k v, prop_is k v a = Ok (strict_eq_opt (prop k a) v)).
    { intros k v. destruct a; try reflexivity. congruence. }
    assert (Em : m1 = {| m_total := m_total m;
                         m_active := if strict_eq_opt (prop "status" a) (JStr "active")
                                     then S (m_active m) else m_active m;
                         m_completed := if negb (strict_eq_opt (prop "status" a) (JStr "active"))
                                           && strict_eq_opt (prop "status" a) (JStr "completed")
                                        then S (m_completed m) else m_completed m;
                         m_failed := if negb (strict_eq_opt (prop "status" a) (JStr "active"))
                                        && negb (strict_eq_opt (prop "status" a) (JStr "completed"))
                                        && strict_eq_opt (prop "status" a) (JStr "failed")
                                     then S (m_failed m) else m_failed m;
                         m_mainAgents := if strict_eq_opt (prop "agentType" a) (JStr "Main Agent")
                                         then S (m_mainAgents m) else m_mainAgents m;
                         m_subAgents := if strict_eq_opt (prop "agentType" a) (JStr "Main Agent")
                                        then m_subAgents m else S (m_subAgents m);
                         m_totalDurationMs := m_totalDurationMs m1 |}).
    { destruct a; try congruence; injection E as <-; reflexivity. }
    clear E. rewrite Em in H1, H2, H3, H4, H5, H6, H7. cbn [m_total m_active m_completed
      m_failed m_mainAgents m_subAgents] in H1, H2, H3, H4, H5, H6, H7.
    cbn [filter_by]. rewrite !Hp, F3, F4, F5, F6.
    assert (Hs : forall s t : string, s <> t ->
                   strict_eq_opt (prop "status" a) (JStr s) = true ->
                   strict_eq_opt (prop "status" a) (JStr t) = false).
    { intros s t Hne Hs. destruct (prop "status" a) as [v|]; [|discriminate Hs].
      simpl in Hs |- *. apply strict_eq_string in Hs. subst v. simpl.
      apply String.eqb_neq. exact Hne. }
    destruct (strict_eq_opt (prop "status" a) (JStr "active")) eqn:S1;
      [rewrite (Hs "active" "completed"), (Hs "active" "failed") by (try discriminate; assumption)|];
      (destruct (strict_eq_opt (prop "status" a) (JStr "completed")) eqn:S2;
       [try rewrite (Hs "completed" "failed") by (try discriminate; assumption)|]);
      destruct (strict_eq_opt (prop "status" a) (JStr "failed")) eqn:S3;
      destruct (strict_eq_opt (prop "agentType" a) (JStr "Main Agent")) eqn:S4;
      cbn [negb andb] in *; try discriminate;
      (split; [exact H1|]); (split; [simpl; lia|]);
      (split; [eexists; split; [reflexivity|simpl; lia]|]);
      (split; [eexists; split; [reflexivity|simpl; lia]|]);
      (split; [eexists; split; [reflexivity|simpl; lia]|]);
      (split; [eexists; split; [reflexivity|simpl; lia]|]);
      simpl; lia.
Qed.

Lemma getAgents_unfiltered (home p : string) (id : json) (w : world) (agents : list json) :
  getAgents home p id no_filters w = Ok (JArr agents) ->
  forall v, truthy v = true ->
    getAgents home p id {| filter_agentType := None; filter_status := Some v |} w
    = filtered (prop_is "status" v) (JArr agents)
    /\ getAgents home p id {| filter_agentType := Some v; filter_status := None |} w
       = filtered (prop_is "agentType" v) (JArr agents).
Proof.
  unfold getAgents. cbn [filter_agentType filter_status no_filters].
  intros H v Hv. rewrite Hv.
  destruct (negb (truthy (getSession home p id w))
            || negb (truthy_opt (prop "agents" (getSession home p id w)))).
  - injection H as <-. split; reflexivity.
  - injection H as ->. split; [reflexivity|].
    destruct (filtered (prop_is "agentType" v) (JArr agents)); reflexivity.
Qed.

(** X14.  The counters of [getMetrics] add up: every agent is a main agent or
    a sub-agent, at most [total] agents are active, completed or failed, and
    each counter is the number of agents [getAgents] lists under the
    matching filter. *)
Theorem getMetrics_counts (home projectDir : string) (gkSessionId : json)
    (date_ms : json -> option Z) (w : world) (m : metrics) :
  getMetrics home projectDir gkSessionId date_ms w = Ok m ->
  m_mainAgents m + m_subAgents m = m_total m
  /\ m_active m + m_completed m + m_failed m <= m_total m
  /\ listed home projectDir gkSessionId no_filters w = Some (m_total m)
  /\ listed home projectDir gkSessionId (with_status "active") w = Some (m_active m)
  /\ listed home projectDir gkSessionId (with_status "completed") w = Some (m_completed m)
  /\ listed home projectDir gkSessionId (with_status "failed") w = Some (m_failed m)
  /\ listed home projectDir gkSessionId
       {| filter_agentType := Some (JStr "Main Agent"); filter_status := None |} w
     = Some (m_mainAgents m).
Proof.
  unfold getMetrics, listed, with_status. intros H.
  destruct (getAgents home projectDir gkSessionId no_filters w) as [[| | | |agents|]|e] eqn:Eg;
    try discriminate H.
  destruct (count_agents_sums _ _ _ _ H)
    as (H1 & H2 & (l3 & F3 & H3) & (l4 & F4 & H4) & (l5 & F5 & H5) & (l6 & F6 & H6) & H7).
  cbn [m_total m_active m_completed m_failed m_mainAgents m_subAgents] in *.
  destruct (getAgents_unfiltered _ _ _ _ _ Eg (JStr "active") eq_refl) as [-> _].
  destruct (getAgents_unfiltered _ _ _ _ _ Eg (JStr "completed") eq_refl) as [-> _].
  destruct (getAgents_unfiltered _ _ _ _ _ Eg (JStr "failed") eq_refl) as [-> _].
  destruct (getAgents_unfiltered _ _ _ _ _ Eg (JStr "Main Agent") eq_refl) as [_ ->].
  unfold filtered. rewrite F3, F4, F5, F6, H1, H3, H4, H5, H6.
  repeat split; try reflexivity; lia.
Qed.

Lemma getMetrics_counts_witness :
  exists m,
    getMetrics "/home/u" "home-user-proj" (JStr "s1") demo_date_ms demo_agents_world = Ok m
    /\ m_total m = 2 /\ m_mainAgents m = 1 /\ m_subAgents m = 1
    /\ m_totalDurationMs m = Some 300000%Z
    /\ listed "/home/u" "home-user-proj" (JStr "s1") (with_status "active") demo_agents_world
       = Some (m_active m).
Proof.
  eexists. split; [reflexivity|]. do 4 (split; [reflexivity|]).
  apply (getMetrics_counts "/home/u" "home-user-proj" (JStr "s1") demo_date_ms
           demo_agents_world). reflexivity.
Defined.

(** ** Finding a session by the id of Gemini *)

Lemma scan_sessions_sound (dir : string) (id : json) (fs : list (string * content))
    (names : list string) (path : string) :
  scan_sessions dir id fs names = Some path ->
  exists name session,
    In name names
    /\ is_session_name name = true
    /\ path = path_join dir name
    /\ file_at path fs = Some (CJson session)
    /\ session <> JNull
    /\ strict_eq_opt (prop "geminiSessionId" session) id = true.
Proof.
  induction names as [|file names IH]; intros H; simpl in H; [discriminate H|].
  destruct (negb (String.prefix "gk-session-" file) || negb (ends_with ".json" file)) eqn:En.
  - destruct (IH H) as (name & session & H1 & Hrest).
    exists name, session. split; [right; exact H1|exact Hrest].
  - destruct (file_at (path_join dir file) fs) as [c|] eqn:Ef; [|discriminate H].
    destruct (JSON_parse c) as [session|] eqn:Ep; [|discriminate H].
    apply JSON_parse_inv in Ep. subst c.
    destruct (strict_eq_opt (prop "geminiSessionId" session) id) eqn:Es.
    + assert (path = path_join dir file) by (destruct session; congruence).
      subst path. exists file, session. split; [left; reflexivity|].
      split; [|repeat split; auto; intros ->; discriminate H].
      unfold is_session_name. apply orb_false_iff in En. destruct En as [E1 E2].
      apply negb_false_iff in E1, E2. rewrite E1, E2. reflexivity.
    + assert (Hs : scan_sessions dir id fs names = Some path)
        by (destruct session; [discriminate H|exact H..]).
      destruct (IH Hs) as (name & session' & H1 & Hrest).
      exists name, session'. split; [right; exact H1|exact Hrest].
Qed.

(** X15.  A path that [findSessionByGeminiId] returns is a session file
    listed in the data directory of the project, it parses, and the session
    in it carries the Gemini id that was asked for; so the [JSON.parse] the
    callers apply to it does not throw. *)
Theorem findSessionByGeminiId_sound (home projectDir : string) (geminiSessionId : json)
    (w : world) (path : string) :
  findSessionByGeminiId home projectDir geminiSessionId w = Some path ->
  projectDir <> "" /\ truthy geminiSessionId = true
  /\ exists name session,
       In name (fs_readdirSync (getProjectDataDir home projectDir) (files w))
       /\ is_session_name name = true
       /\ path = path_join (getProjectDataDir home projectDir) name
       /\ read_json path w = (Ok session, w)
       /\ session <> JNull
       /\ strict_eq_opt (prop "geminiSessionId" session) geminiSessionId = true.
Proof.
  unfold findSessionByGeminiId. intros H.
  destruct (String.eqb_spec projectDir "") as [->|Hp]; [discriminate H|].
  destruct (truthy geminiSessionId); [|discriminate H]. cbn [negb orb] in H.
  split; [exact Hp|]. split; [reflexivity|].
  destruct (scan_sessions_sound _ _ _ _ _ H) as (name & session & H1 & H2 & H3 & H4 & H5 & H6).
  exists name, session. repeat split; try assumption.
  unfold read_json. rewrite H4. reflexivity.
Qed.

Lemma findSessionByGeminiId_sound_witness :
  exists session,
    read_json (demo_data_dir ++ "/gk-session-b.json") resumable_world
    = (Ok session, resumable_world)
    /\ prop "geminiSessionId" session = Some (JStr "g1").
Proof.
  destruct (findSessionByGeminiId_sound "/home/u" "home-user-proj" (JStr "g1")
              resumable_world (demo_data_dir ++ "/gk-session-b.json") eq_refl)
    as (_ & _ & name & session & _ & _ & _ & H4 & _ & _).
  exists session. split; [exact H4|].
  vm_compute in H4. injection H4 as <-. reflexivity.
Defined.

(** ** What is captured once stays *)

Lemma session_field_files_only (home p : string) (id : json) (k : string) (v : option json) :
  files_only (fun w => prop k (getSession home p id w) = v).
Proof. intros w w' Hf H. unfold getSession in *. rewrite Hf. exact H. Qed.

Lemma saveSession_keeps_field (home p : string) (id data : json) (k : string)
    (v : option json) :
  k <> "agents" -> prop k data = v ->
  keeps (fun w => prop k (getSession home p id w) = v) (saveSession home p id data).
Proof.
  intros Hk Hd w r w' H HP.
  destruct (saveSession_cases home p id data w) as (r0 & w0 & E & _ & H3 & _).
  cbv zeta in H3. rewrite H in E. injection E as <- <-.
  destruct r as [[|]|e].
  - destruct (saveSession_read_back _ _ _ _ _ _ H) as (_ & _ & _ & _ & H4 & _).
    rewrite (H4 k Hk). exact Hd.
  - rewrite (getSession_unchanged _ _ _ _ _ (H3 ltac:(discriminate))). exact HP.
  - rewrite (getSession_unchanged _ _ _ _ _ (H3 ltac:(discriminate))). exact HP.
Qed.

Lemma updateSession_keeps_field (home p : string) (id : json) (updates : obj)
    (k : string) (v : option json) :
  k <> "agents" -> lookup k updates = None ->
  keeps (fun w => prop k (getSession home p id w) = v) (updateSession home p id updates).
Proof.
  intros Hk Hu w r w' H HP. unfold updateSession in H.
  destruct (negb (truthy (getSession home p id w))); [injection H as _ <-; exact HP|].
  refine (keeps_bind (fun w => prop k (getSession home p id w) = v) _ _ _ _ _ _ _ H HP).
  - apply saveSession_keeps_field; [exact Hk|].
    rewrite prop_obj, lookup_spread, Hu, lookup_spread_nil. exact HP.
  - intros saved. apply keeps_ret.
Qed.

Lemma saveProject_keeps_field (home p : string) (id h data : json) (k : string)
    (v : option json) :
  project_file home p h <> session_file home p id ->
  keeps (fun w => prop k (getSession home p id w) = v) (saveProject home p h data).
Proof.
  intros Hne w r w' H HP.
  destruct (saveProject_cases home p h data w) as (r0 & w0 & E & Hframe & _).
  cbv zeta in Hframe. rewrite H in E. injection E as <- <-.
  rewrite (getSession_unchanged _ _ _ _ _ (Hframe _ (not_eq_sym Hne))). exact HP.
Qed.

Lemma capture_updates_absent (k : string) (session hash tempDir : json) (now : string) :
  truthy_opt (prop k session) = true ->
  lookup k (capture_updates session hash tempDir now) = None.
Proof.
  intros Hv.
  destruct (String.eqb_spec k "geminiProjectHash") as [->|H1];
    [|destruct (String.eqb_spec k "geminiTempDir") as [->|H2];
      [|destruct (String.eqb_spec k "geminiProjectHashCapturedAt") as [->|H3];
        [|apply lookup_capture_updates; assumption]]];
    unfold capture_updates; rewrite Hv; cbn [negb andb];
    repeat match goal with
           | |- context [if ?b then _ else _] => destruct b
           end;
    rewrite ?lookup_set_neq by discriminate; reflexivity.
Qed.

(** X16.  What [captureGeminiProjectHash] finds captured, it leaves: a hash,
    a temp directory or a capture time that the session holds is still there
    after the call, whatever is passed and whatever fails, as long as the
    project file is another file than the session file. *)
Theorem captureGeminiProjectHash_keeps_first (home projectDir : string)
    (gkSessionId geminiProjectHash geminiTempDir : json) (now : string)
    (w w' : world) (r : outcome bool) (k : string) (v : json) :
  project_file home projectDir
    (js_or (prop "gkProjectHash" (getSession home projectDir gkSessionId w)) JNull)
  <> session_file home projectDir gkSessionId ->
  k = "geminiProjectHash" \/ k = "geminiTempDir" \/ k = "geminiProjectHashCapturedAt" ->
  prop k (getSession home projectDir gkSessionId w) = Some v ->
  truthy v = true ->
  captureGeminiProjectHash home projectDir gkSessionId geminiProjectHash geminiTempDir now w
  = (r, w') ->
  prop k (getSession home projectDir gkSessionId w') = Some v.
Proof.
  intros Hne Hk Hv Ht H.
  assert (Hka : k <> "agents") by (destruct Hk as [->|[->| ->]]; discriminate).
  assert (Habs : lookup k (capture_updates (getSession home projectDir gkSessionId w)
                             geminiProjectHash geminiTempDir now) = None).
  { apply capture_updates_absent. rewrite Hv. exact Ht. }
  unfold captureGeminiProjectHash in H.
  destruct (negb (truthy _)); [injection H as _ <-; exact Hv|].
  destruct (truthy_opt _ && truthy_opt _); [injection H as _ <-; exact Hv|].
  destruct (capture_updates _ _ _ _) as [|u us] eqn:Eu; [injection H as _ <-; exact Hv|].
  rewrite <- Eu in H.
  refine (keeps_bind (fun w => prop k (getSession home projectDir gkSessionId w) = Some v)
            _ _ _ _ _ _ _ H Hv).
  - apply updateSession_keeps_field; [exact Hka|]. rewrite Eu. exact Habs.
  - intros updated. destruct (negb (truthy updated)); [apply keeps_ret|].
    apply keeps_bind.
    + intros w1 r1 w1' H1 HP.
      destruct (truthy _ && negb (truthy_opt _)); [|injection H1 as _ <-; exact HP].
      exact (saveProject_keeps_field _ _ _ _ _ _ _ Hne _ _ _ H1 HP).
    + intros _ w2 r2 w2' H2 HP.
      refine (keeps_bind (fun w => prop k (getSession home projectDir gkSessionId w) = Some v)
                _ _ _ _ _ _ _ H2 HP).
      * apply keeps_updateEnv, session_field_files_only.
      * intros saved. apply keeps_ret.
Qed.

Lemma captureGeminiProjectHash_keeps_first_witness :
  prop "geminiProjectHash"
    (getSession "/home/u" "home-user-proj" (JStr "child")
       (snd (captureGeminiProjectHash "/home/u" "home-user-proj" (JStr "child")
               (JStr "ffff") (JStr "/tmp/gemini") "2026-01-01T00:00:00.000Z"
               demo_backfill_world)))
  = Some (JStr "abc123").
Proof.
  apply (captureGeminiProjectHash_keeps_first "/home/u" "home-user-proj" (JStr "child")
           (JStr "ffff") (JStr "/tmp/gemini") "2026-01-01T00:00:00.000Z"
           demo_backfill_world
           (snd (captureGeminiProjectHash "/home/u" "home-user-proj" (JStr "child")
                   (JStr "ffff") (JStr "/tmp/gemini") "2026-01-01T00:00:00.000Z"
                   demo_backfill_world))
           (fst (captureGeminiProjectHash "/home/u" "home-user-proj" (JStr "child")
                   (JStr "ffff") (JStr "/tmp/gemini") "2026-01-01T00:00:00.000Z"
                   demo_backfill_world))
           "geminiProjectHash" (JStr "abc123"));
    [vm_compute; discriminate|left; reflexivity|reflexivity|reflexivity
    |apply surjective_pairing].
Defined.

(** ** Handing the hash to the parent *)

Lemma lookup_assign (k k' : string) (v : option json) (o : obj) :
  lookup k' (assign k v o) = if k =? k' then v else lookup k' o.
Proof.
  unfold assign. destruct v as [x|]; [apply lookup_set|apply lookup_remove].
Qed.

Lemma updateSession_with_cases (home p : string) (id : json)
    (updates : list (string * option json)) (w w' : world) (r : outcome json) :
  updateSession_with home p id updates w = (r, w') ->
  (r = Ok (JObj (assign_each updates (spread [] (own_props (getSession home p id w)))))
   /\ saveSession home p id
        (JObj (assign_each updates (spread [] (own_props (getSession home p id w))))) w
      = (Ok true, w'))
  \/ ((r = Ok JNull \/ exists e, r = Throw e)
      /\ getSession home p id w' = getSession home p id w
      /\ forall p' id', session_file home p' id' <> session_file home p id ->
                        getSession home p' id' w' = getSession home p' id' w).
Proof.
  unfold updateSession_with. intros H.
  destruct (negb (truthy (getSession home p id w))).
  - injection H as <- <-. right. auto.
  - unfold bind, ret in H.
    destruct (saveSession_cases home p id
                (JObj (assign_each updates (spread [] (own_props (getSession home p id w))))) w)
      as (r0 & w0 & E & _ & H3 & _ & H5 & _).
    cbv zeta in H3, H5. rewrite E in H. destruct r0 as [[|]|e]; injection H as <- <-.
    + left. auto.
    + right. split; [left; reflexivity|]. split.
      * apply getSession_unchanged, H3. discriminate.
      * intros p' id' Hne. apply getSession_unchanged, H5; [exact Hne|].
        apply session_file_not_tmp.
    + right. split; [right; eauto|]. split.
      * apply getSession_unchanged, H3. discriminate.
      * intros p' id' Hne. apply getSession_unchanged, H5; [exact Hne|].
        apply session_file_not_tmp.
Qed.

(** X17.  [backfillProjectHash] never replaces a hash the parent session
    already has and never writes the child session.  When it returns [true]
    the parent holds a hash: its own, or else the one of the child, and
    with it the child's temp directory, or none when the child has none. *)
Theorem backfillProjectHash_fills_once (home projectDir : string)
    (childGkSessionId parentGkSessionId : json) (w w' : world) (r : outcome bool) :
  backfillProjectHash home projectDir childGkSessionId parentGkSessionId w = (r, w') ->
  let child := getSession home projectDir childGkSessionId w in
  let parent := getSession home projectDir parentGkSessionId w in
  let parent' := getSession home projectDir parentGkSessionId w' in
  (truthy_opt (prop "geminiProjectHash" parent) = true -> w' = w)
  /\ (r = Ok true ->
      truthy_opt (prop "geminiProjectHash" parent') = true
      /\ (truthy_opt (prop "geminiProjectHash" parent) = false ->
          prop "geminiProjectHash" parent' = prop "geminiProjectHash" child
          /\ prop "geminiTempDir" parent' = prop "geminiTempDir" child
          /\ forall k, k <> "geminiProjectHash" -> k <> "geminiTempDir" -> k <> "agents" ->
                       prop k parent' = prop k parent))
  /\ (r <> Ok true -> parent' = parent)
  /\ (session_file home projectDir childGkSessionId
      <> session_file home projectDir parentGkSessionId ->
      getSession home projectDir childGkSessionId w' = child).
Proof.
  intros H child parent parent'. subst child parent parent'.
  unfold backfillProjectHash in H.
  destruct (negb (truthy (getSession home projectDir childGkSessionId w))
            || negb (truthy (getSession home projectDir parentGkSessionId w))).
  { injection H as <- <-. repeat split; auto; discriminate. }
  destruct (truthy_opt (prop "geminiProjectHash"
                          (getSession home projectDir childGkSessionId w))) eqn:Ec;
    cbn [negb] in H.
  2:{ injection H as <- <-. repeat split; auto; discriminate. }
  destruct (truthy_opt (prop "geminiProjectHash"
                          (getSession home projectDir parentGkSessionId w))) eqn:Ep.
  { injection H as <- <-. repeat split; auto; discriminate. }
  unfold bind, ret in H.
  destruct (updateSession_with home projectDir parentGkSessionId _ w) as [r1 w1] eqn:Eu.
  destruct (updateSession_with_cases _ _ _ _ _ _ _ Eu) as [[-> Hs]|([->|[e ->]] & Hg & Hframe)].
  - injection H as <- <-.
    destruct (saveSession_read_back _ _ _ _ _ _ Hs) as (_ & _ & _ & _ & H4 & _ & H6 & _).
    split; [discriminate|]. split; [|split; [congruence|intros Hne; apply H6, Hne]].
    intros _.
    assert (Hh : prop "geminiProjectHash" (getSession home projectDir parentGkSessionId w1)
                 = prop "geminiProjectHash" (getSession home projectDir childGkSessionId w)).
    { rewrite H4 by discriminate. rewrite prop_obj. cbn [assign_each].
      rewrite lookup_assign. cbn [String.eqb Ascii.eqb Bool.eqb].
      rewrite lookup_assign, String.eqb_refl. reflexivity. }
    split; [rewrite Hh; exact Ec|]. intros _. split; [exact Hh|]. split.
    + rewrite H4 by discriminate. rewrite prop_obj. cbn [assign_each].
      rewrite lookup_assign, String.eqb_refl. reflexivity.
    + intros k K1 K2 K3. rewrite H4 by exact K3. rewrite prop_obj. cbn [assign_each].
      rewrite !lookup_assign.
      apply not_eq_sym, String.eqb_neq in K1, K2. rewrite K1, K2.
      apply lookup_spread_nil.
  - injection H as <- <-. split; [discriminate|]. split; [discriminate|].
    split; [intros _; exact Hg|intros Hne; apply Hframe, Hne].
  - injection H as <- <-. split; [discriminate|]. split; [discriminate|].
    split; [intros _; exact Hg|intros Hne; apply Hframe, Hne].
Qed.

Lemma backfillProjectHash_fills_once_witness :
  let w' := snd (backfillProjectHash "/home/u" "home-user-proj" (JStr "child")
                   (JStr "parent") demo_backfill_world) in
  prop "geminiProjectHash" (getSession "/home/u" "home-user-proj" (JStr "parent") w')
  = Some (JStr "abc123")
  /\ prop "geminiTempDir" (getSession "/home/u" "home-user-proj" (JStr "parent") w') = None
  /\ snd (backfillProjectHash "/home/u" "home-user-proj" (JStr "child") (JStr "parent") w')
     = w'.
Proof.
  cbv zeta.
  destruct (backfillProjectHash_fills_once "/home/u" "home-user-proj" (JStr "child")
              (JStr "parent") demo_backfill_world _ _ (surjective_pairing _))
    as (_ & H2 & _).
  destruct (H2 eq_refl) as (Ht & H3). destruct (H3 eq_refl) as (Hh & Hd & _).
  split; [rewrite Hh; reflexivity|]. split; [rewrite Hd; reflexivity|].
  apply (backfillProjectHash_fills_once "/home/u" "home-user-proj" (JStr "child")
           (JStr "parent") _ _ _ (surjective_pairing _)). exact Ht.
Defined.

(** ** The active plan *)

Lemma readEnv_env_file (w w' : world) : env_file w' = env_file w -> readEnv w' = readEnv w.
Proof. unfold readEnv. intros ->. reflexivity. Qed.

(** X18.  When [setActivePlan] returns [true] for a session that is an
    object, [.env] before the call and the values and the time stamp
    written to it being ASCII texts, the written ones with no line break,
    the session read back has the plan as [activePlan] and [null] as
    [suggestedPlan], its other fields as before, and [.env] agrees:
    [getActivePlan] gives the plan (trimmed, [null] when blank),
    [getSuggestedPlan] gives [null] and [PROJECT_DIR] is the project. *)
Theorem setActivePlan_sets_plan (home projectDir : string) (gkSessionId planPath : json)
    (now : string) (w w' : world) :
  let session := getSession home projectDir gkSessionId w in
  is_object session = true ->
  ascii_file (env_file w) = true ->
  single_line now = true ->
  forallb single_line
    (env_data_values (active_plan_env session (readEnv w) projectDir gkSessionId planPath))
  = true ->
  setActivePlan home projectDir gkSessionId planPath now w = (Ok true, w') ->
  let session' := getSession home projectDir gkSessionId w' in
  prop "activePlan" session' = Some planPath
  /\ prop "suggestedPlan" session' = Some JNull
  /\ (forall k, k <> "activePlan" -> k <> "suggestedPlan" -> k <> "agents" ->
                prop k session' = prop k session)
  /\ getActivePlan w' = or_null (trim (or_empty (Some planPath)))
  /\ getSuggestedPlan w' = None
  /\ PROJECT_DIR (readEnv w') = trim projectDir.
Proof.
  intros session Ho _ Hn Hv H session'. subst session session'.
  unfold setActivePlan in H.
  destruct (negb (truthy (getSession home projectDir gkSessionId w))); [discriminate H|].
  rewrite Ho in H. unfold bind in H.
  destruct (saveSession home projectDir gkSessionId _ w) as [[[|]|e] w1] eqn:Es;
    cbn [negb] in H; try discriminate H.
  destruct (saveSession_read_back _ _ _ _ _ _ Es) as (_ & _ & _ & _ & H4 & _ & H6 & H7).
  rewrite (readEnv_env_file _ _ H7) in H.
  destruct (updateEnv_true _ _ _ _ H) as [He Hf].
  rewrite !(getSession_unchanged home projectDir gkSessionId w1 w')
    by (rewrite Hf; reflexivity).
  split; [rewrite H4 by discriminate; rewrite prop_obj, lookup_set_neq by discriminate;
          apply lookup_set_eq|].
  split; [rewrite H4 by discriminate; rewrite prop_obj; apply lookup_set_eq|].
  split.
  { intros k K1 K2 K3. rewrite (H4 k K3), prop_obj, !lookup_set_neq by congruence.
    reflexivity. }
  unfold getActivePlan, getSuggestedPlan, readEnv. rewrite He, (env_text_lines _ now Hn Hv).
  cbn [ACTIVE_PLAN SUGGESTED_PLAN PROJECT_DIR]. unfold env_get. simpl env_match.
  repeat split; try reflexivity.
  destruct (String.eqb_spec projectDir "") as [->|_]; reflexivity.
Qed.

Lemma setActivePlan_sets_plan_witness :
  let w' := snd (setActivePlan "/home/u" "home-user-proj" (JStr "s1")
                   (JStr "plans/260101-login") "2026-01-01T00:00:00.000Z"
                   demo_agents_world) in
  prop "activePlan" (getSession "/home/u" "home-user-proj" (JStr "s1") w')
  = Some (JStr "plans/260101-login")
  /\ getActivePlan w' = Some "plans/260101-login"
  /\ getSuggestedPlan w' = None.
Proof.
  cbv zeta.
  destruct (setActivePlan_sets_plan "/home/u" "home-user-proj" (JStr "s1")
              (JStr "plans/260101-login") "2026-01-01T00:00:00.000Z" demo_agents_world
              (snd (setActivePlan "/home/u" "home-user-proj" (JStr "s1")
                      (JStr "plans/260101-login") "2026-01-01T00:00:00.000Z"
                      demo_agents_world))
              eq_refl eq_refl eq_refl eq_refl eq_refl)
    as (H1 & _ & _ & H4 & H5 & _).
  split; [exact H1|]. split; [rewrite H4; reflexivity|exact H5].
Defined.

(** ** Values of the session state *)

(** X19.  After [writeSessionState] has returned [true], [getSessionValue]
    returns for a key the write mentions the value written, and for a key
    it does not mention what it returned before the write, the default
    included, when the state read before was a plain object, or was falsy and
    the key is not the name of a property of [Object.prototype].  The key
    [agents] apart. *)
Theorem getSessionValue_after_write (home process_cwd : string) (gkSessionId : json)
    (state : obj) (w w' : world) :
  writeSessionState home process_cwd gkSessionId state w = (Ok true, w') ->
  forall key defaultValue, key <> "agents" ->
    (forall v, lookup key state = Some v ->
               getSessionValue home process_cwd gkSessionId key defaultValue w'
               = Some (Stored v))
    /\ (lookup key state = None ->
        (exists props, readSessionState home process_cwd gkSessionId w = JObj props)
        \/ (truthy (readSessionState home process_cwd gkSessionId w) = false
            /\ inherited key = false) ->
        getSessionValue home process_cwd gkSessionId key defaultValue w'
        = getSessionValue home process_cwd gkSessionId key defaultValue w).
Proof.
  intros H key d Hk. unfold writeSessionState in H.
  unfold getSessionValue, readSessionState.
  destruct (truthy gkSessionId) eqn:Eid; cbn [negb] in H |- *; [|discriminate H].
  assert (Ecases : exists data,
            saveSession home (getProjectDirFromEnv process_cwd w) gkSessionId data w
            = (Ok true, w')
            /\ prop key data
               = match lookup key state with
                 | Some v => Some v
                 | None =>
                     if truthy (getSession home (getProjectDirFromEnv process_cwd w)
                                  gkSessionId w)
                     then prop key (getSession home (getProjectDirFromEnv process_cwd w)
                                      gkSessionId w)
                     else None
                 end).
  { destruct (truthy (getSession home (getProjectDirFromEnv process_cwd w) gkSessionId w));
      eexists; (split; [exact H|]); rewrite prop_obj.
    - rewrite lookup_spread, lookup_spread_nil. reflexivity.
    - destruct (lookup key state); reflexivity. }
  destruct Ecases as (data & Hs & Hd).
  destruct (saveSession_read_back _ _ _ _ _ _ Hs) as (ordered & _ & H2 & _ & H4 & _ & _ & H7).
  assert (Ep : getProjectDirFromEnv process_cwd w' = getProjectDirFromEnv process_cwd w).
  { unfold getProjectDirFromEnv. rewrite (readEnv_env_file _ _ H7). reflexivity. }
  rewrite Ep. specialize (H4 key Hk). rewrite Hd, H2, prop_obj in H4.
  rewrite H2. cbn [truthy negb]. rewrite H4. clear H4 Hd.
  split.
  - intros v ->. reflexivity.
  - intros -> Hprev. destruct Hprev as [[props ->]|[Ht Hi]].
    + cbn [truthy negb]. unfold prop. cbn [own_props]. reflexivity.
    + rewrite Ht. cbn [negb]. rewrite Hi. reflexivity.
Qed.

Lemma getSessionValue_after_write_witness :
  let w' := snd (writeSessionState "/home/u" "/home/user/proj" (JStr "s1")
                   [("lastReminderTimestamp", JStr "2026-01-01T00:00:00.000Z")]
                   demo_agents_world) in
  getSessionValue "/home/u" "/home/user/proj" (JStr "s1") "lastReminderTimestamp" JNull w'
  = Some (Stored (JStr "2026-01-01T00:00:00.000Z"))
  /\ getSessionValue "/home/u" "/home/user/proj" (JStr "s1") "gkProjectHash" JNull w'
     = Some (Stored (JStr "7d73bf4fdeae2f49"))
  /\ getSessionValue "/home/u" "/home/user/proj" (JStr "s1") "missing" (JNum 5) w'
     = Some (Stored (JNum 5))
  /\ getSessionValue "/home/u" "/home/user/proj" (JStr "s1") "toString" JNull w'
     = Some (Builtin "toString").
Proof.
  cbv zeta.
  set (w' := snd (writeSessionState "/home/u" "/home/user/proj" (JStr "s1")
                    [("lastReminderTimestamp", JStr "2026-01-01T00:00:00.000Z")]
                    demo_agents_world)).
  pose proof (getSessionValue_after_write "/home/u" "/home/user/proj" (JStr "s1")
                [("lastReminderTimestamp", JStr "2026-01-01T00:00:00.000Z")]
                demo_agents_world w' eq_refl) as H.
  assert (Hprev : exists props,
             readSessionState "/home/u" "/home/user/proj" (JStr "s1") demo_agents_world
             = JObj props) by (eexists; vm_compute; reflexivity).
  split; [apply (H "lastReminderTimestamp" JNull); [discriminate|reflexivity]|].
  split; [rewrite (proj2 (H "gkProjectHash" JNull ltac:(discriminate)) eq_refl
                     (or_introl Hprev)); reflexivity|].
  split; [rewrite (proj2 (H "missing" (JNum 5) ltac:(discriminate)) eq_refl
                     (or_introl Hprev)); reflexivity|].
  rewrite (proj2 (H "toString" JNull ltac:(discriminate)) eq_refl (or_introl Hprev)).
  reflexivity.
Defined.

(** ** The sessions of a project *)

Lemma saveProject_true (home projectDir : string) (gkProjectHash data : json)
    (w w' : world) :
  saveProject home projectDir gkProjectHash data w = (Ok true, w') ->
  getProject home projectDir gkProjectHash w' = data
  /\ (forall p, p <> project_file home projectDir gkProjectHash ->
                file_at p (files w') = file_at p (files w))
  /\ env_file w' = env_file w.
Proof.
  unfold saveProject, getProject. intros H.
  destruct ((projectDir =? "") || negb (truthy gkProjectHash)); [discriminate H|].
  unfold bind at 1 in H.
  destruct (ensureDir_cases (getProjectDataDir home projectDir) w)
    as (r0 & w0 & E & Hf & He & Hr & _).
  rewrite E in H. destruct Hr as [->|[e ->]]; [|discriminate H].
  unfold try_catch, bind, fs_writeFileSync, bind, next_fault, ret, throw in H.
  destruct w0 as [fs env fl]. cbn [files env_file] in Hf, He. subst fs env.
  destruct fl as [|[| |n] fl]; cbn [faults files env_file set_files] in H;
    try discriminate H; injection H as <-; cbn [files env_file set_files];
    rewrite file_at_put, String.eqb_refl; cbn [JSON_parse];
    (split; [reflexivity|]); (split; [|reflexivity]);
    intros p Hp; rewrite file_at_put;
    apply not_eq_sym, String.eqb_neq in Hp; rewrite Hp; reflexivity.
Qed.

Lemma merged_summary_id (summary : obj) (existing id : json) :
  lookup "gkSessionId" summary = Some id ->
  prop "gkSessionId" (merged_summary summary existing) = Some id.
Proof.
  intros H. unfold merged_summary. rewrite H.
  repeat match goal with
         | |- context [js_or_opt ?a ?b] =>
             lazymatch a with
             | js_or_opt _ _ => fail
             | _ => destruct (js_or_opt a b)
             end
         end;
    reflexivity.
Qed.

Lemma fresh_summary_id (summary : obj) (id : json) (now : string) :
  lookup "gkSessionId" summary = Some id ->
  prop "gkSessionId" (fresh_summary summary now) = Some id.
Proof. intros H. unfold fresh_summary. rewrite H. reflexivity. Qed.

Lemma listed_as_prop (id s : json) :
  s <> JNull -> prop "gkSessionId" s = Some id -> is_object id = false ->
  listed_as id s = true.
Proof.
  intros Hs Hp Hid. unfold listed_as, summary_id_is. rewrite Hp. cbn [strict_eq_opts].
  rewrite (strict_eq_refl_primitive id Hid). destruct s; congruence.
Qed.

Lemma filter_all_false {A : Type} (f : A -> bool) (l : list A) :
  Forall (fun a => f a = false) l -> filter f l = [].
Proof.
  induction 1 as [|a l Ha _ IH]; simpl; [reflexivity|]. rewrite Ha. exact IH.
Qed.

Lemma filter_replace_nth_length (f : json -> bool) (i : nat) (x : json) (l : list json) :
  i < List.length l -> f (nth i l JNull) = f x ->
  List.length (filter f (replace_nth i x l)) = List.length (filter f l).
Proof.
  revert i. induction l as [|a l IH]; intros i Hi Hx; simpl in Hi; [lia|].
  destruct i as [|i]; simpl in *.
  - rewrite Hx. destruct (f x); reflexivity.
  - destruct (f a); simpl; rewrite IH by (try lia; exact Hx); reflexivity.
Qed.

Lemma filter_nth_positive (f : json -> bool) (i : nat) (l : list json) :
  i < List.length l -> f (nth i l JNull) = true -> 1 <= List.length (filter f l).
Proof.
  intros Hi Hf.
  assert (Hin : In (nth i l JNull) (filter f l)) by (apply filter_In; split; [apply nth_In, Hi|exact Hf]).
  destruct (filter f l); [destruct Hin|simpl; lia].
Qed.

(** what lines 915-949 do to the list of sessions of a project *)
Lemma add_session_to_listed (sort_sessions : list json -> list json) (project : json)
    (summary : obj) (id : json) (now : string) (project' : json) :
  (forall f l, List.length (filter f (sort_sessions l)) = List.length (filter f l)) ->
  lookup "gkSessionId" summary = Some id ->
  is_object id = false ->
  add_session_to sort_sessions project summary now = Ok project' ->
  exists props sessions after,
    project = JObj props
    /\ lookup "sessions" props = Some (JArr sessions)
    /\ opt_prop "sessions" project' = Some (JArr after)
    /\ List.length (filter (listed_as id) after)
       = Nat.max 1 (List.length (filter (listed_as id) sessions))
    /\ List.length after
       = List.length sessions
         + (if (List.length (filter (listed_as id) sessions) =? 0)%nat then 1 else 0)
    /\ prop "activeGkSessionId" project' = Some id
    /\ prop "lastActiveTimestamp" project' = Some (JStr now).
Proof.
  intros Hsort Hid Hprim H. unfold add_session_to in H.
  destruct project as [| | | | |props]; try discriminate H.
  rewrite Hid in H. cbn [assign] in H.
  rewrite !lookup_set_neq in H by discriminate.
  destruct (lookup "sessions" props) as [[| | | |sessions|]|] eqn:Es; try discriminate H.
  cbn [as_array] in H.
  pose proof (Hsort (fun _ => true)) as Hlen.
  assert (Hall : forall l : list json, filter (fun _ => true) l = l).
  { induction l as [|a l IH]; simpl; [reflexivity|]. rewrite IH. reflexivity. }
  destruct (findIndex _ 0 sessions) as [[i|]|e] eqn:Ei; try discriminate H;
    injection H as <-; exists props, sessions; eexists;
    (split; [reflexivity|]); (split; [exact Es|]);
    (split; [cbn [opt_prop]; rewrite prop_obj; apply lookup_set_eq|]).
  - destruct (findIndex_found _ _ _ JNull Ei) as (Hlt & Ht & _).
    assert (Hold : listed_as id (nth i sessions JNull) = true)
      by (unfold listed_as; rewrite Ht; reflexivity).
    assert (Hnew : listed_as id (merged_summary summary (nth i sessions JNull)) = true).
    { apply listed_as_prop; [discriminate|apply merged_summary_id, Hid|exact Hprim]. }
    pose proof (filter_nth_positive _ _ _ Hlt Hold) as Hpos.
    rewrite Hsort, filter_replace_nth_length by (try exact Hlt; congruence).
    split; [lia|]. split.
    + specialize (Hlen (replace_nth i (merged_summary summary (nth i sessions JNull)) sessions)).
      rewrite !Hall in Hlen. rewrite Hlen, length_replace_nth.
      destruct (Nat.eqb_spec (List.length (filter (listed_as id) sessions)) 0); lia.
    + rewrite !prop_obj, !(lookup_set_neq "sessions") by discriminate.
      rewrite lookup_set_eq, lookup_set_neq, lookup_set_eq by discriminate. auto.
  - assert (Hnone : filter (listed_as id) sessions = []).
    { apply filter_all_false. eapply Forall_impl; [|exact (findIndex_none _ _ Ei)].
      intros a Ha. unfold listed_as. rewrite Ha. reflexivity. }
    assert (Hnew : listed_as id (fresh_summary summary now) = true).
    { apply listed_as_prop; [discriminate|apply fresh_summary_id, Hid|exact Hprim]. }
    rewrite Hsort, filter_app, Hnone. cbn [filter]. rewrite Hnew.
    split; [reflexivity|]. split.
    + specialize (Hlen (sessions ++ [fresh_summary summary now])%list).
      rewrite !Hall in Hlen. rewrite Hlen, length_app. reflexivity.
    + rewrite !prop_obj, !(lookup_set_neq "sessions") by discriminate.
      rewrite lookup_set_eq, lookup_set_neq, lookup_set_eq by discriminate. auto.
Qed.

Lemma falsy_has_no_sessions (v : json) :
  truthy v = false -> js_or (opt_prop "sessions" v) (JArr []) = JArr [].
Proof.
  destruct v as [|b|n|s|l|o]; simpl; intros H; try reflexivity; try discriminate H.
  destruct s; [reflexivity|discriminate H].
Qed.

(** X20.  When [addSessionToProject] returns [true], the project lists the
    session exactly as often as before, and once when it was not listed:
    adding a session again never makes a second entry.  The project then
    names the session as its active one.  (Sorting is taken to keep the
    entries.) *)
Theorem addSessionToProject_lists_once (home : string)
    (sort_sessions : list json -> list json) (projectDir : string)
    (gkProjectHash : json) (summary : obj) (id : json) (process_cwd now : string)
    (w w' : world) :
  (forall f l, List.length (filter f (sort_sessions l)) = List.length (filter f l)) ->
  lookup "gkSessionId" summary = Some id ->
  is_object id = false ->
  addSessionToProject home sort_sessions projectDir gkProjectHash summary process_cwd now w
  = (Ok true, w') ->
  let before := items_of (getProjectSessions home projectDir gkProjectHash w) in
  exists after,
    getProjectSessions home projectDir gkProjectHash w' = JArr after
    /\ List.length (filter (listed_as id) after)
       = Nat.max 1 (List.length (filter (listed_as id) before))
    /\ List.length after
       = List.length before
         + (if (List.length (filter (listed_as id) before) =? 0)%nat then 1 else 0)
    /\ prop "activeGkSessionId" (getProject home projectDir gkProjectHash w') = Some id
    /\ prop "lastActiveTimestamp" (getProject home projectDir gkProjectHash w')
       = Some (JStr now).
Proof.
  intros Hsort Hid Hprim H before. subst before.
  unfold addSessionToProject, bind, lift in H.
  destruct (ensureProject home projectDir gkProjectHash (JStr process_cwd) now w)
    as [[project|e] w1] eqn:Ee; [|discriminate H].
  destruct (add_session_to sort_sessions project summary now) as [project'|e] eqn:Ea;
    [|discriminate H].
  destruct (saveProject_true _ _ _ _ _ _ H) as (Hg & _).
  destruct (add_session_to_listed _ _ _ _ _ _ Hsort Hid Hprim Ea)
    as (props & sessions & after & -> & Hs & Ho & Hc & Hl & Ha & Ht).
  assert (Hbefore : items_of (getProjectSessions home projectDir gkProjectHash w) = sessions).
  { unfold getProjectSessions. unfold ensureProject in Ee.
    destruct (truthy (getProject home projectDir gkProjectHash w)) eqn:Et.
    - injection Ee as -> _. cbn [opt_prop]. rewrite prop_obj, Hs. reflexivity.
    - rewrite (falsy_has_no_sessions _ Et). unfold bind, ret in Ee.
      destruct (saveProject _ _ _ _ w) as [[saved|e] w2]; [|discriminate Ee].
      injection Ee as <- _. cbn in Hs. injection Hs as <-. reflexivity. }
  rewrite Hbefore. exists after. unfold getProjectSessions. rewrite Hg, Ho.
  split; [reflexivity|]. auto.
Qed.

Lemma addSessionToProject_lists_once_witness :
  let summary := [("gkSessionId", JStr "s1"); ("endTime", JStr "2026-01-02T00:00:00.000Z")] in
  let w1 := snd (addSessionToProject "/home/u" (fun l => l) "home-user-proj" (JStr "abc")
                   summary "/home/user/proj" "2026-01-01T00:00:00.000Z" empty_world) in
  let w2 := snd (addSessionToProject "/home/u" (fun l => l) "home-user-proj" (JStr "abc")
                   summary "/home/user/proj" "2026-01-03T00:00:00.000Z" w1) in
  exists after,
    getProjectSessions "/home/u" "home-user-proj" (JStr "abc") w2 = JArr after
    /\ List.length after = 1.
Proof.
  cbv zeta.
  destruct (addSessionToProject_lists_once "/home/u" (fun l => l) "home-user-proj"
              (JStr "abc")
              [("gkSessionId", JStr "s1"); ("endTime", JStr "2026-01-02T00:00:00.000Z")]
              (JStr "s1") "/home/user/proj" "2026-01-03T00:00:00.000Z"
              (snd (addSessionToProject "/home/u" (fun l => l) "home-user-proj" (JStr "abc")
                      [("gkSessionId", JStr "s1");
                       ("endTime", JStr "2026-01-02T00:00:00.000Z")]
                      "/home/user/proj" "2026-01-01T00:00:00.000Z" empty_world))
              (snd (addSessionToProject "/home/u" (fun l => l) "home-user-proj" (JStr "abc")
                      [("gkSessionId", JStr "s1");
                       ("endTime", JStr "2026-01-02T00:00:00.000Z")]
                      "/home/user/proj" "2026-01-03T00:00:00.000Z"
                      (snd (addSessionToProject "/home/u" (fun l => l) "home-user-proj"
                              (JStr "abc")
                              [("gkSessionId", JStr "s1");
                               ("endTime", JStr "2026-01-02T00:00:00.000Z")]
                              "/home/user/proj" "2026-01-01T00:00:00.000Z" empty_world))))
              (fun f l => eq_refl) eq_refl eq_refl eq_refl)
    as (after & H1 & _ & H3 & _).
  exists after. split; [exact H1|]. rewrite H3. reflexivity.
Defined.

(** ** The environment of the notification scripts *)

Lemma load_env_file_lines (process_env : environment) (key : string) (lines : list string)
    (env : environment) :
  getenv key
    (fold_left
       (fun env line =>
          match parse_env_line line with
          | Some (key, value) =>
              if process_env_has key process_env then env else (key, value) :: env
          | None => env
          end)
       lines env)
  = if process_env_has key process_env then getenv key env
    else match last_assignment key lines with
         | Some v => Some (JStr v)
         | None => getenv key env
         end.
Proof.
  revert env. induction lines as [|line lines IH]; intros env; cbn [fold_left last_assignment].
  - destruct (process_env_has key process_env); reflexivity.
  - rewrite IH. destruct (process_env_has key process_env) eqn:Ek.
    + destruct (parse_env_line line) as [[k v]|]; [|reflexivity].
      destruct (process_env_has k process_env) eqn:Ek'; [reflexivity|].
      cbn [getenv]. destruct (String.eqb_spec k key) as [->|_]; [congruence|reflexivity].
    + destruct (last_assignment key lines) as [v'|]; [reflexivity|].
      destruct (parse_env_line line) as [[k v]|]; [|reflexivity].
      destruct (String.eqb_spec k key) as [->|Hne].
      * rewrite Ek. cbn [getenv]. rewrite String.eqb_refl. reflexivity.
      * destruct (process_env_has k process_env); [reflexivity|].
        cbn [getenv]. apply String.eqb_neq in Hne. rewrite Hne. reflexivity.
Qed.

(** X21.  The order of precedence [loadEnv] gives a variable whose name is
    not the name of a property of [Object.prototype], as an own property of
    the object it returns, when the two files have ASCII characters only:
    the value of [process.env] when it is not empty, else the one of
    [.gemini/.env], else the one of [.env] beside the script, else what
    [process.env] has (an empty text or nothing); inside a file the last
    line that sets the variable counts. *)
Theorem loadEnv_precedence (process_env : environment)
    (notifications_env gemini_env : option string) (key : string) :
  inherited key = false ->
  ascii_file notifications_env = true ->
  ascii_file gemini_env = true ->
  getenv key (loadEnv process_env notifications_env gemini_env)
  = if truthy_opt (getenv key process_env) then getenv key process_env
    else match file_assignment key gemini_env with
         | Some v => Some (JStr v)
         | None =>
             match file_assignment key notifications_env with
             | Some v => Some (JStr v)
             | None => getenv key process_env
             end
         end.
Proof.
  intros Hk _ _.
  assert (Eh : process_env_has key process_env = truthy_opt (getenv key process_env)).
  { unfold process_env_has. rewrite Hk. apply orb_false_r. }
  unfold loadEnv, load_env_file, file_assignment.
  destruct gemini_env as [g|], notifications_env as [n|];
    rewrite ?load_env_file_lines, ?Eh;
    destruct (truthy_opt (getenv key process_env)) eqn:Ek;
    rewrite ?Ek; reflexivity.
Qed.

Lemma loadEnv_precedence_witness :
  let nl := String "010" "" in
  let beside := "# defaults" ++ nl ++ "DISCORD_WEBHOOK_URL='https://a.example/hook'" ++ nl
                ++ "DISCORD_NOTIFY_SUBAGENTS=true" in
  let project := "DISCORD_WEBHOOK_URL = " ++ double_quote ++ "https://b.example/hook"
                 ++ double_quote ++ " " ++ nl ++ "=ignored" ++ nl in
  getenv "DISCORD_WEBHOOK_URL"
    (loadEnv [("DISCORD_WEBHOOK_URL", ""); ("HOME", "/home/u")] (Some beside) (Some project))
  = Some (JStr "https://b.example/hook").
Proof.
  cbv zeta.
  rewrite (loadEnv_precedence [("DISCORD_WEBHOOK_URL", ""); ("HOME", "/home/u")]
             (Some ("# defaults" ++ String "010" ""
                    ++ "DISCORD_WEBHOOK_URL='https://a.example/hook'" ++ String "010" ""
                    ++ "DISCORD_NOTIFY_SUBAGENTS=true"))
             (Some ("DISCORD_WEBHOOK_URL = " ++ double_quote ++ "https://b.example/hook"
                    ++ double_quote ++ " " ++ String "010" "" ++ "=ignored"
                    ++ String "010" ""))
             "DISCORD_WEBHOOK_URL" eq_refl eq_refl eq_refl).
  reflexivity.
Defined.

Example loadEnv_reads_quoted_values :
  let nl := String "010" "" in
  let beside := "# defaults" ++ nl ++ "DISCORD_WEBHOOK_URL='https://a.example/hook'" ++ nl
                ++ "DISCORD_NOTIFY_SUBAGENTS=true" in
  let project := "DISCORD_WEBHOOK_URL = " ++ double_quote ++ "https://b.example/hook"
                 ++ double_quote ++ " " ++ nl ++ "=ignored" ++ nl in
  let env := loadEnv [("DISCORD_WEBHOOK_URL", ""); ("HOME", "/home/u")]
               (Some beside) (Some project) in
  getenv "DISCORD_WEBHOOK_URL" env = Some (JStr "https://b.example/hook")
  /\ getenv "DISCORD_NOTIFY_SUBAGENTS" env = Some (JStr "true")
  /\ getenv "HOME" env = Some (JStr "/home/u")
  /\ getenv "" env = None.
Proof. repeat split. Qed.

(** ** How a session ended *)

(** X22.  A run that [determineSuccess] counts as failed has an error text
    from [extractError], with one exception: a run that ended by [crash],
    [timeout] or [killed], with no numeric exit code and no error field,
    is failed with the error [null]. *)
Theorem failed_run_has_error (data : json) (error : json) :
  gk_session_end.determineSuccess data = Ok false ->
  gk_session_end.extractError data = Ok error ->
  truthy error = true
  \/ (error = JNull
      /\ (forall n, prop "exit_code" data <> Some (JNum n))
      /\ exists reason,
           gk_session_end.exit_reason_lower data = Ok reason
           /\ In reason ["crash"; "timeout"; "killed"]).
Proof.
  unfold gk_session_end.determineSuccess, gk_session_end.extractError.
  intros Hs He.
  destruct (truthy_opt (prop "error" data)) eqn:E1.
  { left. injection He as <-. destruct (prop "error" data) as [x|]; [|discriminate E1].
    simpl in *. rewrite E1. exact E1. }
  destruct (truthy_opt (prop "error_message" data)) eqn:E2.
  { left. injection He as <-. destruct (prop "error_message" data) as [x|]; [|discriminate E2].
    simpl in *. rewrite E2. exact E2. }
  destruct (prop "exit_code" data) as [[| |n| | |]|] eqn:Ec.
  3:{ injection Hs as Hs. rewrite Hs in He. left.
      destruct (truthy_opt (prop "exit_reason" data)).
      - destruct (gk_session_end.exit_reason_lower data) as [reason|e]; [|discriminate He].
        destruct (reason =? "error"); injection He as <-; reflexivity.
      - injection He as <-. reflexivity. }
  all: destruct (truthy_opt (prop "exit_reason" data)) eqn:Er; [|discriminate Hs].
  all: destruct (gk_session_end.exit_reason_lower data) as [reason|e] eqn:El;
    [|discriminate Hs].
  all: injection Hs as Hs; apply negb_false_iff in Hs.
  all: destruct (String.eqb_spec reason "error") as [->|Hne];
    [left; injection He as <-; reflexivity|].
  all: right; injection He as <-; split; [reflexivity|].
  all: split; [intros n; discriminate|].
  all: exists reason; split; [reflexivity|].
  all: cbn [existsb orb] in Hs.
  all: destruct (String.eqb_spec reason "crash") as [->|_]; [left; reflexivity|].
  all: destruct (String.eqb_spec reason "timeout") as [->|_]; [right; left; reflexivity|].
  all: destruct (String.eqb_spec reason "killed") as [->|_];
    [right; right; left; reflexivity|discriminate Hs].
Qed.

Lemma failed_run_has_error_witness :
  gk_session_end.determineSuccess (JObj [("exit_code", JNum 2)]) = Ok false
  /\ gk_session_end.extractError (JObj [("exit_code", JNum 2)])
     = Ok (JStr "Session ended with exit code 2")
  /\ truthy (JStr "Session ended with exit code 2") = true.
Proof.
  split; [reflexivity|]. split; [reflexivity|].
  destruct (failed_run_has_error (JObj [("exit_code", JNum 2)])
              (JStr "Session ended with exit code 2") eq_refl eq_refl) as [H|(H & _)];
    [exact H|discriminate H].
Defined.

Example crashed_run_has_no_error :
  gk_session_end.determineSuccess (JObj [("exit_reason", JStr "Crash")]) = Ok false
  /\ gk_session_end.extractError (JObj [("exit_reason", JStr "Crash")]) = Ok JNull.
Proof. split; reflexivity. Qed.

(** ** The project hash of Gemini *)

Lemma rep_from_inv_length {R : Type} (f : ascii -> bool) (k : string -> option R)
    (n : nat) (s : string) (r : R) :
  rep_from n f s k = Some r ->
  exists a b, s = a ++ b /\ String.length a = n /\ all_chars f a = true /\ k b = Some r.
Proof.
  revert s. induction n as [|n IH]; intros s; simpl.
  - intros H. exists "", s. auto.
  - destruct s as [|c s]; [discriminate|]. destruct (f c) eqn:Hc; [|discriminate].
    intros H. destruct (IH _ H) as (a & b & -> & Hl & Hf & Hk).
    exists (String c a), b. simpl. rewrite Hc, Hf, Hl. auto.
Qed.

Lemma regex_search_inv (r : regex) (s : string) (caps : list string) :
  regex_search r s = Some caps ->
  exists before t, s = before ++ t /\ rmatch r t [] (fun _ caps => Some caps) = Some caps.
Proof.
  induction s as [|c s IH]; cbn [regex_search].
  - destruct (rmatch r "" [] _) as [caps'|] eqn:E; [|discriminate].
    intros H. injection H as <-. exists "", "". auto.
  - destruct (rmatch r (String c s) [] _) as [caps'|] eqn:E.
    + intros H. injection H as <-. exists "", (String c s). auto.
    + intros H. destruct (IH H) as (before & t & -> & Ht).
      exists (String c before), t. auto.
Qed.

Lemma gemini_tmp_hash_match (t : string) (caps : list string) :
  rmatch gemini_tmp_hash_regex t [] (fun _ caps => Some caps) = Some caps ->
  exists hash, caps = [hash] /\ String.length hash = 64 /\ all_chars is_hex_ci hash = true.
Proof.
  unfold gemini_tmp_hash_regex. cbn [fold_right]. intros H.
  do 12 (destruct t as [|? t]; [discriminate H|];
         cbn [rmatch ci] in H;
         match type of H with
         | (if ?b then _ else _) = _ => destruct b; [|discriminate H]
         end).
  cbn [rmatch] in H.
  destruct (rep_from_inv_length _ _ _ _ _ H) as (digits & rest & -> & Hl & Hf & Hk).
  injection Hk as <-. exists digits.
  rewrite substring_prefix. auto.
Qed.

(** X23.  What [extractGeminiProjectHash] returns is [null] or a text of
    exactly 64 hexadecimal digits, so the hash can be used as one segment of
    a path. *)
Theorem extractGeminiProjectHash_shape (payload hash : json) :
  extractGeminiProjectHash payload = Ok hash ->
  hash = JNull
  \/ exists digits,
       hash = JStr digits
       /\ String.length digits = 64
       /\ all_chars is_hex_ci digits = true.
Proof.
  unfold extractGeminiProjectHash. intros H.
  destruct payload; try discriminate H;
    (destruct (negb (truthy_opt _)); [left; congruence|];
     destruct (js_or _ (JStr "")) as [| | |systemMsg| |]; try discriminate H;
     destruct (regex_search gemini_tmp_hash_regex systemMsg) as [[|h caps]|] eqn:E;
     [left; congruence| |left; congruence];
     right; injection H as <-;
     destruct (regex_search_inv _ _ _ E) as (before & t & _ & Ht);
     destruct (gemini_tmp_hash_match _ _ Ht) as (digits & Hc & Hl & Hf);
     injection Hc as -> _; exists digits; auto).
Qed.

Lemma extractGeminiProjectHash_shape_witness :
  let hash := "0123456789abcdef0123456789ABCDEF0123456789abcdef0123456789abcdef" in
  let payload :=
    JObj [("llm_request",
           JObj [("messages",
                  JArr [JObj [("role", JStr "system");
                              ("content",
                               JStr ("The project's temporary directory is: /home/u/.gemini/tmp/"
                                     ++ hash ++ "/chats"))]])])] in
  extractGeminiProjectHash payload = Ok (JStr hash)
  /\ String.length hash = 64.
Proof.
  cbv zeta. split; [reflexivity|].
  destruct (extractGeminiProjectHash_shape
              (JObj [("llm_request",
                      JObj [("messages",
                             JArr [JObj [("role", JStr "system");
                                         ("content",
                                          JStr ("The project's temporary directory is: /home/u/.gemini/tmp/"
                                                ++ "0123456789abcdef0123456789ABCDEF0123456789abcdef0123456789abcdef"
                                                ++ "/chats"))]])])])
              (JStr "0123456789abcdef0123456789ABCDEF0123456789abcdef0123456789abcdef")
              eq_refl)
    as [H|(digits & H & Hl & _)]; [discriminate H|].
  injection H as ->. exact Hl.
Defined.

(** ** What every write keeps

    The hooks change the files through three operations only: [saveSession],
    [saveProject] and the marker that the Discord hook writes.  A property
    of the files that these three keep is kept by every function of the
    session manager and by every run of a hook. *)

Section EveryWrite.

Variable home : string.
Variable P : world -> Prop.
Hypothesis P_files_only : files_only P.
Hypothesis P_saveSession :
  forall projectDir gkSessionId data, keeps P (saveSession home projectDir gkSessionId data).
Hypothesis P_saveProject :
  forall projectDir gkProjectHash data,
    keeps P (saveProject home projectDir gkProjectHash data).
Hypothesis P_write_text :
  forall path text, keeps P (fs_writeFileSync path (CText text)).

Lemma addAgent_keeps (projectDir : string) (gkSessionId : json) (agentData : obj)
    (now : string) :
  keeps P (addAgent home projectDir gkSessionId agentData now).
Proof.
  intros w r w' H HP. unfold addAgent in H.
  destruct (negb (truthy (getSession home projectDir gkSessionId w)));
    [injection H as _ <-; exact HP|].
  destruct (add_agent_to _ _ _ _) as [session'|e]; [|injection H as _ <-; exact HP].
  exact (P_saveSession _ _ _ _ _ _ H HP).
Qed.

Lemma updateAgent_keeps (projectDir : string) (gkSessionId : json)
    (agentGkSessionId : option json) (updates : obj) :
  keeps P (updateAgent home projectDir gkSessionId agentGkSessionId updates).
Proof.
  intros w r w' H HP. unfold updateAgent in H.
  destruct (negb (truthy _) || negb (truthy_opt _)); [injection H as _ <-; exact HP|].
  destruct (update_agent_in _ _ _) as [[session'|]|e];
    try (injection H as _ <-; exact HP).
  exact (P_saveSession _ _ _ _ _ _ H HP).
Qed.

Lemma endAgent_keeps (projectDir : string) (gkSessionId : json)
    (agentGkSessionId : option json) (result : obj) (now : string) :
  keeps P (endAgent home projectDir gkSessionId agentGkSessionId result now).
Proof. unfold endAgent. apply updateAgent_keeps. Qed.

Lemma updateAgentGeminiSession_keeps (projectDir : string)
    (gkSessionId agentGkSessionId geminiSessionId : json) :
  keeps P (updateAgentGeminiSession home projectDir gkSessionId agentGkSessionId
             geminiSessionId).
Proof.
  intros w r w' H HP. unfold updateAgentGeminiSession in H.
  destruct (negb (truthy _) || negb (truthy_opt _)); [injection H as _ <-; exact HP|].
  destruct (as_array _) as [agents|e]; [|injection H as _ <-; exact HP].
  destruct (findIndex _ 0 agents) as [[i|]|e]; try (injection H as _ <-; exact HP).
  exact (P_saveSession _ _ _ _ _ _ H HP).
Qed.

Lemma updateAgentPrompt_keeps (projectDir : string)
    (gkSessionId agentGkSessionId prompt : json) :
  keeps P (updateAgentPrompt home projectDir gkSessionId agentGkSessionId prompt).
Proof.
  intros w r w' H HP. unfold updateAgentPrompt in H.
  destruct (negb (truthy _) || negb (truthy_opt _)); [injection H as _ <-; exact HP|].
  destruct (as_array _) as [agents|e]; [|injection H as _ <-; exact HP].
  destruct (findIndex _ 0 agents) as [[i|]|e]; try (injection H as _ <-; exact HP).
  destruct (truthy_opt _); [injection H as _ <-; exact HP|].
  exact (updateAgent_keeps _ _ _ _ _ _ _ H HP).
Qed.

Lemma updateSession_keeps (projectDir : string) (gkSessionId : json) (updates : obj) :
  keeps P (updateSession home projectDir gkSessionId updates).
Proof.
  intros w r w' H HP. unfold updateSession in H.
  destruct (negb (truthy _)); [injection H as _ <-; exact HP|].
  refine (keeps_bind P _ _ _ _ _ _ _ H HP); [apply P_saveSession|].
  intros saved. apply keeps_ret.
Qed.

Lemma captureGeminiProjectHash_keeps (projectDir : string)
    (gkSessionId geminiProjectHash geminiTempDir : json) (now : string) :
  keeps P (captureGeminiProjectHash home projectDir gkSessionId geminiProjectHash
             geminiTempDir now).
Proof.
  intros w r w' H HP. unfold captureGeminiProjectHash in H.
  destruct (negb (truthy _)); [injection H as _ <-; exact HP|].
  destruct (truthy_opt _ && truthy_opt _); [injection H as _ <-; exact HP|].
  destruct (capture_updates _ _ _ _) as [|u us] eqn:Eu; [injection H as _ <-; exact HP|].
  rewrite <- Eu in H.
  refine (keeps_bind P _ _ _ _ _ _ _ H HP); [apply updateSession_keeps|].
  intros updated. destruct (negb (truthy updated)); [apply keeps_ret|].
  apply keeps_bind.
  - intros w1 r1 w1' H1 HP1.
    destruct (truthy _ && negb (truthy_opt _)); [|injection H1 as _ <-; exact HP1].
    exact (P_saveProject _ _ _ _ _ _ H1 HP1).
  - intros _ w2 r2 w2' H2 HP2.
    refine (keeps_bind P _ _ _ _ _ _ _ H2 HP2).
    + apply keeps_updateEnv, P_files_only.
    + intros saved. apply keeps_ret.
Qed.

Lemma captureAgentProjectHash_keeps (projectDir : string)
    (parentGkSessionId geminiSessionId geminiProjectHash : json) (now : string) :
  keeps P (captureAgentProjectHash home projectDir parentGkSessionId geminiSessionId
             geminiProjectHash now).
Proof.
  intros w r w' H HP. unfold captureAgentProjectHash in H.
  destruct ((projectDir =? "") || negb (truthy parentGkSessionId)
            || negb (truthy geminiSessionId) || negb (truthy geminiProjectHash));
    [injection H as _ <-; exact HP|].
  destruct (negb (truthy _) || negb (truthy_opt _)); [injection H as _ <-; exact HP|].
  destruct (capture_agent_hash_in _ _ _) as [[session'|]|e];
    try (injection H as _ <-; exact HP).
  refine (keeps_bind P _ _ _ _ _ _ _ H HP); [apply P_saveSession|].
  intros saved. apply keeps_bind; [|intros _; apply keeps_ret].
  destruct saved; [|apply keeps_ret].
  intros w1 r1 w1' H1 HP1.
  destruct (GEMINI_PROJECT_HASH (readEnv w1) =? ""); [|injection H1 as _ <-; exact HP1].
  exact (keeps_updateEnv _ _ _ P_files_only _ _ _ H1 HP1).
Qed.

Lemma writeSessionState_keeps (process_cwd : string) (gkSessionId : json) (state : obj) :
  keeps P (writeSessionState home process_cwd gkSessionId state).
Proof.
  intros w r w' H HP. unfold writeSessionState in H.
  destruct (negb (truthy gkSessionId)); [injection H as _ <-; exact HP|].
  cbv zeta in H. destruct (truthy _); exact (P_saveSession _ _ _ _ _ _ H HP).
Qed.

Lemma markReminderInjected_keeps (process_cwd now : string) (isSubAgent : bool)
    (sessionId : json) :
  keeps P (markReminderInjected home process_cwd now isSubAgent sessionId).
Proof.
  intros w r w' H HP. unfold markReminderInjected in H.
  destruct (negb (truthy sessionId)); [injection H as _ <-; exact HP|].
  destruct isSubAgent; [injection H as _ <-; exact HP|].
  cbv zeta in H.
  refine (keeps_bind P _ _ _ _ _ _ _ H HP); [apply writeSessionState_keeps|].
  intros saved. apply keeps_ret.
Qed.

Lemma ensureProject_keeps (projectDir : string) (gkProjectHash projectPath : json)
    (now : string) :
  keeps P (ensureProject home projectDir gkProjectHash projectPath now).
Proof.
  intros w r w' H HP. unfold ensureProject in H.
  destruct (truthy (getProject home projectDir gkProjectHash w));
    [injection H as _ <-; exact HP|].
  refine (keeps_bind P _ _ _ _ _ _ _ H HP); [apply P_saveProject|].
  intros saved. apply keeps_ret.
Qed.

Lemma addSessionToProject_keeps (sort_sessions : list json -> list json)
    (projectDir : string) (gkProjectHash : json) (sessionSummary : obj)
    (process_cwd now : string) :
  keeps P (addSessionToProject home sort_sessions projectDir gkProjectHash sessionSummary
             process_cwd now).
Proof.
  unfold addSessionToProject.
  apply keeps_bind; [apply ensureProject_keeps|]. intros project.
  apply keeps_bind; [apply keeps_lift|]. intros project'. apply P_saveProject.
Qed.

Lemma initializeGeminiSession_keeps (sort_sessions : list json -> list json)
    (proc : process_info) (geminiSessionId geminiParentId : json) (options : init_options) :
  keeps P (initializeGeminiSession home sort_sessions proc geminiSessionId geminiParentId
             options).
Proof.
  unfold initializeGeminiSession.
  apply keeps_bind; [apply keeps_lift|]. intros ids. cbv zeta.
  intros w r w' H HP.
  destruct (findSessionByGeminiId home (ids_projectDir ids) geminiSessionId w)
    as [existingSessionPath|].
  - exact (resume_session_keeps _ home _ _ _ _ P_files_only _ _ _ H HP).
  - refine (keeps_bind P _ _ _ _ _ _ _ H HP).
    + apply keeps_ensureDir, P_files_only.
    + intros _. apply keeps_bind; [apply P_saveSession|].
      intros _. apply keeps_bind; [apply ensureProject_keeps|].
      intros _. apply keeps_bind; [apply addSessionToProject_keeps|].
      intros _ w1 r1 w1' H1 HP1.
      refine (keeps_bind P _ _ _ _ _ _ _ H1 HP1).
      * apply keeps_updateEnv, P_files_only.
      * intros saved. apply keeps_ret.
Qed.

Lemma endSession_keeps (sort_sessions : list json -> list json) (projectDir : string)
    (gkSessionId : json) (result : obj) (process_cwd now : string) :
  keeps P (endSession home sort_sessions projectDir gkSessionId result process_cwd now).
Proof.
  intros w r w' H HP. unfold endSession in H.
  destruct (negb (truthy _)); [injection H as _ <-; exact HP|].
  refine (keeps_bind P _ _ _ _ _ _ _ H HP); [apply keeps_lift|].
  intros mainAgent. apply keeps_bind.
  - destruct (truthy_opt mainAgent); [apply endAgent_keeps|apply keeps_ret].
  - intros _ w1 r1 w1' H1 HP1.
    refine (keeps_bind P _ _ _ _ _ _ _ H1 HP1); [apply keeps_lift|].
    intros updatedMainAgent. cbv zeta. apply keeps_bind; [|intros _; apply keeps_ret].
    destruct (truthy_opt _); [apply addSessionToProject_keeps|apply keeps_ret].
Qed.

Lemma markAsNotified_keeps (tmpdir now : string) (sessionId : json) :
  keeps P (gk_discord_notify.markAsNotified tmpdir now sessionId).
Proof.
  unfold gk_discord_notify.markAsNotified.
  destruct (negb (truthy sessionId)); [apply keeps_ret|].
  destruct sessionId; try apply keeps_throw.
  apply keeps_try_catch; [apply P_write_text|intros e; apply keeps_ret].
Qed.

(** the calls of the hooks into the session manager *)
Ltac every_write_leaf :=
  idtac;
  lazymatch goal with
  | |- keeps _ (read_json _) => apply keeps_read_json
  | |- keeps _ (lift _) => apply keeps_lift
  | |- keeps _ (updateEnv _ _) => apply keeps_updateEnv, P_files_only
  | |- keeps _ (gk_session_init.fill_env_hash _ _) =>
      apply fill_env_hash_keeps, P_files_only
  | |- keeps _ (updateAgentGeminiSession _ _ _ _ _) => apply updateAgentGeminiSession_keeps
  | |- keeps _ (updateAgentPrompt _ _ _ _ _) => apply updateAgentPrompt_keeps
  | |- keeps _ (captureAgentProjectHash _ _ _ _ _ _) => apply captureAgentProjectHash_keeps
  | |- keeps _ (captureGeminiProjectHash _ _ _ _ _ _) => apply captureGeminiProjectHash_keeps
  | |- keeps _ (initializeGeminiSession _ _ _ _ _ _) => apply initializeGeminiSession_keeps
  | |- keeps _ (endAgent _ _ _ _ _ _) => apply endAgent_keeps
  | |- keeps _ (endSession _ _ _ _ _ _ _) => apply endSession_keeps
  | |- keeps _ (gk_discord_notify.markAsNotified _ _ _) => apply markAsNotified_keeps
  | |- keeps _ (markReminderInjected _ _ _ _ _) => apply markReminderInjected_keeps
  | |- keeps _ (addAgent _ _ _ _ _) => apply addAgent_keeps
  end.

Lemma register_sub_agent_preserves (r : gk_session_init.init_run) (projectDir : string)
    (geminiSessionId hookEventName : json) :
  preserves P
    (gk_session_init.register_sub_agent home r projectDir geminiSessionId hookEventName).
Proof.
  unfold gk_session_init.register_sub_agent.
  pose proof (find_parent_preserves P).
  repeat preserves_step every_write_leaf.
Qed.

Lemma init_main_preserves (sort_sessions : list json -> list json)
    (r : gk_session_init.init_run) :
  preserves P (gk_session_init.main home sort_sessions r).
Proof.
  unfold gk_session_init.main, gk_session_init.main_body, gk_session_init.main_agent,
    gk_session_init.find_existing, gk_session_init.before_agent,
    gk_session_init.before_model, gk_session_init.resume, gk_session_init.initialize.
  pose proof register_sub_agent_preserves.
  repeat preserves_step every_write_leaf.
Qed.

Lemma end_main_preserves (sort_sessions : list json -> list json)
    (r : gk_session_end.end_run) :
  preserves P (gk_session_end.main home sort_sessions r).
Proof.
  unfold gk_session_end.main, gk_session_end.main_body, gk_session_end.end_sub_agent,
    gk_session_end.find_session.
  pose proof (find_parent_preserves P).
  repeat preserves_step every_write_leaf.
Qed.

Lemma notify_main_preserves (tmpdir : string) (lib : node_lib)
    (r : gk_discord_notify.notify_run) :
  preserves P (gk_discord_notify.main home tmpdir lib r).
Proof. unfold gk_discord_notify.main. repeat preserves_step every_write_leaf. Qed.

Lemma reminder_main_preserves (r : gk_dev_rules_reminder.reminder_run) :
  preserves P (gk_dev_rules_reminder.main home r).
Proof. unfold gk_dev_rules_reminder.main. repeat preserves_step every_write_leaf. Qed.

End EveryWrite.

(** *** No JSON file is ever removed *)

Lemma within_after_files_only (w0 : world) : files_only (fun w => within w w0).
Proof. intros w w' E H path Hj Hf. unfold file_exists. rewrite E. exact (H path Hj Hf). Qed.

Lemma saveSession_keeps_files (home : string) (w0 : world) (projectDir : string)
    (gkSessionId data : json) :
  keeps (fun w => within w w0) (saveSession home projectDir gkSessionId data).
Proof.
  intros w r w' H Hw path Hj Hf. specialize (Hw path Hj Hf).
  destruct (saveSession_cases home projectDir gkSessionId data w)
    as (r0 & w1 & E & H2 & H3 & _ & Hframe & _).
  cbv zeta in H2, H3, Hframe. rewrite H in E. injection E as <- <-.
  unfold file_exists in *.
  destruct (String.eqb_spec path (session_file home projectDir gkSessionId)) as [->|Hne].
  - destruct r as [[|]|e].
    + destruct (H2 eq_refl) as (ordered & _ & ->). reflexivity.
    + rewrite H3 by discriminate. exact Hw.
    + rewrite H3 by discriminate. exact Hw.
  - rewrite Hframe; [exact Hw|exact Hne|].
    intros ->. rewrite ends_with_json_tmp in Hj. discriminate Hj.
Qed.

Lemma saveProject_keeps_files (home : string) (w0 : world) (projectDir : string)
    (gkProjectHash data : json) :
  keeps (fun w => within w w0) (saveProject home projectDir gkProjectHash data).
Proof.
  intros w r w' H Hw path Hj Hf. specialize (Hw path Hj Hf).
  destruct (saveProject_cases home projectDir gkProjectHash data w)
    as (r0 & w1 & E & Hframe & Hfile).
  cbv zeta in Hframe, Hfile. rewrite H in E. injection E as <- <-.
  unfold file_exists in *.
  destruct (String.eqb_spec path (project_file home projectDir gkProjectHash)) as [->|Hne].
  - destruct Hfile as [-> |[-> |[n ->]]]; [exact Hw|reflexivity|reflexivity].
  - rewrite Hframe by exact Hne. exact Hw.
Qed.

Lemma write_text_keeps_files (w0 : world) (path text : string) :
  keeps (fun w => within w w0) (fs_writeFileSync path (CText text)).
Proof.
  intros w r w' H Hw. unfold fs_writeFileSync, bind, next_fault, throw in H.
  destruct w as [fs env fl].
  destruct fl as [|[| |n] fl]; cbn [faults files env_file set_files] in H;
    injection H as _ <-; try exact Hw;
    intros p Hj Hf; specialize (Hw p Hj Hf); unfold file_exists in *;
    cbn [files set_files] in *; rewrite file_at_put;
    (destruct (path =? p); [reflexivity|exact Hw]).
Qed.

(** X24.  No run of a hook removes a JSON file: every session file and
    project file that is there before a run of gk-session-init,
    gk-session-end, gk-discord-notify, the development-rules reminder or
    send-discord is still there after it, whatever the input and whatever
    fails. *)
Theorem hooks_remove_no_json_file
    (home tmpdir : string) (sort_sessions : list json -> list json) (lib : node_lib)
    (init : gk_session_init.init_run) (ending : gk_session_end.end_run)
    (notify : gk_discord_notify.notify_run) (reminder : gk_dev_rules_reminder.reminder_run)
    (cwd now time : string) (argv2 : option string) (loadEnv : outcome environment)
    (events : list event) (w : world) :
  within (snd (gk_session_init.main home sort_sessions init w)) w
  /\ within (snd (gk_session_end.main home sort_sessions ending w)) w
  /\ within (snd (gk_discord_notify.main home tmpdir lib notify w)) w
  /\ within (snd (gk_dev_rules_reminder.main home reminder w)) w
  /\ within (snd (send_discord.main lib cwd now time argv2 loadEnv events w)) w.
Proof.
  pose proof (within_after_files_only w) as H1.
  pose proof (saveSession_keeps_files home w) as H2.
  pose proof (saveProject_keeps_files home w) as H3.
  pose proof (write_text_keeps_files w) as H4.
  assert (H0 : within w w) by (intros path _ Hf; exact Hf).
  repeat split; apply (preserves_snd (fun x => within x w)); try exact H0.
  - apply init_main_preserves; assumption.
  - apply end_main_preserves; assumption.
  - apply notify_main_preserves; assumption.
  - apply reminder_main_preserves; assumption.
  - apply send_discord_main_preserves.
Qed.

(** ** A session that was created is resumed *)

Lemma strip_prefix_app (p r : string) : strip_prefix p (p ++ r) = Some r.
Proof.
  induction p as [|c p IH]; simpl; [reflexivity|]. rewrite Ascii.eqb_refl. exact IH.
Qed.

Lemma strip_prefix_inv (p s r : string) : strip_prefix p s = Some r -> s = p ++ r.
Proof.
  revert s. induction p as [|c p IH]; intros s H; simpl in *; [congruence|].
  destruct s as [|d s]; [discriminate H|].
  destruct (Ascii.eqb_spec c d) as [->|_]; [|discriminate H].
  rewrite (IH _ H). reflexivity.
Qed.

Lemma append_inv_head (d a b : string) : d ++ a = d ++ b -> a = b.
Proof. induction d as [|c d IH]; simpl; intros H; [exact H|]. injection H as H. auto. Qed.

Lemma insert_name_In (x name : string) (names : list string) :
  In x (insert_name name names) <-> x = name \/ In x names.
Proof.
  induction names as [|n names IH]; cbn [insert_name In].
  - split; [intros [H|[]]; left; congruence|intros [H|[]]; left; congruence].
  - destruct (String.compare name n) eqn:E; cbn [In].
    + apply String.compare_eq_iff in E. subst n.
      split; [auto|intros [H|H]; [left; congruence|exact H]].
    + split; [intros [H|H]; [left; congruence|right; exact H]
             |intros [H|H]; [left; congruence|right; exact H]].
    + rewrite IH. split; [intros [H|[H|H]]; auto|intros [H|[H|H]]; auto].
Qed.

Lemma file_exists_cons (q p : string) (c : content) (fs : list (string * content)) :
  file_exists q ((p, c) :: fs) = (p =? q) || file_exists q fs.
Proof. unfold file_exists. cbn [file_at]. destruct (p =? q); reflexivity. Qed.

(** the names [fs.readdirSync] lists are the first segments, below the
    directory, of the paths of the files there are *)
Lemma readdir_In (dir name : string) (fs : list (string * content)) :
  In name (fs_readdirSync dir fs)
  <-> name <> ""
      /\ exists p, file_exists p fs = true /\ entry_of dir p = Some name.
Proof.
  induction fs as [|[p c] fs IH]; cbn [fs_readdirSync].
  - split; [intros []|intros (_ & q & H & _); discriminate H].
  - assert (Hrest : In name (fs_readdirSync dir fs)
                    -> name <> ""
                       /\ exists q, file_exists q ((p, c) :: fs) = true
                                    /\ entry_of dir q = Some name).
    { intros H. apply IH in H. destruct H as (Hn & q & Hq & He).
      split; [exact Hn|]. exists q. rewrite file_exists_cons, Hq, orb_true_r. auto. }
    assert (Hback : forall q, file_exists q ((p, c) :: fs) = true ->
                              entry_of dir q = Some name -> name <> "" ->
                              entry_of dir p = Some name \/ In name (fs_readdirSync dir fs)).
    { intros q Hq He Hn. rewrite file_exists_cons in Hq.
      destruct (String.eqb_spec p q) as [->|_]; [left; exact He|].
      right. apply IH. split; [exact Hn|]. exists q. auto. }
    destruct (entry_of dir p) as [n|] eqn:Ep.
    + destruct (String.eqb_spec n "") as [->|Hne].
      * split; [exact Hrest|]. intros (Hn & q & Hq & He).
        destruct (Hback q Hq He Hn) as [H|H]; [congruence|exact H].
      * rewrite insert_name_In. split.
        -- intros [->|H]; [|exact (Hrest H)].
           split; [exact Hne|]. exists p.
           rewrite file_exists_cons, String.eqb_refl. auto.
        -- intros (Hn & q & Hq & He).
           destruct (Hback q Hq He Hn) as [H|H]; [left; congruence|right; exact H].
    + split; [exact Hrest|]. intros (Hn & q & Hq & He).
      destruct (Hback q Hq He Hn) as [H|H]; [discriminate H|exact H].
Qed.

Lemma entry_of_file (dir name : string) :
  all_chars (fun c => negb (Ascii.eqb c "/")) name = true ->
  entry_of dir ((dir ++ "/") ++ name) = Some name.
Proof.
  intros H. unfold entry_of. rewrite strip_prefix_app, (split_on_no_sep _ H). reflexivity.
Qed.

Lemma entry_of_no_sep (dir p name : string) :
  entry_of dir p = Some name ->
  all_chars (fun c => negb (Ascii.eqb c "/")) name = true.
Proof.
  unfold entry_of. destruct (strip_prefix (dir ++ "/") p) as [below|]; [|discriminate].
  intros H. injection H as <-.
  pose proof (split_on_segments below) as Hs.
  destruct (split_on "/" below) as [|h t]; [reflexivity|].
  cbn [forallb hd] in *. apply andb_prop in Hs. apply Hs.
Qed.

(** a file directly in the directory is listed by its name *)
Lemma readdir_file (dir name : string) (fs : list (string * content)) :
  name <> "" ->
  all_chars (fun c => negb (Ascii.eqb c "/")) name = true ->
  file_exists ((dir ++ "/") ++ name) fs = true ->
  In name (fs_readdirSync dir fs).
Proof.
  intros Hn Hs He. apply readdir_In. split; [exact Hn|].
  exists ((dir ++ "/") ++ name). split; [exact He|apply entry_of_file, Hs].
Qed.

Lemma session_name_clean (name : string) :
  is_session_name name = true ->
  all_chars (fun c => negb (Ascii.eqb c "/")) name = true ->
  clean_segment name = true.
Proof.
  unfold is_session_name, clean_segment. intros Hn Hs. rewrite Hs.
  apply andb_prop in Hn. destruct Hn as [Hp _].
  destruct (String.eqb_spec name "") as [->|_]; [vm_compute in Hp; discriminate Hp|].
  destruct (String.eqb_spec name ".") as [->|_]; [vm_compute in Hp; discriminate Hp|].
  destruct (String.eqb_spec name "..") as [->|_]; [vm_compute in Hp; discriminate Hp|].
  reflexivity.
Qed.

(** a clean name joined to the data directory of a project *)
Lemma data_dir_join (home projectDir name : string) :
  clean_segment projectDir = true -> clean_segment name = true ->
  path_join (getProjectDataDir home projectDir) name
  = (getProjectDataDir home projectDir ++ "/") ++ name.
Proof.
  intros Hp Hn. unfold getProjectDataDir at 1.
  rewrite path_join_clean by (try exact Hn; apply path_join_segments_nonempty, Hp).
  rewrite normalize_path_join. unfold getProjectDataDir.
  rewrite <- append_assoc. reflexivity.
Qed.

(** In a directory whose session files all parse, a search that finds
    nothing has looked at every session file. *)
Lemma scan_sessions_none (dir : string) (id : json) (fs : list (string * content))
    (names : list string) :
  forallb (fun file =>
             negb (is_session_name file)
             || match stored_session dir fs file with
                | Some JNull => false
                | Some _ => true
                | None => false
                end) names = true ->
  scan_sessions dir id fs names = None ->
  forall name session,
    In name names -> is_session_name name = true ->
    stored_session dir fs name = Some session ->
    strict_eq_opt (prop "geminiSessionId" session) id = false.
Proof.
  induction names as [|file names IH]; intros Hr Hs name session Hin Hn Hst; [destruct Hin|].
  cbn [forallb scan_sessions] in Hr, Hs.
  apply andb_prop in Hr. destruct Hr as [Hfile Hrest].
  unfold is_session_name in *.
  destruct (String.prefix "gk-session-" file && ends_with ".json" file) eqn:En.
  - apply andb_prop in En. destruct En as [E1 E2]. rewrite E1, E2 in Hs.
    cbn [negb orb andb] in Hs, Hfile.
    unfold stored_session in Hfile, Hst.
    destruct Hin as [->|Hin].
    + destruct (file_at (path_join dir name) fs) as [c|]; [|discriminate Hst].
      rewrite Hst in Hfile, Hs.
      destruct session; try discriminate Hfile;
        (destruct (strict_eq_opt _ id); [discriminate Hs|reflexivity]).
    + destruct (file_at (path_join dir file) fs) as [c|]; [|discriminate Hfile].
      destruct (JSON_parse c) as [s|]; [|discriminate Hfile].
      assert (Hs' : scan_sessions dir id fs names = None).
      { destruct s; try discriminate Hfile;
          (destruct (strict_eq_opt _ id); [discriminate Hs|exact Hs]). }
      exact (IH Hrest Hs' name session Hin Hn Hst).
  - destruct Hin as [->|Hin]; [rewrite En in Hn; discriminate Hn|].
    apply Bool.andb_false_iff in En.
    assert (Hs' : scan_sessions dir id fs names = None).
    { destruct En as [E|E]; rewrite E in Hs; cbn [negb orb] in Hs;
        rewrite ?Bool.orb_true_r in Hs; exact Hs. }
    exact (IH Hrest Hs' name session Hin Hn Hst).
Qed.

Lemma filter_only (f : string -> bool) (n : string) (l : list string) :
  (forall x, In x l -> f x = true -> x = n) -> In n l -> f n = true ->
  exists others, filter f l = n :: others.
Proof.
  induction l as [|x l IH]; intros Hall Hin Hf; [destruct Hin|].
  cbn [filter]. destruct (f x) eqn:Ex.
  - rewrite (Hall x (or_introl eq_refl) Ex). eauto.
  - destruct Hin as [->|Hin]; [congruence|].
    apply IH; [intros y Hy; apply Hall; right; exact Hy|exact Hin|exact Hf].
Qed.

(** with no failure to come, a session that is not [null] is saved *)
Lemma saveSession_succeeds (home projectDir : string) (gkSessionId : json) (props : obj)
    (w : world) :
  faults w = [] -> projectDir <> "" -> truthy gkSessionId = true ->
  exists w', saveSession home projectDir gkSessionId (JObj props) w = (Ok true, w')
             /\ faults w' = [].
Proof.
  intros Hf Hp Hid. unfold saveSession.
  apply String.eqb_neq in Hp. rewrite Hp, Hid. cbn [orb negb].
  destruct w as [fs env fl]. cbn [faults] in Hf. subst fl.
  unfold bind at 1, ensureDir. cbn [files].
  assert (E : forall w0 : world,
             faults w0 = [] ->
             exists w', write_then_rename (session_file home projectDir gkSessionId)
                          (JObj props) w0 = (Ok true, w') /\ faults w' = []).
  { intros [fs0 env0 fl0] H0. cbn [faults] in H0. subst fl0.
    unfold write_then_rename, try_catch, bind, lift, reorderSessionFields,
      fs_writeFileSync, fs_renameSync, bind, next_fault, ret.
    cbn [faults files env_file set_files].
    rewrite file_at_put, String.eqb_refl. eexists. split; reflexivity. }
  destruct (dir_exists _ fs).
  - apply E. reflexivity.
  - unfold bind, next_fault, ret. cbn [faults]. apply E. reflexivity.
Qed.

Lemma lookup_assign_each (k : string) (fields : list (string * option json)) (o : obj) :
  forallb (fun field => negb (fst field =? k)) fields = true ->
  lookup k (assign_each fields o) = lookup k o.
Proof.
  revert o. induction fields as [|[k' v] fields IH]; intros o H; cbn [assign_each];
    [reflexivity|].
  cbn [forallb fst] in H. apply andb_prop in H. destruct H as [Hk Hrest].
  rewrite IH by exact Hrest. rewrite lookup_assign.
  apply negb_true_iff in Hk. rewrite Hk. reflexivity.
Qed.

Lemma new_session_ids (proc : process_info) (ids : project_identifiers)
    (gkSessionId appName : string) (geminiSessionId geminiParentId : json)
    (options : init_options) :
  keeps_ids (opt_initialState options) = true ->
  lookup "gkSessionId"
    (new_session proc ids gkSessionId appName geminiSessionId geminiParentId options)
  = Some (JStr gkSessionId)
  /\ lookup "geminiSessionId"
       (new_session proc ids gkSessionId appName geminiSessionId geminiParentId options)
     = Some geminiSessionId.
Proof.
  unfold keeps_ids, new_session. intros H.
  rewrite !lookup_set_neq by discriminate.
  rewrite forallb_forall in H.
  split; (rewrite lookup_assign_each; [reflexivity|]);
    apply forallb_forall; intros [k v] Hin; specialize (H _ Hin); cbn [fst] in *;
    apply negb_true_iff in H; apply Bool.orb_false_iff in H; destruct H as [H1 H2];
    [rewrite H1|rewrite H2]; reflexivity.
Qed.

Lemma prefix_app (p r : string) : String.prefix p (p ++ r) = true.
Proof.
  induction p as [|c p IH]; simpl; [destruct r; reflexivity|].
  destruct (ascii_dec c c) as [_|Hne]; [exact IH|congruence].
Qed.

Lemma new_session_name (proc : process_info) (geminiParentId : json) :
  all_chars is_lower_alnum (random4 proc) = true ->
  let name := "gk-session-" ++ new_session_id proc geminiParentId ++ ".json" in
  is_session_name name = true /\ clean_segment name = true.
Proof.
  intros Hr name.
  assert (Hn : is_session_name name = true).
  { unfold is_session_name. apply andb_true_intro. split; [apply prefix_app|].
    subst name. rewrite <- append_assoc. apply ends_with_app. }
  split; [exact Hn|]. apply session_name_clean; [exact Hn|].
  subst name. unfold new_session_id, generateGkSessionId.
  assert (Hw : forall s, all_chars is_lower_alnum s = true ->
                         all_chars (fun c => negb (Ascii.eqb c "/")) s = true).
  { intros s. apply all_chars_weaken. intros c Hc.
    destruct (Ascii.eqb_spec c "/") as [->|_]; [discriminate Hc|reflexivity]. }
  assert (Hd : all_chars (fun c => negb (Ascii.eqb c "/"))
                 (Number_toString (process_pid proc)) = true).
  { apply Number_toString_chars; try reflexivity. intros c Hc.
    destruct (Ascii.eqb_spec c "/") as [->|_]; [discriminate Hc|reflexivity]. }
  rewrite !all_chars_append, Hd, (Hw _ (toString36_lower_alnum _)), (Hw _ Hr).
  destruct (truthy geminiParentId); reflexivity.
Qed.

Lemma project_dir_clean (process_cwd : string) (projectPath : json)
    (ids : project_identifiers) :
  project_identifiers_of process_cwd projectPath = Ok ids ->
  ids_projectDir ids <> "" ->
  clean_segment (ids_projectDir ids) = true
  /\ all_chars is_lower_alnum (ids_gkProjectHash ids) = true.
Proof.
  unfold project_identifiers_of. intros H Hne.
  assert (E : exists cwd, ids = generateProjectIdentifiers process_cwd cwd).
  { destruct (truthy projectPath); [destruct projectPath; try discriminate H|];
      injection H as <-; eauto. }
  destruct E as (cwd & ->). unfold generateProjectIdentifiers in *.
  cbn [ids_projectDir ids_gkProjectHash] in *. split.
  - apply sanitized_name_clean; [exact Hne|apply sanitizeProjectPath_chars].
  - apply generateGkProjectHash_lower_alnum.
Qed.

Lemma saveProject_keeps_file (home projectDir : string) (gkProjectHash data : json)
    (q : string) (v : option content) :
  q <> project_file home projectDir gkProjectHash ->
  keeps (fun w => file_at q (files w) = v) (saveProject home projectDir gkProjectHash data).
Proof.
  intros Hq w r w' H Hv.
  destruct (saveProject_cases home projectDir gkProjectHash data w) as (r0 & w0 & E & Hframe & _).
  cbv zeta in Hframe. rewrite H in E. injection E as <- <-.
  rewrite Hframe by exact Hq. exact Hv.
Qed.

Lemma file_files_only (q : string) (v : option content) :
  files_only (fun w => file_at q (files w) = v).
Proof. intros w w' E H. rewrite E. exact H. Qed.

(** what the files are after a new session was made, lines 1047-1103 *)
Lemma new_session_files (home : string) (sort_sessions : list json -> list json)
    (proc : process_info) (ids : project_identifiers) (gkSessionId appName : string)
    (geminiSessionId : json) (session : obj) (w1 : world) (r : outcome init_result)
    (w' : world) :
  (ensureProject home (ids_projectDir ids) (JStr (ids_gkProjectHash ids))
     (JStr (ids_projectPath ids)) (now_iso proc) ;;
   addSessionToProject home sort_sessions (ids_projectDir ids) (JStr (ids_gkProjectHash ids))
     (literal
        [ ("gkSessionId", opt_str gkSessionId);
          ("pid", Some (JNum (Z.of_N (process_pid proc))));
          ("sessionType", opt_str "gemini");
          ("appName", opt_str appName);
          ("startTime", lookup "initTimestamp" session);
          ("activePlan", lookup "activePlan" session) ])
     (process_cwd proc) (now_iso proc) ;;
   fun w1 =>
     let existingEnv := readEnv w1 in
     (updateEnv
        {| ed_gkSessionId := opt_str gkSessionId;
           ed_gkProjectHash := Some (JStr (ids_gkProjectHash ids));
           ed_projectDir := opt_str (ids_projectDir ids);
           ed_geminiSessionId := Some geminiSessionId;
           ed_geminiProjectHash := opt_str (GEMINI_PROJECT_HASH existingEnv);
           ed_activePlan := lookup "activePlan" session;
           ed_suggestedPlan := lookup "suggestedPlan" session;
           ed_planDateFormat := lookup "planDateFormat" session |}
        (now_iso proc) ;;
      ret {| ir_session := JObj session;
             ir_gkSessionId := opt_str gkSessionId;
             ir_pid := Some (JNum (Z.of_N (process_pid proc)));
             ir_projectDir := ids_projectDir ids;
             ir_gkProjectHash := JStr (ids_gkProjectHash ids);
             ir_isResume := false |}) w1) w1
  = (r, w') ->
  (forall q, q <> project_file home (ids_projectDir ids) (JStr (ids_gkProjectHash ids)) ->
             file_at q (files w') = file_at q (files w1))
  /\ forall res, r = Ok res -> ir_gkSessionId res = Some (JStr gkSessionId).
Proof.
  intros H. split.
  - intros q Hq.
    refine (keeps_bind (fun x => file_at q (files x) = file_at q (files w1))
              _ _ _ _ _ _ _ H eq_refl).
    + intros x rx x' Hx HP. unfold ensureProject in Hx.
      destruct (truthy (getProject _ _ _ x)); [injection Hx as _ <-; exact HP|].
      refine (keeps_bind _ _ _ _ _ _ _ _ Hx HP);
        [apply saveProject_keeps_file, Hq|intros saved; apply keeps_ret].
    + intros _. apply keeps_bind.
      * unfold addSessionToProject. apply keeps_bind.
        -- intros x rx x' Hx HP. unfold ensureProject in Hx.
           destruct (truthy (getProject _ _ _ x)); [injection Hx as _ <-; exact HP|].
           refine (keeps_bind _ _ _ _ _ _ _ _ Hx HP);
             [apply saveProject_keeps_file, Hq|intros saved; apply keeps_ret].
        -- intros project. apply keeps_bind; [apply keeps_lift|].
           intros project'. apply saveProject_keeps_file, Hq.
      * intros _ x rx x' Hx HP. cbv zeta in Hx.
        refine (keeps_bind _ _ _ _ _ _ _ _ Hx HP);
          [apply keeps_updateEnv, file_files_only|intros saved; apply keeps_ret].
  - intros res ->. unfold bind in H.
    destruct (ensureProject _ _ _ _ _ w1) as [[project|e] w2]; [|discriminate H].
    destruct (addSessionToProject _ _ _ _ _ _ _ w2) as [[added|e] w3]; [|discriminate H].
    cbv zeta in H.
    destruct (updateEnv _ _ w3) as [[saved|e] w4]; [|discriminate H].
    unfold ret in H. injection H as <- _. reflexivity.
Qed.

Lemma ensureDir_no_fault (dirPath : string) (w : world) :
  faults w = [] -> ensureDir dirPath w = (Ok tt, w).
Proof.
  intros H. unfold ensureDir. destruct (dir_exists dirPath (files w)); [reflexivity|].
  destruct w as [fs env fl]. cbn [faults] in H. subst fl. reflexivity.
Qed.

Lemma resume_session_resumes (proc : process_info) (ids : project_identifiers)
    (geminiSessionId : json) (path : string) (w w' : world) (r : init_result) :
  resume_session proc ids geminiSessionId path w = (Ok r, w') -> ir_isResume r = true.
Proof.
  unfold resume_session, bind, lift. intros H.
  destruct (read_json path w) as [[session|e] w1]; [|discriminate H].
  destruct (get_prop "gkSessionId" session) as [id|e]; [|discriminate H].
  cbv zeta in H. destruct (updateEnv _ _ w1) as [[saved|e] w2]; [|discriminate H].
  injection H as <- _. reflexivity.
Qed.

(** the session files of the directory after a new session was made: they
    all parse, and the new one is the only one that holds the id *)
Lemma created_session_store (home : string) (sort_sessions : list json -> list json)
    (proc : process_info) (geminiSessionId geminiParentId : json) (options : init_options)
    (ids : project_identifiers) (w : world) (r : init_result) (w' : world) :
  faults w = [] ->
  all_chars is_lower_alnum (random4 proc) = true ->
  truthy geminiSessionId = true ->
  is_object geminiSessionId = false ->
  project_identifiers_of (process_cwd proc) (opt_cwd options) = Ok ids ->
  ids_projectDir ids <> "" ->
  keeps_ids (opt_initialState options) = true ->
  sessions_readable (getProjectDataDir home (ids_projectDir ids)) (files w) = true ->
  initializeGeminiSession home sort_sessions proc geminiSessionId geminiParentId options w
  = (Ok r, w') ->
  ir_isResume r = false ->
  let dir := getProjectDataDir home (ids_projectDir ids) in
  let name := "gk-session-" ++ new_session_id proc geminiParentId ++ ".json" in
  ir_gkSessionId r = Some (JStr (new_session_id proc geminiParentId))
  /\ sessions_readable dir (files w') = true
  /\ (exists others, sessions_holding dir geminiSessionId (files w') = name :: others)
  /\ exists session,
       stored_session dir (files w') name = Some session
       /\ prop "gkSessionId" session = Some (JStr (new_session_id proc geminiParentId)).
Proof.
  intros Hfaults Hrand Hid Hprim Hids Hdir Hinit_state Hread Hinit Hres dir name.
  fold dir in Hread.
  destruct (project_dir_clean _ _ _ Hids Hdir) as [Hclean Hhash].
  destruct (new_session_name proc geminiParentId Hrand) as [Hname Hname_clean].
  fold name in Hname, Hname_clean.
  unfold initializeGeminiSession, bind at 1, lift in Hinit. rewrite Hids in Hinit.
  cbv zeta in Hinit. fold (new_session_id proc geminiParentId) in Hinit.
  destruct (findSessionByGeminiId home (ids_projectDir ids) geminiSessionId w)
    as [path|] eqn:Efind.
  { rewrite (resume_session_resumes _ _ _ _ _ _ _ Hinit) in Hres. discriminate Hres. }
  unfold bind at 1 in Hinit. rewrite (ensureDir_no_fault _ _ Hfaults) in Hinit.
  unfold bind at 1 in Hinit.
  set (session := new_session proc ids (new_session_id proc geminiParentId)
                    (if truthy geminiParentId then "gemini-sub" else "gemini-main")
                    geminiSessionId geminiParentId options) in *.
  destruct (saveSession_succeeds home (ids_projectDir ids)
              (JStr (new_session_id proc geminiParentId)) session w Hfaults Hdir)
    as (w1 & Hsave & _).
  { unfold new_session_id, generateGkSessionId.
    destruct (truthy geminiParentId); reflexivity. }
  rewrite Hsave in Hinit.
  destruct (new_session_files _ _ _ _ _ _ _ _ _ _ _ Hinit) as [Hframe Hres_id].
  destruct (saveSession_true _ _ _ _ _ _ Hsave)
    as (ordered & Hord & Hget & Hfile & Hsframe & _).
  destruct (saveSession_read_back _ _ _ _ _ _ Hsave) as (ordered' & Hord' & _ & _ & Hprop & _).
  rewrite Hord in Hord'. injection Hord' as <-. rewrite Hget in Hprop.
  destruct (new_session_ids proc ids (new_session_id proc geminiParentId)
              (if truthy geminiParentId then "gemini-sub" else "gemini-main")
              geminiSessionId geminiParentId options Hinit_state) as [Hgk Hgem].
  fold session in Hgk, Hgem.
  (* paths *)
  assert (Hsfile : session_file home (ids_projectDir ids)
                     (JStr (new_session_id proc geminiParentId))
                   = (dir ++ "/") ++ name).
  { unfold session_file, getSessionPath. cbn [String_of].
    apply data_dir_join; assumption. }
  assert (Hpfile : exists pname,
             project_file home (ids_projectDir ids) (JStr (ids_gkProjectHash ids))
             = (dir ++ "/") ++ pname
             /\ is_session_name pname = false
             /\ clean_segment pname = true).
  { exists ("gk-project-" ++ ids_gkProjectHash ids ++ ".json"). split; [|split].
    - unfold project_file, getProjectPath. cbn [String_of].
      apply data_dir_join; [exact Hclean|apply project_file_name_clean, Hhash].
    - reflexivity.
    - apply project_file_name_clean, Hhash. }
  destruct Hpfile as (pname & Hpfile & Hpname & Hpclean).
  (* a listed session file other than the new one is as it was *)
  assert (Hold : forall x,
             is_session_name x = true ->
             all_chars (fun c => negb (Ascii.eqb c "/")) x = true ->
             x <> name ->
             path_join dir x = (dir ++ "/") ++ x
             /\ file_at ((dir ++ "/") ++ x) (files w') = file_at ((dir ++ "/") ++ x) (files w)).
  { intros x Hx Hslash Hne.
    assert (Hxc : clean_segment x = true) by (apply session_name_clean; assumption).
    split; [apply data_dir_join; assumption|].
    rewrite Hframe.
    - apply Hsframe.
      + rewrite Hsfile. intros E. apply Hne. exact (append_inv_head _ _ _ E).
      + intros E. unfold is_session_name in Hx. apply andb_prop in Hx. destruct Hx as [_ Hx].
        assert (Hj : ends_with ".json" ((dir ++ "/") ++ x) = true).
        { clear -Hx. induction (dir ++ "/") as [|c d IH]; simpl; [exact Hx|].
          rewrite IH. apply orb_true_r. }
        rewrite E, ends_with_json_tmp in Hj. discriminate Hj.
    - rewrite Hpfile. intros E. apply append_inv_head in E. subst x. congruence. }
  assert (Hnew : file_at ((dir ++ "/") ++ name) (files w') = Some (CJson (JObj ordered))).
  { rewrite Hframe.
    - rewrite <- Hsfile. exact Hfile.
    - rewrite Hpfile. intros E. apply append_inv_head in E. congruence. }
  assert (Hjoin : path_join dir name = (dir ++ "/") ++ name)
    by (apply data_dir_join; assumption).
  assert (Hslash : all_chars (fun c => negb (Ascii.eqb c "/")) name = true)
    by (apply clean_segment_no_sep, Hname_clean).
  assert (Hstored : stored_session dir (files w') name = Some (JObj ordered)).
  { unfold stored_session. rewrite Hjoin, Hnew. reflexivity. }
  (* a session file listed after the call, the new one apart, was listed before *)
  assert (Hlisted : forall x,
             is_session_name x = true -> x <> name ->
             In x (fs_readdirSync dir (files w')) ->
             all_chars (fun c => negb (Ascii.eqb c "/")) x = true
             /\ In x (fs_readdirSync dir (files w))).
  { intros x Hx Hne Hin. apply readdir_In in Hin. destruct Hin as (Hx0 & p & Hex & Hent).
    split; [exact (entry_of_no_sep _ _ _ Hent)|].
    apply readdir_In. split; [exact Hx0|]. exists p. split; [|exact Hent].
    unfold file_exists in *. rewrite Hframe in Hex.
    - rewrite Hsframe in Hex; [exact Hex| |].
      + rewrite Hsfile. intros ->. rewrite (entry_of_file _ _ Hslash) in Hent. congruence.
      + rewrite Hsfile, append_assoc. intros ->.
        rewrite entry_of_file in Hent.
        * assert (Ex : x = name ++ ".tmp") by congruence.
          rewrite Ex in Hx. unfold is_session_name in Hx.
          rewrite (ends_with_json_tmp name), andb_false_r in Hx. discriminate Hx.
        * rewrite all_chars_append, Hslash. reflexivity.
    - rewrite Hpfile. intros ->.
      rewrite (entry_of_file _ _ (clean_segment_no_sep _ Hpclean)) in Hent. congruence. }
  (* the search before the session was made *)
  assert (Hscan : scan_sessions dir geminiSessionId (files w) (fs_readdirSync dir (files w))
                  = None).
  { unfold findSessionByGeminiId in Efind. apply String.eqb_neq in Hdir.
    rewrite Hdir, Hid in Efind. exact Efind. }
  pose proof (scan_sessions_none _ _ _ _ Hread Hscan) as Hnone.
  unfold sessions_readable in Hread. rewrite forallb_forall in Hread.
  split; [exact (Hres_id r eq_refl)|]. split; [|split].
  - unfold sessions_readable. apply forallb_forall. intros x Hin.
    destruct (is_session_name x) eqn:Hx; [|reflexivity]. cbn [negb orb].
    destruct (String.eqb_spec x name) as [->|Hne]; [rewrite Hstored; reflexivity|].
    destruct (Hlisted x Hx Hne Hin) as [Hxs Hin0].
    destruct (Hold x Hx Hxs Hne) as [Hxj Hxf].
    specialize (Hread x Hin0). rewrite Hx in Hread. cbn [negb orb] in Hread.
    unfold stored_session in *. rewrite Hxj in *. rewrite Hxf. exact Hread.
  - apply filter_only.
    + intros x Hin Hf. apply andb_prop in Hf. destruct Hf as [Hx Hf].
      destruct (String.eqb_spec x name) as [->|Hne]; [reflexivity|exfalso].
      destruct (Hlisted x Hx Hne Hin) as [Hxs Hin0].
      destruct (Hold x Hx Hxs Hne) as [Hxj Hxf].
      assert (Est : stored_session dir (files w') x = stored_session dir (files w) x).
      { unfold stored_session. rewrite Hxj, Hxf. reflexivity. }
      rewrite Est in Hf.
      destruct (stored_session dir (files w) x) as [s|] eqn:Es; [|discriminate Hf].
      rewrite (Hnone x s Hin0 Hx Es) in Hf. destruct s; discriminate Hf.
    + apply readdir_file; [|exact Hslash|unfold file_exists; rewrite Hnew; reflexivity].
      intros E. rewrite E in Hname. discriminate Hname.
    + rewrite Hname, Hstored. cbn [andb].
      rewrite (Hprop "geminiSessionId") by discriminate.
      rewrite prop_obj, Hgem. cbn [strict_eq_opt].
      apply strict_eq_refl_primitive, Hprim.
  - exists (JObj ordered). split; [exact Hstored|].
    rewrite (Hprop "gkSessionId") by discriminate. rewrite prop_obj. exact Hgk.
Qed.

(** the resume branch: where the session files parse and one holds the id,
    the session is resumed and no file changes *)
Lemma resume_of_holding (home : string) (sort_sessions : list json -> list json)
    (proc : process_info) (geminiSessionId geminiParentId : json) (options : init_options)
    (ids : project_identifiers) (w : world) (name : string) (others : list string)
    (session : json) :
  project_identifiers_of (process_cwd proc) (opt_cwd options) = Ok ids ->
  ids_projectDir ids <> "" ->
  truthy geminiSessionId = true ->
  sessions_readable (getProjectDataDir home (ids_projectDir ids)) (files w) = true ->
  sessions_holding (getProjectDataDir home (ids_projectDir ids)) geminiSessionId (files w)
  = name :: others ->
  stored_session (getProjectDataDir home (ids_projectDir ids)) (files w) name = Some session ->
  exists r w',
    initializeGeminiSession home sort_sessions proc geminiSessionId geminiParentId options w
    = (Ok r, w')
    /\ ir_isResume r = true
    /\ ir_gkSessionId r = prop "gkSessionId" session
    /\ files w' = files w.
Proof.
  intros Hids Hdir Hid Hread Hhold Hstored.
  destruct (scan_sessions_first _ _ _ _ _ _ Hread Hhold)
    as (Hscan & session' & Hfile & Hnull & _).
  unfold stored_session in Hstored. rewrite Hfile in Hstored.
  cbn [JSON_parse] in Hstored. injection Hstored as ->.
  unfold initializeGeminiSession, bind at 1, lift. rewrite Hids.
  unfold findSessionByGeminiId.
  apply String.eqb_neq in Hdir. rewrite Hdir, Hid. cbn [orb negb].
  rewrite Hscan.
  unfold resume_session, bind at 1, read_json. rewrite Hfile. cbn [JSON_parse].
  unfold bind at 1, lift, get_prop.
  assert (Hget : (match session with
                  | JNull => Throw "TypeError"
                  | _ => Ok (prop "gkSessionId" session)
                  end) = Ok (prop "gkSessionId" session))
    by (destruct session; congruence).
  rewrite Hget. cbv beta zeta.
  match goal with
  | |- context [updateEnv ?d ?n] =>
      destruct (updateEnv_cases d n w) as (saved & w' & Hu & Hfs)
  end.
  unfold bind, ret. rewrite Hu.
  eexists _, w'. split; [reflexivity|]. cbn [ir_isResume ir_gkSessionId]. auto.
Qed.

(** X25.  A session that [initializeGeminiSession] has just made is the one
    the next call resumes.  When no file operation fails, the directory
    name of the project is not empty, the four random characters of the id
    are of [a-z0-9], the session files of the project parse, the Gemini
    session id is a truthy primitive value and the initial state leaves the
    ids alone, a call that returns with
    [isResume] false has stored its session so that a later call for the
    same Gemini session id in the same working directory returns with
    [isResume] true and the same [gkSessionId], and changes no file. *)
Theorem created_session_is_resumed (home : string)
    (sort_sessions : list json -> list json) (proc proc' : process_info)
    (geminiSessionId geminiParentId geminiParentId' : json)
    (options options' : init_options) (ids : project_identifiers)
    (w : world) (r : init_result) (w' : world) :
  faults w = [] ->
  all_chars is_lower_alnum (random4 proc) = true ->
  truthy geminiSessionId = true ->
  is_object geminiSessionId = false ->
  project_identifiers_of (process_cwd proc) (opt_cwd options) = Ok ids ->
  ids_projectDir ids <> "" ->
  keeps_ids (opt_initialState options) = true ->
  sessions_readable (getProjectDataDir home (ids_projectDir ids)) (files w) = true ->
  initializeGeminiSession home sort_sessions proc geminiSessionId geminiParentId options w
  = (Ok r, w') ->
  ir_isResume r = false ->
  process_cwd proc' = process_cwd proc ->
  opt_cwd options' = opt_cwd options ->
  ir_gkSessionId r = Some (JStr (new_session_id proc geminiParentId))
  /\ exists r' w'',
       initializeGeminiSession home sort_sessions proc' geminiSessionId geminiParentId'
         options' w'
       = (Ok r', w'')
       /\ ir_isResume r' = true
       /\ ir_gkSessionId r' = ir_gkSessionId r
       /\ files w'' = files w'.
Proof.
  intros Hfaults Hrand Hid Hprim Hids Hdir Hstate Hread Hinit Hres Hcwd Hopt.
  destruct (created_session_store _ _ _ _ _ _ _ _ _ _ Hfaults Hrand Hid Hprim Hids Hdir
              Hstate Hread Hinit Hres)
    as (Hr & Hread' & (others & Hhold) & session & Hstored & Hgk).
  split; [exact Hr|].
  assert (Hids' : project_identifiers_of (process_cwd proc') (opt_cwd options') = Ok ids)
    by (rewrite Hcwd, Hopt; exact Hids).
  destruct (resume_of_holding home sort_sessions proc' geminiSessionId geminiParentId'
              options' ids w' _ others session Hids' Hdir Hid Hread' Hhold Hstored)
    as (r' & w'' & Hsecond & Hresume & Hid' & Hfiles).
  exists r', w''. rewrite Hr, Hid', Hgk. auto.
Qed.

Lemma created_session_is_resumed_witness :
  let first := initializeGeminiSession "/home/u" (fun l => l) demo_process (JStr "g7") JNull
                 demo_options resumable_world in
  let second := initializeGeminiSession "/home/u" (fun l => l) demo_process_later (JStr "g7")
                  JNull demo_options (snd first) in
  exists r r',
    fst first = Ok r /\ fst second = Ok r'
    /\ ir_isResume r = false /\ ir_isResume r' = true
    /\ ir_gkSessionId r' = ir_gkSessionId r
    /\ files (snd second) = files (snd first).
Proof.
  cbv zeta.
  destruct (initializeGeminiSession "/home/u" (fun l => l) demo_process (JStr "g7") JNull
              demo_options resumable_world) as [[r|e] w'] eqn:E1;
    [|vm_compute in E1; discriminate E1].
  assert (Hres : ir_isResume r = false).
  { vm_compute in E1. injection E1 as <- _. reflexivity. }
  destruct (created_session_is_resumed "/home/u" (fun l => l) demo_process demo_process_later
              (JStr "g7") JNull JNull demo_options demo_options
              (generateProjectIdentifiers "/home/user/proj" (Some "/home/user/proj"))
              resumable_world r w'
              eq_refl eq_refl eq_refl eq_refl eq_refl
              ltac:(vm_compute; discriminate) eq_refl eq_refl E1 Hres eq_refl eq_refl)
    as (_ & r' & w'' & E2 & Hresume & Hsame & Hfiles).
  exists r, r'. cbn [fst snd]. rewrite E2. cbn [fst snd]. auto 6.
Defined.

(** ** Configured paths stay inside the project *)

Lemma sanitizePath_accepts (s : string) (projectRoot : string) :
  truthy_opt (sanitizePath (Some (JStr s)) projectRoot) = true ->
  s <> "" /\ inside_root projectRoot s = true.
Proof.
  unfold sanitizePath, inside_root. intros H.
  destruct (String.eqb_spec s "") as [->|Hs]; [discriminate H|].
  split; [exact Hs|]. cbv zeta in H |- *.
  destruct (String.prefix (projectRoot ++ "/") (path_resolve projectRoot s));
    [reflexivity|].
  destruct (path_resolve projectRoot s =? projectRoot); [reflexivity|discriminate H].
Qed.

(** a clean name resolves to the place of that name in the root *)
Lemma default_inside_root (projectRoot name : string) :
  normalize_path projectRoot = projectRoot -> projectRoot <> "/" ->
  clean_segment name = true ->
  inside_root projectRoot name = true.
Proof.
  intros Hn Hr Hc. unfold inside_root.
  assert (Hp : String.prefix "/" name = false).
  { destruct name as [|c name]; [reflexivity|].
    apply clean_segment_no_sep in Hc. simpl in Hc. apply andb_prop in Hc.
    destruct Hc as [Hc _]. cbn [String.prefix].
    destruct (ascii_dec "/" c) as [<-|_]; [vm_compute in Hc; discriminate Hc|reflexivity]. }
  assert (E : path_resolve projectRoot name = path_join projectRoot name).
  { unfold path_resolve, path_join. rewrite Hp. reflexivity. }
  cbv zeta. rewrite E, path_join_clean, Hn; [| exact Hc |].
  - rewrite <- append_assoc. rewrite prefix_app. reflexivity.
  - intros Hnil. apply Hr. rewrite <- Hn. unfold normalize_path. rewrite Hnil. reflexivity.
Qed.

(** X26.  After [sanitizeConfig], a text under [plan.reportsDir],
    [paths.docs] or [paths.plans] is never empty and always resolves to the
    project root or below it, for a project root in normal form other than
    [/]: a value that climbs out of the project is replaced by the
    default. *)
Theorem sanitizeConfig_confines (config : obj) (projectRoot section key s : string) :
  normalize_path projectRoot = projectRoot ->
  projectRoot <> "/" ->
  (section = "plan" /\ key = "reportsDir")
  \/ (section = "paths" /\ (key = "docs" \/ key = "plans")) ->
  get_path [section; key] (JObj (sanitizeConfig config projectRoot)) = Some (JStr s) ->
  s <> "" /\ inside_root projectRoot s = true.
Proof.
  intros Hn Hr Hk H. cbn [get_path] in H. rewrite field_JObj, lookup_sanitizeConfig in H.
  destruct (lookup section config) as [v|]; [|discriminate H].
  destruct (truthy v) eqn:Ev.
  2:{ unfold field in H. rewrite (falsy_not_object v Ev) in H. discriminate H. }
  assert (Hdefault : forall name, clean_segment name = true ->
                                  name <> "" /\ inside_root projectRoot name = true).
  { intros name Hc. split; [intros ->; discriminate Hc|].
    apply default_inside_root; assumption. }
  destruct Hk as [[-> ->]|[-> Hkey]].
  - cbn [String.eqb Ascii.eqb Bool.eqb] in H. rewrite field_JObj in H.
    change (sanitize_plan v projectRoot)
      with (sanitize_plan (JObj (own_props v)) projectRoot) in H.
    destruct (sanitize_plan_keys (own_props v) projectRoot) as [_ E]. rewrite E in H.
    destruct (lookup "reportsDir" (own_props v)) as [x|] eqn:Ex.
    + destruct (truthy_opt (sanitizePath (Some x) projectRoot)) eqn:Et.
      * destruct x; try discriminate H. injection H as ->.
        apply sanitizePath_accepts, Et.
      * injection H as <-. apply Hdefault. reflexivity.
    + cbn in H. injection H as <-. apply Hdefault. reflexivity.
  - cbn [String.eqb Ascii.eqb Bool.eqb] in H. rewrite field_JObj in H.
    change (sanitize_paths v projectRoot)
      with (sanitize_paths (JObj (own_props v)) projectRoot) in H.
    destruct (sanitize_paths_keys (own_props v) projectRoot) as (_ & Ed & Ep).
    destruct Hkey as [-> | ->]; [rewrite Ed in H|rewrite Ep in H].
    + destruct (lookup "docs" (own_props v)) as [x|] eqn:Ex.
      * destruct (truthy_opt (sanitizePath (Some x) projectRoot)) eqn:Et.
        -- destruct x; try discriminate H. injection H as ->.
           apply sanitizePath_accepts, Et.
        -- injection H as <-. apply Hdefault. reflexivity.
      * cbn in H. injection H as <-. apply Hdefault. reflexivity.
    + destruct (lookup "plans" (own_props v)) as [x|] eqn:Ex.
      * destruct (truthy_opt (sanitizePath (Some x) projectRoot)) eqn:Et.
        -- destruct x; try discriminate H. injection H as ->.
           apply sanitizePath_accepts, Et.
        -- injection H as <-. apply Hdefault. reflexivity.
      * cbn in H. injection H as <-. apply Hdefault. reflexivity.
Qed.

Lemma sanitizeConfig_confines_witness :
  let config := [("paths", JObj [("docs", JStr "../../etc"); ("plans", JStr "work/plans")])] in
  get_path ["paths"; "docs"] (JObj (sanitizeConfig config "/home/user/proj"))
  = Some (JStr "docs")
  /\ get_path ["paths"; "plans"] (JObj (sanitizeConfig config "/home/user/proj"))
     = Some (JStr "work/plans")
  /\ inside_root "/home/user/proj" "work/plans" = true
  /\ inside_root "/home/user/proj" "../../etc" = false.
Proof.
  cbv zeta. split; [reflexivity|]. split; [reflexivity|]. split; [|reflexivity].
  apply (sanitizeConfig_confines
           [("paths", JObj [("docs", JStr "../../etc"); ("plans", JStr "work/plans")])]
           "/home/user/proj" "paths" "plans" "work/plans");
    [reflexivity|discriminate|right; split; [reflexivity|right; reflexivity]|reflexivity].
Defined.

(** ** The hash of a sub-agent *)

Lemma hash_after_capture (session geminiProjectHash : json) (b : bool) (props : obj) :
  negb (truthy_opt (prop "geminiProjectHash" session)) = b ->
  lookup "geminiProjectHash" props = prop "geminiProjectHash" session ->
  prop "geminiProjectHash"
    (if b then JObj (set "geminiProjectHash" geminiProjectHash props) else JObj props)
  = (if truthy_opt (prop "geminiProjectHash" session)
     then prop "geminiProjectHash" session
     else Some geminiProjectHash).
Proof.
  intros Hb Hp. subst b.
  destruct (truthy_opt (prop "geminiProjectHash" session)); cbn [negb];
    rewrite prop_obj; [exact Hp|apply lookup_set_eq].
Qed.

(** what lines 1339-1354 change in the session of the parent *)
Lemma capture_agent_hash_in_spec (session geminiSessionId geminiProjectHash session' : json) :
  capture_agent_hash_in session geminiSessionId geminiProjectHash = Ok (Some session') ->
  exists agents agents',
    prop "agents" session = Some (JArr agents)
    /\ session' <> JNull
    /\ prop "agents" session' = Some (JArr agents')
    /\ prop "geminiProjectHash" session'
       = (if truthy_opt (prop "geminiProjectHash" session)
          then prop "geminiProjectHash" session
          else Some geminiProjectHash)
    /\ List.length agents' = List.length agents
    /\ (forall j, truthy_opt (prop "geminiProjectHash" (nth j agents JNull)) = true ->
                  nth j agents' JNull = nth j agents JNull)
    /\ (forall i, findIndex (agent_gemini_id_is geminiSessionId) 0 agents = Ok (Some i) ->
                  truthy_opt (prop "geminiProjectHash" (nth i agents JNull)) = false ->
                  prop "geminiProjectHash" (nth i agents' JNull) = Some geminiProjectHash).
Proof.
  unfold capture_agent_hash_in. intros H.
  destruct (as_array (prop "agents" session)) as [agents|e] eqn:Ea; [|discriminate H].
  apply as_array_inv in Ea.
  destruct (findIndex _ 0 agents) as [found|e] eqn:Ei; [|discriminate H].
  exists agents.
  assert (Hsame : prop "agents" (JObj (own_props session)) = Some (JArr agents))
    by (rewrite prop_obj; exact Ea).
  destruct found as [i|].
  - destruct (findIndex_found _ _ _ JNull Ei) as (Hlt & _ & _).
    destruct (truthy_opt (prop "geminiProjectHash" (nth i agents JNull))) eqn:Eh;
      cbn [negb] in H.
    + exists agents.
      destruct (negb (truthy_opt (prop "geminiProjectHash" session))) eqn:Es;
        [|discriminate H]. injection H as <-.
      split; [exact Ea|]. split; [discriminate|].
      split; [rewrite prop_obj, lookup_set_neq by discriminate; exact Ea|].
      split; [exact (hash_after_capture session geminiProjectHash true (own_props session) Es eq_refl)|].
      split; [reflexivity|]. split; [auto|].
      intros i' Hi' Hno. rewrite Ei in Hi'. injection Hi' as <-. congruence.
    + eexists.
      assert (Hlook : lookup "geminiProjectHash"
                        (set "agents"
                           (JArr (replace_nth i
                                    (JObj (set "geminiProjectHash" geminiProjectHash
                                             (own_props (nth i agents JNull))))
                                    agents))
                           (own_props session))
                      = prop "geminiProjectHash" session)
        by (rewrite lookup_set_neq by discriminate; reflexivity).
      destruct (negb (truthy_opt (prop "geminiProjectHash" session))) eqn:Es;
        pose proof (hash_after_capture session geminiProjectHash _ _ Es Hlook) as Hh;
        injection H as <-;
        (split; [exact Ea|]); (split; [discriminate|]);
        (split; [rewrite prop_obj, ?(lookup_set_neq "geminiProjectHash") by discriminate;
                 apply lookup_set_eq|]);
        (split; [exact Hh|]);
        (split; [apply length_replace_nth|]);
        (split;
         [ intros j Hj; rewrite nth_replace_nth by exact Hlt;
           destruct (Nat.eqb_spec i j) as [<-|_]; [congruence|reflexivity]
         | intros i' Hi' _; rewrite Ei in Hi'; injection Hi' as <-;
           rewrite nth_replace_nth by exact Hlt; rewrite Nat.eqb_refl;
           rewrite prop_obj; apply lookup_set_eq ]).
  - exists agents.
    destruct (negb (truthy_opt (prop "geminiProjectHash" session))) eqn:Es;
      [|discriminate H]. injection H as <-.
    split; [exact Ea|]. split; [discriminate|].
    split; [rewrite prop_obj, lookup_set_neq by discriminate; exact Ea|].
    split; [exact (hash_after_capture session geminiProjectHash true (own_props session) Es eq_refl)|].
    split; [reflexivity|]. split; [auto|]. intros i Hi. rewrite Ei in Hi. discriminate Hi.
Qed.

(** X27.  [captureAgentProjectHash] fills in what is missing and replaces
    nothing: a hash the parent session has is kept, an agent that has a
    hash is left as it is, and the number of agents does not change.  When
    it returns [true], a parent without a hash has the new one, and so has
    the agent with the Gemini session id if it had none. *)
Theorem captureAgentProjectHash_fills_once (home projectDir : string)
    (parentGkSessionId geminiSessionId geminiProjectHash : json) (now : string)
    (w w' : world) (r : outcome bool) (agents : list json) :
  captureAgentProjectHash home projectDir parentGkSessionId geminiSessionId
    geminiProjectHash now w = (r, w') ->
  let session := getSession home projectDir parentGkSessionId w in
  let session' := getSession home projectDir parentGkSessionId w' in
  prop "agents" session = Some (JArr agents) ->
  exists agents',
    prop "agents" session' = Some (JArr agents')
    /\ List.length agents' = List.length agents
    /\ (forall j, truthy_opt (prop "geminiProjectHash" (nth j agents JNull)) = true ->
                  nth j agents' JNull = nth j agents JNull)
    /\ (truthy_opt (prop "geminiProjectHash" session) = true ->
        prop "geminiProjectHash" session' = prop "geminiProjectHash" session)
    /\ (r = Ok true ->
        truthy geminiProjectHash = true
        /\ truthy_opt (prop "geminiProjectHash" session') = true
        /\ (truthy_opt (prop "geminiProjectHash" session) = false ->
            prop "geminiProjectHash" session' = Some geminiProjectHash)
        /\ forall i,
             findIndex (agent_gemini_id_is geminiSessionId) 0 agents = Ok (Some i) ->
             truthy_opt (prop "geminiProjectHash" (nth i agents' JNull)) = true).
Proof.
  intros H session session' Hagents. subst session session'.
  assert (Hsame : forall w0 r0 (Q : list json -> Prop),
             getSession home projectDir parentGkSessionId w0
             = getSession home projectDir parentGkSessionId w ->
             r0 <> Ok true ->
             exists agents',
               prop "agents" (getSession home projectDir parentGkSessionId w0)
               = Some (JArr agents')
               /\ List.length agents' = List.length agents
               /\ (forall j,
                     truthy_opt (prop "geminiProjectHash" (nth j agents JNull)) = true ->
                     nth j agents' JNull = nth j agents JNull)
               /\ (truthy_opt (prop "geminiProjectHash"
                                 (getSession home projectDir parentGkSessionId w)) = true ->
                   prop "geminiProjectHash" (getSession home projectDir parentGkSessionId w0)
                   = prop "geminiProjectHash"
                       (getSession home projectDir parentGkSessionId w))
               /\ (r0 = Ok true -> Q agents')).
  { intros w0 r0 Q E Hr. exists agents. rewrite E.
    split; [exact Hagents|]. split; [reflexivity|]. split; [auto|]. split; [auto|].
    intros Hr'. contradiction. }
  unfold captureAgentProjectHash in H.
  destruct ((projectDir =? "") || negb (truthy parentGkSessionId)
            || negb (truthy geminiSessionId) || negb (truthy geminiProjectHash)) eqn:Eargs.
  { injection H as <- <-. apply Hsame; [reflexivity|discriminate]. }
  apply Bool.orb_false_iff in Eargs. destruct Eargs as [_ Ehash].
  apply negb_false_iff in Ehash.
  destruct (negb (truthy _) || negb (truthy_opt _)).
  { injection H as <- <-. apply Hsame; [reflexivity|discriminate]. }
  destruct (capture_agent_hash_in _ _ _) as [[data|]|e] eqn:Ec.
  3:{ injection H as <- <-. apply Hsame; [reflexivity|discriminate]. }
  2:{ injection H as <- <-. exists agents.
      split; [exact Hagents|]. split; [reflexivity|]. split; [auto|]. split; [auto|].
      intros _. unfold capture_agent_hash_in in Ec. rewrite Hagents in Ec.
      cbn [as_array] in Ec.
      destruct (findIndex _ 0 agents) as [found|e] eqn:Ei; [|discriminate Ec].
      destruct (negb (truthy_opt (prop "geminiProjectHash"
                                    (getSession home projectDir parentGkSessionId w))))
        eqn:Es; [discriminate Ec|].
      apply negb_false_iff in Es.
      split; [exact Ehash|]. split; [exact Es|]. split; [congruence|].
      intros i Hi. injection Hi as ->.
      destruct (truthy_opt (prop "geminiProjectHash" (nth i agents JNull)));
        [reflexivity|discriminate Ec]. }
  destruct (capture_agent_hash_in_spec _ _ _ _ Ec)
    as (agents0 & agents' & Ha0 & Hnull & Ha' & Hh & Hlen & Hkeep & Hfill).
  rewrite Hagents in Ha0. injection Ha0 as <-.
  unfold bind at 1 in H.
  destruct (saveSession home projectDir parentGkSessionId data w) as [[saved|e] w1] eqn:Es.
  2:{ injection H as <- <-.
      destruct (saveSession_cases home projectDir parentGkSessionId data w)
        as (r0 & w0 & E & _ & H3 & _).
      cbv zeta in H3. rewrite Es in E. injection E as <- <-.
      apply Hsame; [apply getSession_unchanged, H3|]; discriminate. }
  assert (Hw' : files w' = files w1 /\ r = Ok saved).
  { unfold bind, ret in H. destruct saved.
    - destruct (GEMINI_PROJECT_HASH (readEnv w1) =? "").
      + match type of H with
        | context [updateEnv ?d ?n w1] =>
            destruct (updateEnv_cases d n w1) as (s & w2 & Hu & Hf)
        end.
        rewrite Hu in H. injection H as <- <-. auto.
      + injection H as <- <-. auto.
    - injection H as <- <-. auto. }
  destruct Hw' as [Hfiles ->].
  rewrite (getSession_unchanged home projectDir parentGkSessionId w1 w')
    by (rewrite Hfiles; reflexivity).
  destruct saved.
  - destruct (saveSession_read_back _ _ _ _ _ _ Es) as (ordered & _ & _ & _ & Hprop & Hag & _).
    exists agents'. rewrite Hag, Ha', (Hprop "geminiProjectHash") by discriminate.
    rewrite Hh. cbn [js_or truthy].
    split; [reflexivity|]. split; [exact Hlen|]. split; [exact Hkeep|].
    split; [intros ->; reflexivity|]. intros _.
    split; [exact Ehash|]. split.
    + destruct (truthy_opt (prop "geminiProjectHash"
                              (getSession home projectDir parentGkSessionId w))) eqn:E;
        [exact E|exact Ehash].
    + split; [intros ->; reflexivity|]. intros i Hi.
      destruct (truthy_opt (prop "geminiProjectHash" (nth i agents JNull))) eqn:E.
      * rewrite (Hkeep i E). exact E.
      * rewrite (Hfill i Hi E). exact Ehash.
  - destruct (saveSession_cases home projectDir parentGkSessionId data w)
      as (r0 & w0 & E & _ & H3 & _).
    cbv zeta in H3. rewrite Es in E. injection E as <- <-.
    apply Hsame; [apply getSession_unchanged, H3|]; discriminate.
Qed.

Lemma captureAgentProjectHash_fills_once_witness :
  let w' := snd (captureAgentProjectHash "/home/u" "home-user-proj" (JStr "p1")
                   (JStr "g-a2") (JStr "0b0b") "2026-01-01T00:00:00.000Z"
                   demo_hashed_agents_world) in
  exists agents',
    prop "agents" (getSession "/home/u" "home-user-proj" (JStr "p1") w')
    = Some (JArr agents')
    /\ List.length agents' = 2
    /\ nth 0 agents' JNull = nth 0 demo_sub_agents JNull
    /\ truthy_opt (prop "geminiProjectHash" (nth 1 agents' JNull)) = true
    /\ prop "geminiProjectHash" (getSession "/home/u" "home-user-proj" (JStr "p1") w')
       = Some (JStr "0b0b").
Proof.
  cbv zeta.
  destruct (captureAgentProjectHash_fills_once "/home/u" "home-user-proj" (JStr "p1")
              (JStr "g-a2") (JStr "0b0b") "2026-01-01T00:00:00.000Z" demo_hashed_agents_world
              _ _ demo_sub_agents (surjective_pairing _) eq_refl)
    as (agents' & H1 & H2 & H3 & _ & H5).
  destruct (H5 eq_refl) as (_ & _ & H6 & H7).
  exists agents'. split; [exact H1|]. split; [exact H2|].
  split; [apply (H3 0); reflexivity|]. split; [apply (H7 1); reflexivity|].
  apply H6. reflexivity.
Defined.

(** ** The pid of the terminal *)

Lemma walk_win32_sound (t : process_table) (steps : nat) (currentPid : N)
    (lastShellPid : option N) :
  platform_win32 t = true ->
  walk_win32 (win32_info t) steps currentPid lastShellPid = lastShellPid
  \/ exists n p,
       n < steps
       /\ ancestor t n currentPid = Some p
       /\ walk_win32 (win32_info t) steps currentPid lastShellPid = Some p
       /\ is_shell_of t p = true.
Proof.
  intros Hw. revert currentPid lastShellPid.
  induction steps as [|steps IH]; intros currentPid lastShellPid; [left; reflexivity|].
  cbn [walk_win32].
  destruct (win32_info t currentPid) as [nextPid processName] eqn:Einfo.
  assert (Hhere : forall r,
             r = (if isShellProcess processName then Some currentPid else lastShellPid) ->
             r = lastShellPid
             \/ exists n p, n < S steps /\ ancestor t n currentPid = Some p
                            /\ r = Some p /\ is_shell_of t p = true).
  { intros r ->. destruct (isShellProcess processName) eqn:Es; [|left; reflexivity].
    right. exists 0, currentPid. split; [lia|]. split; [reflexivity|].
    split; [reflexivity|]. unfold is_shell_of. rewrite Hw, Einfo. exact Es. }
  destruct (isIDEProcess processName && truthy_pid _); [apply Hhere; reflexivity|].
  destruct nextPid as [next|]; [|apply Hhere; reflexivity].
  destruct (next <=? 4)%N eqn:En; [apply Hhere; reflexivity|].
  destruct (IH next (if isShellProcess processName then Some currentPid else lastShellPid))
    as [E|(n & p & Hn & Ha & E & Hs)].
  - rewrite E. apply Hhere. reflexivity.
  - right. exists (S n), p. split; [lia|]. split; [|split; [exact E|exact Hs]].
    cbn [ancestor]. unfold next_pid. rewrite Hw, Einfo. cbn [fst]. rewrite En. exact Ha.
Qed.

Lemma walk_proc_sound (t : process_table) (steps : nat) (currentPid : N)
    (lastShellPid r : option N) :
  platform_win32 t = false ->
  walk_proc (proc_comm t) (proc_stat t) steps currentPid lastShellPid = Ok r ->
  r = lastShellPid
  \/ exists n p,
       n < steps
       /\ ancestor t n currentPid = Some p
       /\ r = Some p
       /\ is_shell_of t p = true.
Proof.
  intros Hw. revert currentPid lastShellPid.
  induction steps as [|steps IH]; intros currentPid lastShellPid H;
    [injection H as <-; left; reflexivity|].
  cbn [walk_proc] in H.
  assert (Hstat : forall last,
             match proc_stat t currentPid with
             | None => Ok last
             | Some (Throw e) => Throw e
             | Some (Ok text) =>
                 match stat_parent text with
                 | Some next =>
                     if (next <=? 1)%N then Ok last
                     else walk_proc (proc_comm t) (proc_stat t) steps next last
                 | None => Ok last
                 end
             end = Ok r ->
             r = last
             \/ exists n p, 0 < n /\ n < S steps /\ ancestor t n currentPid = Some p
                            /\ r = Some p /\ is_shell_of t p = true).
  { intros last Hl.
    destruct (proc_stat t currentPid) as [[text|e]|] eqn:Est;
      [|discriminate Hl|injection Hl as <-; left; reflexivity].
    destruct (stat_parent text) as [next|] eqn:Ep; [|injection Hl as <-; left; reflexivity].
    destruct (next <=? 1)%N eqn:En; [injection Hl as <-; left; reflexivity|].
    destruct (IH next last Hl) as [E|(n & p & Hn & Ha & E & Hs)]; [left; exact E|].
    right. exists (S n), p. split; [lia|]. split; [lia|]. split; [|split; assumption].
    cbn [ancestor]. unfold next_pid. rewrite Hw, Est, Ep, En. exact Ha. }
  destruct (proc_comm t currentPid) as [[text|e]|] eqn:Ec; [|discriminate H|].
  - cbv zeta in H.
    assert (Hhere : forall r0,
               r0 = (if is_unix_shell (trim text) then Some currentPid else lastShellPid) ->
               r0 = lastShellPid
               \/ exists n p, n < S steps /\ ancestor t n currentPid = Some p
                              /\ r0 = Some p /\ is_shell_of t p = true).
    { intros r0 ->. destruct (is_unix_shell (trim text)) eqn:Es; [|left; reflexivity].
      right. exists 0, currentPid. split; [lia|]. split; [reflexivity|].
      split; [reflexivity|]. unfold is_shell_of. rewrite Hw, Ec. exact Es. }
    destruct (is_unix_ide (trim text) && truthy_pid _).
    + injection H as <-. apply Hhere. reflexivity.
    + destruct (Hstat _ H) as [E|(n & p & _ & Hn & Ha & E & Hs)].
      * apply Hhere. exact E.
      * right. exists n, p. auto.
  - destruct (Hstat _ H) as [E|(n & p & _ & Hn & Ha & E & Hs)]; [left; exact E|].
    right. exists n, p. auto.
Qed.

(** X28.  The pid [getTerminalPid] returns is the parent pid or the pid of a
    shell, and it is found by going up from the parent at most nine times. *)
Theorem getTerminalPid_parent_or_shell (t : process_table) :
  (exists n, n < 10 /\ ancestor t n (process_ppid t) = Some (getTerminalPid t))
  /\ (getTerminalPid t = process_ppid t \/ is_shell_of t (getTerminalPid t) = true).
Proof.
  assert (Hparent : (exists n, n < 10 /\ ancestor t n (process_ppid t) = Some (process_ppid t))
                    /\ (process_ppid t = process_ppid t
                        \/ is_shell_of t (process_ppid t) = true)).
  { split; [exists 0; split; [lia|reflexivity]|left; reflexivity]. }
  assert (Hor : forall last,
             last = None
             \/ (exists n p, n < 10 /\ ancestor t n (process_ppid t) = Some p
                             /\ last = Some p /\ is_shell_of t p = true) ->
             (exists n, n < 10
                        /\ ancestor t n (process_ppid t) = Some (pid_or last (process_ppid t)))
             /\ (pid_or last (process_ppid t) = process_ppid t
                 \/ is_shell_of t (pid_or last (process_ppid t)) = true)).
  { intros last [->|(n & p & Hn & Ha & -> & Hs)]; [exact Hparent|].
    cbn [pid_or]. destruct (p =? 0)%N; [exact Hparent|].
    split; [exists n; auto|right; exact Hs]. }
  unfold getTerminalPid. cbv zeta.
  destruct (platform_win32 t) eqn:Hw.
  - apply Hor.
    destruct (walk_win32_sound t 10 (process_ppid t) None Hw)
      as [E|(n & p & Hn & Ha & E & Hs)];
      [left; exact E|right; exists n, p; auto].
  - destruct (walk_proc (proc_comm t) (proc_stat t) 10 (process_ppid t) None)
      as [last|e] eqn:Ewalk; [|exact Hparent].
    apply Hor.
    destruct (walk_proc_sound t 10 (process_ppid t) None last Hw Ewalk)
      as [E|(n & p & Hn & Ha & E & Hs)];
      [left; exact E|right; exists n, p; auto].
Qed.

Example getTerminalPid_finds_the_shell :
  getTerminalPid demo_process_table = 4200%N
  /\ stat_parent "4243 (node) S 4200 4243 4200 34816" = Some 4200%N
  /\ stat_parent "4243 (my app (x)) S 4200 1 1" = None.
Proof. repeat split; vm_compute; reflexivity. Qed.

(** ** Sessions of other applications *)

(** When no failure is to come, none is left after a write, and [.env] is
    written by [updateEnv] only. *)
Definition quiet (env : option string) (w : world) : Prop :=
  faults w = [] /\ env_file w = env.

Lemma ensureDir_keeps_quiet (env : option string) (dirPath : string) :
  keeps (quiet env) (ensureDir dirPath).
Proof.
  intros w r w' H [Hf He]. rewrite (ensureDir_no_fault _ _ Hf) in H.
  injection H as _ <-. split; assumption.
Qed.

Lemma saveSession_keeps_quiet (home : string) (env : option string) (projectDir : string)
    (gkSessionId data : json) :
  keeps (quiet env) (saveSession home projectDir gkSessionId data).
Proof.
  intros w r w' H [Hf He]. unfold saveSession in H.
  destruct ((projectDir =? "") || negb (truthy gkSessionId));
    [injection H as _ <-; split; assumption|].
  unfold bind at 1 in H. rewrite (ensureDir_no_fault _ _ Hf) in H.
  destruct w as [fs env0 fl]. cbn [faults env_file] in Hf, He. subst fl env0.
  unfold write_then_rename, try_catch, bind, lift, fs_writeFileSync, fs_renameSync,
    fs_unlinkSync, bind, next_fault, ret, throw in H.
  destruct (reorderSessionFields data) as [ordered|e];
    cbn [faults files env_file set_files] in H.
  - rewrite file_at_put, String.eqb_refl in H. injection H as _ <-. split; reflexivity.
  - destruct (file_exists _ fs); injection H as _ <-; split; reflexivity.
Qed.

Lemma saveProject_keeps_quiet (home : string) (env : option string) (projectDir : string)
    (gkProjectHash data : json) :
  keeps (quiet env) (saveProject home projectDir gkProjectHash data).
Proof.
  intros w r w' H [Hf He]. unfold saveProject in H.
  destruct ((projectDir =? "") || negb (truthy gkProjectHash));
    [injection H as _ <-; split; assumption|].
  unfold bind at 1 in H. rewrite (ensureDir_no_fault _ _ Hf) in H.
  destruct w as [fs env0 fl]. cbn [faults env_file] in Hf, He. subst fl env0.
  unfold try_catch, bind, fs_writeFileSync, bind, next_fault, ret in H.
  cbn [faults files env_file set_files] in H. injection H as _ <-. split; reflexivity.
Qed.

Lemma updateEnv_succeeds (envData : env_data) (now : string) (w : world) :
  faults w = [] ->
  exists w', updateEnv envData now w = (Ok true, w')
             /\ env_file w' = Some (env_text envData now)
             /\ files w' = files w.
Proof.
  intros Hf. destruct w as [fs env fl]. cbn [faults] in Hf. subst fl.
  eexists. split; [reflexivity|]. split; reflexivity.
Qed.

Lemma trim_no_space (s : string) :
  all_chars (fun c => negb (is_space c)) s = true -> trim s = s.
Proof.
  intros H. unfold trim.
  assert (Hs : trim_start s = s).
  { destruct s as [|c s]; [reflexivity|]. simpl in H |- *.
    apply andb_prop in H. destruct H as [Hc _]. apply negb_true_iff in Hc.
    rewrite Hc. reflexivity. }
  rewrite Hs. clear Hs. induction s as [|c s IH]; [reflexivity|].
  simpl in H. apply andb_prop in H. destruct H as [Hc Hrest].
  cbn [trim_end]. rewrite (IH Hrest). apply negb_true_iff in Hc. rewrite Hc.
  destruct s; reflexivity.
Qed.

Lemma no_space_of_class (f : ascii -> bool) (s : string) :
  (forall c, f c = true -> is_space c = false) ->
  all_chars f s = true -> trim s = s.
Proof.
  intros Hf H. apply trim_no_space. revert H. apply all_chars_weaken.
  intros c Hc. rewrite (Hf c Hc). reflexivity.
Qed.

Lemma bind_ok {A B : Type} (m : M A) (k : A -> M B) (w w' : world) (b : B) :
  bind m k w = (Ok b, w') -> exists a w1, m w = (Ok a, w1) /\ k a w1 = (Ok b, w').
Proof.
  unfold bind. destruct (m w) as [[a|e] w1]; [eauto|discriminate].
Qed.

(** X29.  When no file operation fails, and [.env] before the call and the
    values and the time stamp written to it are ASCII texts, the written
    ones with no line break, [initializeNonGeminiSession] returns the id it
    made from the application name and the pid [getTerminalPid] found, and
    leaves an [.env] that names this session and its project, names no
    Gemini session and no date format, and keeps the hash of the Gemini
    project only if [.env] was already about the same project. *)
Theorem initializeNonGeminiSession_env (home : string)
    (sort_sessions : list json -> list json) (proc : process_info) (t : process_table)
    (appName : string) (options : init_options) (ids : project_identifiers)
    (w : world) (r : session_result) (w' : world) :
  let id := generateGkSessionId appName (getTerminalPid t) (now_ms proc) (random4 proc) in
  let session := non_gemini_session proc ids id appName (getTerminalPid t) options in
  faults w = [] ->
  project_identifiers_of (process_cwd proc) (opt_cwd options) = Ok ids ->
  ascii_file (env_file w) = true ->
  single_line (now_iso proc) = true ->
  forallb single_line (env_data_values (non_gemini_env (readEnv w) ids id session)) = true ->
  initializeNonGeminiSession home sort_sessions proc t appName options w = (Ok r, w') ->
  sr_gkSessionId r = id
  /\ sr_pid r = getTerminalPid t
  /\ getActiveGkSessionId w' = or_null (trim id)
  /\ getActiveSessionId w' = or_null (trim id)
  /\ getGkProjectHash w' = or_null (ids_gkProjectHash ids)
  /\ getActiveProjectHash w' = or_null (ids_gkProjectHash ids)
  /\ PROJECT_DIR (readEnv w') = ids_projectDir ids
  /\ getActiveGeminiSessionId w' = None
  /\ getGeminiProjectHash w'
     = (if PROJECT_DIR (readEnv w) =? ids_projectDir ids
        then or_null (trim (GEMINI_PROJECT_HASH (readEnv w)))
        else None)
  /\ getPlanDateFormat w' = None.
Proof.
  intros id session Hf Hids _ Hnow Hlines H.
  assert (Hdir : trim (ids_projectDir ids) = ids_projectDir ids
                 /\ trim (ids_gkProjectHash ids) = ids_gkProjectHash ids).
  { unfold project_identifiers_of in Hids.
    assert (E : exists cwd, ids = generateProjectIdentifiers (process_cwd proc) cwd).
    { destruct (truthy (opt_cwd options)); [destruct (opt_cwd options); try discriminate Hids|];
        injection Hids as <-; eauto. }
    destruct E as (cwd & ->). cbn [generateProjectIdentifiers ids_projectDir ids_gkProjectHash].
    split.
    - apply (no_space_of_class is_alnum_or_hyphen); [|apply sanitizeProjectPath_chars].
      intros c Hc. destruct (is_space c) eqn:Es; [|reflexivity].
      destruct c as [[|] [|] [|] [|] [|] [|] [|] [|]]; try discriminate Es; discriminate Hc.
    - apply (no_space_of_class is_lower_alnum); [|apply generateGkProjectHash_lower_alnum].
      intros c Hc. destruct (is_space c) eqn:Es; [|reflexivity].
      destruct c as [[|] [|] [|] [|] [|] [|] [|] [|]]; try discriminate Es; discriminate Hc. }
  destruct Hdir as [Hdir Hhash].
  unfold initializeNonGeminiSession, bind at 1, lift in H. rewrite Hids in H. cbv zeta in H.
  fold id in H. fold session in H.
  assert (Hq : quiet (env_file w) w) by (split; [exact Hf|reflexivity]).
  destruct (bind_ok _ _ _ _ _ H) as (u1 & w1 & E1 & H1).
  pose proof (ensureDir_keeps_quiet _ _ _ _ _ E1 Hq) as Hq1.
  destruct (bind_ok _ _ _ _ _ H1) as (u2 & w2 & E2 & H2).
  pose proof (saveSession_keeps_quiet _ _ _ _ _ _ _ _ E2 Hq1) as Hq2.
  destruct (bind_ok _ _ _ _ _ H2) as (u3 & w3 & E3 & H3).
  pose proof (ensureProject_keeps home (quiet (env_file w))
                (saveProject_keeps_quiet home (env_file w)) _ _ _ _ _ _ _ E3 Hq2) as Hq3.
  destruct (bind_ok _ _ _ _ _ H3) as (u4 & w4 & E4 & H4).
  pose proof (addSessionToProject_keeps home (quiet (env_file w))
                (saveProject_keeps_quiet home (env_file w)) _ _ _ _ _ _ _ _ _ E4 Hq3) as Hq4.
  destruct Hq4 as [Hf4 He4].
  rewrite (readEnv_env_file _ _ He4) in H4.
  destruct (updateEnv_succeeds (non_gemini_env (readEnv w) ids id session) (now_iso proc)
              w4 Hf4) as (w5 & Eu & Henv & _).
  unfold bind, ret in H4. rewrite Eu in H4. injection H4 as <- <-.
  cbn [sr_gkSessionId sr_pid].
  remember (readEnv w) as old eqn:Hold. clear Hold.
  unfold getActiveGkSessionId, getActiveSessionId, getGkProjectHash, getActiveProjectHash,
    getActiveGeminiSessionId, getGeminiProjectHash, getPlanDateFormat,
    getActiveGkSessionId, getGkProjectHash, readEnv.
  rewrite Henv, (env_text_lines _ _ Hnow Hlines).
  cbn [ACTIVE_GK_SESSION_ID GK_PROJECT_HASH PROJECT_DIR ACTIVE_GEMINI_SESSION_ID
       GEMINI_PROJECT_HASH PLAN_DATE_FORMAT].
  unfold env_get. simpl env_match.
  assert (Hid : (if trim (if negb (id =? "") then id else "") =? ""
                 then trim "" else trim (if negb (id =? "") then id else ""))
                = trim id).
  { destruct (String.eqb_spec id "") as [->|_]; cbn [negb]; [reflexivity|].
    destruct (String.eqb_spec (trim id) "") as [->|_]; reflexivity. }
  assert (Hh : trim (if negb (ids_gkProjectHash ids =? "") then ids_gkProjectHash ids else "")
               = ids_gkProjectHash ids).
  { destruct (String.eqb_spec (ids_gkProjectHash ids) "") as [->|_]; [reflexivity|exact Hhash]. }
  assert (Hp : trim (if negb (ids_projectDir ids =? "") then ids_projectDir ids else "")
               = ids_projectDir ids).
  { destruct (String.eqb_spec (ids_projectDir ids) "") as [->|_]; [reflexivity|exact Hdir]. }
  cbn [non_gemini_env ed_gkSessionId ed_gkProjectHash ed_projectDir ed_geminiSessionId
       ed_geminiProjectHash ed_planDateFormat or_empty opt_str truthy String_of].
  rewrite Hid, Hh, Hp.
  repeat split.
  destruct (PROJECT_DIR old =? ids_projectDir ids); [|reflexivity].
  destruct (String.eqb_spec (GEMINI_PROJECT_HASH old) "") as [->|_]; reflexivity.
Qed.

Lemma initializeNonGeminiSession_env_witness :
  let w' := snd (initializeNonGeminiSession "/home/u" (fun l => l) demo_process
                   demo_process_table "vscode" demo_options demo_env_world) in
  getActiveGkSessionId demo_env_world = Some "gemini-main-4242-mjuohs00-k3x9"
  /\ getActiveGeminiSessionId demo_env_world = Some "g1"
  /\ getActiveGkSessionId w'
     = Some (generateGkSessionId "vscode" 4200 (now_ms demo_process) (random4 demo_process))
  /\ getActiveGeminiSessionId w' = None
  /\ getGeminiProjectHash w' = Some "0c0c"
  /\ getPlanDateFormat w' = None.
Proof.
  cbv zeta. split; [reflexivity|]. split; [reflexivity|].
  destruct (initializeNonGeminiSession "/home/u" (fun l => l) demo_process
              demo_process_table "vscode" demo_options demo_env_world)
    as [[r|e] w'] eqn:E; [|vm_compute in E; discriminate E].
  destruct (initializeNonGeminiSession_env "/home/u" (fun l => l) demo_process
              demo_process_table "vscode" demo_options
              (generateProjectIdentifiers "/home/user/proj" (Some "/home/user/proj"))
              demo_env_world r w' eq_refl eq_refl eq_refl eq_refl
              ltac:(vm_compute; reflexivity) E)
    as (_ & _ & H3 & _ & _ & _ & _ & H8 & H9 & H10).
  cbn [snd]. rewrite H3, H8, H9, H10. repeat split; vm_compute; reflexivity.
Defined.

(** ** The end of a session in the list of its project *)

Lemma strict_eq_true (a b : json) : strict_eq a b = true -> a = b.
Proof.
  destruct a, b; simpl; intros H; try discriminate H; try reflexivity.
  - apply Bool.eqb_prop in H. congruence.
  - apply Z.eqb_eq in H. congruence.
  - apply String.eqb_eq in H. congruence.
Qed.

Lemma saveProject_succeeds (home projectDir : string) (gkProjectHash data : json)
    (w : world) :
  faults w = [] -> projectDir <> "" -> truthy gkProjectHash = true ->
  exists w', saveProject home projectDir gkProjectHash data w = (Ok true, w').
Proof.
  intros Hf Hp Hh. unfold saveProject.
  apply String.eqb_neq in Hp. rewrite Hp, Hh. cbn [orb negb].
  unfold bind at 1. rewrite (ensureDir_no_fault _ _ Hf).
  destruct w as [fs env fl]. cbn [faults] in Hf. subst fl.
  eexists. reflexivity.
Qed.

(** the entry [addSessionToProject] writes for a summary that ends the
    session: it is in the list, under the id, with the end time *)
Lemma add_session_to_ended (sort_sessions : list json -> list json) (project : json)
    (summary : obj) (id : json) (now : string) (project' : json) :
  (forall f l, List.length (filter f (sort_sessions l)) = List.length (filter f l)) ->
  lookup "gkSessionId" summary = Some id ->
  is_object id = false ->
  lookup "endTime" summary = Some (JStr now) ->
  now <> "" ->
  add_session_to sort_sessions project summary now = Ok project' ->
  exists after entry,
    opt_prop "sessions" project' = Some (JArr after)
    /\ In entry after
    /\ prop "gkSessionId" entry = Some id
    /\ prop "endTime" entry = Some (JStr now).
Proof.
  intros Hsort Hid Hprim Hend Hnow H. unfold add_session_to in H.
  destruct project as [| | | | |props]; try discriminate H.
  destruct (as_array _) as [sessions|e]; [|discriminate H].
  set (ended := fun entry : json =>
                  strict_eq_opts (prop "gkSessionId" entry) (Some id)
                  && strict_eq_opt (prop "endTime" entry) (JStr now)).
  assert (Hfound : forall l e0,
             In e0 l -> ended e0 = true ->
             exists entry, In entry (sort_sessions l)
                           /\ prop "gkSessionId" entry = Some id
                           /\ prop "endTime" entry = Some (JStr now)).
  { intros l e0 Hin He.
    assert (Hpos : 1 <= List.length (filter ended l)).
    { assert (Hin' : In e0 (filter ended l)) by (apply filter_In; auto).
      destruct (filter ended l); [destruct Hin'|simpl; lia]. }
    rewrite <- Hsort in Hpos.
    destruct (filter ended (sort_sessions l)) as [|entry rest] eqn:Ef; [simpl in Hpos; lia|].
    assert (Hentry : In entry (filter ended (sort_sessions l))) by (rewrite Ef; left; reflexivity).
    apply filter_In in Hentry. destruct Hentry as [Hin1 Hen].
    exists entry. split; [exact Hin1|].
    unfold ended in Hen. apply andb_prop in Hen. destruct Hen as [H1 H2].
    destruct (prop "gkSessionId" entry) as [x|]; [|discriminate H1].
    destruct (prop "endTime" entry) as [y|]; [|discriminate H2].
    cbn in H1, H2. apply strict_eq_true in H1, H2. subst. auto. }
  assert (Hnow' : truthy (JStr now) = true).
  { cbn. apply String.eqb_neq in Hnow. rewrite Hnow. reflexivity. }
  assert (Hmerged : forall existing, ended (merged_summary summary existing) = true).
  { intros existing. unfold ended.
    rewrite (merged_summary_id _ _ _ Hid). cbn [strict_eq_opts].
    rewrite (strict_eq_refl_primitive id Hprim). cbn [andb].
    unfold merged_summary. rewrite Hend, Hid.
    assert (E : js_or (js_or_opt (Some (JStr now)) (lookup "endTime" (own_props existing)))
                  JNull = JStr now).
    { unfold js_or_opt. cbn [truthy_opt]. rewrite Hnow'. cbn [js_or]. rewrite Hnow'.
      reflexivity. }
    rewrite E.
    repeat match goal with
           | |- context [js_or_opt ?a ?b] =>
               lazymatch a with
               | js_or_opt _ _ => fail
               | _ => destruct (js_or_opt a b)
               end
           end;
      cbn; rewrite String.eqb_refl; reflexivity. }
  assert (Hfresh : ended (fresh_summary summary now) = true).
  { unfold ended. rewrite (fresh_summary_id _ _ _ Hid). cbn [strict_eq_opts].
    rewrite (strict_eq_refl_primitive id Hprim). cbn [andb].
    unfold fresh_summary. rewrite Hend, Hid. cbn [js_or]. rewrite Hnow'.
    cbn. rewrite String.eqb_refl. reflexivity. }
  destruct (findIndex _ 0 sessions) as [[i|]|e] eqn:Ei; try discriminate H;
    injection H as <-; cbn [opt_prop]; rewrite prop_obj, lookup_set_eq.
  - destruct (findIndex_found _ _ _ JNull Ei) as (Hlt & _ & _).
    destruct (Hfound (replace_nth i (merged_summary summary (nth i sessions JNull)) sessions)
                (merged_summary summary (nth i sessions JNull))) as (entry & H1 & H2 & H3).
    + assert (E : nth i (replace_nth i (merged_summary summary (nth i sessions JNull))
                           sessions) JNull
                  = merged_summary summary (nth i sessions JNull))
        by (rewrite nth_replace_nth by exact Hlt; rewrite Nat.eqb_refl; reflexivity).
      rewrite <- E at 1. apply nth_In. rewrite length_replace_nth. exact Hlt.
    + apply Hmerged.
    + eauto 6.
  - destruct (Hfound (sessions ++ [fresh_summary summary now])%list
                (fresh_summary summary now)) as (entry & H1 & H2 & H3).
    + apply in_or_app. right. left. reflexivity.
    + exact Hfresh.
    + eauto 6.
Qed.

Lemma updateAgent_keeps_field (home p : string) (id : json) (agentId : option json)
    (updates : obj) (k : string) (v : option json) :
  k <> "agents" ->
  keeps (fun w => prop k (getSession home p id w) = v) (updateAgent home p id agentId updates).
Proof.
  intros Hk w r w' H HP. unfold updateAgent in H.
  destruct (negb (truthy _) || negb (truthy_opt _)); [injection H as _ <-; exact HP|].
  destruct (update_agent_in _ _ _) as [[session'|]|e] eqn:E;
    try (injection H as _ <-; exact HP).
  destruct (update_agent_in_frame _ _ _ _ E) as (props' & -> & Hframe).
  refine (saveSession_keeps_field _ _ _ _ _ _ Hk _ _ _ _ H HP).
  rewrite prop_obj, (Hframe k Hk). exact HP.
Qed.

(** X30.  After [endSession] returned [true] with no file operation
    failing, the list of sessions of the project has an entry for the
    session with the time of the call as its [endTime]; the project is the
    one the session names by its [gkProjectHash]. *)
Theorem endSession_closes_summary (home : string) (sort_sessions : list json -> list json)
    (projectDir : string) (gkSessionId : json) (result : obj) (process_cwd now : string)
    (gkProjectHash : json) (w w' : world) :
  (forall f l, List.length (filter f (sort_sessions l)) = List.length (filter f l)) ->
  faults w = [] ->
  is_object gkSessionId = false ->
  now <> "" ->
  prop "gkProjectHash" (getSession home projectDir gkSessionId w) = Some gkProjectHash ->
  truthy gkProjectHash = true ->
  endSession home sort_sessions projectDir gkSessionId result process_cwd now w
  = (Ok true, w') ->
  exists sessions entry,
    getProjectSessions home projectDir gkProjectHash w' = JArr sessions
    /\ In entry sessions
    /\ prop "gkSessionId" entry = Some gkSessionId
    /\ prop "endTime" entry = Some (JStr now).
Proof.
  intros Hsort Hf Hprim Hnow Hhash Hth H. unfold endSession in H.
  assert (Hdir : projectDir <> "").
  { intros ->. unfold getSession in Hhash. cbn in Hhash. discriminate Hhash. }
  destruct (negb (truthy (getSession home projectDir gkSessionId w))); [discriminate H|].
  destruct (bind_ok _ _ _ _ _ H) as (mainAgent & w0 & E0 & H0).
  unfold lift in E0. injection E0 as _ <-.
  destruct (bind_ok _ _ _ _ _ H0) as (ended & w1 & E1 & H1).
  assert (Hq1 : quiet (env_file w) w1
                /\ prop "gkProjectHash" (getSession home projectDir gkSessionId w1)
                   = Some gkProjectHash).
  { destruct (truthy_opt mainAgent).
    - split.
      + refine (endAgent_keeps home (quiet (env_file w))
                  (saveSession_keeps_quiet home (env_file w)) _ _ _ _ _ _ _ _ E1 _).
        split; [exact Hf|reflexivity].
      + unfold endAgent in E1.
        refine (updateAgent_keeps_field _ _ _ _ _ _ _ _ _ _ _ E1 Hhash). discriminate.
    - injection E1 as _ <-. split; [split; [exact Hf|reflexivity]|exact Hhash]. }
  destruct Hq1 as [Hq1 Hhash1].
  cbv zeta in H1.
  destruct (bind_ok _ _ _ _ _ H1) as (updatedMainAgent & w1' & E2 & H2).
  unfold lift in E2. injection E2 as _ <-.
  assert (Eopt : opt_prop "gkProjectHash" (getSession home projectDir gkSessionId w1)
                 = Some gkProjectHash).
  { unfold opt_prop. destruct (getSession home projectDir gkSessionId w1);
      exact Hhash1. }
  rewrite Eopt in H2. unfold js_or_opt in H2. cbn [truthy_opt js_or] in H2.
  rewrite Hth in H2. cbn [truthy_opt js_or] in H2. rewrite Hth in H2.
  destruct (bind_ok _ _ _ _ _ H2) as (added & w2 & E3 & H3).
  unfold ret in H3. injection H3 as <-.
  unfold addSessionToProject in E3.
  destruct (bind_ok _ _ _ _ _ E3) as (project & w3 & E4 & H4).
  pose proof (ensureProject_keeps home (quiet (env_file w))
                (saveProject_keeps_quiet home (env_file w)) _ _ _ _ _ _ _ E4 Hq1) as Hq3.
  destruct (bind_ok _ _ _ _ _ H4) as (project' & w4 & E5 & H5).
  unfold lift in E5. injection E5 as E5 <-.
  destruct (saveProject_succeeds home projectDir gkProjectHash project' w3 (proj1 Hq3)
              Hdir Hth) as (w5 & Esave).
  rewrite Esave in H5. injection H5 as _ <-.
  destruct (saveProject_true _ _ _ _ _ _ Esave) as (Hg & _).
  match type of E5 with
  | add_session_to _ _ ?summary _ = _ =>
      assert (Hsum : lookup "gkSessionId" summary = Some gkSessionId
                     /\ lookup "endTime" summary = Some (JStr now))
  end.
  { repeat match goal with
           | |- context [match ?x with Some _ => _ | None => _ end] => destruct x
           end; split; reflexivity. }
  destruct Hsum as [Hsid Hsend].
  destruct (add_session_to_ended _ _ _ _ _ _ Hsort Hsid Hprim Hsend Hnow E5)
    as (after & entry & Ha & Hin & Hi & He).
  exists after, entry. unfold getProjectSessions. rewrite Hg, Ha.
  split; [reflexivity|]. auto.
Qed.

Lemma endSession_closes_summary_witness :
  let w' := snd (endSession "/home/u" (fun l => l) "home-user-proj" (JStr "s1")
                   [("exitCode", JNum 0)] "/home/user/proj" "2026-01-02T00:00:00.000Z"
                   demo_agents_world) in
  exists sessions entry,
    getProjectSessions "/home/u" "home-user-proj" (JStr "7d73bf4fdeae2f49") w'
    = JArr sessions
    /\ In entry sessions
    /\ prop "gkSessionId" entry = Some (JStr "s1")
    /\ prop "endTime" entry = Some (JStr "2026-01-02T00:00:00.000Z").
Proof.
  cbv zeta.
  apply (endSession_closes_summary "/home/u" (fun l => l) "home-user-proj" (JStr "s1")
           [("exitCode", JNum 0)] "/home/user/proj" "2026-01-02T00:00:00.000Z"
           (JStr "7d73bf4fdeae2f49") demo_agents_world).
  - intros f l. reflexivity.
  - reflexivity.
  - reflexivity.
  - discriminate.
  - vm_compute. reflexivity.
  - reflexivity.
  - vm_compute. reflexivity.
Defined.

(** ** Sub-agents in the session of their parent *)












